(** * TwitchObserver: session/subscription registry, matcher and dispatcher

    A shallow embedding of the Python package [twitch_observer]
    (command_parse.py, userinfo.py, stream.py, observer.py, matcher.py,
    sender.py) and the properties of its specification.

    Conventions of the embedding.
    - A Python [str] is the list of its code points ([list N]).
    - A Python [dict] is an insertion-ordered association list with unique
      keys ([PyDict]); order is observable in this program (iteration over
      the registry, joined key lists, subscriber order), so no unordered
      finite map is used.
    - A Python [float] is an IEEE 754 binary64 value ([spec_float]).
    - Exceptions are values of [exn]; a computation that may raise returns a
      [result]; code that mutates the observer threads an
      [ActivityObserver] state and keeps its mutations when it raises.
    - Objects with identity (stream sessions, tasks, locks) live in stores
      indexed by their identity; a user object is identified by the key
      under which [_get_user] registered it. *)

From Stdlib Require Import ZArith NArith List String Ascii Lia Bool DecimalString.
From Stdlib Require Import Floats.SpecFloat.
From Equations Require Import Equations.
From stdpp Require Import base tactics option numbers list.
Import ListNotations.
Local Open Scope list_scope.

(* ================================================================== *)
(** * Part I: the embedding *)
(* ================================================================== *)

(** ** Strings *)

Abbreviation str := (list N).

(** A string literal of the source, as code points. *)
Fixpoint lit (s : string) : str :=
  match s with
  | EmptyString => []
  | String a r => N_of_ascii a :: lit r
  end.
Arguments lit _%_string : simpl never.

(** ** Exceptions and results *)

Inductive exn : Type :=
| CommandParseError (msg : str)
| ObserverError (msg : str)
| StreamNotFoundError
| KeyError (key : str)
| ValueError (msg : str)
| IndexError
| TypeError
| RuntimeError (msg : str)
| ClientError
| InvalidReference.
(* [InvalidReference] is no Python exception: it is what the embedding
   answers when a reference designates no object, which Python rules out. *)

Inductive result (A : Type) : Type :=
| Ok (a : A)
| Raise (e : exn).
Arguments Ok {A} a.
Arguments Raise {A} e.

Definition rbind {A B : Type} (r : result A) (k : A -> result B) : result B :=
  match r with
  | Ok a => k a
  | Raise e => Raise e
  end.

Declare Scope result_scope.
Delimit Scope result_scope with result.
Notation "'let*' x ':=' r 'in' k" := (rbind r (fun x => k))
  (at level 10, x pattern, r at level 100, k at level 200) : result_scope.

(** [l[i]] on a Python list. *)
Definition index {A : Type} (l : list A) (i : nat) : result A :=
  match l !! i with
  | Some x => Ok x
  | None => Raise IndexError
  end.

(** [head, *rest = l] *)
Definition unpack_head {A : Type} (l : list A) : result (A * list A) :=
  match l with
  | [] => Raise (ValueError (lit "not enough values to unpack (expected at least 1, got 0)"))
  | h :: t => Ok (h, t)
  end.

(** ** Python dictionaries *)

Module PyDict.
Section Dict.
Context {V : Type}.

Definition t : Type := list (str * V).

Definition empty : t := [].

(** [d.get(k)] / the lookup behind [d[k]] and [k in d]. *)
Fixpoint get (k : str) (d : t) : option V :=
  match d with
  | [] => None
  | (k', v) :: r => if decide (k' = k) then Some v else get k r
  end.

(** [k in d] *)
Definition contains (k : str) (d : t) : bool :=
  match get k d with
  | Some _ => true
  | None => false
  end.

(** [d[k]] *)
Definition getitem (k : str) (d : t) : result V :=
  match get k d with
  | Some v => Ok v
  | None => Raise (KeyError k)
  end.

(** [d[k] = v]: an existing key keeps its position, a new key goes last. *)
Fixpoint set (k : str) (v : V) (d : t) : t :=
  match d with
  | [] => [(k, v)]
  | (k', v') :: r => if decide (k' = k) then (k', v) :: r else (k', v') :: set k v r
  end.

(** [del d[k]]: [None] stands for [KeyError]. *)
Fixpoint del (k : str) (d : t) : option t :=
  match d with
  | [] => None
  | (k', v') :: r =>
      if decide (k' = k) then Some r
      else match del k r with
           | Some r' => Some ((k', v') :: r')
           | None => None
           end
  end.

Definition delitem (k : str) (d : t) : result t :=
  match del k d with
  | Some d' => Ok d'
  | None => Raise (KeyError k)
  end.

Definition keys (d : t) : list str := map fst d.
Definition values (d : t) : list V := map snd d.
Definition len (d : t) : nat := length d.

(** No key occurs twice: the representation invariant of a dict. *)
Definition wf (d : t) : Prop := NoDup (keys d).
End Dict.
Arguments t : clear implicits.
End PyDict.

(** ** [str.split] on whitespace *)

Module PyStr.
Local Open Scope N_scope.

(** [Py_UNICODE_ISSPACE] *)
Definition isspace (c : N) : bool :=
  ((9 <=? c) && (c <=? 13)) || ((28 <=? c) && (c <=? 32))
  || (c =? 133) || (c =? 160) || (c =? 5760)
  || ((8192 <=? c) && (c <=? 8202))
  || (c =? 8232) || (c =? 8233) || (c =? 8239) || (c =? 8287)
  || (c =? 12288).

Local Close Scope N_scope.

(** [s.split(maxsplit=m)] with no separator, one pass over the string as
    in CPython's [split_whitespace]. [cur] is the token being read
    ([None] between tokens); [maxcount] is the number of tokens that may
    still be cut off ([None]: unbounded). When it is exhausted and a new
    token starts, the rest of the string is the last item, trailing
    whitespace included. *)
Fixpoint split_whitespace (cur : option str) (maxcount : option nat) (s : str)
  : list str :=
  match s with
  | [] => match cur with
          | Some tok => [tok]
          | None => []
          end
  | c :: r =>
      match cur with
      | Some tok =>
          if isspace c then tok :: split_whitespace None (Nat.pred <$> maxcount) r
          else split_whitespace (Some (tok ++ [c])) maxcount r
      | None =>
          if isspace c then split_whitespace None maxcount r
          else match maxcount with
               | Some O => [c :: r]
               | _ => split_whitespace (Some [c]) maxcount r
               end
      end
  end.

Definition split (maxsplit : option nat) (s : str) : list str :=
  split_whitespace None maxsplit s.

(** [s.endswith(c)] for a one-character suffix. *)
Definition endswith_char (c : N) (s : str) : bool :=
  match last s with
  | Some c' => N.eqb c' c
  | None => false
  end.
End PyStr.

(** ** Floats *)

Abbreviation float := spec_float.

Definition float_0_0 : float := S754_zero false.
Definition float_1_0 : float := S754_finite false 4503599627370496 (-52).
Definition float_0_5 : float := S754_finite false 4503599627370496 (-53).

(** [x < y] and [x >= y] on floats; every comparison with NaN is false. *)
Definition float_lt (x y : float) : bool := SFltb x y.
Definition float_ge (x y : float) : bool := SFleb y x.
Definition float_eq (x y : float) : bool := SFeqb x y.

(** ** command_parse.py *)

Inductive CommandType : Type :=
| START | STOP | STOP_ALL | HOOK | ALL_HOOKS | THRESHOLD | HELP.

(** The values found in [CommandDesc.parameters]. *)
Inductive pyval : Type :=
| PStr (s : str)
| PFloat (f : float).

Record CommandDesc : Type := mkCommandDesc {
  command_type : CommandType;
  parameters : PyDict.t pyval
}.

Definition help_text : str := lit
"Support commands:
        /start streamer hook - start tracking streamer with hook
        /stop streamer - stop tracking streamers
        /stop_all - stop tracking everyone
        /hook name: [words]
        /hooks - show all hooks
        /threshold value - set threshold (0.0 - 1.0) default 0.5
        /? - Help message
        ".

Section CommandParse.
Local Open Scope result_scope.

(** The builtin [float(s)] on a string: [None] is its [ValueError]. *)
Variable float_of_str : str -> option float.

Definition pyfloat (s : str) : result float :=
  match float_of_str s with
  | Some v => Ok v
  | None => Raise (ValueError (lit "could not convert string to float"))
  end.

Definition is_empty {A : Type} (l : list A) : bool :=
  match l with
  | [] => true
  | _ => false
  end.

Definition _parse_start_command (data : list str) : result (PyDict.t pyval) :=
  if is_empty data then
    Raise (CommandParseError (lit "Wrong start command arguments"))
  else
    let* d0 := index data 0 in
    let values := PyStr.split None d0 in
    if (2 <? length values)%nat then
      Raise (CommandParseError (lit "Too many start command arguments"))
    else if (length values <? 2)%nat then
      Raise (CommandParseError (lit "Too few start command arguments"))
    else
      let* v0 := index values 0 in
      let* v1 := index values 1 in
      Ok [(lit "streamer", PStr v0); (lit "hook_name", PStr v1)].

Definition _parse_stop_command (data : list str) : result (PyDict.t pyval) :=
  if is_empty data then
    Raise (CommandParseError (lit "Wrong stop command arguments"))
  else
    let* d0 := index data 0 in
    let values := PyStr.split None d0 in
    if negb (length values =? 1)%nat then
      Raise (CommandParseError (lit "Unexpected stop command arguments"))
    else
      let* v0 := index values 0 in
      Ok [(lit "streamer", PStr v0)].

Definition _parse_stopall_command (data : list str) : result (PyDict.t pyval) :=
  if negb (is_empty data) then
    Raise (CommandParseError (lit "Unexpected stop_all command arguments"))
  else Ok [].

Definition _parse_hook_command (data : list str) : result (PyDict.t pyval) :=
  if is_empty data then
    Raise (CommandParseError (lit "Wrong hook command arguments"))
  else
    let* d0 := index data 0 in
    let* (name, words) := unpack_head (PyStr.split (Some 1%nat) d0) in
    if negb (PyStr.endswith_char 58 name && (1 <? length name)%nat) then
      Raise (CommandParseError (lit "Hook name not found"))
    else if is_empty words then
      Raise (CommandParseError (lit "Empty words list"))
    else
      let* w0 := index words 0 in
      Ok [(lit "hook_name", PStr (removelast name)); (lit "hook_str", PStr w0)].

Definition _parse_hooks_command (data : list str) : result (PyDict.t pyval) :=
  if negb (is_empty data) then
    Raise (CommandParseError (lit "Unexpected hooks command arguments"))
  else Ok [].

Definition _parse_threshold_command (data : list str) : result (PyDict.t pyval) :=
  if is_empty data then
    Raise (CommandParseError (lit "Too few threshold command arguments"))
  else
    let* d0 := index data 0 in
    let* (value_str, rest) := unpack_head (PyStr.split (Some 1%nat) d0) in
    let* value := match pyfloat value_str with
             | Raise (ValueError _) =>
                 Raise (CommandParseError (lit "Unexpected threshold value"))
             | r => r
             end in
    if negb (is_empty rest) then
      Raise (CommandParseError (lit "Too many threshold command arguments"))
    else if float_lt value float_0_0 || float_lt float_1_0 value then
      Raise (CommandParseError (lit "Wrong threshold value (0.0 <= value <= 1.0)"))
    else
      Ok [(lit "threshold", PFloat value)].

Definition _parse_help_command : result (PyDict.t pyval) :=
  Ok [(lit "commands", PStr help_text)].

Definition parse_command (command : str) : result CommandDesc :=
  let* (command_name, data) := unpack_head (PyStr.split (Some 1%nat) command) in
  if decide (command_name = lit "/start") then
    let* p := _parse_start_command data in Ok (mkCommandDesc START p)
  else if decide (command_name = lit "/stop") then
    let* p := _parse_stop_command data in Ok (mkCommandDesc STOP p)
  else if decide (command_name = lit "/stop_all") then
    let* p := _parse_stopall_command data in Ok (mkCommandDesc STOP_ALL p)
  else if decide (command_name = lit "/hook") then
    let* p := _parse_hook_command data in Ok (mkCommandDesc HOOK p)
  else if decide (command_name = lit "/hooks") then
    let* p := _parse_hooks_command data in Ok (mkCommandDesc ALL_HOOKS p)
  else if decide (command_name = lit "/threshold") then
    let* p := _parse_threshold_command data in Ok (mkCommandDesc THRESHOLD p)
  else if decide (command_name = lit "/?") then
    let* p := _parse_help_command in Ok (mkCommandDesc HELP p)
  else
    Raise (CommandParseError (lit "Unknown command " ++ command_name)).
End CommandParse.

(** ** userinfo.py, stream.py, feedback.py, twitch.py: the records *)

(** A [datetime], represented by the text [str()] gives for it. *)
Abbreviation datetime := (list N) (only parsing).

Module User.
(** [name] .. [start_lock] are the fields of the dataclass; [streamers]
    maps a broadcaster name to (the identity of) a stream session and
    [start_lock] is (the identity of) an [asyncio.Lock]. *)
Record t : Type := mk {
  name : str;
  chat_id : Z;
  streamers : PyDict.t nat;
  hooks : PyDict.t str;
  threshold : float;
  start_lock : nat
}.

Definition with_streamers (d : PyDict.t nat) (u : t) : t :=
  mk (name u) (chat_id u) d (hooks u) (threshold u) (start_lock u).
Definition with_hooks (d : PyDict.t str) (u : t) : t :=
  mk (name u) (chat_id u) (streamers u) d (threshold u) (start_lock u).
Definition with_threshold (x : float) (u : t) : t :=
  mk (name u) (chat_id u) (streamers u) (hooks u) x (start_lock u).

(** The defaults in the class body, [threshold: float = 0.5] and
    [start_lock: asyncio.Lock = asyncio.Lock()], are evaluated once, when
    the class statement runs: the second is one lock object, the first
    one allocated in the store of locks. *)
Definition default_threshold : float := float_0_5.
Definition default_start_lock : nat := 0.

(** The generated [__init__], called as [User(name, chat_id, streamers,
    hooks)]: the two last fields take the class defaults. *)
Definition __init__ (name : str) (chat_id : Z) (streamers : PyDict.t nat)
    (hooks : PyDict.t str) : t :=
  mk name chat_id streamers hooks default_threshold default_start_lock.
End User.

Record Subscribe : Type := mkSubscribe {
  user : str;          (* reference to the User object *)
  hook_name : str
}.

Module ChatMessage.
Record t : Type := mk {
  nickname : str;
  message : str;
  from_start : str   (* a timedelta, by its [str()] text *)
}.
End ChatMessage.

Module StreamSession.
Record t : Type := mk {
  _name : str;
  _subs : PyDict.t Subscribe;
  _started_at : datetime;
  _max_reconnect_attempts : Z
}.

Definition with_subs (d : PyDict.t Subscribe) (s : t) : t :=
  mk (_name s) d (_started_at s) (_max_reconnect_attempts s).
End StreamSession.

Record StreamerDesc : Type := mkStreamerDesc {
  user_name : str;
  started_at : datetime;
  title : str
}.

Module Notification.
Record t : Type := mk {
  users : list str;   (* references to User objects *)
  message : str
}.
End Notification.

Module StreamFeedback.
Record t : Type := mk {
  streamer_name : str;
  chat_message : ChatMessage.t;
  subscribers : list Subscribe
}.
End StreamFeedback.

Module MatcherFeedback.
Record t : Type := mk {
  streamer_name : str;
  chat_message : ChatMessage.t;
  subscribers : list str   (* references to User objects *)
}.
End MatcherFeedback.

(** ** observer.py: the state of an [ActivityObserver] *)

Record StreamContext : Type := mkStreamContext {
  session : nat;   (* identity of the StreamSession *)
  task : nat       (* identity of the asyncio.Task running [_run_stream] *)
}.

(** An [asyncio.Task] created for [_run_stream(session)]. *)
Record Task : Type := mkTask {
  runs : nat;
  cancel_requested : bool
}.

Record ActivityObserver : Type := mkObserver {
  _users : PyDict.t User.t;
  _streamers : PyDict.t StreamContext;
  max_stream_reconnects : Z;            (* [_cfg['max_stream_reconnects']] *)
  sessions : list StreamSession.t;      (* the StreamSession objects, by identity *)
  tasks : list Task;                    (* the tasks, by identity *)
  locks : list bool;                    (* the locks, by identity: [true] is held *)
  outbox : list Notification.t;         (* the [send_notification] tasks created *)
  logged : list exn                     (* what [_log.exception] recorded *)
}.

Definition with_users (d : PyDict.t User.t) (o : ActivityObserver) :=
  mkObserver d (_streamers o) (max_stream_reconnects o) (sessions o) (tasks o)
             (locks o) (outbox o) (logged o).
Definition with_streamers (d : PyDict.t StreamContext) (o : ActivityObserver) :=
  mkObserver (_users o) d (max_stream_reconnects o) (sessions o) (tasks o)
             (locks o) (outbox o) (logged o).
Definition with_sessions (l : list StreamSession.t) (o : ActivityObserver) :=
  mkObserver (_users o) (_streamers o) (max_stream_reconnects o) l (tasks o)
             (locks o) (outbox o) (logged o).
Definition with_tasks (l : list Task) (o : ActivityObserver) :=
  mkObserver (_users o) (_streamers o) (max_stream_reconnects o) (sessions o) l
             (locks o) (outbox o) (logged o).
Definition with_locks (l : list bool) (o : ActivityObserver) :=
  mkObserver (_users o) (_streamers o) (max_stream_reconnects o) (sessions o)
             (tasks o) l (outbox o) (logged o).
Definition with_outbox (l : list Notification.t) (o : ActivityObserver) :=
  mkObserver (_users o) (_streamers o) (max_stream_reconnects o) (sessions o)
             (tasks o) (locks o) l (logged o).
Definition with_logged (l : list exn) (o : ActivityObserver) :=
  mkObserver (_users o) (_streamers o) (max_stream_reconnects o) (sessions o)
             (tasks o) (locks o) (outbox o) l.

(** [ActivityObserver.__init__], after the modules are imported: no user, no
    session, and in the store of locks the one lock of [User]'s class body. *)
Definition init (max_reconnects : Z) : ActivityObserver :=
  mkObserver PyDict.empty PyDict.empty max_reconnects [] [] [false] [] [].

(** ** Computations over the observer *)

Definition M (A : Type) : Type := ActivityObserver -> result A * ActivityObserver.

Definition ret {A : Type} (a : A) : M A := fun st => (Ok a, st).
Definition raise {A : Type} (e : exn) : M A := fun st => (Raise e, st).
Definition lift {A : Type} (r : result A) : M A := fun st => (r, st).
Definition bind {A B : Type} (m : M A) (k : A -> M B) : M B :=
  fun st =>
    match m st with
    | (Ok a, st') => k a st'
    | (Raise e, st') => (Raise e, st')
    end.
Definition gets {A : Type} (f : ActivityObserver -> A) : M A :=
  fun st => (Ok (f st), st).
Definition modify (f : ActivityObserver -> ActivityObserver) : M unit :=
  fun st => (Ok tt, f st).

Declare Scope M_scope.
Delimit Scope M_scope with M.
Bind Scope M_scope with M.
Notation "'let*' x ':=' m 'in' k" := (bind m (fun x => k))
  (at level 10, x pattern, m at level 100, k at level 200) : M_scope.
Notation "m ;; k" := (bind m (fun _ => k))
  (at level 100, k at level 200, right associativity) : M_scope.

(** [for x in l: body(x)] *)
Fixpoint for_each {A : Type} (l : list A) (body : A -> M unit) : M unit :=
  match l with
  | [] => ret tt
  | x :: r => bind (body x) (fun _ => for_each r body)
  end.

(** [sep.join(l)] *)
Fixpoint join (sep : str) (l : list str) : str :=
  match l with
  | [] => []
  | [x] => x
  | x :: r => x ++ sep ++ join sep r
  end.

Section Objects.
Local Open Scope M_scope.

Definition deref_user (u : str) : M User.t :=
  fun st =>
    match PyDict.get u (_users st) with
    | Some usr => (Ok usr, st)
    | None => (Raise InvalidReference, st)
    end.

(** Write back the fields of the user object [u]. *)
Definition store_user (u : str) (usr : User.t) : M unit :=
  modify (fun st => with_users (PyDict.set u usr (_users st)) st).

Definition deref_session (s : nat) : M StreamSession.t :=
  fun st =>
    match sessions st !! s with
    | Some sess => (Ok sess, st)
    | None => (Raise InvalidReference, st)
    end.

Definition store_session (s : nat) (sess : StreamSession.t) : M unit :=
  modify (fun st => with_sessions (<[s := sess]> (sessions st)) st).

(** [task.cancel()] *)
Definition Task_cancel (t : nat) : M unit :=
  fun st =>
    match tasks st !! t with
    | Some T => (Ok tt, with_tasks (<[t := mkTask (runs T) true]> (tasks st)) st)
    | None => (Raise InvalidReference, st)
    end.

(** [asyncio.Lock]: acquiring a held lock suspends the caller ([None]). *)
Definition Lock_acquire (l : nat) (st : ActivityObserver) : option ActivityObserver :=
  match locks st !! l with
  | Some false => Some (with_locks (<[l := true]> (locks st)) st)
  | _ => None
  end.

Definition Lock_release (l : nat) (st : ActivityObserver) : ActivityObserver :=
  with_locks (<[l := false]> (locks st)) st.

(** [self._log.exception(err)] *)
Definition log_exception (e : exn) : M unit :=
  modify (fun st => with_logged (logged st ++ [e]) st).

(** [asyncio.create_task(self._sender.send_notification(data))] *)
Definition create_send_notification (data : Notification.t) : M unit :=
  modify (fun st => with_outbox (outbox st ++ [data]) st).
End Objects.

(** ** stream.py: the subscriber set of a [StreamSession] *)

Section StreamSessionSubs.
Local Open Scope M_scope.

Definition subscribe (self : nat) (user : str) (hook_name : str) : M unit :=
  let* usr := deref_user user in
  let* sess := deref_session self in
  store_session self
    (StreamSession.with_subs
       (PyDict.set (User.name usr) (mkSubscribe user hook_name) (StreamSession._subs sess)) sess).

Definition unsubscribe (self : nat) (user : str) : M unit :=
  let* usr := deref_user user in
  let* sess := deref_session self in
  let* subs := lift (PyDict.delitem (User.name usr) (StreamSession._subs sess)) in
  store_session self (StreamSession.with_subs subs sess).

Definition has_subscribers (self : nat) : M bool :=
  let* sess := deref_session self in
  ret (negb (is_empty (StreamSession._subs sess))).

Definition _notify_subs (self : nat) (message : str) : M unit :=
  let* sess := deref_session self in
  let subs := map user (PyDict.values (StreamSession._subs sess)) in
  create_send_notification (Notification.mk subs message).

Definition unsubscribe_all (self : nat) (notify : bool) : M unit :=
  let* sess := deref_session self in
  (if notify then _notify_subs self (StreamSession._name sess ++ lit " stream closed")
   else ret tt) ;;
  for_each (PyDict.values (StreamSession._subs sess)) (fun sub =>
    let* usr := deref_user (user sub) in
    let* d := lift (PyDict.delitem (StreamSession._name sess) (User.streamers usr)) in
    store_user (user sub) (User.with_streamers d usr)).
End StreamSessionSubs.

(** ** observer.py: the command handlers *)

(** What a command coroutine has done when it yields control for good:
    finished (normally or by an exception), or suspended in
    [async with user.start_lock] because the lock is held. *)
Inductive cmd_outcome : Type :=
| Finished (r : result unit)
| Waiting (lock : nat).

(** The answer of [gather(..., return_exceptions=True)] for one lookup, and
    what [await self._twitch.get_stream_description(streamer)] returns or
    raises: the description, [StreamNotFoundError], or [ObserverError]. *)
Abbreviation lookup_reply := (result StreamerDesc).

Section Handlers.
Local Open Scope M_scope.

(** The builtins [float(s)] and [str(x)] for a float [x]. *)
Variable float_of_str : str -> option float.
Variable str_of_float : float -> str.

Definition _notify (user : str) (msg : str) : M unit :=
  create_send_notification (Notification.mk [user] msg).

Definition _remove_session (s : nat) : M unit :=
  unsubscribe_all s true ;;
  let* sess := deref_session s in
  let* reg := gets _streamers in
  let* reg' := lift (PyDict.delitem (StreamSession._name sess) reg) in
  modify (with_streamers reg').

(** [stream.StreamSession(self._cfg, streamer, ..., desc.started_at)] *)
Definition new_StreamSession (streamer : str) (started_at : datetime) : M nat :=
  fun st =>
    (Ok (length (sessions st)),
     with_sessions
       (sessions st ++
          [StreamSession.mk streamer PyDict.empty started_at (max_stream_reconnects st)])
       st).

(** [asyncio.create_task(self._run_stream(session))] *)
Definition create_task_run_stream (s : nat) : M nat :=
  fun st => (Ok (length (tasks st)), with_tasks (tasks st ++ [mkTask s false]) st).

Definition start_notice (desc : StreamerDesc) : str :=
  lit "Now you tracking " ++ user_name desc ++ lit "
        started at: " ++ started_at desc ++ lit "
        title: " ++ title desc ++ lit "
        ".

(** [_process_start_command] from the point where the awaited directory
    lookup has given [reply]. *)
Definition _process_start_command_resume (reply : lookup_reply)
    (user streamer hook_name : str) : M unit :=
  match reply with
  | Raise StreamNotFoundError =>
      _notify user (lit "Stream " ++ streamer ++ lit " not exists or offline")
  | Raise e => raise e
  | Ok desc =>
      let* reg := gets _streamers in
      let* s :=
        (if negb (PyDict.contains streamer reg) then
           let* s := new_StreamSession streamer (started_at desc) in
           let* t := create_task_run_stream s in
           modify (fun st =>
             with_streamers (PyDict.set streamer (mkStreamContext s t) (_streamers st)) st) ;;
           ret s
         else
           let* context := lift (PyDict.getitem streamer reg) in
           ret (session context)) in
      subscribe s user hook_name ;;
      let* usr := deref_user user in
      store_user user
        (User.with_streamers (PyDict.set streamer s (User.streamers usr)) usr) ;;
      _notify user (start_notice desc)
  end.

(** [reply] is what the awaited directory lookup gives; nothing else runs
    while it is awaited. *)
Definition _process_start_command (reply : lookup_reply)
    (user streamer hook_name : str) : M unit :=
  let* usr := deref_user user in
  if PyDict.contains streamer (User.streamers usr) then
    _notify user (lit "Streamer " ++ streamer ++ lit " already tracked")
  else if negb (PyDict.contains hook_name (User.hooks usr)) then
    _notify user (lit "Hook " ++ hook_name ++ lit " not found")
  else
    _process_start_command_resume reply user streamer hook_name.

(** The two statements both stop commands run for one broadcaster. *)
Definition unsubscribe_and_reap (user streamer : str) : M unit :=
  let* reg := gets _streamers in
  let* context := lift (PyDict.getitem streamer reg) in
  unsubscribe (session context) user ;;
  let* has := has_subscribers (session context) in
  if negb has then
    Task_cancel (task context) ;;
    let* reg := gets _streamers in
    let* reg' := lift (PyDict.delitem streamer reg) in
    modify (with_streamers reg')
  else ret tt.

Definition _process_stop_command (user streamer : str) : M unit :=
  let* usr := deref_user user in
  let* reg := gets _streamers in
  if PyDict.contains streamer (User.streamers usr) && PyDict.contains streamer reg then
    unsubscribe_and_reap user streamer ;;
    let* usr := deref_user user in
    let* d := lift (PyDict.delitem streamer (User.streamers usr)) in
    store_user user (User.with_streamers d usr) ;;
    _notify user (lit "Stop tracking " ++ streamer)
  else
    _notify user (lit "You do not tracking " ++ streamer).

Definition _process_stopall_command (user : str) : M unit :=
  let* usr := deref_user user in
  for_each (PyDict.keys (User.streamers usr)) (fun name =>
    unsubscribe_and_reap user name) ;;
  let* usr := deref_user user in
  let stopped_streamers := join (lit " ") (PyDict.keys (User.streamers usr)) in
  _notify user (lit "Stop tracking " ++ stopped_streamers) ;;
  store_user user (User.with_streamers PyDict.empty usr).

Definition _process_help_command (user commands : str) : M unit :=
  _notify user commands.

Definition _process_hook_command (user hook_name hook_str : str) : M unit :=
  let* usr := deref_user user in
  (if PyDict.contains hook_name (User.hooks usr) then
     _notify user (lit "Replace hook " ++ hook_name ++ lit ": " ++ hook_str)
   else
     _notify user (lit "Set new hook " ++ hook_name ++ lit ": " ++ hook_str)) ;;
  store_user user (User.with_hooks (PyDict.set hook_name hook_str (User.hooks usr)) usr).

Definition _process_hooks_command (user : str) : M unit :=
  let* usr := deref_user user in
  if is_empty (User.hooks usr) then
    _notify user (lit "Empty hooks list")
  else
    let hooks := map (fun '(name, hook_str) => name ++ lit ": " ++ hook_str)
                     (User.hooks usr) in
    _notify user (join [13%N; 10%N] hooks).

Definition _process_threshold_command (user : str) (threshold : float) : M unit :=
  _notify user (lit "You set new threshold " ++ str_of_float threshold) ;;
  let* usr := deref_user user in
  store_user user (User.with_threshold threshold usr).

(** [**desc.parameters]: the keyword [k] of the call. *)
Definition kwarg_str (params : PyDict.t pyval) (k : str) : M str :=
  match PyDict.get k params with
  | Some (PStr s) => ret s
  | _ => raise TypeError
  end.

Definition kwarg_float (params : PyDict.t pyval) (k : str) : M float :=
  match PyDict.get k params with
  | Some (PFloat x) => ret x
  | _ => raise TypeError
  end.

Definition finish (m : M unit) (st : ActivityObserver) : cmd_outcome * ActivityObserver :=
  let (r, st') := m st in (Finished r, st').

(** [async with lock: body] *)
Definition async_with (lock : nat) (body : M unit) (st : ActivityObserver)
  : cmd_outcome * ActivityObserver :=
  match Lock_acquire lock st with
  | None => (Waiting lock, st)
  | Some st1 => let (r, st2) := body st1 in (Finished r, Lock_release lock st2)
  end.

(** [twitch] answers the lookup a start command awaits. *)
Definition _process_command (twitch : str -> lookup_reply) (user command : str)
    (st : ActivityObserver) : cmd_outcome * ActivityObserver :=
  match parse_command float_of_str command with
  | Raise (CommandParseError err) => finish (_notify user err) st
  | Raise e => (Finished (Raise e), st)
  | Ok desc =>
      let p := parameters desc in
      match command_type desc with
      | START =>
          match deref_user user st with
          | (Ok usr, _) =>
              async_with (User.start_lock usr)
                (let* streamer := kwarg_str p (lit "streamer") in
                 let* hook_name := kwarg_str p (lit "hook_name") in
                 _process_start_command (twitch streamer) user streamer hook_name) st
          | (Raise e, _) => (Finished (Raise e), st)
          end
      | STOP =>
          finish (let* streamer := kwarg_str p (lit "streamer") in
                  _process_stop_command user streamer) st
      | STOP_ALL => finish (_process_stopall_command user) st
      | HOOK =>
          finish (let* hook_name := kwarg_str p (lit "hook_name") in
                  let* hook_str := kwarg_str p (lit "hook_str") in
                  _process_hook_command user hook_name hook_str) st
      | ALL_HOOKS => finish (_process_hooks_command user) st
      | HELP =>
          finish (let* commands := kwarg_str p (lit "commands") in
                  _process_help_command user commands) st
      | THRESHOLD =>
          finish (let* threshold := kwarg_float p (lit "threshold") in
                  _process_threshold_command user threshold) st
      end
  end.

(** Returns the reference to the user object. *)
Definition _get_user (name : str) (chat_id : Z) : M str :=
  let* us := gets _users in
  (if negb (PyDict.contains name us) then
     modify (fun st =>
       with_users (PyDict.set name (User.__init__ name chat_id PyDict.empty PyDict.empty)
                             (_users st)) st)
   else ret tt) ;;
  ret name.

(** ** The liveness sweep *)

(** A CPython dictionary iterator: the size of the dictionary when the
    iterator was made, and the position reached. Each step first compares
    the size then with the size now. (Between two steps of the sweep the
    registry only loses entries, so a step that passes this test reads a
    dictionary that did not change, and positions in the association
    list are positions in the dictionary's entry table.) *)
Record dictiter : Type := mkDictiter {
  di_used : nat;
  di_pos : nat
}.

Inductive iter_step : Type :=
| Yield (key : str) (it : dictiter)
| StopIteration
| IterRaise (e : exn).

Definition dict_iter {V : Type} (d : PyDict.t V) : dictiter :=
  mkDictiter (PyDict.len d) 0.

Definition dictiter_next {V : Type} (it : dictiter) (d : PyDict.t V) : iter_step :=
  if negb (di_used it =? PyDict.len d)%nat then
    IterRaise (RuntimeError (lit "dictionary changed size during iteration"))
  else
    match PyDict.keys d !! di_pos it with
    | Some k => Yield k (mkDictiter (di_used it) (S (di_pos it)))
    | None => StopIteration
    end.

(** [for streamer, desc in zip(self._streamers, results): ...]: [zip]
    advances the dictionary iterator first, then the list. *)
Fixpoint _streams_ping_loop (results : list lookup_reply) (it : dictiter)
    (st : ActivityObserver) {struct results} : result unit * ActivityObserver :=
  match dictiter_next it (_streamers st) with
  | IterRaise e => (Raise e, st)
  | StopIteration => (Ok tt, st)
  | Yield streamer it' =>
      match results with
      | [] => (Ok tt, st)
      | desc :: rest =>
          let body : M unit :=
            match desc with
            | Raise StreamNotFoundError =>
                let* reg := gets _streamers in
                let* context := lift (PyDict.getitem streamer reg) in
                Task_cancel (task context) ;;
                _remove_session (session context)
            | Raise e => log_exception e
            | Ok _ => ret tt
            end in
          match body st with
          | (Ok _, st') => _streams_ping_loop rest it' st'
          | (Raise e, st') => (Raise e, st')
          end
      end
  end.

(** The part of one pass of [_run_streams_ping] after [gather] returned
    [results]. *)
Definition _streams_ping_handle (results : list lookup_reply) : M unit :=
  fun st => _streams_ping_loop results (dict_iter (_streamers st)) st.

(** One pass, when nothing else runs while the lookups are awaited. *)
Definition _streams_ping_pass (twitch : str -> lookup_reply) : M unit :=
  let* reg := gets _streamers in
  let tasks := map twitch (PyDict.keys reg) in
  if is_empty tasks then ret tt
  else _streams_ping_handle tasks.

(** [_run_stream(session)], given how [session.start_session()] ended. *)
Definition _run_stream (ended : result unit) (s : nat) : M unit :=
  match ended with
  | Raise (ObserverError msg) =>
      log_exception (ObserverError msg) ;;
      _remove_session s
  | r => lift r
  end.
End Handlers.

(** ** stream.py: the ingestion loop of a session *)

(** A message the websocket iteration yields: text, an error, or a frame of
    another type. *)
Inductive WSMsg : Type :=
| WS_TEXT (data : str)
| WS_ERROR
| WS_OTHER.

(** What one [ws_connect] meets: the handshake fails
    ([WSServerHandshakeError]); the socket opens, yields [incoming] until
    the iteration ends, and is then closed or not; or another exception. *)
Inductive connection : Type :=
| HandshakeFails
| Opens (incoming : list WSMsg) (closed : bool)
| ConnectRaises (e : exn).

Inductive stream_event : Type :=
| Ev_ws_connect
| Ev_send_str (line : str)
| Ev_chat_line (data : str)     (* a text line given to [_parse_msg] *)
| Ev_log (msg : str).

Fixpoint startswith (prefix s : str) : bool :=
  match prefix, s with
  | [], _ => true
  | p :: prefix', c :: s' => N.eqb p c && startswith prefix' s'
  | _ :: _, [] => false
  end.

Section Ingestion.
(** [config['twitch_irc_token']], [config['nickname']], the session's
    [_name], and what the [i]-th connection attempt meets. *)
Variable token nickname name : str.
Variable net : nat -> connection.

Fixpoint _recv_chat_messages (incoming : list WSMsg) : list stream_event :=
  match incoming with
  | [] => [Ev_log (lit "Websocket closed")]
  | WS_TEXT data :: rest =>
      (if startswith (lit "PING") data then Ev_send_str (lit "PONG :tmi.twitch.tv")
       else Ev_chat_line data) :: _recv_chat_messages rest
  | WS_ERROR :: _ => [Ev_log (lit "Error on websocket"); Ev_log (lit "Websocket closed")]
  | WS_OTHER :: rest => _recv_chat_messages rest
  end.

(** [_start(ws)]: receive, then leave the channel if the socket is open. *)
Definition _start (incoming : list WSMsg) (closed : bool) : list stream_event :=
  _recv_chat_messages incoming ++
  (if negb closed then [Ev_send_str (lit "PART #" ++ name)] else []).

Definition _start_chat_session (i : nat) : result unit * list stream_event :=
  match net i with
  | HandshakeFails => (Ok tt, [Ev_ws_connect; Ev_log (lit "Handshake error")])
  | Opens incoming closed =>
      (Ok tt,
       [Ev_ws_connect; Ev_send_str (lit "PASS " ++ token);
        Ev_send_str (lit "NICK " ++ nickname); Ev_send_str (lit "JOIN #" ++ name)]
       ++ _start incoming closed)
  | ConnectRaises e => (Raise e, [Ev_ws_connect])
  end.

(** The [while max_reconnect_attempts > 0] loop; [i] counts the
    connections made so far. *)
Equations? reconnect_loop (max_reconnect_attempts : Z) (i : nat)
  : result unit * list stream_event by wf (Z.to_nat max_reconnect_attempts) lt :=
  reconnect_loop n i with Z_gt_dec n 0 := {
    | left _ with _start_chat_session i := {
        | (Ok _, ev) with reconnect_loop (n - 1) (S i) := {
            | (r, ev') := (r, ev ++ Ev_log (lit "Trying to reconnect...") :: ev') };
        | (Raise e, ev) := (Raise e, ev) };
    | right _ := (Raise (ObserverError (lit "Websocket connection error")), []) }.
Proof. lia. Qed.

Definition start_session (max_reconnect_attempts : Z) : result unit * list stream_event :=
  reconnect_loop max_reconnect_attempts 0.

(** The number of connections opened in a run. *)
Definition attempts (trace : list stream_event) : nat :=
  length (List.filter (fun ev => match ev with Ev_ws_connect => true | _ => false end) trace).

(** An attempt that fails the way the reconnect loop absorbs: by the
    handshake, or when receiving ends (socket error or close). *)
Definition attempt_fails (i : nat) : Prop :=
  match net i with
  | HandshakeFails | Opens _ _ => True
  | ConnectRaises _ => False
  end.
End Ingestion.

(** ** matcher.py *)

(** A [difflib.SequenceMatcher] made from the two strings [a] and [b]. *)
Record SequenceMatcher : Type := mkSequenceMatcher {
  seq_a : str;
  seq_b : str
}.

Section Matcher.
(** [SequenceMatcher(lambda s: s == ' ', a, b).ratio()], of the Python
    library. *)
Variable ratio : str -> str -> float.

Definition _ratio_passed (matcher : SequenceMatcher) (threshold : float) : bool :=
  float_ge (ratio (seq_a matcher) (seq_b matcher)) threshold.

(** [users] is the table of user objects the subscriptions refer to. The
    result is what gathering the futures gives. *)
Fixpoint _create_tasks_loop (users : PyDict.t User.t) (message : str)
    (subscribers : list Subscribe) : result (list bool) :=
  match subscribers with
  | [] => Ok []
  | sub :: rest =>
      match PyDict.get (user sub) users with
      | None => Raise InvalidReference
      | Some usr =>
          rbind (PyDict.getitem (hook_name sub) (User.hooks usr)) (fun pattern =>
          let matcher := mkSequenceMatcher message pattern in
          let future := _ratio_passed matcher (User.threshold usr) in
          rbind (_create_tasks_loop users message rest) (fun futures =>
          Ok (future :: futures)))
      end
  end.

Definition _create_tasks (users : PyDict.t User.t) (data : StreamFeedback.t)
  : result (list bool) :=
  _create_tasks_loop users (ChatMessage.message (StreamFeedback.chat_message data))
    (StreamFeedback.subscribers data).

(** [match]: the [send_matched_data] tasks it creates (none or one). *)
Definition match_ (users : PyDict.t User.t) (data : StreamFeedback.t)
  : result (list MatcherFeedback.t) :=
  rbind (_create_tasks users data) (fun results =>
  let passed_subs :=
    map (fun '(sub, passed) => user sub)
        (List.filter (fun '(sub, passed) => passed)
           (combine (StreamFeedback.subscribers data) results)) in
  if negb (is_empty passed_subs) then
    Ok [MatcherFeedback.mk (StreamFeedback.streamer_name data)
          (StreamFeedback.chat_message data) passed_subs]
  else Ok []).

(** The specification's criterion: the similarity ratio between the
    message text and the subscriber's own hook pattern meets or exceeds
    the subscriber's own threshold. *)
Definition meets_threshold (users : PyDict.t User.t) (message : str) (sub : Subscribe)
  : bool :=
  match PyDict.get (user sub) users with
  | Some usr =>
      match PyDict.get (hook_name sub) (User.hooks usr) with
      | Some pattern => float_ge (ratio message pattern) (User.threshold usr)
      | None => false
      end
  | None => false
  end.

(** The subscription refers to a user object and names one of its hooks. *)
Definition hook_defined (users : PyDict.t User.t) (sub : Subscribe) : Prop :=
  exists usr pattern,
    PyDict.get (user sub) users = Some usr /\
    PyDict.get (hook_name sub) (User.hooks usr) = Some pattern.
End Matcher.

(** ** sender.py *)

(** The answer to one POST: an HTTP status, or a transport failure
    ([aiohttp.ClientError]). *)
Inductive response : Type :=
| Status (code : Z)
| TransportFails.

Inductive post_event : Type :=
| Ev_post (chat_id : Z)
| Ev_sleep_0_35
| Ev_warning (status : Z).

Definition str_of_Z (z : Z) : str := lit (NilZero.string_of_int (Z.to_int z)).
Arguments str_of_Z : simpl never.

(** One run of a coroutine of the sender: how it ended, if it has ended
    ([None]: still running), and what it did. *)
Record run : Type := mkRun {
  ended : option (result unit);
  trace : list post_event
}.

Section Sender.
(** [server chat_id i]: the answer to the [i]-th request for [chat_id]. *)
Variable server : Z -> nat -> response.

(** [_post]: [fuel] bounds the number of iterations of [while True]
    that are run; [i] requests have been made before. *)
Fixpoint _post (fuel : nat) (chat_id : Z) (i : nat) : run :=
  match fuel with
  | O => mkRun None []
  | S fuel' =>
      let here := Ev_post chat_id in
      match server chat_id i with
      | TransportFails => mkRun (Some (Raise ClientError)) [here]
      | Status status =>
          if (status =? 200)%Z then mkRun (Some (Ok tt)) [here]
          else if (status =? 429)%Z then
            let rest := _post fuel' chat_id (S i) in
            mkRun (ended rest) (here :: Ev_sleep_0_35 :: trace rest)
          else if (status >=? 400)%Z then
            mkRun (Some (Raise (ObserverError (lit "Post error: " ++ str_of_Z status)))) [here]
          else mkRun (Some (Ok tt)) [here; Ev_warning status]
      end
  end.

(** The request for [chat_id] was answered with status 200. *)
Definition delivered (r : run) : bool :=
  match ended r, last (trace r) with
  | Some (Ok _), Some (Ev_post _) => true
  | _, _ => false
  end.

(** [asyncio.gather] with [return_exceptions=True]: the outcomes in order, once
    every task has ended. *)
Fixpoint gather (runs : list run) : option (list (result unit)) :=
  match runs with
  | [] => Some []
  | r :: rest =>
      match ended r, gather rest with
      | Some x, Some xs => Some (x :: xs)
      | _, _ => None
      end
  end.

Definition exceptions (results : list (result unit)) : list exn :=
  omap (fun r => match r with Raise e => Some e | Ok _ => None end) results.

(** [_dispatch_data]: the runs of its [_post] tasks, and what it logged
    once [gather] has returned. *)
Definition _dispatch_data (fuel : nat) (users : list User.t)
  : list run * option (list exn) :=
  let tasks := map (fun user => _post fuel (User.chat_id user) 0) users in
  (tasks, exceptions <$> gather tasks).
End Sender.

(** ** Consistent states and the transitions of the registry *)

(** The session the user object [u] records for broadcaster [n]. *)
Definition user_tracks (st : ActivityObserver) (u n : str) : option nat :=
  match PyDict.get u (_users st) with
  | Some usr => PyDict.get n (User.streamers usr)
  | None => None
  end.

(** The active session of broadcaster [n]: its identity and its fields. *)
Definition active_session (st : ActivityObserver) (n : str)
  : option (nat * StreamSession.t) :=
  match PyDict.get n (_streamers st) with
  | Some ctx =>
      match sessions st !! session ctx with
      | Some sess => Some (session ctx, sess)
      | None => None
      end
  | None => None
  end.

(** The live subscriptions of user [u] in a session. *)
Definition subscriptions_of (u : str) (sess : StreamSession.t) : list Subscribe :=
  List.filter (fun sub => bool_decide (user sub = u))
    (PyDict.values (StreamSession._subs sess)).

Definition registered (st : ActivityObserver) (u : str) : Prop :=
  PyDict.contains u (_users st) = true.

(** The consistency of users, registry and sessions. The two last fields
    are the two directions of the subscription invariant; [skipU] and
    [skipS] name the pairs for which a loop in progress has not restored
    them yet. *)
Record inv_gen (skipU skipS : str -> str -> Prop) (st : ActivityObserver) : Prop := {
  inv_users_wf : PyDict.wf (_users st);
  inv_streamers_wf : PyDict.wf (_streamers st);
  inv_user : forall u usr,
    PyDict.get u (_users st) = Some usr ->
    User.name usr = u /\ PyDict.wf (User.streamers usr) /\
    User.start_lock usr = User.default_start_lock;
  inv_registry : forall n ctx,
    PyDict.get n (_streamers st) = Some ctx ->
    is_Some (tasks st !! task ctx) /\
    exists sess,
      sessions st !! session ctx = Some sess /\
      StreamSession._name sess = n /\
      PyDict.wf (StreamSession._subs sess) /\
      (forall u sub, PyDict.get u (StreamSession._subs sess) = Some sub -> user sub = u);
  inv_sub_to_user : forall n s sess u,
    active_session st n = Some (s, sess) ->
    PyDict.contains u (StreamSession._subs sess) = true ->
    ~ skipS u n ->
    user_tracks st u n = Some s;
  inv_user_to_sub : forall u n s,
    user_tracks st u n = Some s ->
    ~ skipU u n ->
    exists sess,
      active_session st n = Some (s, sess) /\
      PyDict.contains u (StreamSession._subs sess) = true
}.

Definition observer_inv : ActivityObserver -> Prop :=
  inv_gen (fun _ _ => False) (fun _ _ => False).

Section Transitions.
Variable float_of_str : str -> option float.
Variable str_of_float : float -> str.

(** One step of the observer: a handler, or a stretch of a coroutine
    between two suspension points, run by the scheduler. A handler gets a
    user object that [_get_user] returned. A start command is either run
    in one stretch or resumed, after its lookup, in a later state. The
    exception handler of [_run_stream] runs for a session that is still
    registered: a session leaves the registry in that handler, or together
    with the cancellation of its task. *)
Inductive step : ActivityObserver -> ActivityObserver -> Prop :=
| step_get_user st name chat_id :
    step st (snd (_get_user name chat_id st))
| step_command st twitch user command :
    registered st user ->
    step st (snd (_process_command float_of_str str_of_float twitch user command st))
| step_start st reply user streamer hook_name :
    registered st user ->
    step st (snd (_process_start_command reply user streamer hook_name st))
| step_start_resume st reply user streamer hook_name :
    registered st user ->
    step st (snd (_process_start_command_resume reply user streamer hook_name st))
| step_stop st user streamer :
    registered st user ->
    step st (snd (_process_stop_command user streamer st))
| step_stopall st user :
    registered st user ->
    step st (snd (_process_stopall_command user st))
| step_hook st user hook_name hook_str :
    registered st user ->
    step st (snd (_process_hook_command user hook_name hook_str st))
| step_threshold st user threshold :
    registered st user ->
    step st (snd (_process_threshold_command str_of_float user threshold st))
| step_sweep st results :
    step st (snd (_streams_ping_handle results st))
| step_stream_failed st n ctx msg :
    PyDict.get n (_streamers st) = Some ctx ->
    step st (snd (_run_stream (Raise (ObserverError msg)) (session ctx) st)).

Inductive reachable : ActivityObserver -> Prop :=
| reach_init max_reconnects : reachable (init max_reconnects)
| reach_step st st' : reachable st -> step st st' -> reachable st'.
End Transitions.

(** ** Predicates of the statements about [parse_command] *)

(** The parameters of a command description are those of its kind. *)
Definition params_of_kind (desc : CommandDesc) : Prop :=
  let p := parameters desc in
  match command_type desc with
  | START =>
      exists streamer hook, p = [(lit "streamer", PStr streamer); (lit "hook_name", PStr hook)]
  | STOP => exists streamer, p = [(lit "streamer", PStr streamer)]
  | STOP_ALL => p = []
  | HOOK => exists hook text, p = [(lit "hook_name", PStr hook); (lit "hook_str", PStr text)]
  | ALL_HOOKS => p = []
  | THRESHOLD =>
      exists value, p = [(lit "threshold", PFloat value)] /\
        float_lt value float_0_0 = false /\ float_lt float_1_0 value = false
  | HELP => p = [(lit "commands", PStr help_text)]
  end.

(** A sub-parser answers with parameters of the expected shape or raises
    [CommandParseError]. *)
Definition parser_ok (kind : CommandType) (r : result (PyDict.t pyval)) : Prop :=
  (exists p, r = Ok p /\ params_of_kind (mkCommandDesc kind p)) \/
  (exists msg, r = Raise (CommandParseError msg)).

(** What may follow the first token of [split(maxsplit=1)]: nothing, or a
    remainder that starts with a character that is no whitespace. *)
Definition remainder_ok (data : list str) : Prop :=
  data = [] \/ exists c r, PyStr.isspace c = false /\ data = [c :: r].

(** ** Scenarios *)

Module Scenario.
Local Open Scope M_scope.

Definition float_of_str (s : str) : option float := None.
Definition str_of_float (x : float) : str := lit "0.5".

(** A directory in which every broadcaster is live. *)
Definition live (streamer : str) : lookup_reply :=
  Ok (mkStreamerDesc streamer (lit "2021-03-04 05:06:07") (lit "speedrun")).

(** [alice] and [bob] have sent a first message and set a hook each. *)
Definition two_users : ActivityObserver :=
  snd ((_get_user (lit "alice") 1 ;;
        _get_user (lit "bob") 2 ;;
        _process_hook_command (lit "alice") (lit "alert") (lit "giveaway") ;;
        _process_hook_command (lit "bob") (lit "alert") (lit "hello")) (init 3)).

(** [alice] tracks [foo]. *)
Definition one_session : ActivityObserver :=
  snd (_process_start_command (live (lit "foo")) (lit "alice") (lit "foo") (lit "alert")
         two_users).

(** [alice] tracks [foo] and [bob] tracks [bar]. *)
Definition two_sessions : ActivityObserver :=
  snd (_process_start_command (live (lit "bar")) (lit "bob") (lit "bar") (lit "alert")
         one_session).
End Scenario.

(** ** Predicates of the loop invariants *)

(** The user [u] is in no active session of a broadcaster in [D]. *)
Definition left_sessions (u : str) (D : str -> Prop) (st : ActivityObserver) : Prop :=
  forall n, D n -> forall s sess,
    active_session st n = Some (s, sess) ->
    PyDict.contains u (StreamSession._subs sess) = false.

(** No user in [D] records broadcaster [n]. *)
Definition forgotten_by (n : str) (D : str -> Prop) (st : ActivityObserver) : Prop :=
  forall u, D u -> user_tracks st u n = None.

(** ** Predicates of the statements about the arguments of commands *)

(** A string of whitespace only (the empty string included). *)
Definition blank (s : str) : Prop := Forall (fun c => PyStr.isspace c = true) s.

(** A non-empty string without whitespace: one item of [str.split()]. *)
Definition token (s : str) : Prop :=
  s <> [] /\ Forall (fun c => PyStr.isspace c = false) s.

(** The string parameters of a description are what [str.split] left of
    the command: the names are tokens, and the text of a hook starts with
    a character that is no whitespace. *)
Definition params_are_tokens (desc : CommandDesc) : Prop :=
  let p := parameters desc in
  match command_type desc with
  | START =>
      exists streamer hook,
        p = [(lit "streamer", PStr streamer); (lit "hook_name", PStr hook)] /\
        token streamer /\ token hook
  | STOP => exists streamer, p = [(lit "streamer", PStr streamer)] /\ token streamer
  | HOOK =>
      exists hook c r,
        p = [(lit "hook_name", PStr hook); (lit "hook_str", PStr (c :: r))] /\
        token hook /\ PyStr.isspace c = false
  | _ => True
  end.

(** ** stream.py: reading a chat line *)

(** [s.split(sep, maxsplit)] for a separator that is not empty (the
    program passes the literals ['!'], ['\r\n'] and ['.']), one pass from
    the left: [cur] is the field being read, [skip] the number of characters
    of a separator just found that are still to be passed, [maxcount] the
    number of cuts that may still be made ([None]: unbounded). *)
Fixpoint split_sep_from (sep : str) (maxcount : option nat) (skip : nat) (cur : str)
    (s : str) : list str :=
  match s with
  | [] => [cur]
  | c :: r =>
      match skip with
      | S k => split_sep_from sep maxcount k cur r
      | O =>
          if negb (bool_decide (maxcount = Some O)) && startswith sep s then
            cur :: split_sep_from sep (Nat.pred <$> maxcount) (Nat.pred (length sep)) [] r
          else split_sep_from sep maxcount O (cur ++ [c]) r
      end
  end.

Definition split_sep (sep : str) (maxsplit : option nat) (s : str) : list str :=
  split_sep_from sep maxsplit 0 [] s.

Section ParseMsg.
Local Open Scope result_scope.

(** [_parse_msg(data)]; [from_start] is what
    [datetime.datetime.now() - self._started_at] gives when the line is
    read. [drop 1 s] is the slice [s[1:]]. *)
Definition _parse_msg (from_start : str) (data : str) : result (option ChatMessage.t) :=
  let parts := PyStr.split (Some 3%nat) data in
  if (length parts =? 4)%nat then
    let* p1 := index parts 1 in
    if decide (p1 = lit "PRIVMSG") then
      let* p0 := index parts 0 in
      let* nickname := index (split_sep (lit "!") (Some 1%nat) (drop 1 p0)) 0 in
      let* p3 := index parts 3 in
      let* message := index (split_sep [13%N; 10%N] (Some 1%nat) (drop 1 p3)) 0 in
      Ok (Some (ChatMessage.mk nickname message from_start))
    else Ok None
  else Ok None.
End ParseMsg.

(** [_enqueue_message(message)] on the session object [self]: the feedback
    given to the [match] task it creates, with the subscribers of that
    moment. *)
Definition _enqueue_message (self : StreamSession.t) (message : ChatMessage.t)
  : StreamFeedback.t :=
  let subs := PyDict.values (StreamSession._subs self) in
  StreamFeedback.mk (StreamSession._name self) message subs.

(** ** JSON values *)

(** What [json.loads] gives for the body of a reply: a number is an [int] or a
    [float], an object a [dict] with string keys. *)
#[local] Set Warnings "-register-all".
Inductive json : Type :=
| JNull
| JBool (b : bool)
| JInt (z : Z)
| JFloat (x : float)
| JStr (s : str)
| JList (l : list json)
| JDict (d : PyDict.t json).

(** [v[k]] for a string [k]: only a [dict] accepts a string as index. *)
Definition json_getitem (v : json) (k : str) : result json :=
  match v with
  | JDict d => PyDict.getitem k d
  | _ => Raise TypeError
  end.

(** [v[0]]. A [dict] of a JSON object has no key [0]: its [KeyError] carries
    the integer, written here by its text. *)
Definition json_getitem_0 (v : json) : result json :=
  match v with
  | JList l => index l 0
  | JStr s =>
      match s with
      | c :: _ => Ok (JStr [c])
      | [] => Raise IndexError
      end
  | JDict _ => Raise (KeyError (lit "0"))
  | _ => Raise TypeError
  end.

(** The truth value of [v], as [if v:] tests it. *)
Definition truthy (v : json) : bool :=
  match v with
  | JNull => false
  | JBool b => b
  | JInt z => negb (z =? 0)%Z
  | JFloat x => negb (float_eq x float_0_0)
  | JStr s => negb (is_empty s)
  | JList l => negb (is_empty l)
  | JDict d => negb (is_empty d)
  end.

(** The items [for res in v] runs through: the elements of a list, the keys
    of a [dict], the characters of a string. *)
Definition json_iter (v : json) : result (list json) :=
  match v with
  | JList l => Ok l
  | JDict d => Ok (map JStr (PyDict.keys d))
  | JStr s => Ok (map (fun c => JStr [c]) s)
  | _ => Raise TypeError
  end.

(** Binary64 addition, and the conversion of an [int] to a [float]
    (rounding to nearest, ties to even; [None] when the integer is too large,
    which Python reports by [OverflowError]). *)
Definition float_add (x y : float) : float := SFadd 53 1024 x y.
Definition float_sub (x y : float) : float := SFsub 53 1024 x y.
Definition float_of_int (z : Z) : option float :=
  match binary_normalize 53 1024 z 0 false with
  | S754_infinity _ => None
  | x => Some x
  end.

(** [v + 1] *)
Definition json_add_1 (v : json) : result json :=
  match v with
  | JInt z => Ok (JInt (z + 1))
  | JBool b => Ok (JInt ((if b then 1 else 0) + 1))
  | JFloat x => Ok (JFloat (float_add x float_1_0))
  | _ => Raise TypeError
  end.

(** ** observer.py: the updates of a poll *)

(** The part of the observer that polling reads and writes: [_offset], the
    [_process_message] tasks created (by the message each is given), and what
    was logged by [_log.exception] and by [_log.error]. *)
Record Poller : Type := mkPoller {
  _offset : json;
  created : list json;
  poll_exceptions : list exn;
  poll_errors : list json
}.

(** [ActivityObserver.__init__]: [self._offset = 0]. *)
Definition Poller_init : Poller := mkPoller (JInt 0) [] [] [].

(** [for res in data['result']: ...], over the items of the iteration. *)
Fixpoint _handle_updates_loop (results : list json) (p : Poller) : result unit * Poller :=
  match results with
  | [] => (Ok tt, p)
  | res :: rest =>
      match rbind (json_getitem res (lit "update_id")) json_add_1 with
      | Raise e => (Raise e, p)
      | Ok offset =>
          let p1 := mkPoller offset (created p) (poll_exceptions p) (poll_errors p) in
          match json_getitem res (lit "message") with
          | Raise e => (Raise e, p1)
          | Ok msg =>
              _handle_updates_loop rest
                (mkPoller (_offset p1) (created p1 ++ [msg]) (poll_exceptions p1)
                   (poll_errors p1))
          end
      end
  end.

Definition _handle_updates (data : json) (p : Poller) : result unit * Poller :=
  let body : result unit * Poller :=
    match json_getitem data (lit "ok") with
    | Raise e => (Raise e, p)
    | Ok ok =>
        if truthy ok then
          match rbind (json_getitem data (lit "result")) json_iter with
          | Raise e => (Raise e, p)
          | Ok results => _handle_updates_loop results p
          end
        else
          (Ok tt, mkPoller (_offset p) (created p) (poll_exceptions p) (poll_errors p ++ [data]))
    end in
  match body with
  | (Raise ((KeyError _ | TypeError) as err), p') =>
      (Ok tt, mkPoller (_offset p') (created p') (poll_exceptions p' ++ [err]) (poll_errors p'))
  | r => r
  end.

(** One update of a batch, as the Bot API sends it: an object with an
    integer [update_id] and a [message]. *)
Definition is_update (res : json) (update_id : Z) (msg : json) : Prop :=
  json_getitem res (lit "update_id") = Ok (JInt update_id) /\
  json_getitem res (lit "message") = Ok msg.

(** ** twitch.py *)

(** [StreamerDesc(user_name, started_at, title)] as [_parse_stream_info]
    makes it. The dataclass does not check its fields: [user_name] and
    [title] are whatever the reply holds under these keys. *)
Record StreamerDescJ : Type := mkStreamerDescJ {
  j_user_name : json;
  j_started_at : datetime;
  j_title : json
}.

(** An exception that a request of the HTTP session, or reading the body
    of its response, raises and that is no [aiohttp.ClientError]: the
    [asyncio.TimeoutError] of the session's timeout, or an exception of
    another class, given by the name of the class (the [ValueError] of a
    header that cannot be sent, the [RuntimeError] of a closed session,
    [UnicodeDecodeError], ...). No handler of twitch.py catches these. *)
Inductive uncaught : Type :=
| TimeoutError
| OtherError (class_name : str).

(** How a call into twitch.py ends: with a result, with an exception of
    [exn], with the [OverflowError] of adding an integer that no [float]
    holds, with the [AssertionError] of a failed [assert], or with an
    exception of the HTTP session that is no [aiohttp.ClientError]. *)
Inductive outcome (A : Type) : Type :=
| Returns (a : A)
| Raises (e : exn)
| RaisesOverflowError
| RaisesAssertionError
| RaisesUncaught (e : uncaught).
Arguments Returns {A} a.
Arguments Raises {A} e.
Arguments RaisesOverflowError {A}.
Arguments RaisesAssertionError {A}.
Arguments RaisesUncaught {A} e.

(** The fields of a [TwitchSession] that change, and what it logged.
    [_oauth] is [None] ([JNull]) until a token is stored. *)
Record TwitchSession : Type := mkTwitchSession {
  _oauth : json;
  _expires_in : float;
  twitch_logged : list exn
}.

(** [TwitchSession.__init__]: [_oauth = None], [_expires_in = 0]. *)
Definition TwitchSession_init : TwitchSession := mkTwitchSession JNull float_0_0 [].

Definition float_100_0 : float := S754_finite false 7036874417766400 (-46).

(** [x <= y] on floats. *)
Definition float_le (x y : float) : bool := SFleb x y.

(** What one HTTP request meets. The request raises an
    [aiohttp.ClientError] ([HttpFails]) or an exception of another class
    ([HttpRaisesUncaught]), or it is answered with a status and a body;
    [await resp.json()] gives the value of the body, or raises
    [ContentTypeError] (an [aiohttp.ClientError]), [JSONDecodeError] (a
    [ValueError]) or, while the body is read, an exception that is no
    [aiohttp.ClientError] ([BodyRaisesUncaught]). *)
Inductive http_body : Type :=
| BodyJson (data : json)
| BodyContentTypeError
| BodyJSONDecodeError (msg : str)
| BodyRaisesUncaught (e : uncaught).

Inductive http_reply : Type :=
| HttpFails
| HttpRaisesUncaught (e : uncaught)
| HttpResponse (status : Z) (body : http_body).

(** The request answered by [reply] ends by the exception [e], which is no
    [aiohttp.ClientError]: the request raises it, or reading the body of a
    response with status 200 does (the body of no other response is read). *)
Definition raises_uncaught (reply : http_reply) (e : uncaught) : Prop :=
  reply = HttpRaisesUncaught e \/ reply = HttpResponse 200 (BodyRaisesUncaught e).

Section Twitch.
Local Open Scope result_scope.

(** [datetime.datetime.strptime(s, '%Y-%m-%dT%H:%M:%SZ')] on a string: the
    date, or the message of its [ValueError]. [repr_json v] is the text
    [str(v)] of a value that is no string. *)
Variable strptime : str -> datetime + str.
Variable repr_json : json -> str.

Definition pystrptime (date_string : json) : result datetime :=
  match date_string with
  | JStr s =>
      match strptime s with
      | inl d => Ok d
      | inr msg => Raise (ValueError msg)
      end
  | _ => Raise TypeError
  end.

(** [_parse_stream_info(data)]: its result, and what it logged. *)
Definition _parse_stream_info (data : json) : result StreamerDescJ * list exn :=
  let body : result StreamerDescJ :=
    let* info_list := json_getitem data (lit "data") in
    if truthy info_list then
      let* info := json_getitem_0 info_list in
      let* user_name := json_getitem info (lit "user_name") in
      let* title := json_getitem info (lit "title") in
      let* date_string := json_getitem info (lit "started_at") in
      let* started_at := pystrptime date_string in
      Ok (mkStreamerDescJ user_name started_at title)
    else Raise StreamNotFoundError in
  match body with
  | Raise ((KeyError _ | TypeError) as err) => (Raise (ObserverError []), [err])
  | r => (r, [])
  end.

(** [time.time() + v], when [time.time()] gives [now]. *)
Definition time_plus (now : float) (v : json) : outcome float :=
  match v with
  | JFloat x => Returns (float_add now x)
  | JInt z =>
      match float_of_int z with
      | Some x => Returns (float_add now x)
      | None => RaisesOverflowError
      end
  | JBool b => Returns (float_add now (if b then float_1_0 else float_0_0))
  | _ => Raises TypeError
  end.

(** What an f-string writes for [v]. *)
Definition format_json (v : json) : str :=
  match v with
  | JStr s => s
  | _ => repr_json v
  end.

(** The handler [except (KeyError, TypeError) as err] of [_get_token]. *)
Definition _get_token_except {A : Type} (e : exn) (self : TwitchSession)
  : outcome A * TwitchSession :=
  match e with
  | KeyError _ | TypeError =>
      (Raises (ObserverError []),
       mkTwitchSession (_oauth self) (_expires_in self) (twitch_logged self ++ [e]))
  | _ => (Raises e, self)
  end.

(** [_get_token(data)], when [time.time()] gives [now]. *)
Definition _get_token (now : float) (data : json) (self : TwitchSession)
  : outcome json * TwitchSession :=
  match json_getitem data (lit "expires_in") with
  | Raise e => _get_token_except e self
  | Ok v =>
      match time_plus now v with
      | Raises e => _get_token_except e self
      | RaisesOverflowError => (RaisesOverflowError, self)
      | RaisesAssertionError => (RaisesAssertionError, self)
      | RaisesUncaught e => (RaisesUncaught e, self)
      | Returns expires =>
          let self1 := mkTwitchSession (_oauth self) expires (twitch_logged self) in
          match json_getitem data (lit "token_type") with
          | Raise e => _get_token_except e self1
          | Ok token_type =>
              let is_bearer :=
                match token_type with
                | JStr s => bool_decide (s = lit "bearer")
                | _ => false
                end in
              if negb is_bearer then
                (Raises (ObserverError (lit "Bad token type " ++ format_json token_type)), self1)
              else
                match json_getitem data (lit "access_token") with
                | Raise e => _get_token_except e self1
                | Ok access_token => (Returns access_token, self1)
                end
          end
      end
  end.

(** The handler [except aiohttp.ClientError as err] of [update_token] and
    of [get_stream_description]. *)
Definition except_ClientError {A : Type} (r : outcome A * TwitchSession)
  : outcome A * TwitchSession :=
  match r with
  | (Raises ClientError, self) =>
      (Raises (ObserverError []),
       mkTwitchSession (_oauth self) (_expires_in self) (twitch_logged self ++ [ClientError]))
  | _ => r
  end.

(** [update_token()]: [reply] answers its POST (sent with
    [raise_for_status=True], so that a status of 400 or more raises an
    [aiohttp.ClientError]); [now] is the clock when [_get_token] reads it. *)
Definition update_token (now : float) (reply : http_reply) (self : TwitchSession)
  : outcome unit * TwitchSession :=
  except_ClientError
    match reply with
    | HttpFails => (Raises ClientError, self)
    | HttpRaisesUncaught e => (RaisesUncaught e, self)
    | HttpResponse status body =>
        if (400 <=? status)%Z then (Raises ClientError, self)
        else if negb (status =? 200)%Z then
          (Raises (ObserverError (lit "Update status: " ++ str_of_Z status)), self)
        else
          match body with
          | BodyContentTypeError => (Raises ClientError, self)
          | BodyJSONDecodeError msg => (Raises (ValueError msg), self)
          | BodyRaisesUncaught e => (RaisesUncaught e, self)
          | BodyJson data =>
              match _get_token now data self with
              | (Returns token, self1) =>
                  (Returns tt,
                   mkTwitchSession token (_expires_in self1) (twitch_logged self1))
              | (Raises e, self1) => (Raises e, self1)
              | (RaisesOverflowError, self1) => (RaisesOverflowError, self1)
              | (RaisesAssertionError, self1) => (RaisesAssertionError, self1)
              | (RaisesUncaught e, self1) => (RaisesUncaught e, self1)
              end
          end
    end.

(** [get_stream_description(streamer)]: [now] is the clock at the test of
    the expiry; [token_now] and [token_reply] are the clock and the answer
    for the refresh, if one is made; [reply] answers the lookup. *)
Definition get_stream_description (now token_now : float) (token_reply reply : http_reply)
    (self : TwitchSession) : outcome StreamerDescJ * TwitchSession :=
  let refreshed : outcome unit * TwitchSession :=
    if float_le (float_sub (_expires_in self) now) float_100_0 then
      update_token token_now token_reply self
    else (Returns tt, self) in
  match refreshed with
  | (Raises e, self1) => (Raises e, self1)
  | (RaisesOverflowError, self1) => (RaisesOverflowError, self1)
  | (RaisesAssertionError, self1) => (RaisesAssertionError, self1)
  | (RaisesUncaught e, self1) => (RaisesUncaught e, self1)
  | (Returns _, self1) =>
      match _oauth self1 with
      | JNull => (RaisesAssertionError, self1)
      | _ =>
          except_ClientError
            match reply with
            | HttpFails => (Raises ClientError, self1)
            | HttpRaisesUncaught e => (RaisesUncaught e, self1)
            | HttpResponse status body =>
                if (400 <=? status)%Z then (Raises ClientError, self1)
                else if negb (status =? 200)%Z then
                  (Raises (ObserverError (lit "Request status: " ++ str_of_Z status)), self1)
                else
                  match body with
                  | BodyContentTypeError => (Raises ClientError, self1)
                  | BodyJSONDecodeError msg => (Raises (ValueError msg), self1)
                  | BodyRaisesUncaught e => (RaisesUncaught e, self1)
                  | BodyJson data =>
                      let (r, logged) := _parse_stream_info data in
                      (match r with
                       | Ok desc => Returns desc
                       | Raise e => Raises e
                       end,
                       mkTwitchSession (_oauth self1) (_expires_in self1)
                         (twitch_logged self1 ++ logged))
                  end
            end
      end
  end.
End Twitch.

(** ** Properties kept by a computation *)

(** From a state with [P], the computation [m] returns [a] in a state
    with [Q a], or raises in a state with [E]. *)
Definition hoare {A : Type} (P : ActivityObserver -> Prop) (m : M A)
    (Q : A -> ActivityObserver -> Prop) (E : ActivityObserver -> Prop) : Prop :=
  forall st, P st ->
    match m st with
    | (Ok a, st') => Q a st'
    | (Raise _, st') => E st'
    end.

(** [m] keeps [I], whether it returns or raises. *)
Definition keeps {A : Type} (I : ActivityObserver -> Prop) (m : M A) : Prop :=
  hoare I m (fun _ => I) I.

(** ** The runs of the observer, with the start commands in flight *)

(** The checks a start command has passed when it awaits its lookup. *)
Definition start_checked (st : ActivityObserver) (user streamer hook_name : str) : Prop :=
  exists usr,
    PyDict.get user (_users st) = Some usr /\
    PyDict.contains streamer (User.streamers usr) = false /\
    PyDict.contains hook_name (User.hooks usr) = true.

Section Runs.
Variable float_of_str : str -> option float.
Variable str_of_float : float -> str.

(** A stretch of the observer that the scheduler runs without
    interruption: the steps of [step] but the resumption of a start
    command. *)
Inductive stretch : ActivityObserver -> ActivityObserver -> Prop :=
| stretch_get_user st name chat_id :
    stretch st (snd (_get_user name chat_id st))
| stretch_command st twitch user command :
    registered st user ->
    stretch st (snd (_process_command float_of_str str_of_float twitch user command st))
| stretch_start st reply user streamer hook_name :
    registered st user ->
    stretch st (snd (_process_start_command reply user streamer hook_name st))
| stretch_stop st user streamer :
    registered st user ->
    stretch st (snd (_process_stop_command user streamer st))
| stretch_stopall st user :
    registered st user ->
    stretch st (snd (_process_stopall_command user st))
| stretch_hook st user hook_name hook_str :
    registered st user ->
    stretch st (snd (_process_hook_command user hook_name hook_str st))
| stretch_threshold st user threshold :
    registered st user ->
    stretch st (snd (_process_threshold_command str_of_float user threshold st))
| stretch_sweep st results :
    stretch st (snd (_streams_ping_handle results st))
| stretch_stream_failed st n ctx msg :
    PyDict.get n (_streamers st) = Some ctx ->
    stretch st (snd (_run_stream (Raise (ObserverError msg)) (session ctx) st)).

(** The states a run has passed, the latest first. A start command is
    resumed, with the reply of its lookup, in the latest state, when it
    passed its checks in that state or in an earlier one of the run. *)
Inductive run_states : list ActivityObserver -> Prop :=
| run_init max_reconnects : run_states [init max_reconnects]
| run_stretch st past st' :
    run_states (st :: past) -> stretch st st' -> run_states (st' :: st :: past)
| run_resume st past st0 reply user streamer hook_name :
    run_states (st :: past) -> st0 ∈ st :: past ->
    start_checked st0 user streamer hook_name ->
    run_states
      (snd (_process_start_command_resume reply user streamer hook_name st) :: st :: past).
End Runs.

(** Every subscription held by a session object names a hook of its
    user, and so does every subscription of [F]. *)
Definition hooks_defined (F : Subscribe -> Prop) (st : ActivityObserver) : Prop :=
  (forall s sess sub,
     sessions st !! s = Some sess -> sub ∈ PyDict.values (StreamSession._subs sess) ->
     hook_defined (_users st) sub) /\
  (forall sub, F sub -> hook_defined (_users st) sub).

(** The states that the scenario passes before [Scenario.two_users], the
    latest first. *)
Definition scenario_past : list ActivityObserver :=
  let s1 := snd (_get_user (lit "alice") 1 (init 3)) in
  let s2 := snd (_get_user (lit "bob") 2 s1) in
  let s3 := snd (_process_hook_command (lit "alice") (lit "alert") (lit "giveaway") s2) in
  [s3; s2; s1; init 3].

(** ** sender.py: the parameters of the requests *)

(** The value of a request parameter: a string or an integer. *)
Inductive param : Type :=
| ParamStr (s : str)
| ParamInt (z : Z).

Module Requests.
Section Requests.
Local Open Scope result_scope.

(** [json.dumps], of the Python library. [users] is the table of the user
    objects that the references of a feedback designate. *)
Variable json_dumps : json -> str.
Variable users : PyDict.t User.t.

(** The loop of [_dispatch_data]: the dictionary [data] is updated for each
    user and a copy of it is given to [_post]. The result lists the
    parameters of the [_post] tasks, in order. *)
Fixpoint _dispatch_data (recipients : list str) (data : PyDict.t param)
  : result (list (PyDict.t param)) :=
  match recipients with
  | [] => Ok []
  | user :: rest =>
      match PyDict.get user users with
      | None => Raise InvalidReference
      | Some usr =>
          let data := PyDict.set (lit "chat_id") (ParamInt (User.chat_id usr)) data in
          let* tasks := _dispatch_data rest data in
          Ok (data :: tasks)
      end
  end.

Definition send_notification (data : Notification.t) : result (list (PyDict.t param)) :=
  let params := [(lit "text", ParamStr (Notification.message data))] in
  _dispatch_data (Notification.users data) params.

Definition send_matched_data (data : MatcherFeedback.t) : result (list (PyDict.t param)) :=
  let streamer_name := MatcherFeedback.streamer_name data in
  let chat_message := MatcherFeedback.chat_message data in
  let inline_keyboard :=
    JDict [(lit "inline_keyboard",
            JList [JList [JDict
              [(lit "text", JStr (lit "Open " ++ streamer_name));
               (lit "url", JStr (lit "https://www.twitch.tv/" ++ streamer_name))]]])] in
  let params :=
    [(lit "disable_notification", ParamStr (lit "true"));
     (lit "disable_web_page_preview", ParamStr (lit "true"));
     (lit "reply_markup", ParamStr (json_dumps inline_keyboard))] in
  let text := ChatMessage.nickname chat_message ++ lit ": " ++ ChatMessage.message chat_message in
  let* from_start := index (split_sep (lit ".") None (ChatMessage.from_start chat_message)) 0 in
  let params :=
    PyDict.set (lit "text")
      (ParamStr (streamer_name ++ lit " +" ++ from_start ++ [13%N; 10%N; 13%N; 10%N] ++ text))
      params in
  _dispatch_data (MatcherFeedback.subscribers data) params.
End Requests.
End Requests.

(** ** observer.py: the message of an update *)

(** The message object of an update as far as [_process_message] reads it,
    with the types the Bot API gives these fields: [data['from']['is_bot']]
    a boolean, [data['chat']['username']] a string, [data['chat']['id']] an
    integer, [data['text']] a string. A key that an object lacks is
    [None]. *)
Module TgMessage.
Record sender : Type := mkSender {
  is_bot : option bool
}.
Record chat_info : Type := mkChat {
  username : option str;
  id : option Z
}.
Record t : Type := mk {
  from : option sender;
  chat : option chat_info;
  text : option str
}.
End TgMessage.

Section ProcessMessage.
Local Open Scope M_scope.
Variable float_of_str : str -> option float.
Variable str_of_float : float -> str.

(** [d[k]] on an object of a message. *)
Definition getkey {A : Type} (k : str) (v : option A) : M A :=
  match v with
  | Some a => ret a
  | None => raise (KeyError k)
  end.

(** [_process_message] up to the call of [_process_command]: the user and
    the text of a command, or [None] when the message is ignored. *)
Definition _process_message_head (data : TgMessage.t) : M (option (str * str)) :=
  let* from := getkey (lit "from") (TgMessage.from data) in
  let* is_bot := getkey (lit "is_bot") (TgMessage.is_bot from) in
  if is_bot then ret None
  else
    let* chat := getkey (lit "chat") (TgMessage.chat data) in
    let* name := getkey (lit "username") (TgMessage.username chat) in
    let* chat_id := getkey (lit "id") (TgMessage.id chat) in
    let* user := _get_user name chat_id in
    let* text := getkey (lit "text") (TgMessage.text data) in
    if startswith (lit "/") text then ret (Some (user, text)) else ret None.

(** [_process_message(data)]: the handler [except (KeyError, TypeError)]
    logs what the body raised, the command included. *)
Definition _process_message (twitch : str -> lookup_reply) (data : TgMessage.t)
    (st : ActivityObserver) : cmd_outcome * ActivityObserver :=
  let body : cmd_outcome * ActivityObserver :=
    match _process_message_head data st with
    | (Raise e, st') => (Finished (Raise e), st')
    | (Ok None, st') => (Finished (Ok tt), st')
    | (Ok (Some (user, text)), st') =>
        _process_command float_of_str str_of_float twitch user text st'
    end in
  match body with
  | (Finished (Raise ((KeyError _ | TypeError) as err)), st') =>
      (Finished (Ok tt), with_logged (logged st' ++ [err]) st')
  | r => r
  end.
End ProcessMessage.

(** ** The entries of the registry *)

(** The session of a registry entry has a subscriber, and the task of the
    entry runs that session and has not been cancelled. *)
Definition live_context (st : ActivityObserver) (ctx : StreamContext) : Prop :=
  tasks st !! task ctx = Some (mkTask (session ctx) false) /\
  exists sess,
    sessions st !! session ctx = Some sess /\
    is_empty (StreamSession._subs sess) = false.

Definition registry_live (st : ActivityObserver) : Prop :=
  forall n ctx, PyDict.get n (_streamers st) = Some ctx -> live_context st ctx.

(** ** observer.py: polling *)

(** An exception of a request of [_poll], by the class the clauses of
    [_run_command_polling] tell apart; [OtherException] is of none of these
    classes (a timeout, [json.JSONDecodeError], the [ValueError] of a
    request whose offset cannot be sent, such as the [inf] that an
    [update_id] of [1e999] leaves). *)
Inductive poll_exn : Type :=
| ClientResponseError
| ClientPayloadError
| ClientConnectionError
| InvalidURL
| OtherException.

(** What [resp.json()] gives, and what [session.get] meets: it raises, or
    a response arrives with its status and body. *)
Inductive poll_body : Type :=
| BodyDecodes (data : json)
| BodyRaises (e : poll_exn).

Inductive poll_reply : Type :=
| GetRaises (e : poll_exn)
| Responds (status : Z) (body : poll_body).

(** What a run of the polling loop does besides handling updates. *)
Inductive poll_event : Type :=
| Poll_get (offset : json)        (* the request, with [params['offset']] *)
| Poll_warning (status : Z)       (* [_log.warning('Poll status: ...')] *)
| Poll_error (e : poll_exn)       (* [_log.error(err)] *)
| Poll_exception (e : poll_exn)   (* [_log.exception(err)] *)
| Poll_sleep.                     (* [asyncio.sleep(0.35)] *)

(** An exception that leaves [_poll]: one of the request, or one of
    [_handle_updates], which is of none of the classes above. *)
Inductive poll_raised : Type :=
| RequestRaised (e : poll_exn)
| HandlerRaised (e : exn).

(** [_poll()]; [reply] answers its request. With [raise_for_status=True] a
    status from 400 on is raised by [get] as a [ClientResponseError]. *)
Definition _poll (reply : poll_reply) (p : Poller)
  : option poll_raised * Poller * list poll_event :=
  let get := Poll_get (_offset p) in
  match reply with
  | GetRaises e => (Some (RequestRaised e), p, [get])
  | Responds status body =>
      if (400 <=? status)%Z then (Some (RequestRaised ClientResponseError), p, [get])
      else if (status =? 200)%Z then
        match body with
        | BodyRaises e => (Some (RequestRaised e), p, [get])
        | BodyDecodes data =>
            match _handle_updates data p with
            | (Ok _, p') => (None, p', [get])
            | (Raise e, p') => (Some (HandlerRaised e), p', [get])
            end
        end
      else (None, p, [get; Poll_warning status])
  end.

(** How [_run_command_polling] ends, when it does. *)
Inductive polling_end : Type :=
| RaisesObserverError             (* [raise ObserverError() from err] *)
| Propagates (r : poll_raised).

(** [_run_command_polling()]: [fuel] bounds the number of iterations of
    [while True] that are run, [None] says that the loop goes on; [net i]
    answers the [i]-th request, given the offset it carries. *)
Fixpoint _run_command_polling (net : nat -> json -> poll_reply) (fuel i : nat) (p : Poller)
  : option polling_end * Poller * list poll_event :=
  match fuel with
  | O => (None, p, [])
  | S fuel' =>
      match _poll (net i (_offset p)) p with
      | (None, p', ev) =>
          let '(r, p'', ev') := _run_command_polling net fuel' (S i) p' in
          (r, p'', ev ++ Poll_sleep :: ev')
      | (Some (RequestRaised ((ClientResponseError | ClientPayloadError) as err)), p', ev) =>
          let '(r, p'', ev') := _run_command_polling net fuel' (S i) p' in
          (r, p'', ev ++ Poll_error err :: Poll_sleep :: ev')
      | (Some (RequestRaised ((ClientConnectionError | InvalidURL) as err)), p', ev) =>
          (Some RaisesObserverError, p', ev ++ [Poll_exception err])
      | (Some r, p', ev) => (Some (Propagates r), p', ev)
      end
  end.

(** A reply that [_poll] does not hand to [_handle_updates] and that does
    not stop the loop: a status other than 200, or a response or payload
    error. *)
Definition unanswered (reply : poll_reply) : Prop :=
  match reply with
  | GetRaises e => e = ClientResponseError \/ e = ClientPayloadError
  | Responds status body =>
      (400 <= status)%Z \/ status <> 200%Z \/
      body = BodyRaises ClientResponseError \/ body = BodyRaises ClientPayloadError
  end.

(** A reply on which the loop ends, and how. *)
Definition stops_polling (reply : poll_reply) (e : poll_exn) : Prop :=
  (e = ClientConnectionError \/ e = InvalidURL \/ e = OtherException) /\
  (reply = GetRaises e \/ reply = Responds 200 (BodyRaises e)).

Definition polling_end_of (e : poll_exn) : polling_end :=
  match e with
  | OtherException => Propagates (RequestRaised OtherException)
  | _ => RaisesObserverError
  end.

(** The offsets of the requests of a run, in order. *)
Definition offsets_requested (events : list poll_event) : list json :=
  omap (fun ev => match ev with Poll_get offset => Some offset | _ => None end) events.

(** ** The tasks of the sessions *)

(** The task [t] can still reach the handler [except ObserverError] of
    [_run_stream]: [cancel] has not been called on it, and its coroutine has
    not finished ([finished] lists the tasks whose coroutine has). A task
    on which [cancel] was called is resumed by [CancelledError], which
    [start_session] does not catch and which is no [ObserverError]. *)
Definition task_alive (st : ActivityObserver) (finished : list nat) (t : nat) (T : Task)
  : Prop :=
  tasks st !! t = Some T /\ cancel_requested T = false /\ t ∉ finished.

(** Every task that is alive runs a session that the registry holds,
    together with that task. *)
Definition alive_registered (st : ActivityObserver) (finished : list nat) : Prop :=
  forall t T, task_alive st finished t T ->
    exists n, PyDict.get n (_streamers st) = Some (mkStreamContext (runs T) t).

Section Lives.
Variable float_of_str : str -> option float.
Variable str_of_float : float -> str.



End Lives.

(* ================================================================== *)
(** * Part II: properties *)
(* ================================================================== *)

#[local] Set Warnings "-clear-no-such-hyp".

Example split_ex1 :
  PyStr.split (Some 1%nat) (lit "/start  foo bar ") = [lit "/start"; lit "foo bar "].
Proof. reflexivity. Qed.

Example split_ex2 : PyStr.split (Some 1%nat) (lit "/stop_all   ") = [lit "/stop_all"].
Proof. reflexivity. Qed.

Example split_ex3 : PyStr.split None (lit "  a b  c ") = [lit "a"; lit "b"; lit "c"].
Proof. reflexivity. Qed.

Example parse_ex1 :
  parse_command (fun _ => None) (lit "/start foo alert")
  = Ok (mkCommandDesc START [(lit "streamer", PStr (lit "foo")); (lit "hook_name", PStr (lit "alert"))]).
Proof. vm_compute. reflexivity. Qed.

Example parse_ex2 :
  parse_command (fun _ => None) (lit "/hook alert: give away")
  = Ok (mkCommandDesc HOOK [(lit "hook_name", PStr (lit "alert")); (lit "hook_str", PStr (lit "give away"))]).
Proof. vm_compute. reflexivity. Qed.

(** ** [str.split] never loses a leading token *)

Module PyStrFacts.
Import PyStr.

Lemma split_whitespace_token_nonempty s tok m :
  split_whitespace (Some tok) m s <> [].
Proof.
  revert tok m. induction s as [|c r IH]; intros tok m; simpl; [done|].
  destruct (isspace c); [done|apply IH].
Qed.

Lemma split_nonspace_head m c r :
  isspace c = false -> exists h t, split m (c :: r) = h :: t.
Proof.
  intros Hc. unfold split. simpl. rewrite Hc.
  destruct m as [[|k]|].
  - eauto.
  - destruct (split_whitespace (Some [c]) (Some (S k)) r) eqn:E; [|eauto].
    by apply split_whitespace_token_nonempty in E.
  - destruct (split_whitespace (Some [c]) None r) eqn:E; [|eauto].
    by apply split_whitespace_token_nonempty in E.
Qed.

Lemma split_rest_after_limit s : remainder_ok (split_whitespace None (Some 0) s).
Proof.
  induction s as [|c r IH]; simpl; [by left|].
  destruct (isspace c) eqn:Hc; [done|]. right. eauto.
Qed.

Lemma split_token_then_rest s tok :
  exists tok' data, split_whitespace (Some tok) (Some 1) s = tok' :: data /\ remainder_ok data.
Proof.
  revert tok. induction s as [|c r IH]; intros tok; simpl.
  - exists tok, []. split; [done|by left].
  - destruct (isspace c); [|apply IH].
    exists tok. eexists. split; [done|]. apply split_rest_after_limit.
Qed.

Lemma split_maxsplit_1 c r :
  isspace c = false ->
  exists h data, split (Some 1) (c :: r) = h :: data /\ remainder_ok data.
Proof.
  intros Hc. unfold split. simpl. rewrite Hc. apply split_token_then_rest.
Qed.
End PyStrFacts.

(** ** [parse_command] raises nothing but [CommandParseError] *)

Section CommandParseFacts.
Import PyStr PyStrFacts.
Variable float_of_str : str -> option float.

Lemma index_0 {A} (x : A) l : index (x :: l) 0 = Ok x.
Proof. reflexivity. Qed.

Lemma index_1 {A} (x y : A) l : index (x :: y :: l) 1 = Ok y.
Proof. reflexivity. Qed.

Ltac raises := right; eexists; reflexivity.
Ltac returns := left; eexists; split; [reflexivity|]; hnf; eauto.

Lemma _parse_start_command_ok data :
  remainder_ok data -> parser_ok START (_parse_start_command data).
Proof.
  intros [->|(c & r & Hc & ->)]; [raises|].
  unfold _parse_start_command. rewrite index_0; cbn [is_empty rbind].
  destruct (split None (c :: r)) as [|v0 [|v1 [|v2 values]]];
    cbn [length Nat.ltb Nat.leb]; try raises.
  rewrite index_0, index_1. returns.
Qed.

Lemma _parse_stop_command_ok data :
  remainder_ok data -> parser_ok STOP (_parse_stop_command data).
Proof.
  intros [->|(c & r & Hc & ->)]; [raises|].
  unfold _parse_stop_command. rewrite index_0; cbn [is_empty rbind].
  destruct (split None (c :: r)) as [|v0 [|v1 values]];
    cbn [length Nat.eqb negb]; try raises.
  rewrite index_0. returns.
Qed.

Lemma _parse_stopall_command_ok data : parser_ok STOP_ALL (_parse_stopall_command data).
Proof. destruct data; [returns|raises]. Qed.

Lemma _parse_hooks_command_ok data : parser_ok ALL_HOOKS (_parse_hooks_command data).
Proof. destruct data; [returns|raises]. Qed.

Lemma _parse_hook_command_ok data :
  remainder_ok data -> parser_ok HOOK (_parse_hook_command data).
Proof.
  intros [->|(c & r & Hc & ->)]; [raises|].
  unfold _parse_hook_command. rewrite index_0; cbn [is_empty rbind].
  destruct (split_nonspace_head (Some 1) c r Hc) as (name & words & ->).
  cbn [unpack_head rbind].
  destruct (negb _); [raises|].
  destruct words as [|w0 words]; cbn [is_empty]; [raises|].
  rewrite index_0. returns.
Qed.

Lemma _parse_threshold_command_ok data :
  remainder_ok data -> parser_ok THRESHOLD (_parse_threshold_command float_of_str data).
Proof.
  intros [->|(c & r & Hc & ->)]; [raises|].
  unfold _parse_threshold_command. rewrite index_0; cbn [is_empty rbind].
  destruct (split_nonspace_head (Some 1) c r Hc) as (value_str & rest & ->).
  cbn [unpack_head rbind]. unfold pyfloat.
  destruct (float_of_str value_str) as [value|]; cbn [rbind]; [|raises].
  destruct rest; cbn [is_empty negb]; [|raises].
  destruct (float_lt value float_0_0) eqn:H0; cbn [orb]; [raises|].
  destruct (float_lt float_1_0 value) eqn:H1; [raises|].
  left. eexists. split; [reflexivity|]. hnf. eauto.
Qed.

Lemma _parse_help_command_ok : parser_ok HELP _parse_help_command.
Proof. returns. Qed.

Lemma parser_ok_desc kind r :
  parser_ok kind r ->
  (exists desc, rbind r (fun p => Ok (mkCommandDesc kind p)) = Ok desc /\ params_of_kind desc) \/
  (exists msg, rbind r (fun p => Ok (mkCommandDesc kind p)) = Raise (CommandParseError msg)).
Proof.
  intros [(p & -> & Hp)|(msg & ->)]; cbn; eauto.
Qed.

Lemma parse_command_cases command :
  head command = Some 47%N ->
  (exists desc, parse_command float_of_str command = Ok desc /\ params_of_kind desc) \/
  (exists msg, parse_command float_of_str command = Raise (CommandParseError msg)).
Proof.
  destruct command as [|c r]; [done|]. intros [= ->].
  unfold parse_command.
  destruct (split_maxsplit_1 47%N r eq_refl) as (command_name & data & -> & Hdata).
  cbn [unpack_head rbind].
  repeat case_decide;
    eauto using parser_ok_desc, _parse_start_command_ok, _parse_stop_command_ok,
      _parse_stopall_command_ok, _parse_hook_command_ok, _parse_hooks_command_ok,
      _parse_threshold_command_ok, _parse_help_command_ok.
Qed.
End CommandParseFacts.

(** C10. A command that starts with '/' is parsed into a description of one
    of the seven kinds with the parameters of that kind, or [parse_command]
    raises [CommandParseError]: no other exception escapes, and the handler's
    [except CommandParseError] answers the user with the message. *)
Theorem parse_command_raises_only_CommandParseError
    float_of_str str_of_float twitch user command st :
  head command = Some 47%N ->
  (exists desc, parse_command float_of_str command = Ok desc /\ params_of_kind desc) \/
  (exists msg,
     parse_command float_of_str command = Raise (CommandParseError msg) /\
     _process_command float_of_str str_of_float twitch user command st
     = (Finished (Ok tt), with_outbox (outbox st ++ [Notification.mk [user] msg]) st)).
Proof.
  intros Hslash.
  destruct (parse_command_cases float_of_str command Hslash) as [?|(msg & Hmsg)]; [by left|].
  right. exists msg. split; [done|].
  unfold _process_command. rewrite Hmsg. reflexivity.
Qed.

Lemma parse_command_raises_only_CommandParseError_witness :
  head (lit "/stop_all now") = Some 47%N /\
  ((exists desc, parse_command (fun _ => None) (lit "/stop_all now") = Ok desc /\ params_of_kind desc) \/
   (exists msg,
     parse_command (fun _ => None) (lit "/stop_all now") = Raise (CommandParseError msg) /\
     _process_command (fun _ => None) (fun _ => []) (fun _ => Raise StreamNotFoundError)
       (lit "alice") (lit "/stop_all now") (init 3)
     = (Finished (Ok tt),
        with_outbox (outbox (init 3) ++ [Notification.mk [lit "alice"] msg]) (init 3)))).
Proof.
  split; [reflexivity|].
  apply (parse_command_raises_only_CommandParseError (fun _ => None) (fun _ => [])
           (fun _ => Raise StreamNotFoundError) (lit "alice") (lit "/stop_all now") (init 3)).
  reflexivity.
Defined.

(** ** The reconnect budget of [start_session] *)

Section IngestionFacts.
Variable token nickname name : str.
Variable net : nat -> connection.


Lemma attempts_app ev1 ev2 : attempts (ev1 ++ ev2) = attempts ev1 + attempts ev2.
Proof. unfold attempts. by rewrite List.filter_app, length_app. Qed.

Lemma attempts_recv incoming : attempts (_recv_chat_messages incoming) = 0.
Proof.
  induction incoming as [|[data| |] rest IH]; cbn [_recv_chat_messages]; try done.
  destruct (startswith _ _); apply IH.
Qed.

(** Every call of [_start_chat_session] opens one connection. *)
Lemma attempts_start_chat_session i :
  attempts (snd (_start_chat_session token nickname name net i)) = 1.
Proof.
  unfold _start_chat_session. destruct (net i) as [|incoming closed|e]; try done.
  cbn [snd]. rewrite attempts_app. unfold _start. rewrite attempts_app, attempts_recv.
  by destruct closed.
Qed.

Lemma start_chat_session_absorbed i :
  attempt_fails net i -> fst (_start_chat_session token nickname name net i) = Ok tt.
Proof. unfold attempt_fails, _start_chat_session. by destruct (net i). Qed.

Ltac use_attempt i :=
  pose proof (attempts_start_chat_session i) as Hone;
  match goal with
  | H : _start_chat_session _ _ _ _ i = _ |- _ => rewrite H in Hone; cbn [snd] in Hone
  end.

Ltac use_loop :=
  match goal with
  | H : reconnect_loop _ _ _ _ _ _ = _, IH : context [reconnect_loop] |- _ =>
      rewrite H in IH; cbn [fst snd] in IH
  end.

Lemma reconnect_loop_attempts_le n i :
  attempts (snd (reconnect_loop token nickname name net n i)) <= Z.to_nat n.
Proof.
  funelim (reconnect_loop token nickname name net n i); cbn [snd].
  - cbn. lia.
  - use_attempt i. lia.
  - use_attempt i. use_loop.
    rewrite attempts_app. change (attempts (Ev_log ?m :: ?l)) with (attempts l). lia.
Qed.

(** When each of the connections the loop may open fails by the handshake
    or when receiving ends, the loop opens them all and raises. *)
Lemma reconnect_loop_exhausts n i :
  (forall k, i <= k < i + Z.to_nat n -> attempt_fails net k) ->
  fst (reconnect_loop token nickname name net n i)
    = Raise (ObserverError (lit "Websocket connection error")) /\
  attempts (snd (reconnect_loop token nickname name net n i)) = Z.to_nat n.
Proof.
  funelim (reconnect_loop token nickname name net n i); intros Hfail; cbn [fst snd].
  - split; [done|]. cbn. lia.
  - exfalso. pose proof (start_chat_session_absorbed i) as Habs.
    match goal with
    | H : _start_chat_session _ _ _ _ i = _ |- _ => rewrite H in Habs
    end.
    discriminate Habs. apply Hfail. lia.
  - use_attempt i.
    match goal with
    | IH : _ -> _ /\ _ |- _ => destruct IH as [IH1 IH2]; [intros k Hk; apply Hfail; lia|]
    end.
    match goal with
    | H : reconnect_loop _ _ _ _ _ _ = _ |- _ => rewrite H in IH1, IH2; cbn [fst snd] in IH1, IH2
    end.
    split; [done|].
    rewrite attempts_app. change (attempts (Ev_log ?m :: ?l)) with (attempts l). lia.
Qed.
End IngestionFacts.

(** C6. [start_session] opens at most the configured number of connections;
    a handshake failure and an end of reception each use up one of them;
    and when all of them fail so, it ends by raising [ObserverError]. *)
Theorem start_session_reconnect_budget token nickname name net max_reconnect_attempts :
  attempts (snd (start_session token nickname name net max_reconnect_attempts))
    <= Z.to_nat max_reconnect_attempts /\
  ((forall i, i < Z.to_nat max_reconnect_attempts -> attempt_fails net i) ->
   fst (start_session token nickname name net max_reconnect_attempts)
     = Raise (ObserverError (lit "Websocket connection error")) /\
   attempts (snd (start_session token nickname name net max_reconnect_attempts))
     = Z.to_nat max_reconnect_attempts).
Proof.
  unfold start_session. split.
  - apply reconnect_loop_attempts_le.
  - intros Hfail. apply reconnect_loop_exhausts. intros k Hk. apply Hfail. lia.
Qed.

Lemma start_session_reconnect_budget_witness :
  let net := fun i => match i with
                      | 0 => HandshakeFails
                      | 1 => Opens [WS_TEXT (lit "PING :tmi.twitch.tv"); WS_ERROR] false
                      | _ => Opens [] true
                      end in
  (forall i, i < Z.to_nat 3 -> attempt_fails net i) /\
  fst (start_session (lit "oauth:t") (lit "bot") (lit "foo") net 3)
    = Raise (ObserverError (lit "Websocket connection error")) /\
  attempts (snd (start_session (lit "oauth:t") (lit "bot") (lit "foo") net 3)) = 3.
Proof.
  intros net.
  assert (Hfail : forall i, i < Z.to_nat 3 -> attempt_fails net i).
  { intros [|[|i]] _; exact I. }
  split; [exact Hfail|].
  exact (proj2 (start_session_reconnect_budget (lit "oauth:t") (lit "bot") (lit "foo") net 3) Hfail).
Defined.

(** ** The match engine *)

(** The comparison [>=] of floats is inclusive: floats that are [==] pass. *)
Lemma float_eq_ge x y : float_eq x y = true -> float_ge x y = true.
Proof.
  unfold float_eq, float_ge, SFeqb, SFleb.
  destruct x as [sx|sx| |sx mx ex], y as [sy|sy| |sy my ey]; cbn; try done;
    try (by destruct sx); try (by destruct sy); try (by destruct sx, sy).
  destruct sx, sy; try done.
  - destruct (Z.compare_spec ex ey) as [->| |]; try done.
    rewrite Z.compare_refl.
    destruct (Pos.compare_cont Eq mx my) eqn:E; try done.
    apply Pos.compare_eq in E. subst. by rewrite Pos.compare_cont_refl.
  - destruct (Z.compare_spec ex ey) as [->| |]; try done.
    rewrite Z.compare_refl.
    destruct (Pos.compare_cont Eq mx my) eqn:E; try done.
    apply Pos.compare_eq in E. subst. by rewrite Pos.compare_cont_refl.
Qed.

Section MatcherFacts.
Variable ratio : str -> str -> float.
Variable users : PyDict.t User.t.

Lemma _create_tasks_loop_defined message subscribers :
  Forall (hook_defined users) subscribers ->
  _create_tasks_loop ratio users message subscribers
  = Ok (map (meets_threshold ratio users message) subscribers).
Proof.
  induction 1 as [|sub rest (usr & pattern & Husr & Hpat) _ IH]; [done|].
  cbn [_create_tasks_loop map]. unfold meets_threshold at 1.
  rewrite Husr. unfold PyDict.getitem. rewrite Hpat. cbn [rbind].
  by rewrite IH.
Qed.

Lemma passed_subs_filter (f : Subscribe -> bool) subscribers :
  map (fun '(sub, passed) => user sub)
    (List.filter (fun '(sub, passed) => passed) (combine subscribers (map f subscribers)))
  = map user (List.filter f subscribers).
Proof.
  induction subscribers as [|sub rest IH]; [done|].
  cbn [map combine List.filter]. destruct (f sub); cbn [map]; by rewrite IH.
Qed.

Lemma sublist_filter_map (f : Subscribe -> bool) subscribers :
  sublist (map user (List.filter f subscribers)) (map user subscribers).
Proof.
  induction subscribers as [|sub rest IH]; [done|].
  cbn [map List.filter]. destruct (f sub); cbn [map]; by constructor.
Qed.
End MatcherFacts.

(** C7. For a chat message and a list of subscribers (each referring to a
    user and to one of the user's hooks), [match] selects exactly the
    subscribers whose ratio between the message and their own pattern meets
    or exceeds their own threshold, in the order of the input; a ratio equal
    to the threshold passes; a non-empty selection is dispatched as one
    batch and an empty one dispatches nothing. The ratio is a function of
    the message and the pattern. *)
Theorem match_selects_passing_subscribers ratio users data :
  Forall (hook_defined users) (StreamFeedback.subscribers data) ->
  let message := ChatMessage.message (StreamFeedback.chat_message data) in
  let passed :=
    map user (List.filter (meets_threshold ratio users message)
                (StreamFeedback.subscribers data)) in
  match_ ratio users data
    = Ok (match passed with
          | [] => []
          | _ :: _ => [MatcherFeedback.mk (StreamFeedback.streamer_name data)
                         (StreamFeedback.chat_message data) passed]
          end) /\
  sublist passed (map user (StreamFeedback.subscribers data)) /\
  (forall sub usr pattern,
     PyDict.get (user sub) users = Some usr ->
     PyDict.get (hook_name sub) (User.hooks usr) = Some pattern ->
     meets_threshold ratio users message sub
       = float_ge (ratio message pattern) (User.threshold usr) /\
     (float_eq (ratio message pattern) (User.threshold usr) = true ->
      meets_threshold ratio users message sub = true)).
Proof.
  intros Hdef message passed. split; [|split].
  - unfold match_, _create_tasks. fold message.
    rewrite (_create_tasks_loop_defined _ _ _ _ Hdef). cbn [rbind].
    rewrite passed_subs_filter. fold passed. by destruct passed.
  - apply sublist_filter_map.
  - intros sub usr pattern Husr Hpat. unfold meets_threshold. rewrite Husr, Hpat.
    split; [done|]. apply float_eq_ge.
Qed.

Lemma match_selects_passing_subscribers_witness :
  let ratio := fun a b : str => if decide (a = b) then float_1_0 else float_0_0 in
  let alice := User.mk (lit "alice") 1 [] [(lit "alert", lit "giveaway")] float_1_0 0 in
  let bob := User.mk (lit "bob") 2 [] [(lit "alert", lit "hello")] float_0_5 0 in
  let users := [(lit "alice", alice); (lit "bob", bob)] in
  let message := ChatMessage.mk (lit "nick") (lit "giveaway") (lit "0:01:02") in
  let subs := [mkSubscribe (lit "bob") (lit "alert"); mkSubscribe (lit "alice") (lit "alert")] in
  let data := StreamFeedback.mk (lit "foo") message subs in
  Forall (hook_defined users) subs /\
  match_ ratio users data = Ok [MatcherFeedback.mk (lit "foo") message [lit "alice"]].
Proof.
  intros ratio alice bob users message subs data.
  assert (Hdef : Forall (hook_defined users) subs).
  { repeat constructor.
    - exists bob, (lit "hello"). split; reflexivity.
    - exists alice, (lit "giveaway"). split; reflexivity. }
  split; [exact Hdef|].
  exact (proj1 (match_selects_passing_subscribers ratio users data Hdef)).
Defined.

(** ** The dispatcher *)

Section SenderFacts.
Variable server : Z -> nat -> response.

(** As long as the answers are 429 the request is repeated after the same
    pause, and the run has not ended: nothing is reported. *)
Lemma _post_rate_limited chat_id n fuel i :
  (forall k, k < n -> server chat_id (i + k) = Status 429) ->
  ended (_post server (n + fuel) chat_id i) = ended (_post server fuel chat_id (i + n)) /\
  trace (_post server (n + fuel) chat_id i)
    = concat (repeat [Ev_post chat_id; Ev_sleep_0_35] n)
      ++ trace (_post server fuel chat_id (i + n)).
Proof.
  revert i. induction n as [|n IH]; intros i H429.
  - by rewrite Nat.add_0_r.
  - cbn [Nat.add _post]. specialize (H429 0 ltac:(lia)) as H0.
    rewrite Nat.add_0_r in H0. rewrite H0. cbn [Z.eqb Pos.eqb ended trace].
    destruct (IH (S i)) as [IH1 IH2].
    { intros k Hk. replace (S i + k) with (i + S k) by lia. apply H429. lia. }
    replace (i + S n) with (S i + n) by lia. rewrite IH1, IH2. done.
Qed.

Lemma _post_still_retrying chat_id fuel i :
  (forall k, k < fuel -> server chat_id (i + k) = Status 429) ->
  ended (_post server fuel chat_id i) = None.
Proof.
  intros H429. destruct (_post_rate_limited chat_id fuel 0 i H429) as [H _].
  by rewrite Nat.add_0_r in H.
Qed.

Lemma _post_client_error chat_id fuel i status :
  server chat_id i = Status status ->
  (400 <= status)%Z -> status <> 429%Z ->
  _post server (S fuel) chat_id i
  = mkRun (Some (Raise (ObserverError (lit "Post error: " ++ str_of_Z status))))
          [Ev_post chat_id].
Proof.
  intros Hs Hge Hne. cbn [_post]. rewrite Hs.
  destruct (Z.eqb_spec status 200); [lia|].
  destruct (Z.eqb_spec status 429); [lia|].
  destruct (Z.geb_spec status 400); [done|lia].
Qed.

Lemma _post_ok chat_id fuel i :
  server chat_id i = Status 200 ->
  _post server (S fuel) chat_id i = mkRun (Some (Ok tt)) [Ev_post chat_id].
Proof. intros Hs. cbn [_post]. by rewrite Hs. Qed.

(** A run reads only the answers to its own recipient. *)
Lemma _post_own_answers server' chat_id fuel i :
  (forall k, server chat_id k = server' chat_id k) ->
  _post server fuel chat_id i = _post server' fuel chat_id i.
Proof.
  intros Hsame. revert i. induction fuel as [|fuel IH]; intros i; [done|].
  cbn [_post]. rewrite <- Hsame. destruct (server chat_id i) as [status|]; [|done].
  by rewrite IH.
Qed.

Lemma gather_ended runs results :
  gather runs = Some results -> map ended runs = map Some results.
Proof.
  revert results. induction runs as [|r runs IH]; intros results; cbn [gather].
  - by intros [= <-].
  - destruct (ended r) as [x|] eqn:Hx; [|done].
    destruct (gather runs) as [xs|]; [|done]. intros [= <-].
    cbn [map]. by rewrite Hx, (IH xs).
Qed.

Lemma exceptions_length results :
  length (exceptions results)
  = length (List.filter (fun r => match r with Raise _ => true | Ok _ => false end) results).
Proof.
  unfold exceptions. induction results as [|[a|e] results IH]; cbn; [done|done|].
  by rewrite IH.
Qed.
(** [gather] returns once every run has ended, and not before. *)
Lemma gather_all_ended runs :
  Forall (fun r => ended r <> None) runs ->
  exists results, gather runs = Some results /\ map ended runs = map Some results.
Proof.
  induction 1 as [|r runs Hr _ (results & Hg & Hm)]; [by exists []|].
  destruct (ended r) as [x|] eqn:Hx; [|done].
  exists (x :: results). cbn [gather map]. by rewrite Hx, Hg, Hm.
Qed.

Lemma gather_not_ended runs r :
  r ∈ runs -> ended r = None -> gather runs = None.
Proof.
  intros Hin Hr. induction runs as [|r' runs IH]; [by apply elem_of_nil in Hin|].
  apply elem_of_cons in Hin as [<-|Hin]; cbn [gather].
  - by rewrite Hr.
  - rewrite (IH Hin). by destruct (ended r').
Qed.

(** Nothing is logged for a batch while one of its sends has not ended. *)
Lemma _dispatch_data_pending fuel users user :
  user ∈ users -> ended (_post server fuel (User.chat_id user) 0) = None ->
  snd (_dispatch_data server fuel users) = None.
Proof.
  intros Hin Hr. unfold _dispatch_data. cbn [snd].
  rewrite (gather_not_ended _ (_post server fuel (User.chat_id user) 0)); [done| |done].
  apply list_elem_of_fmap. by exists user.
Qed.
End SenderFacts.

(** C8, as stated, fails: in a batch of two, the first recipient is refused
    (403) and its send ends with an error at its first request, while the
    second is answered 429 for ever; however long the batch runs, [gather]
    has not returned and no failure is logged. *)
Lemma failure_not_logged_while_rate_limited :
  let server := fun (chat_id : Z) (i : nat) =>
    if (chat_id =? 1)%Z then Status 403 else Status 429 in
  let users := [User.__init__ (lit "a") 1 [] []; User.__init__ (lit "b") 2 [] []] in
  (forall fuel,
     _post server (S fuel) 1 0
     = mkRun (Some (Raise (ObserverError (lit "Post error: 403")))) [Ev_post 1]) /\
  (forall fuel, snd (_dispatch_data server fuel users) = None).
Proof.
  intros server users. split; [done|]. intros fuel.
  apply (_dispatch_data_pending server fuel users (User.__init__ (lit "b") 2 [] [])).
  - apply list_elem_of_further, list_elem_of_here.
  - by apply _post_still_retrying.
Qed.

(** C8, amended. A recipient answered with status 429 is asked again after
    the same pause for as long as the answer is 429, and nothing is reported
    for it meanwhile; an answer with another status of 400 or more ends that
    one send with an [ObserverError]. The run of each recipient of a batch
    is that of its own [_post], which reads only the answers to that
    recipient. The failures of a batch are logged once every send of the
    batch has ended, one record for each send that raised, in the order of
    the recipients; while a send has not ended nothing is logged, so that a
    recipient answered 429 for ever keeps the failures of the others from
    being logged at all. *)
Theorem dispatch_rate_limit_and_isolation server :
  (forall chat_id n,
     (forall k, k < n -> server chat_id k = Status 429) ->
     (forall fuel, fuel <= n -> ended (_post server fuel chat_id 0) = None) /\
     (forall fuel,
        ended (_post server (n + fuel) chat_id 0) = ended (_post server fuel chat_id n) /\
        trace (_post server (n + fuel) chat_id 0)
          = concat (repeat [Ev_post chat_id; Ev_sleep_0_35] n)
            ++ trace (_post server fuel chat_id n))) /\
  (forall chat_id i fuel status,
     server chat_id i = Status status -> (400 <= status)%Z -> status <> 429%Z ->
     _post server (S fuel) chat_id i
     = mkRun (Some (Raise (ObserverError (lit "Post error: " ++ str_of_Z status))))
             [Ev_post chat_id]) /\
  (forall fuel users,
     let runs := fst (_dispatch_data server fuel users) in
     runs = map (fun user => _post server fuel (User.chat_id user) 0) users /\
     (Forall (fun r => ended r <> None) runs ->
      exists results,
        map ended runs = map Some results /\
        snd (_dispatch_data server fuel users) = Some (exceptions results) /\
        length (exceptions results)
          = length (List.filter (fun r => match r with Raise _ => true | Ok _ => false end)
                      results)) /\
     (forall user,
        user ∈ users -> ended (_post server fuel (User.chat_id user) 0) = None ->
        snd (_dispatch_data server fuel users) = None)) /\
  (forall users user,
     user ∈ users -> (forall k, server (User.chat_id user) k = Status 429) ->
     forall fuel, snd (_dispatch_data server fuel users) = None) /\
  (forall server' chat_id fuel i,
     (forall k, server chat_id k = server' chat_id k) ->
     _post server fuel chat_id i = _post server' fuel chat_id i).
Proof.
  split; [|split; [|split; [|split]]].
  - intros chat_id n H429. split.
    + intros fuel Hfuel. apply _post_still_retrying. intros k Hk. apply H429. lia.
    + intros fuel. by apply (_post_rate_limited server chat_id n fuel 0).
  - intros. by apply _post_client_error.
  - intros fuel users runs. split; [done|]. split.
    + intros Hall. destruct (gather_all_ended _ Hall) as (results & Hg & Hm).
      exists results. split; [done|]. split.
      * unfold runs, _dispatch_data in *. cbn [fst snd] in *. by rewrite Hg.
      * apply exceptions_length.
    + intros user. apply _dispatch_data_pending.
  - intros users user Hin H429 fuel. apply (_dispatch_data_pending server fuel users user Hin).
    apply _post_still_retrying. intros k _. apply H429.
  - intros. by apply _post_own_answers.
Qed.

(** A batch of three: the second recipient is refused (403), the third is
    rate-limited twice and then accepted. *)
Example dispatch_three_recipients :
  let server := fun (chat_id : Z) (i : nat) =>
    if (chat_id =? 2)%Z then Status 403
    else if (chat_id =? 3)%Z && (i <? 2) then Status 429
    else Status 200 in
  let users := [User.__init__ (lit "a") 1 [] []; User.__init__ (lit "b") 2 [] [];
                User.__init__ (lit "c") 3 [] []] in
  map delivered (fst (_dispatch_data server 5 users)) = [true; false; true] /\
  snd (_dispatch_data server 5 users) = Some [ObserverError (lit "Post error: 403")] /\
  trace <$> fst (_dispatch_data server 5 users) !! 2
    = Some [Ev_post 3; Ev_sleep_0_35; Ev_post 3; Ev_sleep_0_35; Ev_post 3].
Proof. vm_compute. done. Qed.

(** ** The start gate, the sweep and a second removal, on the scenarios *)

(** C1 (the code differs). The gate of a start command is the lock of the
    user object, and the two user objects hold the same lock, the one made
    when the class body of [User] ran: while the start command of [alice]
    holds it (awaiting its lookup), the start command of [bob] waits for
    it, and proceeds once it is released. *)
Theorem start_gate_shared_between_users :
  exists alice bob held,
    PyDict.get (lit "alice") (_users Scenario.two_users) = Some alice /\
    PyDict.get (lit "bob") (_users Scenario.two_users) = Some bob /\
    User.start_lock alice = User.start_lock bob /\
    Lock_acquire (User.start_lock alice) Scenario.two_users = Some held /\
    fst (_process_command Scenario.float_of_str Scenario.str_of_float Scenario.live
           (lit "bob") (lit "/start bar alert") held)
      = Waiting (User.start_lock alice) /\
    fst (_process_command Scenario.float_of_str Scenario.str_of_float Scenario.live
           (lit "bob") (lit "/start bar alert") (Lock_release (User.start_lock alice) held))
      = Finished (Ok tt).
Proof. do 3 eexists. vm_compute. repeat split; reflexivity. Qed.

(** C2 (the code differs). Both sessions are reported not found in one pass:
    the first is torn down, then the iteration over the registry, which the
    teardown has shrunk, raises [RuntimeError]; the second session is not
    handled. *)
Theorem sweep_aborts_after_first_teardown :
  let r := _streams_ping_handle [Raise StreamNotFoundError; Raise StreamNotFoundError]
             Scenario.two_sessions in
  PyDict.keys (_streamers Scenario.two_sessions) = [lit "foo"; lit "bar"] /\
  fst r = Raise (RuntimeError (lit "dictionary changed size during iteration")) /\
  (PyDict.get (lit "foo") (_streamers (snd r)) = None /\
   tasks (snd r) !! 0 = Some (mkTask 0 true) /\
   user_tracks (snd r) (lit "alice") (lit "foo") = None /\
   last (outbox (snd r)) = Some (Notification.mk [lit "alice"] (lit "foo stream closed"))) /\
  (PyDict.get (lit "bar") (_streamers (snd r)) = Some (mkStreamContext 1 1) /\
   tasks (snd r) !! 1 = Some (mkTask 1 false) /\
   user_tracks (snd r) (lit "bob") (lit "bar") = Some 1).
Proof. vm_compute. repeat split; reflexivity. Qed.

(** The same with a single session: the pass raises once it has torn the
    session down. *)
Example sweep_raises_after_last_teardown :
  let r := _streams_ping_handle [Raise StreamNotFoundError] Scenario.one_session in
  fst r = Raise (RuntimeError (lit "dictionary changed size during iteration")) /\
  _streamers (snd r) = [].
Proof. vm_compute. repeat split; reflexivity. Qed.

(** A failed lookup that is not "not found" is logged and the pass goes on. *)
Example sweep_logs_other_failures :
  let r := _streams_ping_handle [Raise (ObserverError []); Ok (mkStreamerDesc [] [] [])]
             Scenario.two_sessions in
  fst r = Ok tt /\ logged (snd r) = [ObserverError []] /\
  _streamers (snd r) = _streamers Scenario.two_sessions.
Proof. vm_compute. repeat split; reflexivity. Qed.


(** ** Python dictionaries *)

Module PyDictFacts.
Section Facts.
Import PyDict.
Context {V : Type}.
Implicit Types (d : PyDict.t V) (k : str) (v : V).

Lemma get_None_keys k d : get k d = None <-> k ∉ keys d.
Proof.
  induction d as [|[k' v'] d IH]; cbn.
  - split; [intros _; apply not_elem_of_nil|done].
  - rewrite not_elem_of_cons. case_decide; subst; [naive_solver|].
    rewrite IH. naive_solver.
Qed.

Lemma get_Some_keys k d v : get k d = Some v -> k ∈ keys d.
Proof.
  intros H. destruct (decide (k ∈ keys d)) as [|Hn]; [done|].
  apply get_None_keys in Hn. congruence.
Qed.

Lemma get_Some_elem k d v : get k d = Some v -> (k, v) ∈ d.
Proof.
  induction d as [|[k' v'] d IH]; cbn; [done|].
  case_decide; subst.
  - intros [= ->]. apply list_elem_of_here.
  - intros H'. apply list_elem_of_further. by apply IH.
Qed.

Lemma get_Some_values k d v : get k d = Some v -> v ∈ values d.
Proof.
  intros H. apply get_Some_elem in H. unfold values.
  apply list_elem_of_fmap. by exists (k, v).
Qed.

Lemma elem_get k d v : wf d -> (k, v) ∈ d -> get k d = Some v.
Proof.
  unfold wf. induction d as [|[k' v'] d IH]; cbn; [by intros _ ?%elem_of_nil|].
  intros [Hk' Hd]%NoDup_cons [Heq|Hin]%elem_of_cons.
  - injection Heq as -> ->. by rewrite decide_True.
  - case_decide; subst; [|by apply IH].
    exfalso. apply Hk'. unfold keys. apply list_elem_of_fmap. by exists (k, v).
Qed.

Lemma contains_true k d : contains k d = true <-> is_Some (get k d).
Proof. unfold contains. destruct (get k d); split; (done || by intros [??]). Qed.

Lemma contains_false k d : contains k d = false <-> get k d = None.
Proof. unfold contains. by destruct (get k d). Qed.

Lemma get_set k k' v d :
  get k' (set k v d) = if decide (k = k') then Some v else get k' d.
Proof.
  induction d as [|[k0 v0] d IH]; cbn.
  - by case_decide.
  - destruct (decide (k0 = k)) as [->|Hne]; cbn.
    + by repeat case_decide.
    + rewrite IH. repeat case_decide; congruence.
Qed.

Lemma keys_set k v d :
  keys (set k v d) = if contains k d then keys d else keys d ++ [k].
Proof.
  unfold contains, keys. induction d as [|[k0 v0] d IH]; cbn; [done|].
  destruct (decide (k0 = k)) as [->|Hne]; cbn; [done|].
  rewrite IH. by destruct (get k d).
Qed.

Lemma wf_set k v d : wf d -> wf (set k v d).
Proof.
  unfold wf. rewrite keys_set. destruct (contains k d) eqn:E; [done|].
  intros H. apply NoDup_app. split; [done|]. split; [|apply NoDup_singleton].
  intros x Hx ->%list_elem_of_singleton.
  apply contains_false, get_None_keys in E. done.
Qed.

Lemma del_is_Some k d : is_Some (del k d) <-> is_Some (get k d).
Proof.
  induction d as [|[k0 v0] d IH]; cbn.
  - split; by intros [??].
  - case_decide; [split; eauto|].
    rewrite <- IH. destruct (del k d); split; intros [??]; eauto; done.
Qed.


Lemma keys_del k d d' : del k d = Some d' -> forall x, x ∈ keys d' -> x ∈ keys d.
Proof.
  revert d'. induction d as [|[k0 v0] d IH]; intros d'; cbn; [done|].
  case_decide.
  - intros [= <-] x Hx. by apply list_elem_of_further.
  - destruct (del k d) as [r|]; [|done]. intros [= <-] x. cbn.
    rewrite !elem_of_cons. naive_solver.
Qed.

Lemma wf_del k d d' : wf d -> del k d = Some d' -> wf d'.
Proof.
  unfold wf. revert d'. induction d as [|[k0 v0] d IH]; intros d'; cbn; [done|].
  intros [Hk0 Hd]%NoDup_cons. case_decide.
  - by intros [= <-].
  - destruct (del k d) as [r|] eqn:E; [|done]. intros [= <-]. cbn.
    apply NoDup_cons. split; [|by apply IH].
    intros Hin. apply Hk0. by eapply keys_del.
Qed.

Lemma get_del k k' d d' :
  wf d -> del k d = Some d' ->
  get k' d' = if decide (k = k') then None else get k' d.
Proof.
  unfold wf. revert d'. induction d as [|[k0 v0] d IH]; intros d'; cbn; [done|].
  intros [Hk0 Hd]%NoDup_cons. destruct (decide (k0 = k)) as [->|Hne].
  - intros [= <-]. repeat case_decide; subst; try done.
    by apply get_None_keys.
  - destruct (del k d) as [r|] eqn:E; [|done]. intros [= <-]. cbn.
    rewrite (IH r Hd eq_refl). repeat case_decide; congruence.
Qed.

Lemma length_del k d d' : del k d = Some d' -> length d = S (length d').
Proof.
  revert d'. induction d as [|[k0 v0] d IH]; intros d'; cbn; [done|].
  case_decide; [by intros [= <-]|].
  destruct (del k d) as [r|]; [|done]. intros [= <-]. cbn. by rewrite (IH r).
Qed.

Lemma is_empty_get (d : PyDict.t V) k : is_empty d = true -> get k d = None.
Proof. by destruct d. Qed.
End Facts.
End PyDictFacts.

(** ** The consistency invariant: generalities *)

Section InvariantBasics.
Import PyDictFacts.
Implicit Types (st : ActivityObserver) (u n : str) (P Q : str -> str -> Prop).

Lemma inv_gen_mono P P' Q Q' st :
  (forall u n, P u n -> P' u n) -> (forall u n, Q u n -> Q' u n) ->
  inv_gen P Q st -> inv_gen P' Q' st.
Proof.
  intros HP HQ [].
  constructor; eauto.
Qed.

(** The invariant reads the users, the registry, the sessions and the
    tasks only. *)
Lemma inv_gen_frame P Q st st' :
  _users st' = _users st -> _streamers st' = _streamers st ->
  sessions st' = sessions st -> tasks st' = tasks st ->
  inv_gen P Q st -> inv_gen P Q st'.
Proof.
  intros Hu Hr Hs Ht [].
  constructor; unfold user_tracks, active_session in *; rewrite ?Hu, ?Hr, ?Hs, ?Ht; done.
Qed.

Lemma init_inv max_reconnects : observer_inv (init max_reconnects).
Proof.
  constructor; cbn; try done; try apply NoDup_nil_2.
Qed.

Lemma active_session_registry st n s sess :
  active_session st n = Some (s, sess) <->
  exists ctx, PyDict.get n (_streamers st) = Some ctx /\ session ctx = s /\
              sessions st !! s = Some sess.
Proof.
  unfold active_session. split.
  - destruct (PyDict.get n (_streamers st)) as [ctx|]; [|done].
    destruct (sessions st !! session ctx) eqn:E; [|done]. intros [= <- <-]. eauto.
  - intros (ctx & -> & <- & ->). done.
Qed.

Lemma inv_active P Q st n ctx :
  inv_gen P Q st -> PyDict.get n (_streamers st) = Some ctx ->
  exists sess, active_session st n = Some (session ctx, sess) /\
    StreamSession._name sess = n /\ PyDict.wf (StreamSession._subs sess) /\
    (forall u sub, PyDict.get u (StreamSession._subs sess) = Some sub -> user sub = u).
Proof.
  intros Hinv Hctx. destruct (inv_registry _ _ _ Hinv n ctx Hctx) as (_ & sess & Hs & ?).
  exists sess. split; [|done]. apply active_session_registry. eauto.
Qed.

(** Two registered broadcasters never share a session. *)
Lemma inv_session_inj P Q st n n' s sess sess' :
  inv_gen P Q st ->
  active_session st n = Some (s, sess) -> active_session st n' = Some (s, sess') ->
  n = n'.
Proof.
  intros Hinv (ctx & Hctx & <- & Hs)%active_session_registry
    (ctx' & Hctx' & Heq & Hs')%active_session_registry.
  destruct (inv_registry _ _ _ Hinv n ctx Hctx) as (_ & x & Hx & <- & _).
  destruct (inv_registry _ _ _ Hinv n' ctx' Hctx') as (_ & x' & Hx' & <- & _).
  rewrite Heq in Hx'. congruence.
Qed.

Lemma user_tracks_Some st u n s :
  user_tracks st u n = Some s <->
  exists usr, PyDict.get u (_users st) = Some usr /\
              PyDict.get n (User.streamers usr) = Some s.
Proof.
  unfold user_tracks. destruct (PyDict.get u (_users st)) as [usr|]; [|naive_solver].
  naive_solver.
Qed.
End InvariantBasics.
(** ** Handlers that leave the subscriptions alone *)

Section PlainHandlers.
Import PyDictFacts.
Implicit Types (st : ActivityObserver) (u n : str) (P Q : str -> str -> Prop).

(** Rewriting fields of a user object other than [streamers]. *)
Lemma inv_store_user_fields P Q st st' u usr usr' :
  _users st' = PyDict.set u usr' (_users st) ->
  _streamers st' = _streamers st -> sessions st' = sessions st -> tasks st' = tasks st ->
  inv_gen P Q st ->
  PyDict.get u (_users st) = Some usr ->
  User.name usr' = User.name usr ->
  User.streamers usr' = User.streamers usr ->
  User.start_lock usr' = User.start_lock usr ->
  inv_gen P Q st'.
Proof.
  intros Hus Hr Hs Ht Hinv Hu Hname Hstr Hlock.
  assert (Htracks : forall u' n', user_tracks st' u' n' = user_tracks st u' n').
  { intros u' n'. unfold user_tracks. rewrite Hus, get_set.
    case_decide; subst; [|done]. by rewrite Hu, Hstr. }
  assert (Hactive : forall n', active_session st' n' = active_session st n').
  { intros n'. unfold active_session. by rewrite Hr, Hs. }
  destruct Hinv.
  constructor.
  - rewrite Hus. by apply wf_set.
  - by rewrite Hr.
  - intros u' usr0. rewrite Hus, get_set. case_decide; subst; [|by eauto].
    intros [= <-]. rewrite Hname, Hstr, Hlock. eauto.
  - intros n' ctx. rewrite Hr, Hs, Ht. eauto.
  - intros n' s sess u'. rewrite Hactive, Htracks. eauto.
  - intros u' n' s. rewrite Htracks. setoid_rewrite Hactive. eauto.
Qed.

Lemma _notify_run u msg st :
  _notify u msg st = (Ok tt, with_outbox (outbox st ++ [Notification.mk [u] msg]) st).
Proof. done. Qed.

Lemma _get_user_inv name chat_id st :
  observer_inv st -> observer_inv (snd (_get_user name chat_id st)).
Proof.
  intros Hinv. unfold _get_user, bind, gets, modify, ret. cbn.
  destruct (PyDict.contains name (_users st)) eqn:Hc; cbn; [done|].
  apply contains_false in Hc.
  assert (Htracks : forall u' n' s,
    user_tracks (with_users (PyDict.set name
        (User.__init__ name chat_id PyDict.empty PyDict.empty) (_users st)) st) u' n' = Some s
    <-> user_tracks st u' n' = Some s).
  { intros u' n' s. unfold user_tracks. cbn. rewrite get_set.
    case_decide; subst; [|done]. rewrite Hc. done. }
  destruct Hinv. constructor; cbn.
  - by apply wf_set.
  - done.
  - intros u' usr0. rewrite get_set. case_decide; subst; [|by eauto].
    intros [= <-]. cbn. repeat split; try done. apply NoDup_nil_2.
  - done.
  - intros n' s sess u' Ha Hc' Hq. apply Htracks. eauto.
  - intros u' n' s Ht Hp. apply Htracks in Ht. eauto.
Qed.

Lemma registered_get st u : registered st u <-> exists usr, PyDict.get u (_users st) = Some usr.
Proof. unfold registered. rewrite contains_true. done. Qed.

Lemma _process_hook_command_inv P Q u hook_name hook_str st :
  inv_gen P Q st -> inv_gen P Q (snd (_process_hook_command u hook_name hook_str st)).
Proof.
  intros Hinv. unfold _process_hook_command, bind, deref_user.
  destruct (PyDict.get u (_users st)) as [usr|] eqn:Hu; [|done].
  destruct (PyDict.contains hook_name (User.hooks usr)); cbn;
    by eapply (inv_store_user_fields _ _ st _ u usr).
Qed.

Lemma _process_threshold_command_inv P Q str_of_float u x st :
  inv_gen P Q st -> inv_gen P Q (snd (_process_threshold_command str_of_float u x st)).
Proof.
  intros Hinv. unfold _process_threshold_command, bind, deref_user. cbn.
  destruct (PyDict.get u (_users st)) as [usr|] eqn:Hu; cbn.
  - by eapply (inv_store_user_fields _ _ st _ u usr).
  - by eapply (inv_gen_frame _ _ st).
Qed.

Lemma _process_hooks_command_inv P Q u st :
  inv_gen P Q st -> inv_gen P Q (snd (_process_hooks_command u st)).
Proof.
  intros Hinv. unfold _process_hooks_command, bind, deref_user.
  destruct (PyDict.get u (_users st)) as [usr|] eqn:Hu; [|done].
  destruct (is_empty (User.hooks usr)); by eapply (inv_gen_frame _ _ st).
Qed.
End PlainHandlers.
(** ** Removing one subscription *)

Section Unsubscribe.
Import PyDictFacts.
Implicit Types (st : ActivityObserver) (u n : str) (P Q : str -> str -> Prop).

(** The session side: [u] leaves the subscribers of the session of [n],
    and the session leaves the registry if nobody is left. *)
Lemma inv_unsubscribe P st st' u n s sess subs' :
  inv_gen P (fun _ _ => False) st ->
  active_session st n = Some (s, sess) ->
  PyDict.del u (StreamSession._subs sess) = Some subs' ->
  _users st' = _users st ->
  sessions st' = <[s := StreamSession.with_subs subs' sess]> (sessions st) ->
  (if is_empty subs' then PyDict.del n (_streamers st) = Some (_streamers st')
   else _streamers st' = _streamers st) ->
  length (tasks st') = length (tasks st) ->
  inv_gen (fun u' n' => P u' n' \/ (u' = u /\ n' = n)) (fun _ _ => False) st' /\
  (forall n', n' <> n -> active_session st' n' = active_session st n') /\
  (forall s' sess', active_session st' n = Some (s', sess') ->
     s' = s /\ sess' = StreamSession.with_subs subs' sess /\ is_empty subs' = false).
Proof.
  intros Hinv Hact Hdel Hus Hss Hreg Hts.
  pose proof Hact as (ctx & Hctx & Hs & Hsess)%active_session_registry.
  destruct (inv_active _ _ _ _ _ Hinv Hctx) as (sess0 & Hact0 & Hname & Hwf & Hkeys).
  rewrite Hs, Hact in Hact0. injection Hact0 as <-.
  assert (Hslt : s < length (sessions st)) by by eapply lookup_lt_Some.
  assert (Hget : forall n', n' <> n ->
            PyDict.get n' (_streamers st') = PyDict.get n' (_streamers st)).
  { intros n' Hne. destruct (is_empty subs'); [|by rewrite Hreg].
    rewrite (get_del n n' _ _ (inv_streamers_wf _ _ _ Hinv) Hreg).
    by rewrite decide_False. }
  assert (Hother : forall n', n' <> n -> active_session st' n' = active_session st n').
  { intros n' Hne. unfold active_session. rewrite (Hget n' Hne).
    destruct (PyDict.get n' (_streamers st)) as [ctx'|] eqn:Hctx'; [|done].
    rewrite Hss. destruct (decide (session ctx' = s)) as [Heq|Hneq].
    - exfalso. apply Hne.
      destruct (inv_active _ _ _ _ _ Hinv Hctx') as (x & Hx & _).
      rewrite Heq in Hx. by eapply inv_session_inj.
    - by rewrite list_lookup_insert_ne. }
  assert (Hsame : forall s' sess', active_session st' n = Some (s', sess') ->
            s' = s /\ sess' = StreamSession.with_subs subs' sess /\ is_empty subs' = false).
  { intros s' sess'. unfold active_session.
    destruct (is_empty subs') eqn:Hemp.
    - rewrite (get_del n n _ _ (inv_streamers_wf _ _ _ Hinv) Hreg).
      by rewrite decide_True.
    - rewrite Hreg, Hctx, Hs, Hss, list_lookup_insert_eq by done.
      by intros [= <- <-]. }
  split; [|done].
  constructor.
  - rewrite Hus. apply Hinv.
  - destruct (is_empty subs'); [|rewrite Hreg; apply Hinv].
    eapply wf_del; [apply Hinv|done].
  - rewrite Hus. apply Hinv.
  - intros n' ctx' Hctx'. split.
    { apply lookup_lt_is_Some. rewrite Hts. apply lookup_lt_is_Some.
      destruct (decide (n' = n)) as [->|Hne].
      - destruct (is_empty subs').
        + rewrite (get_del n n _ _ (inv_streamers_wf _ _ _ Hinv) Hreg) in Hctx'.
          by rewrite decide_True in Hctx'.
        + rewrite Hreg, Hctx in Hctx'. injection Hctx' as <-.
          apply (inv_registry _ _ _ Hinv n ctx Hctx).
      - rewrite (Hget n' Hne) in Hctx'. apply (inv_registry _ _ _ Hinv n' ctx' Hctx'). }
    destruct (decide (n' = n)) as [->|Hne].
    + assert (Ha : exists x, active_session st' n = Some (session ctx', x)).
      { unfold active_session. rewrite Hctx'. rewrite Hss.
        destruct (is_empty subs') eqn:Hemp.
        - rewrite (get_del n n _ _ (inv_streamers_wf _ _ _ Hinv) Hreg) in Hctx'.
          by rewrite decide_True in Hctx'.
        - rewrite Hreg, Hctx in Hctx'. injection Hctx' as <-.
          rewrite Hs, list_lookup_insert_eq by done. eauto. }
      destruct Ha as (x & Hx). pose proof (Hsame _ _ Hx) as (Heq & -> & _).
      apply active_session_registry in Hx as (? & ? & ? & Hx).
      eexists. split; [by rewrite Heq in *|]. cbn. split; [done|]. split.
      * by eapply wf_del.
      * intros u' sub. rewrite (get_del u u' _ _ Hwf Hdel). case_decide; [done|eauto].
    + rewrite (Hget n' Hne) in Hctx'.
      destruct (inv_active _ _ _ _ _ Hinv Hctx') as (x & Hx & ?).
      rewrite <- (Hother n' Hne) in Hx.
      apply active_session_registry in Hx as (? & ? & ? & Hx).
      exists x. split; [congruence|done].
  - intros n' s' sess' u' Ha Hc _.
    unfold user_tracks. rewrite Hus. fold (user_tracks st u' n').
    destruct (decide (n' = n)) as [->|Hne].
    + destruct (Hsame _ _ Ha) as (-> & -> & _). cbn in Hc.
      apply contains_true in Hc. rewrite (get_del u u' _ _ Hwf Hdel) in Hc.
      case_decide; [by destruct Hc|].
      eapply (inv_sub_to_user _ _ _ Hinv); [done| |tauto]. by apply contains_true.
    + rewrite (Hother n' Hne) in Ha. eapply (inv_sub_to_user _ _ _ Hinv); eauto.
  - intros u' n' s' Ht Hp.
    unfold user_tracks in Ht. rewrite Hus in Ht. fold (user_tracks st u' n') in Ht.
    destruct (inv_user_to_sub _ _ _ Hinv u' n' s' Ht) as (x & Hx & Hc); [tauto|].
    destruct (decide (n' = n)) as [->|Hne].
    + rewrite Hact in Hx. injection Hx as <- <-.
      assert (Hne : u <> u') by (intros ->; tauto).
      assert (Hc' : PyDict.contains u' subs' = true).
      { apply contains_true. rewrite (get_del u u' _ _ Hwf Hdel), decide_False by done.
        by apply contains_true. }
      exists (StreamSession.with_subs subs' sess). split; [|done].
      unfold active_session.
      destruct (is_empty subs') eqn:Hemp.
      { apply contains_true in Hc'. rewrite (is_empty_get _ _ Hemp) in Hc'. by destruct Hc'. }
      rewrite Hreg, Hctx, Hs, Hss, list_lookup_insert_eq by done. done.
    + exists x. by rewrite (Hother n' Hne).
Qed.
End Unsubscribe.
Section UnsubscribeRun.
Import PyDictFacts.
Implicit Types (st : ActivityObserver) (u n : str) (P Q : str -> str -> Prop).

Lemma unsubscribe_run st u s usr sess subs' :
  PyDict.get u (_users st) = Some usr ->
  sessions st !! s = Some sess ->
  PyDict.del (User.name usr) (StreamSession._subs sess) = Some subs' ->
  unsubscribe s u st
  = (Ok tt, with_sessions (<[s := StreamSession.with_subs subs' sess]> (sessions st)) st).
Proof.
  intros Hu Hs Hdel. unfold unsubscribe, bind, deref_user, deref_session, lift.
  rewrite Hu, Hs. unfold PyDict.delitem. rewrite Hdel. done.
Qed.

(** What [unsubscribe_and_reap] does for a subscribed user. *)
Lemma unsubscribe_and_reap_run st u n usr ctx sess subs' T reg' :
  PyDict.get u (_users st) = Some usr ->
  User.name usr = u ->
  PyDict.get n (_streamers st) = Some ctx ->
  sessions st !! session ctx = Some sess ->
  PyDict.del u (StreamSession._subs sess) = Some subs' ->
  tasks st !! task ctx = Some T ->
  PyDict.del n (_streamers st) = Some reg' ->
  unsubscribe_and_reap u n st
  = (Ok tt,
     let st1 := with_sessions
                  (<[session ctx := StreamSession.with_subs subs' sess]> (sessions st)) st in
     if is_empty subs' then
       with_streamers reg'
         (with_tasks (<[task ctx := mkTask (runs T) true]> (tasks st)) st1)
     else st1).
Proof.
  intros Hu Hname Hctx Hs Hdel HT Hreg.
  unfold unsubscribe_and_reap, bind at 1, gets. unfold bind at 1, lift, PyDict.getitem.
  rewrite Hctx. unfold bind at 1.
  rewrite (unsubscribe_run st u (session ctx) usr sess subs') by (by rewrite ?Hname).
  unfold bind at 1, has_subscribers, bind at 1, deref_session. cbn [sessions with_sessions].
  rewrite list_lookup_insert_eq by (by eapply lookup_lt_Some).
  cbn [ret StreamSession._subs StreamSession.with_subs]. rewrite negb_involutive.
  destruct (is_empty subs'); [|done].
  unfold bind, Task_cancel, gets, lift, PyDict.delitem, modify. cbn. rewrite HT. cbn. rewrite Hreg. done.
Qed.

Lemma unsubscribe_and_reap_spec P st u n s :
  inv_gen P (fun _ _ => False) st -> ~ P u n ->
  user_tracks st u n = Some s ->
  exists st' sess subs',
    unsubscribe_and_reap u n st = (Ok tt, st') /\
    active_session st n = Some (s, sess) /\
    PyDict.del u (StreamSession._subs sess) = Some subs' /\
    _users st' = _users st /\
    sessions st' = <[s := StreamSession.with_subs subs' sess]> (sessions st) /\
    outbox st' = outbox st /\
    inv_gen (fun u' n' => P u' n' \/ (u' = u /\ n' = n)) (fun _ _ => False) st' /\
    (forall n', n' <> n -> active_session st' n' = active_session st n') /\
    (forall s' sess', active_session st' n = Some (s', sess') ->
       s' = s /\ sess' = StreamSession.with_subs subs' sess /\ is_empty subs' = false) /\
    (if is_empty subs' then
       PyDict.del n (_streamers st) = Some (_streamers st') /\
       exists ctx T,
         PyDict.get n (_streamers st) = Some ctx /\ tasks st !! task ctx = Some T /\
         tasks st' = <[task ctx := mkTask (runs T) true]> (tasks st)
     else _streamers st' = _streamers st /\ tasks st' = tasks st).
Proof.
  intros Hinv HP Ht.
  destruct (inv_user_to_sub _ _ _ Hinv u n s Ht HP) as (sess & Hact & Hc).
  pose proof Ht as (usr & Hu & _)%user_tracks_Some.
  destruct (inv_user _ _ _ Hinv u usr Hu) as (Hname & _).
  pose proof Hact as (ctx & Hctx & <- & Hs)%active_session_registry.
  destruct (inv_registry _ _ _ Hinv n ctx Hctx) as ([T HT] & _).
  apply contains_true, del_is_Some in Hc as [subs' Hdel].
  destruct (proj2 (del_is_Some n (_streamers st)) (mk_is_Some _ _ Hctx)) as [reg' Hreg].
  eexists _, sess, subs'.
  split; [by apply (unsubscribe_and_reap_run st u n usr ctx sess subs' T reg')|].
  split; [done|]. split; [done|].
  split; [by destruct (is_empty subs')|].
  split; [by destruct (is_empty subs')|].
  split; [by destruct (is_empty subs')|].
  destruct (inv_unsubscribe P st
              (let st1 := with_sessions
                  (<[session ctx := StreamSession.with_subs subs' sess]> (sessions st)) st in
               if is_empty subs' then
                 with_streamers reg'
                   (with_tasks (<[task ctx := mkTask (runs T) true]> (tasks st)) st1)
               else st1)
              u n (session ctx) sess subs') as (H1 & H2 & H3); try done.
  - by destruct (is_empty subs').
  - by destruct (is_empty subs').
  - destruct (is_empty subs'); [done|done].
  - destruct (is_empty subs'); cbn; [|done]. by rewrite length_insert.
  - split; [done|]. split; [done|]. split; [done|].
    destruct (is_empty subs'); cbn; [|done]. split; [done|]. by exists ctx, T.
Qed.
End UnsubscribeRun.
Section Forget.
Import PyDictFacts.
Implicit Types (st : ActivityObserver) (u n : str) (P Q : str -> str -> Prop).

(** Pairs may be skipped or not, as long as the pairs that matter are
    treated alike. *)
Lemma inv_gen_weaken P P' Q Q' st :
  inv_gen P Q st ->
  (forall u n s, user_tracks st u n = Some s -> ~ P' u n -> ~ P u n) ->
  (forall n s sess u,
     active_session st n = Some (s, sess) ->
     PyDict.contains u (StreamSession._subs sess) = true -> ~ Q' u n -> ~ Q u n) ->
  inv_gen P' Q' st.
Proof.
  intros [] HP HQ. constructor; eauto.
Qed.

Lemma user_tracks_store st st' u usr' :
  _users st' = PyDict.set u usr' (_users st) ->
  forall u' n',
    user_tracks st' u' n'
    = if decide (u = u') then PyDict.get n' (User.streamers usr') else user_tracks st u' n'.
Proof.
  intros Hus u' n'. unfold user_tracks. rewrite Hus, get_set. by case_decide.
Qed.

(** The user side: the user object [u] forgets broadcaster [n]. *)
Lemma inv_forget P Q st st' u n usr d' :
  _users st' = PyDict.set u (User.with_streamers d' usr) (_users st) ->
  _streamers st' = _streamers st -> sessions st' = sessions st -> tasks st' = tasks st ->
  inv_gen P Q st ->
  PyDict.get u (_users st) = Some usr ->
  PyDict.del n (User.streamers usr) = Some d' ->
  inv_gen P (fun u' n' => Q u' n' \/ (u' = u /\ n' = n)) st' /\
  (forall u' n',
     user_tracks st' u' n'
     = if decide (u' = u /\ n' = n) then None else user_tracks st u' n').
Proof.
  intros Hus Hr Hs Ht Hinv Hu Hdel.
  destruct (inv_user _ _ _ Hinv u usr Hu) as (Hname & Hwf & Hlock).
  assert (Htracks : forall u' n',
     user_tracks st' u' n'
     = if decide (u' = u /\ n' = n) then None else user_tracks st u' n').
  { intros u' n'. rewrite (user_tracks_store st st' u _ Hus). cbn.
    rewrite (get_del n n' _ _ Hwf Hdel). unfold user_tracks.
    destruct (decide (u = u')) as [<-|Hne].
    - destruct (decide (n = n')) as [<-|Hnn].
      + by rewrite decide_True.
      + rewrite decide_False by naive_solver. by rewrite Hu.
    - by rewrite decide_False by naive_solver. }
  assert (Hactive : forall n', active_session st' n' = active_session st n').
  { intros n'. unfold active_session. by rewrite Hr, Hs. }
  split; [|done]. constructor.
  - rewrite Hus. apply wf_set, Hinv.
  - rewrite Hr. apply Hinv.
  - intros u' usr0. rewrite Hus, get_set. case_decide; subst.
    + intros [= <-]. cbn. split; [done|]. split; [by eapply wf_del|done].
    + apply Hinv.
  - intros n' ctx. rewrite Hr, Hs, Ht. apply Hinv.
  - intros n' s sess u' Ha Hc Hq. rewrite Hactive in Ha. rewrite Htracks.
    case_decide; [tauto|]. eapply (inv_sub_to_user _ _ _ Hinv); eauto.
  - intros u' n' s. rewrite Htracks. case_decide; [done|]. intros Ht' Hp.
    setoid_rewrite Hactive. eapply (inv_user_to_sub _ _ _ Hinv); eauto.
Qed.
End Forget.
(** ** Stop *)

Section Stop.
Import PyDictFacts.
Implicit Types (st : ActivityObserver) (u n : str) (P Q : str -> str -> Prop).

Lemma _process_stop_command_subscribed st u n s :
  observer_inv st ->
  user_tracks st u n = Some s ->
  exists st' sess subs',
    _process_stop_command u n st = (Ok tt, st') /\
    observer_inv st' /\
    active_session st n = Some (s, sess) /\
    PyDict.del u (StreamSession._subs sess) = Some subs' /\
    (forall u' n',
       user_tracks st' u' n'
       = if decide (u' = u /\ n' = n) then None else user_tracks st u' n') /\
    (forall n', n' <> n -> active_session st' n' = active_session st n') /\
    sessions st' = <[s := StreamSession.with_subs subs' sess]> (sessions st) /\
    (if is_empty subs' then
       PyDict.del n (_streamers st) = Some (_streamers st') /\
       exists ctx T,
         PyDict.get n (_streamers st) = Some ctx /\ tasks st !! task ctx = Some T /\
         tasks st' = <[task ctx := mkTask (runs T) true]> (tasks st)
     else _streamers st' = _streamers st /\ tasks st' = tasks st) /\
    outbox st' = outbox st ++ [Notification.mk [u] (lit "Stop tracking " ++ n)].
Proof.
  intros Hinv Ht.
  destruct (unsubscribe_and_reap_spec _ st u n s Hinv (fun x => x) Ht)
    as (st1 & sess & subs' & Hrun & Hact & Hdel & Hus & Hss & Hout & Hinv1 & Hother & Hsame & Hreg).
  pose proof Ht as (usr & Hu & Hn)%user_tracks_Some.
  pose proof Hact as (ctx & Hctx & _ & _)%active_session_registry.
  destruct (inv_user _ _ _ Hinv u usr Hu) as (Hname & Hwf & Hlock).
  destruct (proj2 (del_is_Some n (User.streamers usr)) (mk_is_Some _ _ Hn)) as [d' Hd'].
  set (st2 := with_users (PyDict.set u (User.with_streamers d' usr) (_users st1)) st1).
  assert (Hrun2 : _process_stop_command u n st
                  = (Ok tt, with_outbox (outbox st2 ++ [Notification.mk [u] (lit "Stop tracking " ++ n)]) st2)).
  { unfold _process_stop_command, bind at 1, deref_user. rewrite Hu.
    unfold bind at 1, gets. unfold PyDict.contains. rewrite Hn, Hctx. cbn [andb].
    unfold bind at 1. rewrite Hrun. unfold bind at 1, deref_user. rewrite Hus, Hu.
    unfold bind at 1, lift, PyDict.delitem. rewrite Hd'. done. }
  destruct (inv_forget (fun u' n' => False \/ (u' = u /\ n' = n)) (fun _ _ => False)
              st1 st2 u n usr d') as (Hinv2 & Htracks); try done.
  { by rewrite Hus. }
  assert (Hact2 : forall n', active_session st2 n' = active_session st1 n') by done.
  exists (with_outbox (outbox st2 ++ [Notification.mk [u] (lit "Stop tracking " ++ n)]) st2),
    sess, subs'.
  split; [done|]. split.
  { eapply (inv_gen_frame _ _ st2); try done.
    eapply inv_gen_weaken; [exact Hinv2| |].
    - intros u' n' s' Ht' _ [[]|[-> ->]]. rewrite Htracks in Ht'.
      by rewrite decide_True in Ht'.
    - intros n' s' sess' u' Ha Hc _ [[]|[-> ->]]. rewrite Hact2 in Ha.
      destruct (Hsame _ _ Ha) as (_ & -> & _). cbn in Hc.
      apply contains_true in Hc.
      destruct (inv_active _ _ _ _ _ Hinv Hctx) as (x & Hx & _ & Hwfs & _).
      rewrite Hact in Hx. injection Hx as _ <-.
      rewrite (get_del u u _ _ Hwfs Hdel), decide_True in Hc by done. by destruct Hc. }
  split; [done|]. split; [done|]. split.
  { intros u' n'. change (user_tracks st2 u' n' = if decide (u' = u /\ n' = n) then None
                                                   else user_tracks st u' n').
    rewrite Htracks. unfold user_tracks. by rewrite Hus. }
  split; [done|]. split; [done|]. split; [done|].
  cbn. by rewrite Hout.
Qed.

Lemma _process_stop_command_not_subscribed st u n usr :
  PyDict.get u (_users st) = Some usr ->
  user_tracks st u n = None ->
  _process_stop_command u n st
  = (Ok tt, with_outbox (outbox st ++ [Notification.mk [u] (lit "You do not tracking " ++ n)]) st).
Proof.
  intros Hu Ht. unfold user_tracks in Ht. rewrite Hu in Ht.
  unfold _process_stop_command, bind at 1, deref_user. rewrite Hu.
  unfold bind at 1, gets. unfold PyDict.contains at 1. rewrite Ht. done.
Qed.

Lemma _process_stop_command_inv st u n :
  observer_inv st -> observer_inv (snd (_process_stop_command u n st)).
Proof.
  intros Hinv.
  destruct (PyDict.get u (_users st)) as [usr|] eqn:Hu.
  - destruct (user_tracks st u n) as [s|] eqn:Ht.
    + destruct (_process_stop_command_subscribed st u n s Hinv Ht) as (st' & ? & ? & -> & ? & _).
      done.
    + rewrite (_process_stop_command_not_subscribed st u n usr Hu Ht).
      by eapply (inv_gen_frame _ _ st).
  - unfold _process_stop_command, bind, deref_user. by rewrite Hu.
Qed.
End Stop.

Section SkipMono.
Implicit Types (st : ActivityObserver) (P Q : str -> str -> Prop).

Lemma inv_gen_skipU_mono P P' Q st :
  inv_gen P Q st -> (forall u n, P u n -> P' u n) -> inv_gen P' Q st.
Proof. intros H HP. by eapply inv_gen_mono; [exact HP| |exact H]. Qed.

Lemma inv_gen_skipS_mono P Q Q' st :
  inv_gen P Q st -> (forall u n, Q u n -> Q' u n) -> inv_gen P Q' st.
Proof. intros H HQ. by eapply inv_gen_mono; [|exact HQ|exact H]. Qed.
End SkipMono.
(** ** Start *)

Section Start.
Import PyDictFacts.
Implicit Types (st : ActivityObserver) (u n : str) (P Q : str -> str -> Prop).

(** Adding the subscription of [u] to the session [s] of [n], on both
    sides. *)
Lemma inv_subscribe st st' u n s usr sess' :
  observer_inv st ->
  PyDict.get u (_users st) = Some usr ->
  _users st' = PyDict.set u (User.with_streamers (PyDict.set n s (User.streamers usr)) usr)
                 (_users st) ->
  PyDict.wf (_streamers st') ->
  (forall n' ctx, PyDict.get n' (_streamers st') = Some ctx -> is_Some (tasks st' !! task ctx)) ->
  active_session st' n = Some (s, sess') ->
  StreamSession._name sess' = n ->
  PyDict.wf (StreamSession._subs sess') ->
  (forall u' sub, PyDict.get u' (StreamSession._subs sess') = Some sub -> user sub = u') ->
  (forall u', PyDict.contains u' (StreamSession._subs sess') = true <->
     u' = u \/ exists sess0, active_session st n = Some (s, sess0) /\
                             PyDict.contains u' (StreamSession._subs sess0) = true) ->
  (forall s0 sess0, active_session st n = Some (s0, sess0) -> s0 = s) ->
  (forall n', n' <> n -> PyDict.get n' (_streamers st') = PyDict.get n' (_streamers st)) ->
  (forall n' ctx, n' <> n -> PyDict.get n' (_streamers st) = Some ctx ->
     sessions st' !! session ctx = sessions st !! session ctx) ->
  observer_inv st'.
Proof.
  intros Hinv Hu Hus Hwfr Htasks Hact Hname Hwfs Hkeys Hsubs Huniq Hreg Hsess.
  destruct (inv_user _ _ _ Hinv u usr Hu) as (Hnm & Hwfu & Hlock).
  assert (Hother : forall n', n' <> n -> active_session st' n' = active_session st n').
  { intros n' Hne. unfold active_session. rewrite (Hreg n' Hne).
    destruct (PyDict.get n' (_streamers st)) as [ctx|] eqn:Hctx; [|done].
    by rewrite (Hsess n' ctx Hne Hctx). }
  assert (Htracks : forall u' n',
     user_tracks st' u' n'
     = if decide (u' = u /\ n' = n) then Some s else user_tracks st u' n').
  { intros u' n'. rewrite (user_tracks_store st st' u _ Hus). cbn.
    rewrite get_set. unfold user_tracks.
    destruct (decide (u = u')) as [<-|Hne].
    - destruct (decide (n = n')) as [<-|Hnn].
      + by rewrite decide_True.
      + rewrite decide_False by naive_solver. by rewrite Hu.
    - by rewrite decide_False by naive_solver. }
  constructor.
  - rewrite Hus. apply wf_set, Hinv.
  - done.
  - intros u' usr0. rewrite Hus, get_set. case_decide; subst.
    + intros [= <-]. cbn. split; [done|]. split; [by apply wf_set|done].
    + apply Hinv.
  - intros n' ctx Hctx. split; [by eapply Htasks|].
    destruct (decide (n' = n)) as [->|Hne].
    + apply active_session_registry in Hact as (ctx' & Hctx' & <- & Hs).
      rewrite Hctx in Hctx'. injection Hctx' as <-. eauto.
    + rewrite (Hreg n' Hne) in Hctx.
      destruct (inv_registry _ _ _ Hinv n' ctx Hctx) as (_ & x & Hx & ?).
      exists x. by rewrite (Hsess n' ctx Hne Hctx).
  - intros n' s' x u' Ha Hc _. rewrite Htracks.
    destruct (decide (n' = n)) as [->|Hne].
    + rewrite Hact in Ha. injection Ha as <- <-.
      case_decide; [done|].
      apply Hsubs in Hc as [->|(sess0 & Ha0 & Hc0)]; [naive_solver|].
      eapply (inv_sub_to_user _ _ _ Hinv); eauto.
    + rewrite decide_False by naive_solver. rewrite (Hother n' Hne) in Ha.
      eapply (inv_sub_to_user _ _ _ Hinv); eauto.
  - intros u' n' s'. rewrite Htracks. case_decide as Hd.
    + destruct Hd as [-> ->]. intros [= <-] _. exists sess'. split; [done|].
      apply Hsubs. by left.
    + intros Ht _.
      destruct (inv_user_to_sub _ _ _ Hinv u' n' s' Ht) as (x & Hx & Hc); [tauto|].
      destruct (decide (n' = n)) as [->|Hne].
      * pose proof (Huniq _ _ Hx) as ->. exists sess'. split; [done|].
        apply Hsubs. right. eauto.
      * exists x. by rewrite (Hother n' Hne).
Qed.
End Start.
Section StartRun.
Import PyDictFacts.
Implicit Types (st : ActivityObserver) (u n : str) (P Q : str -> str -> Prop).

Lemma subscribe_run st s u hook usr sess :
  PyDict.get u (_users st) = Some usr ->
  sessions st !! s = Some sess ->
  subscribe s u hook st
  = (Ok tt,
     with_sessions
       (<[s := StreamSession.with_subs
                 (PyDict.set (User.name usr) (mkSubscribe u hook) (StreamSession._subs sess))
                 sess]> (sessions st)) st).
Proof.
  intros Hu Hs. unfold subscribe, bind, deref_user, deref_session. by rewrite Hu, Hs.
Qed.

Lemma active_session_None st n :
  PyDict.get n (_streamers st) = None -> active_session st n = None.
Proof. unfold active_session. by intros ->. Qed.

(** A start command whose lookup found the broadcaster live. *)
Lemma _process_start_command_resume_live st desc u n hook usr :
  observer_inv st ->
  PyDict.get u (_users st) = Some usr ->
  exists st' s sess',
    _process_start_command_resume (Ok desc) u n hook st = (Ok tt, st') /\
    observer_inv st' /\
    active_session st' n = Some (s, sess') /\
    PyDict.get u (StreamSession._subs sess') = Some (mkSubscribe u hook) /\
    (forall u' n',
       user_tracks st' u' n'
       = if decide (u' = u /\ n' = n) then Some s else user_tracks st u' n') /\
    (forall n', n' <> n -> active_session st' n' = active_session st n') /\
    outbox st' = outbox st ++ [Notification.mk [u] (start_notice desc)] /\
    match PyDict.get n (_streamers st) with
    | None =>
        s = length (sessions st) /\
        sessions st'
          = sessions st ++ [StreamSession.mk n [(u, mkSubscribe u hook)] (started_at desc)
                              (max_stream_reconnects st)] /\
        tasks st' = tasks st ++ [mkTask s false] /\
        _streamers st'
          = PyDict.set n (mkStreamContext s (length (tasks st))) (_streamers st)
    | Some ctx =>
        s = session ctx /\ _streamers st' = _streamers st /\ tasks st' = tasks st /\
        exists sess0,
          sessions st !! s = Some sess0 /\
          sessions st'
            = <[s := StreamSession.with_subs
                       (PyDict.set u (mkSubscribe u hook) (StreamSession._subs sess0)) sess0]>
                (sessions st)
    end.
Proof.
  intros Hinv Hu.
  destruct (inv_user _ _ _ Hinv u usr Hu) as (Hname & Hwfu & Hlock).
  destruct (PyDict.get n (_streamers st)) as [ctx|] eqn:Hctx.
  - destruct (inv_active _ _ _ _ _ Hinv Hctx) as (sess0 & Hact0 & Hnm & Hwfs & Hkeys).
    pose proof Hact0 as (c0 & Hc0 & Hc1 & Hs)%active_session_registry.
    assert (Hlt : session ctx < length (sessions st)) by by eapply lookup_lt_Some.
    set (sess' := StreamSession.with_subs
                    (PyDict.set u (mkSubscribe u hook) (StreamSession._subs sess0)) sess0).
    set (st1 := with_sessions (<[session ctx := sess']> (sessions st)) st).
    set (st2 := with_users (PyDict.set u
                  (User.with_streamers (PyDict.set n (session ctx) (User.streamers usr)) usr)
                  (_users st)) st1).
    assert (Hrun : _process_start_command_resume (Ok desc) u n hook st
                   = (Ok tt, with_outbox (outbox st ++ [Notification.mk [u] (start_notice desc)]) st2)).
    { unfold _process_start_command_resume, bind at 1, gets.
      unfold bind at 1. unfold PyDict.contains. rewrite Hctx. cbn [negb].
      unfold bind at 1, lift, PyDict.getitem. rewrite Hctx. cbn [ret].
      unfold bind at 1. rewrite (subscribe_run st (session ctx) u hook usr sess0) by done.
      rewrite Hname. unfold bind at 1, deref_user. cbn [_users with_sessions].
      rewrite Hu. done. }
    assert (Hact' : active_session st2 n = Some (session ctx, sess')).
    { unfold active_session. cbn. by rewrite Hctx, list_lookup_insert_eq. }
    assert (Hinv2 : observer_inv st2).
    { eapply (inv_subscribe st st2 u n (session ctx) usr sess'); try done.
      - apply Hinv.
      - intros n' ctx' Hctx'. by apply (inv_registry _ _ _ Hinv n' ctx').
      - by apply wf_set.
      - intros u' sub. cbn. rewrite get_set. case_decide; [by intros [= <-]|apply Hkeys].
      - intros u'. cbn. rewrite !contains_true, get_set. split.
        + case_decide; [by left|]. intros Hc. right. exists sess0.
          split; [done|]. by apply contains_true.
        + intros [->|(x & Hx & Hc)]; [by rewrite decide_True|].
          case_decide; [done|]. rewrite Hact0 in Hx. injection Hx as <-.
          by apply contains_true.
      - intros s0 y Hy. rewrite Hact0 in Hy. by injection Hy as <- _.
      - intros n' ctx' Hne Hctx'. cbn. apply list_lookup_insert_ne.
        intros Heq. apply Hne.
        destruct (inv_active _ _ _ _ _ Hinv Hctx') as (x & Hx & _).
        rewrite <- Heq in Hx. by eapply inv_session_inj. }
    exists (with_outbox (outbox st ++ [Notification.mk [u] (start_notice desc)]) st2),
      (session ctx), sess'.
    split; [done|]. split; [by eapply (inv_gen_frame _ _ st2)|].
    split; [done|]. split; [cbn; by rewrite get_set, decide_True|].
    split.
    { intros u' n'. change (user_tracks st2 u' n' = if decide (u' = u /\ n' = n)
                              then Some (session ctx) else user_tracks st u' n').
      rewrite (user_tracks_store st1 st2 u _ eq_refl). cbn. rewrite get_set.
      unfold user_tracks. cbn [st1 _users with_sessions].
      destruct (decide (u = u')) as [<-|Hne].
      - destruct (decide (n = n')) as [<-|Hnn].
        + by rewrite decide_True.
        + rewrite decide_False by naive_solver. by rewrite Hu.
      - by rewrite decide_False by naive_solver. }
    split.
    { intros n' Hne. unfold active_session. cbn.
      destruct (PyDict.get n' (_streamers st)) as [ctx'|] eqn:Hctx'; [|done].
      rewrite list_lookup_insert_ne; [done|].
      intros Heq. apply Hne.
      destruct (inv_active _ _ _ _ _ Hinv Hctx') as (x & Hx & _).
      rewrite <- Heq in Hx. by eapply (inv_session_inj _ _ st). }
    split; [done|]. split; [done|]. split; [done|]. split; [done|]. by exists sess0.
  - set (s := length (sessions st)).
    set (new := StreamSession.mk n PyDict.empty (started_at desc) (max_stream_reconnects st)).
    set (sess' := StreamSession.mk n [(u, mkSubscribe u hook)] (started_at desc)
                    (max_stream_reconnects st)).
    set (ctx := mkStreamContext s (length (tasks st))).
    set (st1 := with_sessions (sessions st ++ [sess'])
                  (with_streamers (PyDict.set n ctx (_streamers st))
                     (with_tasks (tasks st ++ [mkTask s false]) st))).
    set (st2 := with_users (PyDict.set u
                  (User.with_streamers (PyDict.set n s (User.streamers usr)) usr)
                  (_users st)) st1).
    assert (Hins : <[s := StreamSession.with_subs
                           (PyDict.set (User.name usr) (mkSubscribe u hook) PyDict.empty) new]>
                     (sessions st ++ [new]) = sessions st ++ [sess']).
    { rewrite insert_app_r_alt by done. subst s. rewrite Nat.sub_diag, Hname. done. }
    assert (Hrun : _process_start_command_resume (Ok desc) u n hook st
                   = (Ok tt, with_outbox (outbox st ++ [Notification.mk [u] (start_notice desc)]) st2)).
    { unfold _process_start_command_resume, bind at 1, gets.
      unfold bind at 1. unfold PyDict.contains. rewrite Hctx. cbn [negb].
      unfold bind at 1, new_StreamSession. unfold bind at 1, create_task_run_stream.
      unfold bind at 1, modify, ret. cbn [_streamers with_tasks with_sessions tasks sessions].
      unfold bind at 1.
      erewrite (subscribe_run _ s u hook usr new); [|done|].
      2:{ cbn. subst s. rewrite lookup_app_r by done. by rewrite Nat.sub_diag. }
      cbn [sessions with_streamers with_tasks with_sessions StreamSession._subs].
      match goal with
      | |- context [<[s := ?a]> ?l] =>
          change (<[s := a]> l)
            with (<[s := StreamSession.with_subs
                           (PyDict.set (User.name usr) (mkSubscribe u hook) PyDict.empty) new]>
                    (sessions st ++ [new]))
      end.
      rewrite Hins. unfold bind at 1, deref_user. cbn. rewrite Hu. done. }
    assert (Hact' : active_session st2 n = Some (s, sess')).
    { unfold active_session. cbn. rewrite get_set, decide_True by done. cbn.
      subst s. rewrite lookup_app_r by done. by rewrite Nat.sub_diag. }
    assert (Hnone : active_session st n = None) by by apply active_session_None.
    assert (Hinv2 : observer_inv st2).
    { eapply (inv_subscribe st st2 u n s usr sess'); try done.
      - cbn. apply wf_set, Hinv.
      - intros n' ctx'. cbn. rewrite get_set. case_decide.
        + intros [= <-]. cbn. apply lookup_lt_is_Some. rewrite length_app. cbn. lia.
        + intros Hctx'. destruct (inv_registry _ _ _ Hinv n' ctx' Hctx') as ([T HT] & _).
          exists T. by apply lookup_app_l_Some.
      - cbn. apply NoDup_singleton.
      - intros u' sub. cbn. case_decide; [by intros [= <-]|done].
      - intros u'. unfold PyDict.contains. cbn. rewrite Hnone. split.
        + case_decide; [by left|done].
        + intros [->|(? & ? & _)]; [by rewrite decide_True|done].
      - intros s0 y. by rewrite Hnone.
      - intros n' Hne. cbn. rewrite get_set. by rewrite decide_False.
      - intros n' ctx' Hne Hctx'. cbn.
        destruct (inv_registry _ _ _ Hinv n' ctx' Hctx') as (_ & x & Hx & _).
        rewrite Hx. by apply lookup_app_l_Some. }
    exists (with_outbox (outbox st ++ [Notification.mk [u] (start_notice desc)]) st2), s, sess'.
    split; [done|]. split; [by eapply (inv_gen_frame _ _ st2)|].
    split; [done|]. split; [cbn; by rewrite decide_True|].
    split.
    { intros u' n'. change (user_tracks st2 u' n' = if decide (u' = u /\ n' = n)
                              then Some s else user_tracks st u' n').
      rewrite (user_tracks_store st1 st2 u _ eq_refl). cbn. rewrite get_set.
      unfold user_tracks. cbn [st1 _users with_sessions with_streamers with_tasks].
      destruct (decide (u = u')) as [<-|Hne].
      - destruct (decide (n = n')) as [<-|Hnn].
        + by rewrite decide_True.
        + rewrite decide_False by naive_solver. by rewrite Hu.
      - by rewrite decide_False by naive_solver. }
    split.
    { intros n' Hne. unfold active_session. cbn. rewrite get_set, decide_False by done.
      destruct (PyDict.get n' (_streamers st)) as [ctx'|] eqn:Hctx'; [|done].
      destruct (inv_registry _ _ _ Hinv n' ctx' Hctx') as (_ & x & Hx & _).
      rewrite Hx. by rewrite (lookup_app_l_Some _ _ _ _ Hx). }
    done.
Qed.
End StartRun.
Section StartInv.
Implicit Types (st : ActivityObserver) (u n : str).

Lemma _process_start_command_resume_inv st reply u n hook :
  observer_inv st -> registered st u ->
  observer_inv (snd (_process_start_command_resume reply u n hook st)).
Proof.
  intros Hinv [usr Hu]%registered_get.
  destruct reply as [desc|e].
  - destruct (_process_start_command_resume_live st desc u n hook usr Hinv Hu)
      as (st' & ? & ? & -> & ? & _). done.
  - destruct e; try done; by eapply (inv_gen_frame _ _ st).
Qed.

Lemma _process_start_command_inv st reply u n hook :
  observer_inv st -> registered st u ->
  observer_inv (snd (_process_start_command reply u n hook st)).
Proof.
  intros Hinv Hreg. pose proof Hreg as [usr Hu]%registered_get.
  unfold _process_start_command, bind, deref_user. rewrite Hu.
  destruct (PyDict.contains n (User.streamers usr)); [by eapply (inv_gen_frame _ _ st)|].
  destruct (negb _); [by eapply (inv_gen_frame _ _ st)|].
  by apply _process_start_command_resume_inv.
Qed.
End StartInv.

(** ** StopAll *)

Section StopAll.
Import PyDictFacts.
Implicit Types (st : ActivityObserver) (u n : str) (D : str -> Prop).

Lemma stopall_loop u todo : forall D st,
  inv_gen (fun u' n' => u' = u /\ D n') (fun _ _ => False) st ->
  left_sessions u D st ->
  NoDup todo ->
  (forall n, n ∈ todo -> ~ D n /\ is_Some (user_tracks st u n)) ->
  exists st',
    for_each todo (fun name => unsubscribe_and_reap u name) st = (Ok tt, st') /\
    _users st' = _users st /\ outbox st' = outbox st /\
    inv_gen (fun u' n' => u' = u /\ (D n' \/ n' ∈ todo)) (fun _ _ => False) st' /\
    left_sessions u (fun n' => D n' \/ n' ∈ todo) st'.
Proof.
  induction todo as [|n rest IH]; intros D st Hinv Hleft Hnd Htodo.
  - exists st. split; [done|]. split; [done|]. split; [done|]. split.
    + eapply inv_gen_skipU_mono; [exact Hinv|]. cbn. tauto.
    + intros n [Hn|Hn%elem_of_nil]; [|done]. by apply Hleft.
  - apply NoDup_cons in Hnd as [Hn Hnd].
    destruct (Htodo n) as [HD [s Hs]]; [apply list_elem_of_here|].
    destruct (unsubscribe_and_reap_spec _ st u n s Hinv) as
      (st1 & sess & subs' & Hrun & Hact & Hdel & Hus & Hss & Hout & Hinv1 & Hother & Hsame & _);
      [tauto|done|].
    destruct (IH (fun n' => D n' \/ n' = n) st1) as (st' & Hrun' & Hus' & Hout' & Hinv' & Hleft').
    + eapply inv_gen_skipU_mono; [exact Hinv1|]. cbn. intros ?? [[-> ?]|[-> ->]]; tauto.
    + intros n' [Hn'| ->] s' sess' Ha.
      * rewrite Hother in Ha by (intros ->; tauto). by eapply Hleft.
      * destruct (Hsame _ _ Ha) as (_ & -> & _). cbn.
        apply contains_false.
        pose proof Hact as (ctx & Hctx & _ & _)%active_session_registry.
        destruct (inv_active _ _ _ _ _ Hinv Hctx) as (x & Hx & _ & Hwfs & _).
        rewrite Hact in Hx. injection Hx as _ <-.
        by rewrite (get_del u u _ _ Hwfs Hdel), decide_True.
    + done.
    + intros m Hm. destruct (Htodo m) as [HDm Htm]; [by apply list_elem_of_further|].
      split; [|unfold user_tracks in *; by rewrite Hus].
      intros [Hx| ->]; tauto.
    + exists st'. cbn [for_each]. unfold bind. rewrite Hrun.
      split; [done|]. split; [congruence|]. split; [congruence|]. split.
      * eapply inv_gen_mono; [| |exact Hinv']; [|done]. cbn.
        intros ?? [-> [[?| ->]|?]]; rewrite ?elem_of_cons; tauto.
      * intros n' [Hn'|[->|Hn']%elem_of_cons]; apply Hleft'; tauto.
Qed.

Lemma _process_stopall_command_run st u usr :
  observer_inv st ->
  PyDict.get u (_users st) = Some usr ->
  exists st1,
    for_each (PyDict.keys (User.streamers usr)) (fun name => unsubscribe_and_reap u name) st
      = (Ok tt, st1) /\
    _users st1 = _users st /\
    _process_stopall_command u st
    = (Ok tt,
       with_users (PyDict.set u (User.with_streamers PyDict.empty usr) (_users st1))
         (with_outbox
            (outbox st ++
               [Notification.mk [u]
                  (lit "Stop tracking " ++ join (lit " ") (PyDict.keys (User.streamers usr)))])
            st1)) /\
    observer_inv
      (with_users (PyDict.set u (User.with_streamers PyDict.empty usr) (_users st1)) st1).
Proof.
  intros Hinv Hu.
  destruct (inv_user _ _ _ Hinv u usr Hu) as (Hname & Hwfu & Hlock).
  destruct (stopall_loop u (PyDict.keys (User.streamers usr)) (fun _ => False) st)
    as (st1 & Hrun & Hus & Hout & Hinv1 & Hleft).
  - eapply inv_gen_skipU_mono; [exact Hinv|]. cbn. tauto.
  - intros ? [].
  - done.
  - intros n Hn. split; [tauto|]. unfold user_tracks. rewrite Hu.
    destruct (PyDict.get n (User.streamers usr)) eqn:E; [done|].
    by apply get_None_keys in E.
  - exists st1. split; [done|]. split; [done|]. split.
    + unfold _process_stopall_command, bind at 1, deref_user. rewrite Hu.
      unfold bind at 1. rewrite Hrun. unfold bind at 1, deref_user. rewrite Hus, Hu.
      unfold bind, _notify, create_send_notification, store_user, modify. cbn.
      by rewrite Hus, Hout.
    + set (st2 := with_users _ st1).
      assert (Htracks : forall u' n',
         user_tracks st2 u' n' = if decide (u' = u) then None else user_tracks st1 u' n').
      { intros u' n'. rewrite (user_tracks_store st1 st2 u _ eq_refl). cbn.
        repeat case_decide; congruence. }
      assert (Hactive : forall n', active_session st2 n' = active_session st1 n') by done.
      constructor.
      * apply wf_set. apply Hinv1.
      * apply Hinv1.
      * intros u' usr0. cbn. rewrite get_set. case_decide; subst.
        -- intros [= <-]. cbn. split; [done|]. split; [apply NoDup_nil_2|done].
        -- apply Hinv1.
      * apply Hinv1.
      * intros n' s sess u' Ha Hc _. rewrite Hactive in Ha. rewrite Htracks.
        pose proof (inv_sub_to_user _ _ _ Hinv1 n' s sess u' Ha Hc (fun x => x)) as Ht.
        case_decide; [subst|done]. exfalso.
        assert (Hin : n' ∈ PyDict.keys (User.streamers usr)).
        { unfold user_tracks in Ht. rewrite Hus, Hu in Ht. by eapply get_Some_keys. }
        rewrite (Hleft n' (or_intror Hin) s sess Ha) in Hc. done.
      * intros u' n' s. rewrite Htracks. case_decide; [done|]. intros Ht _.
        setoid_rewrite Hactive. eapply (inv_user_to_sub _ _ _ Hinv1); [done|tauto].
Qed.

Lemma _process_stopall_command_inv st u :
  observer_inv st -> observer_inv (snd (_process_stopall_command u st)).
Proof.
  intros Hinv. destruct (PyDict.get u (_users st)) as [usr|] eqn:Hu.
  - destruct (_process_stopall_command_run st u usr Hinv Hu) as (st1 & _ & _ & -> & Hinv').
    eapply inv_gen_frame; [..|exact Hinv']; done.
  - unfold _process_stopall_command, bind, deref_user. by rewrite Hu.
Qed.
End StopAll.
(** ** Tearing a session down *)

Section Teardown.
Import PyDictFacts.
Implicit Types (st : ActivityObserver) (u n : str) (D : str -> Prop).

(** The body of the loop of [unsubscribe_all] for a session named [n]. *)
Local Abbreviation forget_body n :=
  (fun sub : Subscribe =>
     bind (deref_user (user sub)) (fun usr =>
     bind (lift (PyDict.delitem n (User.streamers usr))) (fun d =>
     store_user (user sub) (User.with_streamers d usr)))).

Lemma unsubscribe_all_loop n todo : forall D st,
  inv_gen (fun _ _ => False) (fun u' n' => n' = n /\ D u') st ->
  forgotten_by n D st ->
  NoDup (map user todo) ->
  (forall sub, sub ∈ todo -> ~ D (user sub) /\ is_Some (user_tracks st (user sub) n)) ->
  exists st',
    for_each todo (forget_body n) st = (Ok tt, st') /\
    _streamers st' = _streamers st /\ sessions st' = sessions st /\
    tasks st' = tasks st /\ outbox st' = outbox st /\
    inv_gen (fun _ _ => False) (fun u' n' => n' = n /\ (D u' \/ u' ∈ map user todo)) st' /\
    forgotten_by n (fun u' => D u' \/ u' ∈ map user todo) st' /\
    (forall u' n', n' <> n -> user_tracks st' u' n' = user_tracks st u' n') /\
    (forall u', is_Some (PyDict.get u' (_users st')) <-> is_Some (PyDict.get u' (_users st))).
Proof.
  induction todo as [|sub rest IH]; intros D st Hinv Hforg Hnd Htodo.
  - exists st. do 5 (split; [done|]). split; [|split; [|done]].
    + eapply inv_gen_skipS_mono; [exact Hinv|]. cbn. tauto.
    + intros u [Hu|Hu%elem_of_nil]; [|done]. by apply Hforg.
  - cbn [map] in Hnd. apply NoDup_cons in Hnd as [Hsub Hnd].
    destruct (Htodo sub) as [HD [s Hs]]; [apply list_elem_of_here|].
    pose proof Hs as (usr & Hu & Hn)%user_tracks_Some.
    destruct (proj2 (del_is_Some n (User.streamers usr)) (mk_is_Some _ _ Hn)) as [d' Hd'].
    set (st1 := with_users (PyDict.set (user sub) (User.with_streamers d' usr) (_users st)) st).
    assert (Hrun : forget_body n sub st = (Ok tt, st1)).
    { unfold bind, deref_user, lift, PyDict.delitem. by rewrite Hu, Hd'. }
    destruct (inv_forget (fun _ _ => False) (fun u' n' => n' = n /\ D u')
                st st1 (user sub) n usr d') as (Hinv1 & Htracks); try done.
    destruct (IH (fun u' => D u' \/ u' = user sub) st1)
      as (st' & Hrun' & Hr & Hss & Hts & Hout & Hinv' & Hforg' & Hoth & Hreg).
    + eapply inv_gen_skipS_mono; [exact Hinv1|]. cbn. intros ?? [[-> ?]|[-> ->]]; tauto.
    + intros u' Hu'. rewrite Htracks. case_decide; [done|].
      destruct Hu' as [Hu'| ->]; [by apply Hforg|tauto].
    + done.
    + intros sub' Hsub'. destruct (Htodo sub') as [HD' Ht']; [by apply list_elem_of_further|].
      assert (Hne : user sub' <> user sub).
      { intros Heq. apply Hsub. rewrite <- Heq. apply list_elem_of_fmap. eauto. }
      split; [intros [?|?]; tauto|].
      rewrite Htracks. by rewrite decide_False by tauto.
    + exists st'. cbn [for_each]. unfold bind at 1. rewrite Hrun.
      split; [done|]. do 4 (split; [by etrans|]). split; [|split; [|split]].
      * eapply inv_gen_skipS_mono; [exact Hinv'|]. cbn [map].
        intros ?? [-> [[?| ->]|?]]; rewrite ?elem_of_cons; tauto.
      * intros u' [Hu'|[->|Hu']%elem_of_cons]; apply Hforg'; tauto.
      * intros u' n' Hne. rewrite Hoth by done. rewrite Htracks.
        by rewrite decide_False by tauto.
      * intros u'. rewrite Hreg. cbn. rewrite get_set. case_decide; subst; [|done].
        rewrite Hu. split; eauto.
Qed.
End Teardown.
Section RemoveSession.
Import PyDictFacts.
Implicit Types (st : ActivityObserver) (u n : str) (D : str -> Prop).

Lemma subscribers_are_keys (d : PyDict.t Subscribe) :
  PyDict.wf d ->
  (forall u sub, PyDict.get u d = Some sub -> user sub = u) ->
  map user (PyDict.values d) = PyDict.keys d.
Proof.
  unfold PyDict.wf, PyDict.values, PyDict.keys.
  induction d as [|[k v] d IH]; [done|]. cbn.
  intros [Hk Hd]%NoDup_cons Hkeys. f_equal.
  - apply Hkeys. by rewrite decide_True.
  - apply IH; [done|]. intros u sub Hsub. apply Hkeys.
    rewrite decide_False; [done|]. intros ->. apply Hk. by eapply get_Some_keys.
Qed.

Lemma subscriber_in_values (d : PyDict.t Subscribe) u :
  (forall u sub, PyDict.get u d = Some sub -> user sub = u) ->
  PyDict.contains u d = true -> u ∈ map user (PyDict.values d).
Proof.
  intros Hkeys [sub Hsub]%contains_true.
  apply list_elem_of_fmap. exists sub. split; [symmetry; by apply Hkeys|].
  by eapply get_Some_values.
Qed.

(** Tearing down the session registered for [n]. *)
Lemma _remove_session_registered st n ctx :
  observer_inv st ->
  PyDict.get n (_streamers st) = Some ctx ->
  exists st' sess,
    _remove_session (session ctx) st = (Ok tt, st') /\
    observer_inv st' /\
    sessions st !! session ctx = Some sess /\
    StreamSession._name sess = n /\
    PyDict.del n (_streamers st) = Some (_streamers st') /\
    sessions st' = sessions st /\ tasks st' = tasks st /\
    outbox st'
      = outbox st ++ [Notification.mk (map user (PyDict.values (StreamSession._subs sess)))
                        (n ++ lit " stream closed")] /\
    (forall u', user_tracks st' u' n = None) /\
    (forall u' n', n' <> n -> user_tracks st' u' n' = user_tracks st u' n') /\
    (forall u', is_Some (PyDict.get u' (_users st')) <-> is_Some (PyDict.get u' (_users st))).
Proof.
  intros Hinv Hctx.
  destruct (inv_active _ _ _ _ _ Hinv Hctx) as (sess & Hact & Hname & Hwfs & Hkeys).
  pose proof Hact as (c0 & Hc0 & Hc1 & Hs)%active_session_registry.
  destruct (proj2 (del_is_Some n (_streamers st)) (mk_is_Some _ _ Hctx)) as [reg' Hreg].
  set (notice := Notification.mk (map user (PyDict.values (StreamSession._subs sess)))
                   (n ++ lit " stream closed")).
  set (st0 := with_outbox (outbox st ++ [notice]) st).
  destruct (unsubscribe_all_loop n (PyDict.values (StreamSession._subs sess))
              (fun _ => False) st0)
    as (st1 & Hrun & Hr & Hss & Hts & Hout & Hinv1 & Hforg & Hoth & Hregd).
  { eapply (inv_gen_frame _ _ st); try done.
    eapply inv_gen_skipS_mono; [exact Hinv|]. cbn. tauto. }
  { intros ? []. }
  { rewrite subscribers_are_keys by done. apply Hwfs. }
  { intros sub [k Hk]%list_elem_of_fmap. destruct Hk as [-> Hk]. destruct k as [k v]. cbn.
    split; [tauto|]. apply (elem_get _ _ _ Hwfs) in Hk.
    pose proof (Hkeys _ _ Hk) as ->.
    exists (session ctx). change (user_tracks st k n = Some (session ctx)).
    eapply (inv_sub_to_user _ _ _ Hinv); [done| |tauto]. apply contains_true. eauto. }
  assert (Hnone : forall u', user_tracks st1 u' n = None).
  { intros u'. destruct (user_tracks st1 u' n) as [s'|] eqn:Ht; [|done]. exfalso.
    destruct (inv_user_to_sub _ _ _ Hinv1 u' n s' Ht) as (x & Hx & Hc); [tauto|].
    assert (Hx' : active_session st n = Some (s', x)).
    { unfold active_session in *. by rewrite Hr, Hss in Hx. }
    rewrite Hact in Hx'. injection Hx' as _ <-.
    rewrite (Hforg u') in Ht; [done|]. right. by apply subscriber_in_values. }
  set (st2 := with_streamers reg' st1).
  assert (Hrun2 : _remove_session (session ctx) st = (Ok tt, st2)).
  { unfold _remove_session, bind at 1, unsubscribe_all, bind at 1, deref_session. rewrite Hs.
    unfold bind at 1, _notify_subs, bind at 1, deref_session. rewrite Hs.
    unfold create_send_notification, modify. rewrite Hname. fold notice. fold st0.
    rewrite Hrun. unfold bind at 1, deref_session. rewrite Hss. cbn [sessions st0 with_outbox].
    rewrite Hs. unfold bind at 1, gets. unfold bind at 1, lift, PyDict.delitem.
    rewrite Hname, Hr. cbn [_streamers st0 with_outbox]. by rewrite Hreg. }
  assert (Hget : forall n', PyDict.get n' reg'
                 = if decide (n = n') then None else PyDict.get n' (_streamers st)).
  { intros n'. apply get_del; [apply Hinv|done]. }
  assert (Hactive : forall n', active_session st2 n'
                    = if decide (n = n') then None else active_session st n').
  { intros n'. unfold active_session. cbn. rewrite Hget, Hss. by case_decide. }
  exists st2, sess. split; [done|]. split.
  { constructor.
    - apply Hinv1.
    - cbn. eapply wf_del; [apply Hinv|done].
    - apply Hinv1.
    - intros n' ctx'. cbn. rewrite Hget. case_decide; [done|]. rewrite Hss, Hts.
      apply Hinv.
    - intros n' s x u' Ha Hc _. rewrite Hactive in Ha. case_decide; [done|].
      eapply (inv_sub_to_user _ _ _ Hinv1); [|done|by intros [-> _]].
      unfold active_session in *. by rewrite Hr, Hss.
    - intros u' n' s Ht _. change (user_tracks st1 u' n' = Some s) in Ht.
      destruct (decide (n = n')) as [<-|Hne]; [by rewrite Hnone in Ht|].
      destruct (inv_user_to_sub _ _ _ Hinv1 u' n' s Ht) as (x & Hx & Hc); [tauto|].
      exists x. split; [|done]. rewrite Hactive, decide_False by done.
      unfold active_session in *. by rewrite Hr, Hss in Hx. }
  split; [done|]. split; [done|]. split; [done|]. split; [done|]. split; [done|].
  split; [done|]. split; [done|]. split; [|done].
  intros u' n' Hne. change (user_tracks st1 u' n' = user_tracks st u' n'). by rewrite Hoth.
Qed.

End RemoveSession.
(** ** The sweep, the failure of a stream task, and the commands *)

Section SweepAndCommands.
Import PyDictFacts.
Implicit Types (st : ActivityObserver) (u n : str).

Lemma inv_gen_cancel P Q st t T :
  inv_gen P Q st -> tasks st !! t = Some T ->
  inv_gen P Q (with_tasks (<[t := mkTask (runs T) true]> (tasks st)) st).
Proof.
  intros Hinv HT. constructor; try apply Hinv.
  intros n ctx Hctx. cbn. destruct (inv_registry _ _ _ Hinv n ctx Hctx) as [Htask ?].
  split; [|done]. apply lookup_lt_is_Some. rewrite length_insert.
  by apply lookup_lt_is_Some.
Qed.

Lemma Task_cancel_run st t T :
  tasks st !! t = Some T ->
  Task_cancel t st = (Ok tt, with_tasks (<[t := mkTask (runs T) true]> (tasks st)) st).
Proof. intros HT. unfold Task_cancel. by rewrite HT. Qed.

Lemma _remove_session_inv st n ctx :
  observer_inv st -> PyDict.get n (_streamers st) = Some ctx ->
  observer_inv (snd (_remove_session (session ctx) st)).
Proof.
  intros Hinv Hctx.
  destruct (_remove_session_registered st n ctx Hinv Hctx) as (st' & ? & -> & ? & _). done.
Qed.

Lemma sweep_teardown_inv st streamer :
  observer_inv st ->
  observer_inv
    (snd (bind (gets _streamers) (fun reg =>
          bind (lift (PyDict.getitem streamer reg)) (fun context =>
          bind (Task_cancel (task context)) (fun _ =>
          _remove_session (session context)))) st)).
Proof.
  intros Hinv. unfold bind at 1, gets. unfold bind at 1, lift, PyDict.getitem.
  destruct (PyDict.get streamer (_streamers st)) as [ctx|] eqn:Hctx; [|done].
  destruct (inv_registry _ _ _ Hinv streamer ctx Hctx) as ([T HT] & _).
  unfold bind. rewrite (Task_cancel_run st _ T HT).
  pose proof (inv_gen_cancel _ _ st _ T Hinv HT) as Hinv1.
  pose proof (_remove_session_inv _ streamer ctx Hinv1 Hctx) as Hinv2.
  by destruct (_remove_session _ _) as [[] ?].
Qed.

Lemma sweep_body_inv (desc : lookup_reply) streamer st :
  observer_inv st ->
  observer_inv
    (snd (match desc with
          | Raise StreamNotFoundError =>
              bind (gets _streamers) (fun reg =>
              bind (lift (PyDict.getitem streamer reg)) (fun context =>
              bind (Task_cancel (task context)) (fun _ =>
              _remove_session (session context))))
          | Raise e => log_exception e
          | Ok _ => ret tt
          end st)).
Proof.
  intros Hinv. destruct desc as [d|e]; [done|].
  destruct e; try (by eapply (inv_gen_frame _ _ st)).
  by apply sweep_teardown_inv.
Qed.

Lemma _streams_ping_loop_inv results : forall it st,
  observer_inv st -> observer_inv (snd (_streams_ping_loop results it st)).
Proof.
  induction results as [|desc rest IH]; intros it st Hinv.
  - cbn. by destruct (dictiter_next it (_streamers st)).
  - cbn [_streams_ping_loop].
    destruct (dictiter_next it (_streamers st)) as [streamer it'| |]; try done.
    pose proof (sweep_body_inv desc streamer st Hinv) as Hb.
    match goal with
    | |- context [match ?b st with _ => _ end] =>
        change (observer_inv (snd (b st))) in Hb; destruct (b st) as [[[]|e] st']
    end; [by apply IH|done].
Qed.

Lemma _streams_ping_handle_inv results st :
  observer_inv st -> observer_inv (snd (_streams_ping_handle results st)).
Proof. apply _streams_ping_loop_inv. Qed.

Lemma _run_stream_failed_inv st n ctx msg :
  observer_inv st -> PyDict.get n (_streamers st) = Some ctx ->
  observer_inv (snd (_run_stream (Raise (ObserverError msg)) (session ctx) st)).
Proof.
  intros Hinv Hctx. unfold _run_stream, bind, log_exception, modify.
  set (st1 := with_logged _ st).
  assert (Hinv1 : observer_inv st1) by by eapply (inv_gen_frame _ _ st).
  pose proof (_remove_session_inv st1 n ctx Hinv1 Hctx) as Hinv2.
  by destruct (_remove_session _ st1) as [[] ?].
Qed.
End SweepAndCommands.
Section Reachable.
Implicit Types (st : ActivityObserver) (u n : str).
Variable float_of_str : str -> option float.
Variable str_of_float : float -> str.

Lemma kwarg_str_bind p k (f : str -> M unit) (I : ActivityObserver -> Prop) st :
  I st -> (forall s, I (snd (f s st))) ->
  I (snd (bind (kwarg_str p k) f st)).
Proof.
  intros Hst Hf. unfold kwarg_str, bind.
  destruct (PyDict.get k p) as [[s|x]|]; cbn; eauto.
Qed.

Lemma kwarg_float_bind p k (f : float -> M unit) (I : ActivityObserver -> Prop) st :
  I st -> (forall x, I (snd (f x st))) ->
  I (snd (bind (kwarg_float p k) f st)).
Proof.
  intros Hst Hf. unfold kwarg_float, bind.
  destruct (PyDict.get k p) as [[s|x]|]; cbn; eauto.
Qed.

Lemma finish_snd (m : M unit) st : snd (finish m st) = snd (m st).
Proof. unfold finish. by destruct (m st). Qed.

Lemma _process_command_inv twitch u command st :
  observer_inv st -> registered st u ->
  observer_inv (snd (_process_command float_of_str str_of_float twitch u command st)).
Proof.
  intros Hinv Hreg. unfold _process_command.
  destruct (parse_command float_of_str command) as [desc|e].
  - destruct (command_type desc).
    + pose proof Hreg as [usr Hu]%registered_get.
      unfold deref_user at 1. rewrite Hu. unfold async_with, Lock_acquire.
      destruct (locks st !! User.start_lock usr) as [[]|]; try done.
      set (st1 := with_locks _ st).
      assert (Hinv1 : observer_inv st1) by by eapply (inv_gen_frame _ _ st).
      assert (Hreg1 : registered st1 u) by done.
      match goal with
      | |- context [let (_, _) := ?m st1 in _] =>
          assert (Hm : observer_inv (snd (m st1)))
      end.
      { apply kwarg_str_bind; [done|]. intros streamer.
        apply kwarg_str_bind; [done|]. intros hook.
        by apply _process_start_command_inv. }
      match goal with
      | |- context [let (_, _) := ?m st1 in _] => destruct (m st1) as [r st2]
      end.
      by eapply (inv_gen_frame _ _ st2).
    + rewrite finish_snd. apply kwarg_str_bind; [done|]. intros streamer.
      by apply _process_stop_command_inv.
    + rewrite finish_snd. by apply _process_stopall_command_inv.
    + rewrite finish_snd. apply kwarg_str_bind; [done|]. intros hook.
      apply kwarg_str_bind; [done|]. intros text.
      by apply _process_hook_command_inv.
    + rewrite finish_snd. by apply _process_hooks_command_inv.
    + rewrite finish_snd. apply kwarg_float_bind; [done|]. intros x.
      by apply _process_threshold_command_inv.
    + rewrite finish_snd. apply kwarg_str_bind; [done|]. intros commands.
      by eapply (inv_gen_frame _ _ st).
  - destruct e; try done. rewrite finish_snd. by eapply (inv_gen_frame _ _ st).
Qed.

Lemma step_inv st st' :
  step float_of_str str_of_float st st' -> observer_inv st -> observer_inv st'.
Proof.
  intros Hstep Hinv. destruct Hstep.
  - by apply _get_user_inv.
  - by apply _process_command_inv.
  - by apply _process_start_command_inv.
  - by apply _process_start_command_resume_inv.
  - by apply _process_stop_command_inv.
  - by apply _process_stopall_command_inv.
  - by apply _process_hook_command_inv.
  - by apply _process_threshold_command_inv.
  - by apply _streams_ping_handle_inv.
  - by eapply _run_stream_failed_inv.
Qed.

(** Every reachable state is consistent. *)
Lemma reachable_inv st : reachable float_of_str str_of_float st -> observer_inv st.
Proof.
  induction 1 as [max|st st' _ IH Hstep]; [apply init_inv|by eapply step_inv].
Qed.
End Reachable.

(** ** The scenarios are reachable *)

Section ScenarioFacts.
Import Scenario.

Lemma two_users_reachable : reachable float_of_str str_of_float two_users.
Proof.
  pose (s1 := snd (_get_user (lit "alice") 1 (init 3))).
  pose (s2 := snd (_get_user (lit "bob") 2 s1)).
  pose (s3 := snd (_process_hook_command (lit "alice") (lit "alert") (lit "giveaway") s2)).
  assert (H1 : reachable float_of_str str_of_float s1).
  { eapply reach_step; [apply reach_init|apply step_get_user]. }
  assert (H2 : reachable float_of_str str_of_float s2).
  { eapply reach_step; [exact H1|apply step_get_user]. }
  assert (H3 : reachable float_of_str str_of_float s3).
  { eapply reach_step; [exact H2|]. by apply step_hook. }
  change two_users with (snd (_process_hook_command (lit "bob") (lit "alert") (lit "hello") s3)).
  eapply reach_step; [exact H3|]. by apply step_hook.
Qed.

Lemma one_session_reachable : reachable float_of_str str_of_float one_session.
Proof.
  eapply reach_step; [apply two_users_reachable|]. by apply step_start.
Qed.

Lemma two_sessions_reachable : reachable float_of_str str_of_float two_sessions.
Proof.
  eapply reach_step; [apply one_session_reachable|]. by apply step_start.
Qed.
End ScenarioFacts.
(** ** The subscription invariant *)

Section SubscriptionInvariant.
Import PyDictFacts.

Lemma subscriptions_of_get u sess :
  PyDict.wf (StreamSession._subs sess) ->
  (forall u' sub, PyDict.get u' (StreamSession._subs sess) = Some sub -> user sub = u') ->
  subscriptions_of u sess
  = match PyDict.get u (StreamSession._subs sess) with
    | Some sub => [sub]
    | None => []
    end.
Proof.
  unfold subscriptions_of, PyDict.wf, PyDict.values, PyDict.keys.
  induction (StreamSession._subs sess) as [|[k v] d IH]; [done|]. cbn.
  intros [Hk Hd]%NoDup_cons Hkeys.
  assert (Hv : user v = k) by (apply Hkeys; by rewrite decide_True).
  assert (Hkeys' : forall u' sub, PyDict.get u' d = Some sub -> user sub = u').
  { intros u' sub Hsub. apply Hkeys. rewrite decide_False; [done|].
    intros ->. apply Hk. by eapply get_Some_keys. }
  rewrite IH by done. rewrite Hv.
  destruct (decide (k = u)) as [->|Hne].
  - rewrite bool_decide_eq_true_2 by done.
    by rewrite (proj2 (get_None_keys u d) Hk).
  - by rewrite bool_decide_eq_false_2.
Qed.
End SubscriptionInvariant.

(** C3. In every reachable state a user has at most one subscription in an
    active session, and the user object records session [s] for broadcaster
    [n] exactly when [s] is the active session of [n] and holds a
    subscription of that user. *)
Theorem subscription_invariant float_of_str str_of_float st :
  reachable float_of_str str_of_float st ->
  (forall n s sess u,
     active_session st n = Some (s, sess) -> length (subscriptions_of u sess) <= 1) /\
  (forall u n s,
     user_tracks st u n = Some s <->
     exists sess, active_session st n = Some (s, sess) /\ subscriptions_of u sess <> []).
Proof.
  intros Hinv%reachable_inv.
  assert (Hsubs : forall n s sess u,
    active_session st n = Some (s, sess) ->
    subscriptions_of u sess
    = match PyDict.get u (StreamSession._subs sess) with
      | Some sub => [sub]
      | None => []
      end).
  { intros n s sess u (ctx & Hctx & <- & Hs)%active_session_registry.
    destruct (inv_registry _ _ _ Hinv n ctx Hctx) as (_ & x & Hx & _ & Hwf & Hkeys).
    rewrite Hs in Hx. injection Hx as <-. by apply subscriptions_of_get. }
  split.
  - intros n s sess u Ha. rewrite (Hsubs n s sess u Ha).
    destruct (PyDict.get u _); cbn; lia.
  - intros u n s. split.
    + intros Ht. destruct (inv_user_to_sub _ _ _ Hinv u n s Ht) as (sess & Ha & Hc); [tauto|].
      exists sess. split; [done|]. rewrite (Hsubs n s sess u Ha).
      apply PyDictFacts.contains_true in Hc as [sub ->]. done.
    + intros (sess & Ha & Hne). eapply (inv_sub_to_user _ _ _ Hinv); [done| |tauto].
      rewrite (Hsubs n s sess u Ha) in Hne. apply PyDictFacts.contains_true.
      destruct (PyDict.get u _); [done|]. by destruct Hne.
Qed.

Lemma subscription_invariant_witness :
  reachable Scenario.float_of_str Scenario.str_of_float Scenario.two_sessions /\
  user_tracks Scenario.two_sessions (lit "bob") (lit "bar") = Some 1 /\
  (user_tracks Scenario.two_sessions (lit "bob") (lit "bar") = Some 1 <->
   exists sess, active_session Scenario.two_sessions (lit "bar") = Some (1, sess) /\
                subscriptions_of (lit "bob") sess <> []).
Proof.
  split; [apply two_sessions_reachable|]. split; [reflexivity|].
  apply (subscription_invariant Scenario.float_of_str Scenario.str_of_float
           Scenario.two_sessions two_sessions_reachable).
Defined.
(** ** Start and Stop as the specification describes them *)

Lemma start_notice_contains desc :
  exists pre mid post,
    start_notice desc = pre ++ started_at desc ++ mid ++ title desc ++ post.
Proof.
  unfold start_notice.
  match goal with
  | |- context [?a ++ user_name desc ++ ?b ++ started_at desc ++ ?c ++ title desc ++ ?d] =>
      exists (a ++ user_name desc ++ b), c, d
  end.
  by rewrite <- !app_assoc.
Qed.

(** C4. For a registered user in a reachable state, Start only sends a
    notice, and leaves every other part of the state as it was, when the
    user already tracks the broadcaster, when the hook is not defined, or
    when the lookup reports the broadcaster not found; when the lookup gives
    a description, it creates a session and its task if and only if the
    broadcaster has no session, reuses the registered session otherwise,
    records the subscription in the session and in the user, and sends a
    notice that contains the title and the start time. *)
Theorem start_command_spec float_of_str str_of_float st reply u n hook usr :
  reachable float_of_str str_of_float st ->
  PyDict.get u (_users st) = Some usr ->
  let notice msg := with_outbox (outbox st ++ [Notification.mk [u] msg]) st in
  (PyDict.contains n (User.streamers usr) = true ->
   _process_start_command reply u n hook st
   = (Ok tt, notice (lit "Streamer " ++ n ++ lit " already tracked"))) /\
  (PyDict.contains n (User.streamers usr) = false ->
   PyDict.contains hook (User.hooks usr) = false ->
   _process_start_command reply u n hook st
   = (Ok tt, notice (lit "Hook " ++ hook ++ lit " not found"))) /\
  (PyDict.contains n (User.streamers usr) = false ->
   PyDict.contains hook (User.hooks usr) = true ->
   reply = Raise StreamNotFoundError ->
   _process_start_command reply u n hook st
   = (Ok tt, notice (lit "Stream " ++ n ++ lit " not exists or offline"))) /\
  (PyDict.contains n (User.streamers usr) = false ->
   PyDict.contains hook (User.hooks usr) = true ->
   forall desc, reply = Ok desc ->
   exists st' s sess',
     _process_start_command reply u n hook st = (Ok tt, st') /\
     match PyDict.get n (_streamers st) with
     | None =>
         s = length (sessions st) /\
         sessions st'
           = sessions st ++ [StreamSession.mk n [(u, mkSubscribe u hook)] (started_at desc)
                               (max_stream_reconnects st)] /\
         tasks st' = tasks st ++ [mkTask s false] /\
         _streamers st' = PyDict.set n (mkStreamContext s (length (tasks st))) (_streamers st)
     | Some ctx =>
         s = session ctx /\ _streamers st' = _streamers st /\ tasks st' = tasks st /\
         exists sess0,
           sessions st !! s = Some sess0 /\
           sessions st'
             = <[s := StreamSession.with_subs
                        (PyDict.set u (mkSubscribe u hook) (StreamSession._subs sess0)) sess0]>
                 (sessions st)
     end /\
     active_session st' n = Some (s, sess') /\
     PyDict.get u (StreamSession._subs sess') = Some (mkSubscribe u hook) /\
     user_tracks st' u n = Some s /\
     outbox st' = outbox st ++ [Notification.mk [u] (start_notice desc)] /\
     exists pre mid post,
       start_notice desc = pre ++ started_at desc ++ mid ++ title desc ++ post).
Proof.
  intros Hinv%reachable_inv Hu notice.
  assert (Heq : _process_start_command reply u n hook st
                = (if PyDict.contains n (User.streamers usr) then
                     _notify u (lit "Streamer " ++ n ++ lit " already tracked")
                   else if negb (PyDict.contains hook (User.hooks usr)) then
                     _notify u (lit "Hook " ++ hook ++ lit " not found")
                   else _process_start_command_resume reply u n hook) st).
  { unfold _process_start_command, bind, deref_user. by rewrite Hu. }
  rewrite Heq. clear Heq.
  split; [by intros ->|]. split; [by intros -> ->|]. split; [by intros -> -> ->|].
  intros -> -> desc ->. cbn [negb].
  destruct (_process_start_command_resume_live st desc u n hook usr Hinv Hu)
    as (st' & s & sess' & Hrun & _ & Hact & Hsub & Htracks & _ & Hout & Hcases).
  exists st', s, sess'. split; [done|]. split; [done|]. split; [done|]. split; [done|].
  split; [by rewrite Htracks, decide_True|]. split; [done|]. apply start_notice_contains.
Qed.

Lemma start_command_spec_witness :
  exists st' sess',
    reachable Scenario.float_of_str Scenario.str_of_float Scenario.one_session /\
    _process_start_command (Scenario.live (lit "foo")) (lit "bob") (lit "foo") (lit "alert")
      Scenario.one_session = (Ok tt, st') /\
    active_session st' (lit "foo") = Some (0, sess') /\
    PyDict.get (lit "bob") (StreamSession._subs sess')
      = Some (mkSubscribe (lit "bob") (lit "alert")) /\
    user_tracks st' (lit "bob") (lit "foo") = Some 0 /\
    tasks st' = tasks Scenario.one_session.
Proof.
  destruct (proj2 (proj2 (proj2
    (start_command_spec Scenario.float_of_str Scenario.str_of_float Scenario.one_session
       (Scenario.live (lit "foo")) (lit "bob") (lit "foo") (lit "alert")
       (User.mk (lit "bob") 2 [] [(lit "alert", lit "hello")] float_0_5 0)
       one_session_reachable eq_refl))) eq_refl eq_refl _ eq_refl)
    as (st' & s & sess' & Hrun & Hcases & Hact & Hsub & Htracks & _).
  cbn in Hcases. destruct Hcases as (-> & _ & Htasks & _).
  exists st', sess'. split; [apply one_session_reachable|]. done.
Defined.
(** C5. For a registered user in a reachable state: when the user tracks
    the broadcaster, Stop removes the subscription from the session and
    from the user; if the session has subscribers left it stays registered
    with its task untouched; if none is left its task is cancelled and it
    leaves the registry, and a Start for that broadcaster that follows makes
    a session that did not exist before; when the user does not track the
    broadcaster, Stop only sends a notice. *)
Theorem stop_command_spec float_of_str str_of_float st u n usr :
  reachable float_of_str str_of_float st ->
  PyDict.get u (_users st) = Some usr ->
  (forall s, user_tracks st u n = Some s ->
   exists st' sess subs',
     _process_stop_command u n st = (Ok tt, st') /\
     active_session st n = Some (s, sess) /\
     PyDict.del u (StreamSession._subs sess) = Some subs' /\
     PyDict.get u subs' = None /\
     sessions st' !! s = Some (StreamSession.with_subs subs' sess) /\
     user_tracks st' u n = None /\
     outbox st' = outbox st ++ [Notification.mk [u] (lit "Stop tracking " ++ n)] /\
     (is_empty subs' = false ->
      active_session st' n = Some (s, StreamSession.with_subs subs' sess) /\
      tasks st' = tasks st) /\
     (is_empty subs' = true ->
      PyDict.get n (_streamers st') = None /\
      (exists ctx T,
         PyDict.get n (_streamers st) = Some ctx /\ tasks st !! task ctx = Some T /\
         tasks st' !! task ctx = Some (mkTask (runs T) true)) /\
      (forall desc u2 hook2 usr2,
         PyDict.get u2 (_users st') = Some usr2 ->
         PyDict.contains hook2 (User.hooks usr2) = true ->
         exists st'' sess2,
           _process_start_command (Ok desc) u2 n hook2 st' = (Ok tt, st'') /\
           active_session st'' n = Some (length (sessions st), sess2) /\
           sessions st !! length (sessions st) = None /\
           s < length (sessions st) /\
           StreamSession._subs sess2 = [(u2, mkSubscribe u2 hook2)]))) /\
  (user_tracks st u n = None ->
   _process_stop_command u n st
   = (Ok tt, with_outbox (outbox st ++ [Notification.mk [u] (lit "You do not tracking " ++ n)]) st)).
Proof.
  intros Hinv%reachable_inv Hu. split; [|by apply (_process_stop_command_not_subscribed st u n usr)].
  intros s Ht.
  destruct (_process_stop_command_subscribed st u n s Hinv Ht)
    as (st' & sess & subs' & Hrun & Hinv' & Hact & Hdel & Htracks & Hother & Hss & Hreg & Hout).
  pose proof Hact as (ctx & Hctx & Hsc & Hs)%active_session_registry.
  destruct (inv_active _ _ _ _ _ Hinv Hctx) as (x & Hx & _ & Hwfs & _).
  rewrite Hsc, Hact in Hx. injection Hx as <-.
  assert (Hlt : s < length (sessions st)) by by eapply lookup_lt_Some.
  exists st', sess, subs'. split; [done|]. split; [done|]. split; [done|].
  split; [by rewrite (PyDictFacts.get_del u u _ _ Hwfs Hdel), decide_True|].
  split; [by rewrite Hss, list_lookup_insert_eq|].
  split; [by rewrite Htracks, decide_True|]. split; [done|]. split.
  - intros Hemp. rewrite Hemp in Hreg. destruct Hreg as [Hr Hts]. split; [|done].
    unfold active_session. rewrite Hr, Hctx, Hsc, Hss. by rewrite list_lookup_insert_eq.
  - intros Hemp. rewrite Hemp in Hreg. destruct Hreg as (Hr & c & T & Hc & HT & Hts).
    assert (Hnone : PyDict.get n (_streamers st') = None).
    { rewrite (PyDictFacts.get_del n n _ _ (inv_streamers_wf _ _ _ Hinv) Hr).
      by rewrite decide_True. }
    split; [done|]. split.
    { exists c, T. split; [done|]. split; [done|]. rewrite Hts.
      apply list_lookup_insert_eq. by eapply lookup_lt_Some. }
    intros desc u2 hook2 usr2 Hu2 Hhook.
    assert (Hnot : PyDict.contains n (User.streamers usr2) = false).
    { apply PyDictFacts.contains_false.
      destruct (PyDict.get n (User.streamers usr2)) as [s2|] eqn:E; [|done]. exfalso.
      destruct (inv_user_to_sub _ _ _ Hinv' u2 n s2) as (y & Hy & _); [|tauto|].
      - apply user_tracks_Some. eauto.
      - by rewrite (active_session_None st' n Hnone) in Hy. }
    destruct (_process_start_command_resume_live st' desc u2 n hook2 usr2 Hinv' Hu2)
      as (st'' & s2 & sess2 & Hrun2 & _ & Hact2 & _ & _ & _ & _ & Hcases).
    rewrite Hnone in Hcases. destruct Hcases as (-> & Hss2 & _).
    assert (Hlen : length (sessions st') = length (sessions st)).
    { by rewrite Hss, length_insert. }
    exists st'', sess2. split.
    { unfold _process_start_command, bind at 1, deref_user. rewrite Hu2, Hnot, Hhook. done. }
    rewrite <- Hlen. split; [done|]. split; [|split; [lia|]].
    + rewrite Hlen. by apply lookup_ge_None.
    + apply active_session_registry in Hact2 as (? & _ & _ & Hs2).
      rewrite Hss2 in Hs2. rewrite lookup_app_r, Nat.sub_diag in Hs2 by done.
      by injection Hs2 as <-.
Qed.

Lemma stop_command_spec_witness :
  exists st',
    reachable Scenario.float_of_str Scenario.str_of_float Scenario.two_sessions /\
    user_tracks Scenario.two_sessions (lit "bob") (lit "bar") = Some 1 /\
    _process_stop_command (lit "bob") (lit "bar") Scenario.two_sessions = (Ok tt, st') /\
    user_tracks st' (lit "bob") (lit "bar") = None.
Proof.
  destruct (proj1
    (stop_command_spec Scenario.float_of_str Scenario.str_of_float Scenario.two_sessions
       (lit "bob") (lit "bar")
       (User.mk (lit "bob") 2 [(lit "bar", 1)] [(lit "alert", lit "hello")] float_0_5 0)
       two_sessions_reachable eq_refl) 1 eq_refl)
    as (st' & sess & subs' & Hrun & _ & _ & _ & _ & Htracks & _).
  exists st'. split; [apply two_sessions_reachable|]. done.
Defined.

(** In every reachable state all the user objects hold one and the same
    lock, whoever the users are. *)
Lemma start_lock_shared float_of_str str_of_float st u1 u2 usr1 usr2 :
  reachable float_of_str str_of_float st ->
  PyDict.get u1 (_users st) = Some usr1 ->
  PyDict.get u2 (_users st) = Some usr2 ->
  User.start_lock usr1 = User.start_lock usr2.
Proof.
  intros Hinv%reachable_inv H1 H2.
  destruct (inv_user _ _ _ Hinv u1 usr1 H1) as (_ & _ & ->).
  by destruct (inv_user _ _ _ Hinv u2 usr2 H2) as (_ & _ & ->).
Qed.

(** ** A pass of the sweep that tears a session down *)

Section SweepRaises.
Import PyDictFacts.
Implicit Types (st : ActivityObserver).

Lemma dictiter_next_changed {V} (it : dictiter) (d : PyDict.t V) :
  di_used it <> PyDict.len d ->
  dictiter_next it d
  = IterRaise (RuntimeError (lit "dictionary changed size during iteration")).
Proof.
  intros Hne. unfold dictiter_next.
  destruct (Nat.eqb_spec (di_used it) (PyDict.len d)); [done|done].
Qed.

Lemma _streams_ping_loop_changed results it st :
  di_used it <> PyDict.len (_streamers st) ->
  _streams_ping_loop results it st
  = (Raise (RuntimeError (lit "dictionary changed size during iteration")), st).
Proof.
  intros Hne. destruct results; cbn [_streams_ping_loop];
    by rewrite dictiter_next_changed.
Qed.

Lemma dictiter_next_yield {V} (d : PyDict.t V) pos :
  pos < PyDict.len d ->
  exists k v, PyDict.keys d !! pos = Some k /\ PyDict.get k d = Some v /\
    dictiter_next (mkDictiter (PyDict.len d) pos) d
    = Yield k (mkDictiter (PyDict.len d) (S pos)).
Proof.
  intros Hlt. unfold dictiter_next. cbn [di_used di_pos]. rewrite Nat.eqb_refl. cbn [negb].
  destruct (PyDict.keys d !! pos) as [k|] eqn:Hk.
  - destruct (PyDict.get k d) as [v|] eqn:Hv; [by eauto|].
    apply get_None_keys in Hv. exfalso. apply Hv. by eapply list_elem_of_lookup_2.
  - apply lookup_ge_None in Hk. unfold PyDict.keys, PyDict.len in *.
    rewrite length_map in Hk. lia.
Qed.

(** When the lookups before the [i]-th are not "not found" and the
    [i]-th is, for a session the iteration reaches, the pass tears that
    session down and ends with [RuntimeError]. *)
Lemma _streams_ping_loop_teardown_raises i : forall results pos st,
  observer_inv st ->
  results !! i = Some (Raise StreamNotFoundError) ->
  (forall j r, j < i -> results !! j = Some r -> r <> Raise StreamNotFoundError) ->
  pos + i < PyDict.len (_streamers st) ->
  fst (_streams_ping_loop results (mkDictiter (PyDict.len (_streamers st)) pos) st)
  = Raise (RuntimeError (lit "dictionary changed size during iteration")).
Proof.
  induction i as [|i IH]; intros results pos st Hinv Hi Hbefore Hlt.
  - destruct results as [|r rest]; [done|]. injection Hi as ->.
    destruct (dictiter_next_yield (_streamers st) pos) as (k & ctx & _ & Hctx & Hnext); [lia|].
    cbn [_streams_ping_loop]. rewrite Hnext.
    destruct (inv_registry _ _ _ Hinv k ctx Hctx) as ([T HT] & _).
    pose proof (inv_gen_cancel _ _ st _ T Hinv HT) as Hinv1.
    destruct (_remove_session_registered _ k ctx Hinv1 Hctx)
      as (st' & sess & Hrun & _ & _ & _ & Hdel & _).
    unfold bind at 1, gets. unfold bind at 1, lift, PyDict.getitem. rewrite Hctx.
    unfold bind at 1. rewrite (Task_cancel_run st _ T HT), Hrun.
    rewrite _streams_ping_loop_changed; [done|].
    apply length_del in Hdel. unfold PyDict.len. cbn in Hdel |- *.
    intros Heq. apply (Nat.neq_succ_diag_l (length (_streamers st'))).
    etrans; [symmetry; exact Hdel|exact Heq].
  - destruct results as [|r rest]; [done|]. cbn [lookup list_lookup] in Hi.
    destruct (dictiter_next_yield (_streamers st) pos) as (k & ctx & _ & Hctx & Hnext); [lia|].
    cbn [_streams_ping_loop]. rewrite Hnext.
    assert (Hr : r <> Raise StreamNotFoundError) by (apply (Hbefore 0); [lia|done]).
    assert (Hrest : forall j r', j < i -> rest !! j = Some r' -> r' <> Raise StreamNotFoundError).
    { intros j r' Hj Hr'. apply (Hbefore (S j)); [lia|done]. }
    destruct r as [d|e].
    + cbn [ret]. apply IH; try done. lia.
    + destruct e; try done;
        (unfold log_exception, modify;
         match goal with
         | |- context [with_logged ?l st] =>
             apply (IH rest (S pos) (with_logged l st)); try done;
             [by eapply (inv_gen_frame _ _ st)|unfold PyDict.len in *; cbn; lia]
         end).
Qed.

Lemma sweep_teardown_raises st results i :
  observer_inv st ->
  results !! i = Some (Raise StreamNotFoundError) ->
  (forall j r, j < i -> results !! j = Some r -> r <> Raise StreamNotFoundError) ->
  i < PyDict.len (_streamers st) ->
  fst (_streams_ping_handle results st)
  = Raise (RuntimeError (lit "dictionary changed size during iteration")).
Proof.
  intros Hinv Hi Hbefore Hlt. unfold _streams_ping_handle, dict_iter.
  by apply (_streams_ping_loop_teardown_raises i).
Qed.
End SweepRaises.

(** When the lookup of a start command fails for another reason than "not
    found", the exception leaves the handler and nothing has changed. *)
Lemma start_command_lookup_failure st u n hook usr msg :
  PyDict.get u (_users st) = Some usr ->
  PyDict.contains n (User.streamers usr) = false ->
  PyDict.contains hook (User.hooks usr) = true ->
  _process_start_command (Raise (ObserverError msg)) u n hook st
  = (Raise (ObserverError msg), st).
Proof.
  intros Hu Hn Hh. unfold _process_start_command, bind, deref_user.
  by rewrite Hu, Hn, Hh.
Qed.

(** ** [str.split]: blank strings, tokens and separators *)

Module PyStrSplitFacts.
Import PyStr.

Lemma split_whitespace_skip_blank ws m s :
  blank ws -> split_whitespace None m (ws ++ s) = split_whitespace None m s.
Proof.
  induction 1 as [|c ws Hc _ IH]; [done|]. cbn. by rewrite Hc.
Qed.

Lemma split_whitespace_blank m s : blank s -> split_whitespace None m s = [].
Proof.
  intros H. rewrite <- (app_nil_r s). by rewrite split_whitespace_skip_blank.
Qed.

(** A string that is not blank is blank up to its first other character. *)
Lemma not_blank_inv s :
  ~ blank s -> exists ws c r, blank ws /\ isspace c = false /\ s = ws ++ c :: r.
Proof.
  induction s as [|c s IH]; intros Hn.
  - destruct Hn. constructor.
  - destruct (isspace c) eqn:Hc.
    + destruct IH as (ws & c' & r & Hws & Hc' & ->).
      { intros Hs. apply Hn. by constructor. }
      exists (c :: ws), c', r. split; [by constructor|done].
    + exists [], c, s. split; [constructor|done].
Qed.

Lemma blank_dec s : {blank s} + {~ blank s}.
Proof.
  apply Forall_dec. intros c. destruct (isspace c); [by left|by right].
Qed.

Lemma split_whitespace_read tok t m s :
  Forall (fun c => isspace c = false) t ->
  split_whitespace (Some tok) m (t ++ s) = split_whitespace (Some (tok ++ t)) m s.
Proof.
  intros Ht. revert tok. induction Ht as [|c t Hc _ IH]; intros tok.
  - by rewrite app_nil_r.
  - cbn. rewrite Hc, IH. by rewrite <- app_assoc.
Qed.

Lemma split_whitespace_token t m s :
  token t -> m <> Some 0 ->
  split_whitespace None m (t ++ s) = split_whitespace (Some t) m s.
Proof.
  intros [Hne Ht] Hm. destruct Ht as [|c t Hc Ht]; [done|].
  cbn. rewrite Hc.
  destruct m as [[|k]|]; [done| |]; by rewrite (split_whitespace_read [c] t).
Qed.

Lemma split_whitespace_end_token tok m w s :
  isspace w = true ->
  split_whitespace (Some tok) m (w :: s) = tok :: split_whitespace None (Nat.pred <$> m) s.
Proof. intros Hw. cbn. by rewrite Hw. Qed.

(** Every item of [s.split()] is a token. *)
Lemma split_whitespace_items s : forall cur,
  match cur with
  | Some tok => tok <> [] /\ Forall (fun c => isspace c = false) tok
  | None => True
  end ->
  Forall token (split_whitespace cur None s).
Proof.
  induction s as [|c s IH]; intros cur Hcur; cbn.
  - destruct cur as [tok|]; [|constructor].
    constructor; [exact Hcur|constructor].
  - destruct cur as [tok|].
    + destruct (isspace c) eqn:Hc.
      * constructor; [done|]. by apply IH.
      * apply IH. destruct Hcur as [? Htok]. split; [by destruct tok|].
        apply Forall_app. split; [done|by repeat constructor].
    + destruct (isspace c) eqn:Hc; [by apply IH|].
      apply IH. split; [done|by repeat constructor].
Qed.

Lemma split_items s : Forall token (split None s).
Proof. by apply split_whitespace_items. Qed.
End PyStrSplitFacts.

(** ** [parse_command] on any string *)

Section ParseCommandAnyInput.
Import PyStr PyStrFacts PyStrSplitFacts.
Variable float_of_str : str -> option float.

Lemma split_skip_blank ws m s : blank ws -> split m (ws ++ s) = split m s.
Proof. apply split_whitespace_skip_blank. Qed.

Lemma parse_command_skip_blank ws command :
  blank ws ->
  parse_command float_of_str (ws ++ command) = parse_command float_of_str command.
Proof. intros Hws. unfold parse_command. by rewrite split_skip_blank. Qed.

Lemma parse_command_nonblank c r :
  isspace c = false ->
  (exists desc, parse_command float_of_str (c :: r) = Ok desc /\ params_of_kind desc) \/
  (exists msg, parse_command float_of_str (c :: r) = Raise (CommandParseError msg)).
Proof.
  intros Hc. unfold parse_command.
  destruct (split_maxsplit_1 c r Hc) as (command_name & data & -> & Hdata).
  cbn [unpack_head rbind].
  repeat case_decide;
    eauto using parser_ok_desc, _parse_start_command_ok, _parse_stop_command_ok,
      _parse_stopall_command_ok, _parse_hook_command_ok, _parse_hooks_command_ok,
      _parse_threshold_command_ok, _parse_help_command_ok.
Qed.

Lemma parse_command_blank command :
  blank command ->
  parse_command float_of_str command
  = Raise (ValueError (lit "not enough values to unpack (expected at least 1, got 0)")).
Proof.
  intros Hb. unfold parse_command, split. by rewrite split_whitespace_blank.
Qed.
End ParseCommandAnyInput.

(** X1. [parse_command] on any string: a command that is empty or made of
    whitespace only raises [ValueError] (the unpacking of an empty split);
    every other command gives a description with the parameters of its kind
    or raises [CommandParseError]. *)
Theorem parse_command_blank_raises_ValueError float_of_str command :
  (blank command /\
   parse_command float_of_str command
   = Raise (ValueError (lit "not enough values to unpack (expected at least 1, got 0)"))) \/
  (~ blank command /\
   ((exists desc, parse_command float_of_str command = Ok desc /\ params_of_kind desc) \/
    (exists msg, parse_command float_of_str command = Raise (CommandParseError msg)))).
Proof.
  destruct (PyStrSplitFacts.blank_dec command) as [Hb|Hn].
  - left. split; [done|]. by apply parse_command_blank.
  - right. split; [done|].
    destruct (PyStrSplitFacts.not_blank_inv command Hn) as (ws & c & r & Hws & Hc & ->).
    rewrite parse_command_skip_blank by done. by apply parse_command_nonblank.
Qed.

(** ** What the parser recovers from a well-formed command *)

Section ParseRoundTrip.
Import PyStr PyStrFacts PyStrSplitFacts.
Variable float_of_str : str -> option float.

Lemma split_whitespace_trailing tok m ws :
  blank ws -> split_whitespace (Some tok) m ws = [tok].
Proof.
  intros Hws. destruct Hws as [|w ws Hw Hws]; [done|].
  rewrite split_whitespace_end_token by done. by rewrite split_whitespace_blank.
Qed.

(** [name.split(maxsplit=1)] of a name followed by whitespace only. *)
Lemma split_name_only name ws0 ws :
  token name -> blank ws0 -> blank ws -> split (Some 1) (ws0 ++ name ++ ws) = [name].
Proof.
  intros Hname Hws0 Hws. rewrite split_skip_blank by done. unfold split.
  rewrite split_whitespace_token by done. by apply split_whitespace_trailing.
Qed.

(** [split(maxsplit=1)] of a name, whitespace and a remainder. *)
Lemma split_name_rest name ws0 ws c r :
  token name -> blank ws0 -> blank ws -> ws <> [] -> isspace c = false ->
  split (Some 1) (ws0 ++ name ++ ws ++ c :: r) = [name; c :: r].
Proof.
  intros Hname Hws0 Hws Hne Hc. rewrite split_skip_blank by done. unfold split.
  rewrite split_whitespace_token by done.
  destruct Hws as [|w ws Hw Hws]; [done|].
  rewrite <- app_comm_cons, split_whitespace_end_token by done.
  rewrite split_whitespace_skip_blank by done. cbn. by rewrite Hc.
Qed.

Lemma split_one_token t ws : token t -> blank ws -> split None (t ++ ws) = [t].
Proof.
  intros Ht Hws. unfold split. rewrite split_whitespace_token by done.
  by apply split_whitespace_trailing.
Qed.

Lemma split_two_tokens t1 ws1 t2 ws2 :
  token t1 -> blank ws1 -> ws1 <> [] -> token t2 -> blank ws2 ->
  split None (t1 ++ ws1 ++ t2 ++ ws2) = [t1; t2].
Proof.
  intros Ht1 Hws1 Hne Ht2 Hws2. unfold split.
  rewrite split_whitespace_token by done.
  destruct Hws1 as [|w ws1 Hw Hws1]; [done|].
  rewrite <- app_comm_cons, split_whitespace_end_token by done.
  rewrite split_whitespace_skip_blank by done.
  change (Nat.pred <$> None) with (@None nat).
  change (split_whitespace None None (t2 ++ ws2)) with (split None (t2 ++ ws2)).
  by rewrite (split_one_token t2 ws2).
Qed.

Lemma token_head t : token t -> exists c r, t = c :: r /\ isspace c = false.
Proof. intros [Hne Ht]. destruct Ht as [|c r Hc _]; [done|]. eauto. Qed.

Lemma token_lit_start : token (lit "/start").
Proof. split; [done|]. repeat constructor. Qed.
Lemma token_lit_stop : token (lit "/stop").
Proof. split; [done|]. repeat constructor. Qed.
Lemma token_lit_hook : token (lit "/hook").
Proof. split; [done|]. repeat constructor. Qed.
Lemma token_lit_hooks : token (lit "/hooks").
Proof. split; [done|]. repeat constructor. Qed.
Lemma token_lit_threshold : token (lit "/threshold").
Proof. split; [done|]. repeat constructor. Qed.

Lemma parse_start_spaced ws0 ws1 ws2 ws3 streamer hook :
  blank ws0 -> blank ws1 -> ws1 <> [] -> blank ws2 -> ws2 <> [] -> blank ws3 ->
  token streamer -> token hook ->
  parse_command float_of_str (ws0 ++ lit "/start" ++ ws1 ++ streamer ++ ws2 ++ hook ++ ws3)
  = Ok (mkCommandDesc START
          [(lit "streamer", PStr streamer); (lit "hook_name", PStr hook)]).
Proof.
  intros H0 H1 N1 H2 N2 H3 Hs Hh.
  destruct (token_head streamer Hs) as (c & r & Es & Hc).
  unfold parse_command. rewrite Es, <- !app_comm_cons.
  rewrite (split_name_rest (lit "/start")) by (done || apply token_lit_start).
  cbn [unpack_head rbind]. rewrite decide_True by done.
  unfold _parse_start_command. cbn [is_empty]. rewrite index_0. cbn [rbind].
  rewrite !app_comm_cons, <- Es, split_two_tokens by done.
  reflexivity.
Qed.

Lemma parse_stop_spaced ws0 ws1 ws2 streamer :
  blank ws0 -> blank ws1 -> ws1 <> [] -> blank ws2 -> token streamer ->
  parse_command float_of_str (ws0 ++ lit "/stop" ++ ws1 ++ streamer ++ ws2)
  = Ok (mkCommandDesc STOP [(lit "streamer", PStr streamer)]).
Proof.
  intros H0 H1 N1 H2 Hs.
  destruct (token_head streamer Hs) as (c & r & Es & Hc).
  unfold parse_command. rewrite Es, <- !app_comm_cons.
  rewrite (split_name_rest (lit "/stop")) by (done || apply token_lit_stop).
  cbn [unpack_head rbind]. rewrite decide_False by done. rewrite decide_True by done.
  unfold _parse_stop_command. cbn [is_empty]. rewrite index_0. cbn [rbind].
  rewrite !app_comm_cons, <- Es, split_one_token by done.
  reflexivity.
Qed.
End ParseRoundTrip.

(** X2. The parser recovers the arguments of [/start] and [/stop] whatever
    whitespace surrounds them: leading whitespace, any non-empty whitespace
    between the items and trailing whitespace are all dropped. *)
Theorem parse_recovers_start_and_stop_arguments
    float_of_str ws0 ws1 ws2 ws3 streamer hook :
  blank ws0 -> blank ws1 -> ws1 <> [] -> blank ws2 -> ws2 <> [] -> blank ws3 ->
  token streamer -> token hook ->
  parse_command float_of_str (ws0 ++ lit "/start" ++ ws1 ++ streamer ++ ws2 ++ hook ++ ws3)
  = Ok (mkCommandDesc START
          [(lit "streamer", PStr streamer); (lit "hook_name", PStr hook)]) /\
  parse_command float_of_str (ws0 ++ lit "/stop" ++ ws1 ++ streamer ++ ws3)
  = Ok (mkCommandDesc STOP [(lit "streamer", PStr streamer)]).
Proof.
  intros. split; [by apply parse_start_spaced|by apply parse_stop_spaced].
Qed.

Lemma parse_recovers_start_and_stop_arguments_witness :
  let f : str -> option float := fun _ => None in
  let ws0 : str := [] in
  let ws1 := lit "  " in
  let ws2 : str := [9%N] in
  let ws3 := lit " " in
  let streamer := lit "foo" in
  let hook := lit "alert" in
  (blank ws0 /\ blank ws1 /\ ws1 <> [] /\ blank ws2 /\ ws2 <> [] /\ blank ws3 /\
   token streamer /\ token hook) /\
  parse_command f (ws0 ++ lit "/start" ++ ws1 ++ streamer ++ ws2 ++ hook ++ ws3)
  = Ok (mkCommandDesc START
          [(lit "streamer", PStr streamer); (lit "hook_name", PStr hook)]) /\
  parse_command f (ws0 ++ lit "/stop" ++ ws1 ++ streamer ++ ws3)
  = Ok (mkCommandDesc STOP [(lit "streamer", PStr streamer)]).
Proof.
  intros f ws0 ws1 ws2 ws3 streamer hook.
  assert (H : blank ws0 /\ blank ws1 /\ ws1 <> [] /\ blank ws2 /\ ws2 <> [] /\ blank ws3 /\
              token streamer /\ token hook).
  { repeat split; try done; repeat constructor. }
  split; [exact H|].
  destruct H as (H0 & H1 & N1 & H2 & N2 & H3 & Hs & Hh).
  exact (parse_recovers_start_and_stop_arguments f ws0 ws1 ws2 ws3 streamer hook
           H0 H1 N1 H2 N2 H3 Hs Hh).
Defined.

(** ** The parameters of a parsed command are tokens *)

Section ParsedTokens.
Import PyStr PyStrFacts PyStrSplitFacts.
Variable float_of_str : str -> option float.

Lemma split_token_then_rest_token s : forall tok,
  token tok ->
  exists tok' data,
    split_whitespace (Some tok) (Some 1) s = tok' :: data /\ token tok' /\ remainder_ok data.
Proof.
  induction s as [|c r IH]; intros tok Htok; cbn.
  - exists tok, []. split; [done|]. split; [done|by left].
  - destruct (isspace c) eqn:Hc.
    + exists tok. eexists. split; [done|]. split; [done|]. apply split_rest_after_limit.
    + apply IH. destruct Htok as [? Htok]. split; [by destruct tok|].
      apply Forall_app. split; [done|by repeat constructor].
Qed.

Lemma split_first_token c r :
  isspace c = false ->
  exists h data, split (Some 1) (c :: r) = h :: data /\ token h /\ remainder_ok data.
Proof.
  intros Hc. unfold split. cbn. rewrite Hc. apply split_token_then_rest_token.
  split; [done|by repeat constructor].
Qed.

Lemma Forall_removelast {A} (P : A -> Prop) (l : list A) :
  Forall P l -> Forall P (removelast l).
Proof.
  induction 1 as [|a l Ha Hall IH]; [constructor|].
  destruct l as [|b l]; [constructor|].
  change (removelast (a :: b :: l)) with (a :: removelast (b :: l)). by constructor.
Qed.

Lemma removelast_token (name : str) :
  token name -> (1 < length name)%nat -> token (removelast name).
Proof.
  intros [_ Hall] Hlen. split; [|by apply Forall_removelast].
  destruct name as [|a [|b name]]; cbn in *; [lia|lia|done].
Qed.

Lemma _parse_start_command_tokens data p :
  remainder_ok data -> _parse_start_command data = Ok p ->
  params_are_tokens (mkCommandDesc START p).
Proof.
  intros [->|(c & r & Hc & ->)]; [done|].
  unfold _parse_start_command. rewrite index_0; cbn [is_empty rbind].
  pose proof (split_items (c :: r)) as Hitems.
  destruct (split None (c :: r)) as [|v0 [|v1 [|v2 values]]];
    cbn [length Nat.ltb Nat.leb]; try done.
  rewrite index_0, index_1. cbn [rbind]. intros [= <-].
  apply Forall_cons in Hitems as [H0 Hitems]. apply Forall_cons in Hitems as [H1 _].
  hnf. cbn. eauto.
Qed.

Lemma _parse_stop_command_tokens data p :
  remainder_ok data -> _parse_stop_command data = Ok p ->
  params_are_tokens (mkCommandDesc STOP p).
Proof.
  intros [->|(c & r & Hc & ->)]; [done|].
  unfold _parse_stop_command. rewrite index_0; cbn [is_empty rbind].
  pose proof (split_items (c :: r)) as Hitems.
  destruct (split None (c :: r)) as [|v0 [|v1 values]];
    cbn [length Nat.eqb negb]; try done.
  rewrite index_0. cbn [rbind]. intros [= <-].
  apply Forall_cons in Hitems as [H0 _].
  hnf. cbn. eauto.
Qed.

Lemma _parse_hook_command_tokens data p :
  remainder_ok data -> _parse_hook_command data = Ok p ->
  params_are_tokens (mkCommandDesc HOOK p).
Proof.
  intros [->|(c & r & Hc & ->)]; [done|].
  unfold _parse_hook_command. rewrite index_0; cbn [is_empty rbind].
  destruct (split_first_token c r Hc) as (name & words & -> & Hname & Hwords).
  cbn [unpack_head rbind].
  destruct (endswith_char 58 name && (1 <? length name)%nat) eqn:E; cbn [negb]; [|done].
  apply andb_true_iff in E as [_ Hlen%Nat.ltb_lt].
  destruct Hwords as [->|(c' & r' & Hc' & ->)]; cbn [is_empty]; [done|].
  rewrite index_0. cbn [rbind]. intros [= <-].
  hnf. cbn. exists (removelast name), c', r'. split; [done|].
  split; [by apply removelast_token|done].
Qed.
End ParsedTokens.

(** X3. Whatever the command, the names in a parsed description are tokens
    (not empty, no whitespace): the broadcaster and the hook of [/start],
    the broadcaster of [/stop], the hook name of [/hook]; and the text of a
    hook is not empty and starts with a character that is no whitespace. *)
Theorem parsed_names_are_tokens float_of_str command desc :
  parse_command float_of_str command = Ok desc -> params_are_tokens desc.
Proof.
  destruct (PyStrSplitFacts.blank_dec command) as [Hb|Hn].
  { by rewrite parse_command_blank. }
  destruct (PyStrSplitFacts.not_blank_inv command Hn) as (ws & c & r & Hws & Hc & ->).
  rewrite parse_command_skip_blank by done. unfold parse_command.
  destruct (split_first_token c r Hc) as (command_name & data & -> & _ & Hdata).
  cbn [unpack_head rbind].
  repeat case_decide.
  - destruct (_parse_start_command data) as [p|] eqn:E; cbn [rbind]; [|done].
    intros [= <-]. by eapply _parse_start_command_tokens.
  - destruct (_parse_stop_command data) as [p|] eqn:E; cbn [rbind]; [|done].
    intros [= <-]. by eapply _parse_stop_command_tokens.
  - destruct (_parse_stopall_command data) as [p|]; cbn [rbind]; [|done]. by intros [= <-].
  - destruct (_parse_hook_command data) as [p|] eqn:E; cbn [rbind]; [|done].
    intros [= <-]. by eapply _parse_hook_command_tokens.
  - destruct (_parse_hooks_command data) as [p|]; cbn [rbind]; [|done]. by intros [= <-].
  - destruct (_parse_threshold_command float_of_str data) as [p|]; cbn [rbind]; [|done].
    by intros [= <-].
  - cbn [_parse_help_command rbind]. by intros [= <-].
  - done.
Qed.

Lemma parsed_names_are_tokens_witness :
  let command := lit " /hook  alert:   give away  " in
  let desc := mkCommandDesc HOOK
                [(lit "hook_name", PStr (lit "alert")); (lit "hook_str", PStr (lit "give away  "))] in
  parse_command (fun _ => None) command = Ok desc /\ params_are_tokens desc.
Proof.
  intros command desc.
  assert (H : parse_command (fun _ => None) command = Ok desc) by (vm_compute; reflexivity).
  split; [exact H|].
  exact (parsed_names_are_tokens (fun _ => None) command desc H).
Defined.

Section HookAndThresholdCommands.
Import PyStr PyStrFacts PyStrSplitFacts PyDictFacts.
Variable float_of_str : str -> option float.
Variable str_of_float : float -> str.

Lemma token_snoc name c : token name -> isspace c = false -> token (name ++ [c]).
Proof.
  intros [Hne Hall] Hc. split; [by destruct name|].
  apply Forall_app. split; [done|by repeat constructor].
Qed.

Lemma parse_hook_spaced ws0 ws1 ws2 name c r :
  blank ws0 -> blank ws1 -> ws1 <> [] -> blank ws2 -> ws2 <> [] ->
  token name -> isspace c = false ->
  parse_command float_of_str
    (ws0 ++ lit "/hook" ++ ws1 ++ name ++ lit ":" ++ ws2 ++ c :: r)
  = Ok (mkCommandDesc HOOK
          [(lit "hook_name", PStr name); (lit "hook_str", PStr (c :: r))]).
Proof.
  intros H0 H1 N1 H2 N2 Hname Hc.
  assert (Hcolon : token (name ++ lit ":")).
  { change (lit ":") with [58%N]. by apply token_snoc. }
  destruct (token_head name Hname) as (c0 & r0 & En & Hc0).
  unfold parse_command.
  replace (name ++ lit ":" ++ ws2 ++ c :: r) with (c0 :: (r0 ++ lit ":" ++ ws2 ++ c :: r))
    by by rewrite En.
  rewrite (split_name_rest (lit "/hook")) by (done || apply token_lit_hook).
  cbn [unpack_head rbind]. do 3 rewrite decide_False by done. rewrite decide_True by done.
  unfold _parse_hook_command. cbn [is_empty]. rewrite index_0. cbn [rbind].
  replace (c0 :: r0 ++ lit ":" ++ ws2 ++ c :: r) with ([] ++ (name ++ lit ":") ++ ws2 ++ c :: r)
    by by rewrite En, <- !app_assoc.
  rewrite split_name_rest by (done || constructor).
  cbn [unpack_head rbind].
  assert (Hend : endswith_char 58 (name ++ lit ":") = true).
  { unfold endswith_char. change (lit ":") with [58%N]. by rewrite last_snoc. }
  assert (Hlen : (1 <? length (name ++ lit ":"))%nat = true).
  { apply Nat.ltb_lt. change (lit ":") with [58%N]. rewrite length_app, En. cbn. lia. }
  rewrite Hend, Hlen. cbn [andb negb is_empty]. rewrite index_0. cbn [rbind].
  change (lit ":") with [58%N]. by rewrite removelast_last.
Qed.

Lemma parse_hooks_only : parse_command float_of_str (lit "/hooks") = Ok (mkCommandDesc ALL_HOOKS []).
Proof. reflexivity. Qed.

Lemma parse_threshold_spaced ws0 ws1 ws2 v x :
  blank ws0 -> blank ws1 -> ws1 <> [] -> blank ws2 -> token v ->
  float_of_str v = Some x ->
  parse_command float_of_str (ws0 ++ lit "/threshold" ++ ws1 ++ v ++ ws2)
  = if float_lt x float_0_0 || float_lt float_1_0 x then
      Raise (CommandParseError (lit "Wrong threshold value (0.0 <= value <= 1.0)"))
    else Ok (mkCommandDesc THRESHOLD [(lit "threshold", PFloat x)]).
Proof.
  intros H0 H1 N1 H2 Hv Hx.
  destruct (token_head v Hv) as (c & r & Ev & Hc).
  unfold parse_command. rewrite Ev, <- !app_comm_cons.
  rewrite (split_name_rest (lit "/threshold")) by (done || apply token_lit_threshold).
  cbn [unpack_head rbind]. do 5 rewrite decide_False by done. rewrite decide_True by done.
  unfold _parse_threshold_command. cbn [is_empty]. rewrite index_0. cbn [rbind].
  rewrite !app_comm_cons, <- Ev.
  replace (v ++ ws2) with ([] ++ v ++ ws2) by done.
  rewrite split_name_only by (done || constructor).
  cbn [unpack_head rbind]. unfold pyfloat. rewrite Hx. cbn [rbind is_empty negb].
  by destruct (float_lt x float_0_0 || float_lt float_1_0 x).
Qed.
End HookAndThresholdCommands.

(** ** The hook, hooks and threshold commands of a registered user *)

Section HookHandlers.
Import PyDictFacts.
Variable float_of_str : str -> option float.
Variable str_of_float : float -> str.
Implicit Types (st : ActivityObserver) (u : str).

Lemma deref_user_run st u usr :
  PyDict.get u (_users st) = Some usr -> deref_user u st = (Ok usr, st).
Proof. intros H. unfold deref_user. by rewrite H. Qed.

Lemma _process_hook_command_run st u usr name text :
  PyDict.get u (_users st) = Some usr ->
  _process_hook_command u name text st
  = (Ok tt,
     with_users
       (PyDict.set u (User.with_hooks (PyDict.set name text (User.hooks usr)) usr) (_users st))
       (with_outbox
          (outbox st ++
             [Notification.mk [u]
                ((if PyDict.contains name (User.hooks usr) then lit "Replace hook "
                  else lit "Set new hook ") ++ name ++ lit ": " ++ text)])
          st)).
Proof.
  intros Hu. unfold _process_hook_command, bind. rewrite (deref_user_run _ _ _ Hu).
  destruct (PyDict.contains name (User.hooks usr)); rewrite _notify_run; reflexivity.
Qed.

Lemma _process_hooks_command_run st u usr :
  PyDict.get u (_users st) = Some usr ->
  _process_hooks_command u st
  = (Ok tt,
     with_outbox
       (outbox st ++
          [Notification.mk [u]
             (if is_empty (User.hooks usr) then lit "Empty hooks list"
              else join [13%N; 10%N]
                     (map (fun '(name, hook_str) => name ++ lit ": " ++ hook_str)
                        (User.hooks usr)))])
       st).
Proof.
  intros Hu. unfold _process_hooks_command, bind. rewrite (deref_user_run _ _ _ Hu).
  destruct (is_empty (User.hooks usr)); by rewrite _notify_run.
Qed.

Lemma _process_threshold_command_run st u usr x :
  PyDict.get u (_users st) = Some usr ->
  _process_threshold_command str_of_float u x st
  = (Ok tt,
     with_users (PyDict.set u (User.with_threshold x usr) (_users st))
       (with_outbox
          (outbox st ++
             [Notification.mk [u] (lit "You set new threshold " ++ str_of_float x)])
          st)).
Proof.
  intros Hu. unfold _process_threshold_command, bind. rewrite _notify_run.
  unfold deref_user. cbn. by rewrite Hu.
Qed.

Lemma _process_command_hook twitch st u command name text :
  parse_command float_of_str command
  = Ok (mkCommandDesc HOOK [(lit "hook_name", PStr name); (lit "hook_str", PStr text)]) ->
  _process_command float_of_str str_of_float twitch u command st
  = finish (_process_hook_command u name text) st.
Proof.
  intros Hp. unfold _process_command. rewrite Hp. cbn [command_type parameters].
  unfold kwarg_str. cbn [PyDict.get]. rewrite decide_True by done.
  rewrite decide_False by done. rewrite decide_True by done. reflexivity.
Qed.

Lemma _process_command_threshold twitch st u command x :
  parse_command float_of_str command
  = Ok (mkCommandDesc THRESHOLD [(lit "threshold", PFloat x)]) ->
  _process_command float_of_str str_of_float twitch u command st
  = finish (_process_threshold_command str_of_float u x) st.
Proof.
  intros Hp. unfold _process_command. rewrite Hp. cbn [command_type parameters].
  unfold kwarg_float. cbn [PyDict.get]. rewrite decide_True by done. reflexivity.
Qed.

Lemma _process_command_hooks twitch st u :
  _process_command float_of_str str_of_float twitch u (lit "/hooks") st
  = finish (_process_hooks_command u) st.
Proof. reflexivity. Qed.
End HookHandlers.

Lemma PyDict_set_not_empty {V} k (v : V) d : is_empty (PyDict.set k v d) = false.
Proof. destruct d as [|[k' v'] d]; cbn; [done|]. by case_decide. Qed.

(** X4. [/hook name: text] stores the text under the name for the sender,
    keeps every other hook, and [/hooks] then answers with one line
    [name: text] per hook, in the order of the dictionary, the new line
    among them. *)
Theorem hook_command_then_hooks_lists_it
    float_of_str str_of_float twitch st u usr name c r :
  PyDict.get u (_users st) = Some usr -> token name -> PyStr.isspace c = false ->
  let text := c :: r in
  let run1 := _process_command float_of_str str_of_float twitch u
                (lit "/hook " ++ name ++ lit ": " ++ text) st in
  let hooks1 := PyDict.set name text (User.hooks usr) in
  let lines := map (fun '(n, t) => n ++ lit ": " ++ t) hooks1 in
  fst run1 = Finished (Ok tt) /\
  PyDict.get u (_users (snd run1)) = Some (User.with_hooks hooks1 usr) /\
  PyDict.get name hooks1 = Some text /\
  (forall h, h <> name -> PyDict.get h hooks1 = PyDict.get h (User.hooks usr)) /\
  _process_command float_of_str str_of_float twitch u (lit "/hooks") (snd run1)
  = (Finished (Ok tt),
     with_outbox (outbox (snd run1) ++ [Notification.mk [u] (join [13%N; 10%N] lines)])
       (snd run1)) /\
  (name ++ lit ": " ++ text) ∈ lines.
Proof.
  intros Hu Hname Hc text run1 hooks1 lines.
  assert (Hparse : parse_command float_of_str (lit "/hook " ++ name ++ lit ": " ++ text)
                   = Ok (mkCommandDesc HOOK
                           [(lit "hook_name", PStr name); (lit "hook_str", PStr text)])).
  { pose proof (parse_hook_spaced float_of_str [] (lit " ") (lit " ") name c r) as H.
    apply H; try done; repeat constructor. }
  assert (Hrun1 : run1 = (Finished (Ok tt),
            with_users (PyDict.set u (User.with_hooks hooks1 usr) (_users st))
              (with_outbox
                 (outbox st ++
                    [Notification.mk [u]
                       ((if PyDict.contains name (User.hooks usr) then lit "Replace hook "
                         else lit "Set new hook ") ++ name ++ lit ": " ++ text)])
                 st))).
  { unfold run1. rewrite (_process_command_hook _ _ _ _ _ _ _ _ Hparse).
    unfold finish. by rewrite (_process_hook_command_run _ _ _ _ _ Hu). }
  assert (Hu1 : PyDict.get u (_users (snd run1)) = Some (User.with_hooks hooks1 usr)).
  { rewrite Hrun1. cbn [snd with_users _users]. rewrite PyDictFacts.get_set.
    by rewrite decide_True. }
  split; [by rewrite Hrun1|]. split; [done|]. split.
  { unfold hooks1. rewrite PyDictFacts.get_set. by rewrite decide_True. }
  split.
  { intros h Hh. unfold hooks1. rewrite PyDictFacts.get_set. by rewrite decide_False. }
  split.
  { rewrite _process_command_hooks. unfold finish.
    rewrite (_process_hooks_command_run _ _ _ Hu1).
    cbn [User.hooks User.with_hooks]. fold hooks1.
    unfold hooks1 at 1. by rewrite PyDict_set_not_empty. }
  apply list_elem_of_fmap. exists (name, text). split; [done|].
  apply PyDictFacts.get_Some_elem. unfold hooks1. rewrite PyDictFacts.get_set.
  by rewrite decide_True.
Qed.

Lemma hook_command_then_hooks_lists_it_witness :
  let st := Scenario.two_users in
  let usr := User.mk (lit "alice") 1 [] [(lit "alert", lit "giveaway")] float_0_5 0 in
  (PyDict.get (lit "alice") (_users st) = Some usr /\ token (lit "alert") /\
   PyStr.isspace 102 = false) /\
  fst (_process_command Scenario.float_of_str Scenario.str_of_float Scenario.live
         (lit "alice") (lit "/hook " ++ lit "alert" ++ lit ": " ++ lit "free stuff") st)
  = Finished (Ok tt).
Proof.
  intros st usr.
  assert (H : PyDict.get (lit "alice") (_users st) = Some usr /\ token (lit "alert") /\
              PyStr.isspace 102 = false).
  { split; [reflexivity|]. split; [|reflexivity]. split; [done|repeat constructor]. }
  split; [exact H|].
  destruct H as (Hu & Hname & Hc).
  exact (proj1 (hook_command_then_hooks_lists_it Scenario.float_of_str Scenario.str_of_float
                  Scenario.live st (lit "alice") usr (lit "alert") 102%N (lit "ree stuff")
                  Hu Hname Hc)).
Defined.

(** X5. A threshold that [float()] reads as NaN is accepted (it is neither
    below 0.0 nor above 1.0), it becomes the sender's threshold, and from then
    on no ratio passes for that user: every comparison with NaN is false. *)
Theorem nan_threshold_accepted_and_never_met
    float_of_str str_of_float twitch ratio st u usr v :
  PyDict.get u (_users st) = Some usr -> token v -> float_of_str v = Some S754_nan ->
  let run := _process_command float_of_str str_of_float twitch u
               (lit "/threshold " ++ v) st in
  fst run = Finished (Ok tt) /\
  PyDict.get u (_users (snd run)) = Some (User.with_threshold S754_nan usr) /\
  (forall matcher, _ratio_passed ratio matcher S754_nan = false) /\
  (forall message sub,
     user sub = u -> meets_threshold ratio (_users (snd run)) message sub = false).
Proof.
  intros Hu Hv Hnan run.
  assert (Hparse : parse_command float_of_str (lit "/threshold " ++ v)
                   = Ok (mkCommandDesc THRESHOLD [(lit "threshold", PFloat S754_nan)])).
  { pose proof (parse_threshold_spaced float_of_str [] (lit " ") [] v S754_nan) as H.
    rewrite app_nil_r in H. apply H; try done; repeat constructor. }
  assert (Hrun : run = (Finished (Ok tt),
            with_users (PyDict.set u (User.with_threshold S754_nan usr) (_users st))
              (with_outbox
                 (outbox st ++
                    [Notification.mk [u]
                       (lit "You set new threshold " ++ str_of_float S754_nan)])
                 st))).
  { unfold run. rewrite (_process_command_threshold _ _ _ _ _ _ _ Hparse).
    unfold finish. by rewrite (_process_threshold_command_run _ _ _ _ _ Hu). }
  assert (Hu1 : PyDict.get u (_users (snd run)) = Some (User.with_threshold S754_nan usr)).
  { rewrite Hrun. cbn [snd with_users _users]. rewrite PyDictFacts.get_set.
    by rewrite decide_True. }
  assert (Hnever : forall x, float_ge x S754_nan = false) by by intros [| | |].
  split; [by rewrite Hrun|]. split; [done|]. split.
  { intros matcher. apply Hnever. }
  intros message sub <-. unfold meets_threshold. rewrite Hu1.
  cbn [User.hooks User.threshold User.with_threshold].
  destruct (PyDict.get (hook_name sub) (User.hooks usr)); [apply Hnever|done].
Qed.

Lemma nan_threshold_accepted_and_never_met_witness :
  let f : str -> option float :=
    fun s => if decide (s = lit "nan") then Some S754_nan else None in
  let st := Scenario.two_users in
  let usr := User.mk (lit "alice") 1 [] [(lit "alert", lit "giveaway")] float_0_5 0 in
  (PyDict.get (lit "alice") (_users st) = Some usr /\ token (lit "nan") /\
   f (lit "nan") = Some S754_nan) /\
  fst (_process_command f Scenario.str_of_float Scenario.live (lit "alice")
         (lit "/threshold " ++ lit "nan") st)
  = Finished (Ok tt).
Proof.
  intros f st usr.
  assert (H : PyDict.get (lit "alice") (_users st) = Some usr /\ token (lit "nan") /\
              f (lit "nan") = Some S754_nan).
  { split; [reflexivity|]. split; [|reflexivity]. split; [done|repeat constructor]. }
  split; [exact H|].
  destruct H as (Hu & Hv & Hnan).
  exact (proj1 (nan_threshold_accepted_and_never_met f Scenario.str_of_float Scenario.live
                  (fun _ _ => float_1_0) st (lit "alice") usr (lit "nan") Hu Hv Hnan)).
Defined.

(** X6. A subscription refers to its hook by name and the pattern is read
    when a message is matched: once [/hook] has replaced the text of that
    hook, the running subscription is matched against the new text. The
    command leaves the sessions and the registry as they are. *)
Theorem replaced_hook_applies_to_running_subscriptions
    float_of_str str_of_float twitch ratio st u usr name c r :
  PyDict.get u (_users st) = Some usr -> token name -> PyStr.isspace c = false ->
  let text := c :: r in
  let st' := snd (_process_command float_of_str str_of_float twitch u
                    (lit "/hook " ++ name ++ lit ": " ++ text) st) in
  sessions st' = sessions st /\ _streamers st' = _streamers st /\
  forall message,
    _create_tasks_loop ratio (_users st') message [mkSubscribe u name]
    = Ok [_ratio_passed ratio (mkSequenceMatcher message text) (User.threshold usr)].
Proof.
  intros Hu Hname Hc text st'.
  assert (Hparse : parse_command float_of_str (lit "/hook " ++ name ++ lit ": " ++ text)
                   = Ok (mkCommandDesc HOOK
                           [(lit "hook_name", PStr name); (lit "hook_str", PStr text)])).
  { pose proof (parse_hook_spaced float_of_str [] (lit " ") (lit " ") name c r) as H.
    apply H; try done; repeat constructor. }
  assert (Hst' : st' = with_users
                         (PyDict.set u
                            (User.with_hooks (PyDict.set name text (User.hooks usr)) usr)
                            (_users st))
              (with_outbox
                 (outbox st ++
                    [Notification.mk [u]
                       ((if PyDict.contains name (User.hooks usr) then lit "Replace hook "
                         else lit "Set new hook ") ++ name ++ lit ": " ++ text)])
                 st)).
  { unfold st'. rewrite (_process_command_hook _ _ _ _ _ _ _ _ Hparse).
    unfold finish. by rewrite (_process_hook_command_run _ _ _ _ _ Hu). }
  rewrite Hst'. split; [done|]. split; [done|]. intros message.
  cbn [_create_tasks_loop user hook_name with_users _users].
  rewrite PyDictFacts.get_set, decide_True by done.
  cbn [User.hooks User.with_hooks User.threshold]. unfold PyDict.getitem.
  rewrite PyDictFacts.get_set, decide_True by done. reflexivity.
Qed.

Lemma replaced_hook_applies_to_running_subscriptions_witness :
  let st := Scenario.one_session in
  let usr := User.mk (lit "alice") 1 [(lit "foo", 0)] [(lit "alert", lit "giveaway")]
               float_0_5 0 in
  (PyDict.get (lit "alice") (_users st) = Some usr /\ token (lit "alert") /\
   PyStr.isspace 102 = false) /\
  sessions (snd (_process_command Scenario.float_of_str Scenario.str_of_float Scenario.live
                   (lit "alice") (lit "/hook " ++ lit "alert" ++ lit ": " ++ lit "free stuff")
                   st))
  = sessions st.
Proof.
  intros st usr.
  assert (H : PyDict.get (lit "alice") (_users st) = Some usr /\ token (lit "alert") /\
              PyStr.isspace 102 = false).
  { split; [reflexivity|]. split; [|reflexivity]. split; [done|repeat constructor]. }
  split; [exact H|].
  destruct H as (Hu & Hname & Hc).
  exact (proj1 (replaced_hook_applies_to_running_subscriptions Scenario.float_of_str
                  Scenario.str_of_float Scenario.live (fun _ _ => float_1_0) st
                  (lit "alice") usr (lit "alert") 102%N (lit "ree stuff") Hu Hname Hc)).
Defined.

(** ** Reading a chat line *)

Example split_sep_ex1 : split_sep (lit "!") (Some 1) (lit "a!b!c") = [lit "a"; lit "b!c"].
Proof. reflexivity. Qed.
Example split_sep_ex2 : split_sep (lit "!") None (lit "a!b!") = [lit "a"; lit "b"; []].
Proof. reflexivity. Qed.
Example split_sep_ex3 : split_sep (lit "!") (Some 1) [] = [[]].
Proof. reflexivity. Qed.
Example split_sep_ex4 :
  split_sep [13%N; 10%N] (Some 1) (lit "hi" ++ [13%N; 13%N; 10%N] ++ lit "x")
  = [lit "hi" ++ [13%N]; lit "x"].
Proof. reflexivity. Qed.

Section SplitSepFacts.
Import PyStr PyStrFacts PyStrSplitFacts.

(** A split on a separator never gives an empty list. *)
Lemma split_sep_from_nonempty sep s : forall m skip cur,
  split_sep_from sep m skip cur s <> [].
Proof.
  induction s as [|c r IH]; intros m skip cur; cbn; [done|].
  destruct skip; [|apply IH].
  destruct (_ && _); [done|apply IH].
Qed.

Lemma split_sep_index_0 sep m s : exists x, index (split_sep sep m s) 0 = Ok x.
Proof.
  unfold split_sep. destruct (split_sep_from sep m 0 [] s) as [|x l] eqn:E.
  - by apply split_sep_from_nonempty in E.
  - by exists x.
Qed.

Lemma startswith_app sep b : startswith sep (sep ++ b) = true.
Proof. induction sep as [|x sep IH]; cbn; [done|]. by rewrite N.eqb_refl. Qed.

Lemma split_sep_from_skip sep m cur sk b :
  split_sep_from sep m (length sk) cur (sk ++ b) = split_sep_from sep m 0 cur b.
Proof. induction sk as [|x sk IH]; [by destruct b|]. cbn. apply IH. Qed.

(** Cutting at the first separator, when the part before it does not
    hold the separator's first character. *)
Lemma split_sep_from_cut x sep' m a b : forall cur,
  m <> Some 0 -> x ∉ a ->
  split_sep_from (x :: sep') m 0 cur (a ++ (x :: sep') ++ b)
  = (cur ++ a) :: split_sep_from (x :: sep') (Nat.pred <$> m) 0 [] b.
Proof.
  intros cur Hm. revert cur. induction a as [|c a IH]; intros cur Hx.
  - rewrite app_nil_r. cbn [app split_sep_from].
    rewrite bool_decide_false by done. cbn [negb andb].
    change (startswith (x :: sep') (x :: sep' ++ b)) with
      (startswith (x :: sep') ((x :: sep') ++ b)).
    rewrite startswith_app. cbn [length Nat.pred].
    by rewrite split_sep_from_skip.
  - apply not_elem_of_cons in Hx as [Hxc Hx].
    cbn [app split_sep_from]. rewrite bool_decide_false by done. cbn [negb andb startswith].
    destruct (N.eqb_spec x c) as [->|_]; [done|]. cbn [andb].
    rewrite IH by done. by rewrite <- app_assoc.
Qed.

(** Without a separator left (or without a cut left) the rest is one field. *)
Lemma split_sep_from_rest sep s : forall cur,
  split_sep_from sep (Some 0) 0 cur s = [cur ++ s].
Proof.
  induction s as [|c r IH]; intros cur; cbn; [by rewrite app_nil_r|].
  rewrite IH. by rewrite <- app_assoc.
Qed.

Lemma split_sep_first x sep' a b :
  x ∉ a ->
  split_sep (x :: sep') (Some 1) (a ++ (x :: sep') ++ b) = [a; b].
Proof.
  intros Hx. unfold split_sep. rewrite split_sep_from_cut by done.
  cbn [fmap option_fmap option_map Nat.pred]. by rewrite split_sep_from_rest.
Qed.

(** Four fields: three tokens, each followed by whitespace, and a rest. *)
Lemma split_three_tokens_rest t1 ws1 t2 ws2 t3 ws3 c r :
  token t1 -> blank ws1 -> ws1 <> [] -> token t2 -> blank ws2 -> ws2 <> [] ->
  token t3 -> blank ws3 -> ws3 <> [] -> isspace c = false ->
  split (Some 3) (t1 ++ ws1 ++ t2 ++ ws2 ++ t3 ++ ws3 ++ c :: r) = [t1; t2; t3; c :: r].
Proof.
  intros Ht1 H1 N1 Ht2 H2 N2 Ht3 H3 N3 Hc. unfold split.
  rewrite split_whitespace_token by done.
  destruct H1 as [|w1 ws1 Hw1 H1]; [done|].
  rewrite <- app_comm_cons, split_whitespace_end_token by done.
  rewrite split_whitespace_skip_blank by done. cbn [fmap option_fmap option_map Nat.pred].
  rewrite split_whitespace_token by done.
  destruct H2 as [|w2 ws2 Hw2 H2]; [done|].
  rewrite <- app_comm_cons, split_whitespace_end_token by done.
  rewrite split_whitespace_skip_blank by done. cbn [fmap option_fmap option_map Nat.pred].
  rewrite split_whitespace_token by done.
  destruct H3 as [|w3 ws3 Hw3 H3]; [done|].
  rewrite <- app_comm_cons, split_whitespace_end_token by done.
  rewrite split_whitespace_skip_blank by done. cbn. by rewrite Hc.
Qed.
End SplitSepFacts.

(** X7. [_parse_msg] raises on no line: every index it takes exists. It
    gives a message exactly for the lines that split (on whitespace, at most
    three times) into four fields of which the second is [PRIVMSG], and the
    message then carries the elapsed time of that moment. *)
Theorem _parse_msg_never_raises from_start data :
  exists r,
    _parse_msg from_start data = Ok r /\
    match r with
    | Some m =>
        ChatMessage.from_start m = from_start /\
        exists p0 p2 p3, PyStr.split (Some 3) data = [p0; lit "PRIVMSG"; p2; p3]
    | None =>
        forall p0 p2 p3, PyStr.split (Some 3) data <> [p0; lit "PRIVMSG"; p2; p3]
    end.
Proof.
  unfold _parse_msg.
  destruct (PyStr.split (Some 3) data) as [|p0 [|p1 [|p2 [|p3 [|p4 parts]]]]];
    cbn [length Nat.eqb]; try (by eexists; split; [reflexivity|]).
  cbn [index lookup list_lookup rbind]. case_decide as Hp1.
  - subst p1.
    destruct (split_sep_index_0 (lit "!") (Some 1) (drop 1 p0)) as (nickname & ->).
    destruct (split_sep_index_0 [13%N; 10%N] (Some 1) (drop 1 p3)) as (message & ->).
    cbn [rbind]. eexists. split; [reflexivity|]. cbn. split; [done|]. eauto.
  - eexists. split; [reflexivity|]. intros q0 q2 q3 [= -> Hq _ _]. done.
Qed.

(** X8. A chat line as the server sends it,
    [:nick!user@host PRIVMSG #channel :text] followed by CR LF, is read back
    as the nickname and the text: the nickname is what stands between the
    first colon and the first [!], the text is everything after the colon of
    the fourth field up to the line end, inner and leading whitespace
    included. *)
Theorem _parse_msg_of_privmsg_line from_start nick user_host channel text :
  Forall (fun c => PyStr.isspace c = false) nick -> 33%N ∉ nick ->
  Forall (fun c => PyStr.isspace c = false) user_host ->
  token channel -> 13%N ∉ text ->
  _parse_msg from_start
    (lit ":" ++ nick ++ lit "!" ++ user_host ++ lit " PRIVMSG " ++ channel ++ lit " :"
     ++ text ++ [13%N; 10%N])
  = Ok (Some (ChatMessage.mk nick text from_start)).
Proof.
  intros Hnick Hbang Huh Hchan Hcr.
  set (prefix := lit ":" ++ nick ++ lit "!" ++ user_host).
  assert (Hprefix : token prefix).
  { split; [done|]. unfold prefix. repeat (apply Forall_app; split); try done;
      by repeat constructor. }
  assert (Hsplit : PyStr.split (Some 3)
            (lit ":" ++ nick ++ lit "!" ++ user_host ++ lit " PRIVMSG " ++ channel ++ lit " :"
             ++ text ++ [13%N; 10%N])
          = [prefix; lit "PRIVMSG"; channel; lit ":" ++ text ++ [13%N; 10%N]]).
  { pose proof (split_three_tokens_rest prefix (lit " ") (lit "PRIVMSG") (lit " ") channel
                  (lit " ") 58%N (text ++ [13%N; 10%N])) as H.
    unfold prefix in *. rewrite <- !app_assoc in H. apply H; try done;
      by repeat constructor. }
  unfold _parse_msg. rewrite Hsplit. cbn [length Nat.eqb index lookup list_lookup rbind].
  rewrite decide_True by done.
  change (drop 1 prefix) with (nick ++ (33%N :: []) ++ user_host).
  change (lit "!") with [33%N].
  rewrite (split_sep_first 33%N [] nick user_host) by done.
  change (drop 1 (lit ":" ++ text ++ [13%N; 10%N])) with (text ++ [13%N; 10%N]).
  replace (text ++ [13%N; 10%N]) with (text ++ (13%N :: [10%N]) ++ []) by done.
  change (index [nick; user_host] 0) with (Ok nick). cbn [rbind].
  by rewrite (split_sep_first 13%N [10%N] text []).
Qed.

Lemma _parse_msg_of_privmsg_line_witness :
  let nick := lit "bob" in
  let user_host := lit "bob@bob.tmi.twitch.tv" in
  let channel := lit "#foo" in
  let text := lit " free  giveaway now " in
  (Forall (fun c => PyStr.isspace c = false) nick /\ (33%N ∉ nick) /\
   Forall (fun c => PyStr.isspace c = false) user_host /\
   token channel /\ (13%N ∉ text)) /\
  _parse_msg (lit "0:01:02.5")
    (lit ":" ++ nick ++ lit "!" ++ user_host ++ lit " PRIVMSG " ++ channel ++ lit " :"
     ++ text ++ [13%N; 10%N])
  = Ok (Some (ChatMessage.mk nick text (lit "0:01:02.5"))).
Proof.
  intros nick user_host channel text.
  assert (H : Forall (fun c => PyStr.isspace c = false) nick /\ (33%N ∉ nick) /\
              Forall (fun c => PyStr.isspace c = false) user_host /\
              token channel /\ (13%N ∉ text)).
  { split; [repeat constructor|].
    split; [refine (bool_decide_unpack (33%N ∉ nick) _); reflexivity|].
    split; [repeat constructor|]. split; [split; [done|repeat constructor]|].
    refine (bool_decide_unpack (13%N ∉ text) _); reflexivity. }
  split; [exact H|].
  destruct H as (Hn & Hb & Hu & Hc & Ht).
  exact (_parse_msg_of_privmsg_line (lit "0:01:02.5") nick user_host channel text
           Hn Hb Hu Hc Ht).
Defined.

(** ** Registration *)

(** X9. The first message of a username registers a user with the chat id
    of that message, no hook, no tracked broadcaster and the default
    threshold; every later call for that username returns the same user and
    changes nothing, whatever chat id it carries: a record is never
    overwritten, and no other record is touched. *)
Theorem _get_user_registers_once name chat_id chat_id' st :
  let r1 := _get_user name chat_id st in
  let r2 := _get_user name chat_id' (snd r1) in
  fst r1 = Ok name /\ r2 = (Ok name, snd r1) /\
  (PyDict.get name (_users st) = None ->
   PyDict.get name (_users (snd r1))
   = Some (User.mk name chat_id [] [] float_0_5 User.default_start_lock) /\
   PyDict.keys (_users (snd r1)) = PyDict.keys (_users st) ++ [name]) /\
  (forall usr, PyDict.get name (_users st) = Some usr -> snd r1 = st) /\
  (forall u, u <> name -> PyDict.get u (_users (snd r1)) = PyDict.get u (_users st)).
Proof.
  intros r1 r2.
  assert (Hr1 : r1 = (Ok name,
            if PyDict.contains name (_users st) then st
            else with_users
                   (PyDict.set name (User.__init__ name chat_id PyDict.empty PyDict.empty)
                      (_users st)) st)).
  { unfold r1, _get_user, bind, gets. by destruct (PyDict.contains name (_users st)). }
  assert (Hin : PyDict.contains name (_users (snd r1)) = true).
  { rewrite Hr1. cbn [snd]. destruct (PyDict.contains name (_users st)) eqn:E; [done|].
    apply PyDictFacts.contains_true. cbn [with_users _users].
    rewrite PyDictFacts.get_set, decide_True by done. by eexists. }
  split; [by rewrite Hr1|]. split.
  { unfold r2, _get_user, bind, gets. cbn [fst snd]. by rewrite Hin. }
  split.
  { intros Hnone. apply PyDictFacts.contains_false in Hnone as Hc.
    rewrite Hr1. cbn [snd]. rewrite Hc. cbn [with_users _users]. split.
    - rewrite PyDictFacts.get_set. by rewrite decide_True.
    - rewrite PyDictFacts.keys_set. by rewrite Hc. }
  split.
  { intros usr Husr. rewrite Hr1. cbn [snd].
    assert (PyDict.contains name (_users st) = true) as ->; [|done].
    apply PyDictFacts.contains_true. by eexists. }
  intros u Hu. rewrite Hr1. cbn [snd].
  destruct (PyDict.contains name (_users st)); [done|]. cbn [with_users _users].
  rewrite PyDictFacts.get_set. by rewrite decide_False.
Qed.

(** ** The stop-all command *)

(** X10. In a reachable state, [/stop_all] of a registered user ends
    normally in a consistent state in which the user tracks nothing and
    subscribes to no active session, every other user tracks exactly what it
    tracked before, and the user has been sent one notice that names the
    broadcasters it tracked, in the order it started tracking them. *)
Theorem stopall_command_spec float_of_str str_of_float st u usr :
  reachable float_of_str str_of_float st ->
  PyDict.get u (_users st) = Some usr ->
  exists st',
    _process_stopall_command u st = (Ok tt, st') /\
    observer_inv st' /\
    (forall n, user_tracks st' u n = None) /\
    (forall n s sess,
       active_session st' n = Some (s, sess) ->
       PyDict.contains u (StreamSession._subs sess) = false) /\
    (forall u' n, u' <> u -> user_tracks st' u' n = user_tracks st u' n) /\
    outbox st'
    = outbox st ++
        [Notification.mk [u]
           (lit "Stop tracking " ++ join (lit " ") (PyDict.keys (User.streamers usr)))].
Proof.
  intros Hinv%reachable_inv Hu.
  destruct (_process_stopall_command_run st u usr Hinv Hu) as (st1 & Hloop & Husers & Hrun & Hinv').
  eexists. split; [exact Hrun|].
  set (st2 := with_users (PyDict.set u (User.with_streamers PyDict.empty usr) (_users st1)) st1)
    in *.
  assert (Htracks : forall u' n,
    user_tracks st2 u' n = if decide (u = u') then None else user_tracks st u' n).
  { intros u' n. rewrite (user_tracks_store st1 st2 u (User.with_streamers PyDict.empty usr))
      by done.
    case_decide; [done|]. unfold user_tracks. by rewrite Husers. }
  assert (Hframe : forall l,
    observer_inv (with_users (PyDict.set u (User.with_streamers PyDict.empty usr) (_users st1))
                    (with_outbox l st1))).
  { intros l. by apply (inv_gen_frame _ _ st2). }
  split; [apply Hframe|]. split.
  { intros n. change (user_tracks st2 u n = None). rewrite Htracks. by rewrite decide_True. }
  split.
  { intros n s sess Ha. change (active_session st2 n = Some (s, sess)) in Ha.
    destruct (PyDict.contains u (StreamSession._subs sess)) eqn:Hc; [|done].
    pose proof (inv_sub_to_user _ _ _ Hinv' n s sess u Ha Hc ltac:(tauto)) as Ht.
    rewrite Htracks, decide_True in Ht by done. done. }
  split.
  { intros u' n Hne. change (user_tracks st2 u' n = user_tracks st u' n).
    rewrite Htracks. by rewrite decide_False. }
  done.
Qed.

Lemma stopall_command_spec_witness :
  let usr := User.mk (lit "alice") 1 [(lit "foo", 0)] [(lit "alert", lit "giveaway")]
               float_0_5 0 in
  (reachable Scenario.float_of_str Scenario.str_of_float Scenario.two_sessions /\
   PyDict.get (lit "alice") (_users Scenario.two_sessions) = Some usr) /\
  exists st',
    _process_stopall_command (lit "alice") Scenario.two_sessions = (Ok tt, st') /\
    observer_inv st'.
Proof.
  intros usr.
  assert (H : reachable Scenario.float_of_str Scenario.str_of_float Scenario.two_sessions /\
              PyDict.get (lit "alice") (_users Scenario.two_sessions) = Some usr).
  { split; [apply two_sessions_reachable|reflexivity]. }
  split; [exact H|].
  destruct H as (Hr & Hu).
  destruct (stopall_command_spec Scenario.float_of_str Scenario.str_of_float
              Scenario.two_sessions (lit "alice") usr Hr Hu) as (st' & Hrun & Hinv & _).
  exists st'. by split.
Defined.

(** ** A sweep that finds every stream *)

Section SweepQuiet.
Implicit Types (st : ActivityObserver).

(** The failures among the first [n] results. *)
Lemma _streams_ping_loop_quiet results : forall pos st,
  Forall (fun r : lookup_reply => r <> Raise StreamNotFoundError) results ->
  _streams_ping_loop results (mkDictiter (PyDict.len (_streamers st)) pos) st
  = (Ok tt,
     with_logged
       (logged st ++
          omap (fun r : lookup_reply => match r with Raise e => Some e | Ok _ => None end)
            (take (PyDict.len (_streamers st) - pos) results))
       st).
Proof.
  assert (Hid : forall st, with_logged (logged st ++ []) st = st).
  { intros [? ? ? ? ? ? ? ?]. unfold with_logged. cbn. by rewrite app_nil_r. }
  induction results as [|desc rest IH]; intros pos st Hq.
  - cbn [_streams_ping_loop]. unfold dictiter_next. cbn [di_used di_pos].
    rewrite Nat.eqb_refl. cbn [negb]. rewrite take_nil. cbn. rewrite Hid.
    by destruct (PyDict.keys (_streamers st) !! pos).
  - apply Forall_cons in Hq as [Hdesc Hq].
    cbn [_streams_ping_loop]. unfold dictiter_next. cbn [di_used di_pos].
    rewrite Nat.eqb_refl. cbn [negb].
    destruct (PyDict.keys (_streamers st) !! pos) as [k|] eqn:Hk.
    + apply lookup_lt_Some in Hk. unfold PyDict.keys in Hk. rewrite length_map in Hk.
      unfold PyDict.len in *.
      replace (length (_streamers st) - pos) with (S (length (_streamers st) - S pos)) by lia.
      destruct desc as [d|e].
      * cbn [ret]. rewrite (IH (S pos) st Hq). done.
      * assert (Hlog : (match e with
                        | StreamNotFoundError =>
                            bind (gets _streamers) (fun reg =>
                            bind (lift (PyDict.getitem k reg)) (fun context =>
                            bind (Task_cancel (task context)) (fun _ =>
                            _remove_session (session context))))
                        | _ => log_exception e
                        end) st = (Ok tt, with_logged (logged st ++ [e]) st)).
        { destruct e; try done. }
        rewrite Hlog.
        pose proof (IH (S pos) (with_logged (logged st ++ [e]) st) Hq) as IH'.
        cbn [with_logged _streamers logged] in IH'. rewrite IH'.
        cbn [take omap]. unfold with_logged. cbn. by rewrite <- app_assoc.
    + apply lookup_ge_None in Hk. unfold PyDict.keys in Hk. rewrite length_map in Hk.
      unfold PyDict.len.
      replace (length (_streamers st) - pos) with 0 by lia. cbn. by rewrite Hid.
Qed.
End SweepQuiet.

(** X11. A sweep in which no lookup answers "not found" runs to its end and
    changes nothing but the log: each failed lookup among the results paired
    with a registered session is logged, in the order of the registry. *)
Theorem sweep_without_not_found_only_logs results st :
  Forall (fun r : lookup_reply => r <> Raise StreamNotFoundError) results ->
  _streams_ping_handle results st
  = (Ok tt,
     with_logged
       (logged st ++
          omap (fun r : lookup_reply => match r with Raise e => Some e | Ok _ => None end)
            (take (PyDict.len (_streamers st)) results))
       st).
Proof.
  intros Hq. unfold _streams_ping_handle, dict_iter.
  rewrite (_streams_ping_loop_quiet results 0 st Hq). by rewrite Nat.sub_0_r.
Qed.

Lemma sweep_without_not_found_only_logs_witness :
  let results : list lookup_reply :=
    [Raise (ObserverError []); Ok (mkStreamerDesc [] [] []); Raise ClientError] in
  Forall (fun r : lookup_reply => r <> Raise StreamNotFoundError) results /\
  _streams_ping_handle results Scenario.two_sessions
  = (Ok tt, with_logged [ObserverError []] Scenario.two_sessions).
Proof.
  intros results.
  assert (H : Forall (fun r : lookup_reply => r <> Raise StreamNotFoundError) results)
    by (repeat constructor; discriminate).
  split; [exact H|].
  exact (sweep_without_not_found_only_logs results Scenario.two_sessions H).
Defined.

(** ** A connection that fails by another exception *)

Section ReconnectStops.
Variable token nickname name : str.
Variable net : nat -> connection.

Lemma _start_chat_session_raises i e :
  net i = ConnectRaises e ->
  _start_chat_session token nickname name net i = (Raise e, [Ev_ws_connect]).
Proof. intros H. unfold _start_chat_session. by rewrite H. Qed.

Lemma reconnect_loop_raises n i : forall k e,
  (forall j, i <= j < i + k -> attempt_fails net j) ->
  net (i + k) = ConnectRaises e ->
  k < Z.to_nat n ->
  fst (reconnect_loop token nickname name net n i) = Raise e /\
  attempts (snd (reconnect_loop token nickname name net n i)) = S k.
Proof.
  funelim (reconnect_loop token nickname name net n i); intros k e' Hfail Hnet Hk;
    cbn [fst snd].
  - lia.
  - destruct k as [|k].
    + rewrite Nat.add_0_r in Hnet.
      match goal with
      | H : _start_chat_session _ _ _ _ i = _ |- _ =>
          rewrite (_start_chat_session_raises i e' Hnet) in H; injection H as <- <-
      end.
      done.
    + exfalso. pose proof (start_chat_session_absorbed token nickname name net i) as Habs.
      match goal with
      | H : _start_chat_session _ _ _ _ i = _ |- _ => rewrite H in Habs
      end.
      discriminate Habs. apply Hfail. lia.
  - destruct k as [|k].
    + exfalso. rewrite Nat.add_0_r in Hnet.
      match goal with
      | H : _start_chat_session _ _ _ _ i = _ |- _ =>
          rewrite (_start_chat_session_raises i e' Hnet) in H; discriminate H
      end.
    + pose proof (attempts_start_chat_session token nickname name net i) as Hone.
      match goal with
      | H : _start_chat_session _ _ _ _ i = _ |- _ => rewrite H in Hone; cbn [snd] in Hone
      end.
      match goal with
      | IH : forall k e, _ -> _ -> _ -> _ /\ _ |- _ =>
          destruct (IH k e') as [IH1 IH2];
            [intros j Hj; apply Hfail; lia
            |by replace (S i + k) with (i + S k) by lia
            |lia|]
      end.
      match goal with
      | H : reconnect_loop _ _ _ _ _ _ = _ |- _ =>
          rewrite H in IH1, IH2; cbn [fst snd] in IH1, IH2
      end.
      split; [done|].
      rewrite attempts_app. change (attempts (Ev_log ?m :: ?l)) with (attempts l). lia.
Qed.
End ReconnectStops.

(** X12. When a connection attempt within the budget ends by an exception
    that is neither a handshake error nor the end of reception, and every
    attempt before it failed in one of these two ways, [start_session] raises
    that exception at once: it has opened one connection per attempt so far
    and opens no further one. If the exception is no [ObserverError],
    [_run_stream] lets it through and leaves the observer untouched: nothing
    is logged and the session stays registered. *)
Theorem start_session_stops_at_other_exception
    token nickname name net max_reconnect_attempts k e :
  (forall j, j < k -> attempt_fails net j) ->
  net k = ConnectRaises e ->
  k < Z.to_nat max_reconnect_attempts ->
  fst (start_session token nickname name net max_reconnect_attempts) = Raise e /\
  attempts (snd (start_session token nickname name net max_reconnect_attempts)) = S k /\
  ((forall msg, e <> ObserverError msg) ->
   forall s st, _run_stream (Raise e) s st = (Raise e, st)).
Proof.
  intros Hfail Hnet Hk. unfold start_session.
  destruct (reconnect_loop_raises token nickname name net max_reconnect_attempts 0 k e)
    as [H1 H2]; try done.
  { intros j Hj. apply Hfail. lia. }
  split; [done|]. split; [done|].
  intros Hne s st. destruct e; try done. by destruct (Hne msg).
Qed.

Lemma start_session_stops_at_other_exception_witness :
  let net := fun i => match i with
                      | 0 => HandshakeFails
                      | 1 => ConnectRaises ClientError
                      | _ => Opens [] true
                      end in
  ((forall j, j < 1 -> attempt_fails net j) /\ net 1 = ConnectRaises ClientError /\
   1 < Z.to_nat 5) /\
  fst (start_session (lit "oauth:t") (lit "bot") (lit "foo") net 5) = Raise ClientError.
Proof.
  intros net.
  assert (H : (forall j, j < 1 -> attempt_fails net j) /\ net 1 = ConnectRaises ClientError /\
              1 < Z.to_nat 5).
  { split; [|split; [reflexivity|lia]]. intros [|j] Hj; [exact I|lia]. }
  split; [exact H|].
  destruct H as (Hf & Hn & Hk).
  exact (proj1 (start_session_stops_at_other_exception (lit "oauth:t") (lit "bot") (lit "foo")
                  net 5 1 ClientError Hf Hn Hk)).
Defined.

(** ** The updates of a poll *)

Section HandleUpdates.
Implicit Types (p : Poller) (data res : json).

(** The exceptions that [except (KeyError, TypeError)] catches. *)
Lemma json_getitem_raises v k e :
  json_getitem v k = Raise e -> (exists key, e = KeyError key) \/ e = TypeError.
Proof.
  destruct v; cbn; try (intros [= <-]; by right).
  unfold PyDict.getitem. destruct (PyDict.get k d); [done|]. intros [= <-]. left. eauto.
Qed.

Lemma json_add_1_raises v e : json_add_1 v = Raise e -> e = TypeError.
Proof. destruct v; cbn; congruence. Qed.

Lemma json_iter_raises v e : json_iter v = Raise e -> e = TypeError.
Proof. destruct v; cbn; congruence. Qed.

Lemma _handle_updates_loop_raises results : forall p e p',
  _handle_updates_loop results p = (Raise e, p') ->
  (exists key, e = KeyError key) \/ e = TypeError.
Proof.
  induction results as [|res rest IH]; intros p e p'; cbn [_handle_updates_loop]; [done|].
  destruct (json_getitem res (lit "update_id")) as [uid|e1] eqn:E1; cbn [rbind].
  - destruct (json_add_1 uid) as [off|e2] eqn:E2.
    + destruct (json_getitem res (lit "message")) as [msg|e3] eqn:E3.
      * apply IH.
      * intros [= <- <-]. by eapply json_getitem_raises.
    + intros [= <- <-]. right. by eapply json_add_1_raises.
  - intros [= <- <-]. by eapply json_getitem_raises.
Qed.

Lemma _handle_updates_loop_app good : forall rest ums p,
  Forall2 (fun res um => is_update res (fst um) (snd um)) good ums ->
  _handle_updates_loop (good ++ rest) p
  = _handle_updates_loop rest
      (mkPoller (match last ums with
                 | Some um => JInt (fst um + 1)
                 | None => _offset p
                 end)
         (created p ++ map snd ums) (poll_exceptions p) (poll_errors p)).
Proof.
  induction good as [|res good IH]; intros rest ums p Hall.
  - apply Forall2_nil_inv_l in Hall as ->. cbn. rewrite app_nil_r. by destruct p.
  - apply Forall2_cons_inv_l in Hall as ([id msg] & ums' & [Hid Hmsg] & Hall & ->).
    cbn [app _handle_updates_loop fst snd] in *. rewrite Hid. cbn [rbind json_add_1].
    rewrite Hmsg. rewrite (IH rest ums' _ Hall). cbn [_offset created poll_exceptions poll_errors].
    f_equal. f_equal.
    + rewrite last_cons. by destruct (last ums').
    + cbn [map]. by rewrite <- app_assoc.
Qed.
End HandleUpdates.

(** X13. A batch whose items all are updates (an integer [update_id] and a
    [message]) is handled to its end: one task is created per update, in the
    order of the batch, each with its message; the offset becomes the last
    [update_id] plus one (it stays as it is for an empty batch); nothing is
    logged. *)
Theorem _handle_updates_batch data ok results ums p :
  json_getitem data (lit "ok") = Ok ok -> truthy ok = true ->
  json_getitem data (lit "result") = Ok (JList results) ->
  Forall2 (fun res um => is_update res (fst um) (snd um)) results ums ->
  _handle_updates data p
  = (Ok tt,
     mkPoller (match last ums with
               | Some um => JInt (fst um + 1)
               | None => _offset p
               end)
       (created p ++ map snd ums) (poll_exceptions p) (poll_errors p)).
Proof.
  intros Hok Ht Hres Hall. unfold _handle_updates. rewrite Hok, Ht, Hres.
  cbn [rbind json_iter].
  rewrite <- (app_nil_r results), (_handle_updates_loop_app results [] ums p Hall).
  reflexivity.
Qed.

Lemma _handle_updates_batch_witness :
  let upd := fun (i : Z) (text : str) =>
    JDict [(lit "update_id", JInt i); (lit "message", JDict [(lit "text", JStr text)])] in
  let results := [upd 41%Z (lit "/hooks"); upd 42%Z (lit "/stop_all")] in
  let data := JDict [(lit "ok", JBool true); (lit "result", JList results)] in
  let ums := [(41%Z, JDict [(lit "text", JStr (lit "/hooks"))]);
              (42%Z, JDict [(lit "text", JStr (lit "/stop_all"))])] in
  (json_getitem data (lit "ok") = Ok (JBool true) /\ truthy (JBool true) = true /\
   json_getitem data (lit "result") = Ok (JList results) /\
   Forall2 (fun res um => is_update res (fst um) (snd um)) results ums) /\
  _handle_updates data Poller_init = (Ok tt, mkPoller (JInt 43) (map snd ums) [] []).
Proof.
  intros upd results data ums.
  assert (H : json_getitem data (lit "ok") = Ok (JBool true) /\ truthy (JBool true) = true /\
              json_getitem data (lit "result") = Ok (JList results) /\
              Forall2 (fun res um => is_update res (fst um) (snd um)) results ums).
  { repeat split; repeat constructor. }
  split; [exact H|].
  destruct H as (H1 & H2 & H3 & H4).
  exact (_handle_updates_batch data (JBool true) results ums Poller_init H1 H2 H3 H4).
Defined.

(** X14. Handling stops at the first item of a batch that is no update, and
    the exception is logged, not raised. If that item has an integer
    [update_id] but no [message], the offset has already moved past it; if it
    has no [update_id], the offset is the one after the last update handled.
    The updates before it have their tasks; the items after it are not
    looked at. *)
Theorem _handle_updates_stops_at_malformed_item data ok good ums bad rest p :
  json_getitem data (lit "ok") = Ok ok -> truthy ok = true ->
  json_getitem data (lit "result") = Ok (JList (good ++ bad :: rest)) ->
  Forall2 (fun res um => is_update res (fst um) (snd um)) good ums ->
  let offset_after_good :=
    match last ums with
    | Some um => JInt (fst um + 1)
    | None => _offset p
    end in
  (forall update_id e,
     json_getitem bad (lit "update_id") = Ok (JInt update_id) ->
     json_getitem bad (lit "message") = Raise e ->
     _handle_updates data p
     = (Ok tt,
        mkPoller (JInt (update_id + 1)) (created p ++ map snd ums)
          (poll_exceptions p ++ [e]) (poll_errors p))) /\
  (forall e,
     json_getitem bad (lit "update_id") = Raise e ->
     _handle_updates data p
     = (Ok tt,
        mkPoller offset_after_good (created p ++ map snd ums)
          (poll_exceptions p ++ [e]) (poll_errors p))).
Proof.
  intros Hok Ht Hres Hall offset_after_good.
  assert (Hstart : forall P : result unit * Poller -> Prop,
    P (let body := _handle_updates_loop (bad :: rest)
              (mkPoller offset_after_good (created p ++ map snd ums) (poll_exceptions p)
                 (poll_errors p)) in
       match body with
       | (Raise ((KeyError _ | TypeError) as err), p') =>
           (Ok tt,
            mkPoller (_offset p') (created p') (poll_exceptions p' ++ [err]) (poll_errors p'))
       | r => r
       end) ->
    P (_handle_updates data p)).
  { intros P HP. unfold _handle_updates. rewrite Hok, Ht, Hres. cbn [rbind json_iter].
    by rewrite (_handle_updates_loop_app good (bad :: rest) ums p Hall). }
  split.
  - intros update_id e Hid Hmsg. apply Hstart. cbn [_handle_updates_loop].
    rewrite Hid. cbn [rbind json_add_1]. rewrite Hmsg.
    destruct (json_getitem_raises _ _ _ Hmsg) as [[key ->]| ->]; reflexivity.
  - intros e Hid. apply Hstart. cbn [_handle_updates_loop]. rewrite Hid. cbn [rbind].
    destruct (json_getitem_raises _ _ _ Hid) as [[key ->]| ->]; reflexivity.
Qed.

Lemma _handle_updates_stops_at_malformed_item_witness :
  let good := [JDict [(lit "update_id", JInt 41); (lit "message", JNull)]] in
  let bad := JDict [(lit "update_id", JInt 42); (lit "edited_message", JNull)] in
  let rest := [JDict [(lit "update_id", JInt 43); (lit "message", JNull)]] in
  let data := JDict [(lit "ok", JBool true); (lit "result", JList (good ++ bad :: rest))] in
  (json_getitem data (lit "ok") = Ok (JBool true) /\ truthy (JBool true) = true /\
   json_getitem data (lit "result") = Ok (JList (good ++ bad :: rest)) /\
   Forall2 (fun res um => is_update res (fst um) (snd um)) good [(41%Z, JNull)]) /\
  _handle_updates data Poller_init
  = (Ok tt, mkPoller (JInt 43) [JNull] [KeyError (lit "message")] []).
Proof.
  intros good bad rest data.
  assert (H : json_getitem data (lit "ok") = Ok (JBool true) /\ truthy (JBool true) = true /\
              json_getitem data (lit "result") = Ok (JList (good ++ bad :: rest)) /\
              Forall2 (fun res um => is_update res (fst um) (snd um)) good [(41%Z, JNull)]).
  { repeat split; repeat constructor. }
  split; [exact H|].
  destruct H as (H1 & H2 & H3 & H4).
  exact (proj1 (_handle_updates_stops_at_malformed_item data (JBool true) good [(41%Z, JNull)]
                  bad rest Poller_init H1 H2 H3 H4) 42%Z (KeyError (lit "message"))
           eq_refl eq_refl).
Defined.

(** X15. Whatever the reply holds, [_handle_updates] raises nothing: every
    exception the handling of a reply can meet is a [KeyError] or a
    [TypeError], which it logs. Tasks already created stay, and a reply whose
    [ok] is false creates none and leaves the offset as it is. *)
Theorem _handle_updates_never_raises data p :
  fst (_handle_updates data p) = Ok tt /\
  (exists msgs, created (snd (_handle_updates data p)) = created p ++ msgs) /\
  (forall ok, json_getitem data (lit "ok") = Ok ok -> truthy ok = false ->
     _handle_updates data p
     = (Ok tt, mkPoller (_offset p) (created p) (poll_exceptions p) (poll_errors p ++ [data]))).
Proof.
  assert (Hloop : forall results q,
    exists msgs, created (snd (_handle_updates_loop results q)) = created q ++ msgs).
  { induction results as [|res rest IH]; intros q; cbn [_handle_updates_loop].
    - exists []. by rewrite app_nil_r.
    - destruct (rbind _ _) as [off|e]; [|exists []; by rewrite app_nil_r].
      destruct (json_getitem res (lit "message")) as [msg|e]; [|exists []; by rewrite app_nil_r].
      cbn [_offset created poll_exceptions poll_errors].
      destruct (IH (mkPoller off (created q ++ [msg]) (poll_exceptions q) (poll_errors q)))
        as (msgs & ->).
      exists (msg :: msgs). cbn. by rewrite <- app_assoc. }
  split; [|split].
  - unfold _handle_updates.
    destruct (json_getitem data (lit "ok")) as [ok|e] eqn:Eok.
    + destruct (truthy ok); [|done].
      destruct (rbind _ _) as [results|e] eqn:Eres.
      * destruct (_handle_updates_loop results p) as [[[]|e] p'] eqn:El; [done|].
        by destruct (_handle_updates_loop_raises _ _ _ _ El) as [[key ->]| ->].
      * destruct (json_getitem data (lit "result")) as [v|e'] eqn:Ev; cbn [rbind] in Eres.
        -- apply json_iter_raises in Eres as ->. done.
        -- injection Eres as <-. by destruct (json_getitem_raises _ _ _ Ev) as [[key ->]| ->].
    + by destruct (json_getitem_raises _ _ _ Eok) as [[key ->]| ->].
  - unfold _handle_updates.
    destruct (json_getitem data (lit "ok")) as [ok|e] eqn:Eok.
    + destruct (truthy ok); [|exists []; by rewrite app_nil_r].
      destruct (rbind _ _) as [results|e] eqn:Eres.
      * destruct (Hloop results p) as (msgs & Hm). exists msgs.
        destruct (_handle_updates_loop results p) as [[[]|e] p'] eqn:El; [done|].
        by destruct e.
      * exists []. rewrite app_nil_r. by destruct e.
    + exists []. rewrite app_nil_r. by destruct e.
  - intros ok Hok Hf. unfold _handle_updates. by rewrite Hok, Hf.
Qed.

(** ** The replies of the directory *)

Section ParseStreamInfo.
Variable strptime : str -> datetime + str.

Lemma json_getitem_0_truthy v e :
  truthy v = true -> json_getitem_0 v = Raise e ->
  (exists key, e = KeyError key) \/ e = TypeError.
Proof.
  destruct v as [| | | |s|l|d]; cbn; try (intros _ [= <-]; by right).
  - destruct s; [done|done].
  - destruct l; [done|done].
  - intros _ [= <-]. left. eauto.
Qed.

Lemma pystrptime_raises v e :
  pystrptime strptime v = Raise e -> e = TypeError \/ exists msg, e = ValueError msg.
Proof.
  destruct v; cbn; try (intros [= <-]; by left).
  destruct (strptime s); [done|]. intros [= <-]. right. eauto.
Qed.
(** How [_parse_stream_info] can end, and what it has logged then. *)
Lemma _parse_stream_info_cases data :
  let r := _parse_stream_info strptime data in
  match fst r with
  | Ok _ => snd r = []
  | Raise StreamNotFoundError =>
      snd r = [] /\ exists l, json_getitem data (lit "data") = Ok l /\ truthy l = false
  | Raise (ValueError _) => snd r = []
  | Raise (ObserverError msg) =>
      msg = [] /\ exists err, snd r = [err] /\ ((exists key, err = KeyError key) \/ err = TypeError)
  | Raise _ => False
  end.
Proof.
  intros r. unfold r, _parse_stream_info.
  destruct (json_getitem data (lit "data")) as [l|e] eqn:El; cbn [rbind].
  2:{ destruct (json_getitem_raises _ _ _ El) as [[key ->]| ->]; cbn;
        (split; [done|]); eexists; (split; [done|]); eauto. }
  destruct (truthy l) eqn:Ht.
  2:{ cbn. split; [done|]. eauto. }
  destruct (json_getitem_0 l) as [info|e] eqn:E0; cbn [rbind].
  2:{ destruct (json_getitem_0_truthy _ _ Ht E0) as [[key ->]| ->]; cbn;
        (split; [done|]); eexists; (split; [done|]); eauto. }
  destruct (json_getitem info (lit "user_name")) as [u|e] eqn:Eu; cbn [rbind].
  2:{ destruct (json_getitem_raises _ _ _ Eu) as [[key ->]| ->]; cbn;
        (split; [done|]); eexists; (split; [done|]); eauto. }
  destruct (json_getitem info (lit "title")) as [t|e] eqn:Et; cbn [rbind].
  2:{ destruct (json_getitem_raises _ _ _ Et) as [[key ->]| ->]; cbn;
        (split; [done|]); eexists; (split; [done|]); eauto. }
  destruct (json_getitem info (lit "started_at")) as [ds|e] eqn:Es; cbn [rbind].
  2:{ destruct (json_getitem_raises _ _ _ Es) as [[key ->]| ->]; cbn;
        (split; [done|]); eexists; (split; [done|]); eauto. }
  destruct (pystrptime strptime ds) as [d|e] eqn:Ed; cbn [rbind]; [done|].
  destruct (pystrptime_raises _ _ Ed) as [->|[msg ->]]; cbn; [|done].
  split; [done|]. eexists. split; [done|]. eauto.
Qed.
End ParseStreamInfo.

(** X16. [_parse_stream_info] ends in one of four ways. It returns a
    description and logs nothing; it raises [StreamNotFoundError], exactly
    when the reply is an object whose ["data"] is false (an empty list, but
    also [null], [0], an empty string or object); it raises the [ValueError]
    of [strptime] for a start date of another format; or it raises an
    [ObserverError] without message after logging the [KeyError] or
    [TypeError] met. No other exception escapes. A reply whose first item
    holds the three keys with a well-formed date gives the description made
    of them. *)
Theorem _parse_stream_info_outcomes strptime data :
  let r := _parse_stream_info strptime data in
  match fst r with
  | Ok _ => snd r = []
  | Raise StreamNotFoundError =>
      snd r = [] /\ exists l, json_getitem data (lit "data") = Ok l /\ truthy l = false
  | Raise (ValueError _) => snd r = []
  | Raise (ObserverError msg) =>
      msg = [] /\ exists err, snd r = [err] /\ ((exists key, err = KeyError key) \/ err = TypeError)
  | Raise _ => False
  end /\
  (forall l, json_getitem data (lit "data") = Ok l -> truthy l = false ->
     r = (Raise StreamNotFoundError, [])) /\
  (forall info rest user_name title s d,
     json_getitem data (lit "data") = Ok (JList (info :: rest)) ->
     json_getitem info (lit "user_name") = Ok user_name ->
     json_getitem info (lit "title") = Ok title ->
     json_getitem info (lit "started_at") = Ok (JStr s) ->
     strptime s = inl d ->
     r = (Ok (mkStreamerDescJ user_name d title), [])).
Proof.
  intros r. split; [|split].
  - apply _parse_stream_info_cases.
  - intros l Hl Ht. unfold r, _parse_stream_info. rewrite Hl. cbn [rbind]. by rewrite Ht.
  - intros info rest user_name title s d Hl Hu Ht Hs Hd.
    unfold r, _parse_stream_info. rewrite Hl. cbn [rbind truthy is_empty negb json_getitem_0].
    rewrite index_0. cbn [rbind]. rewrite Hu. cbn [rbind]. rewrite Ht. cbn [rbind].
    rewrite Hs. cbn [rbind pystrptime]. by rewrite Hd.
Qed.

(** ** Tokens and lookups *)

Section TokenFacts.
Variable strptime : str -> datetime + str.
Variable repr_json : json -> str.
Implicit Types (self : TwitchSession) (data : json).

Lemma time_plus_raises now v e : time_plus now v = Raises e -> e = TypeError.
Proof.
  destruct v; cbn; try congruence. by destruct (float_of_int z).
Qed.

Lemma time_plus_no_assertion now v : time_plus now v <> RaisesAssertionError.
Proof. destruct v; cbn; try done. by destruct (float_of_int z). Qed.

Lemma time_plus_no_uncaught now v e : time_plus now v <> RaisesUncaught e.
Proof. destruct v; cbn; try done. by destruct (float_of_int z). Qed.

Lemma _get_token_except_outcome {A} e self :
  ((exists key, e = KeyError key) \/ e = TypeError) ->
  @_get_token_except A e self
  = (Raises (ObserverError []),
     mkTwitchSession (_oauth self) (_expires_in self) (twitch_logged self ++ [e])).
Proof. by intros [[key ->]| ->]. Qed.

(** How [_get_token] can end. *)
Lemma _get_token_outcomes now data self :
  match fst (_get_token repr_json now data self) with
  | Returns _ | Raises (ObserverError _) | RaisesOverflowError => True
  | _ => False
  end /\
  _oauth (snd (_get_token repr_json now data self)) = _oauth self.
Proof.
  unfold _get_token.
  destruct (json_getitem data (lit "expires_in")) as [v|e] eqn:Ev.
  2:{ by rewrite _get_token_except_outcome by by eapply json_getitem_raises. }
  destruct (time_plus now v) as [expires|e| | |u] eqn:Et.
  2:{ apply time_plus_raises in Et as ->. done. }
  2:{ done. }
  2:{ by apply time_plus_no_assertion in Et. }
  2:{ by apply time_plus_no_uncaught in Et. }
  cbn zeta.
  destruct (json_getitem data (lit "token_type")) as [token_type|e] eqn:Ett.
  2:{ by rewrite _get_token_except_outcome by by eapply json_getitem_raises. }
  destruct (negb _); [done|].
  destruct (json_getitem data (lit "access_token")) as [token|e] eqn:Eat; [done|].
  by rewrite _get_token_except_outcome by by eapply json_getitem_raises.
Qed.

(** A token is returned with nothing logged. *)
Lemma _get_token_returns_logged now data self token :
  fst (_get_token repr_json now data self) = Returns token ->
  twitch_logged (snd (_get_token repr_json now data self)) = twitch_logged self.
Proof.
  unfold _get_token.
  destruct (json_getitem data (lit "expires_in")) as [v|e] eqn:Ev.
  2:{ by rewrite _get_token_except_outcome by by eapply json_getitem_raises. }
  destruct (time_plus now v) as [expires|e| | |u] eqn:Et; try done.
  { cbn zeta.
    destruct (json_getitem data (lit "token_type")) as [token_type|e] eqn:Ett.
    2:{ by rewrite _get_token_except_outcome by by eapply json_getitem_raises. }
    destruct (negb _); [done|].
    destruct (json_getitem data (lit "access_token")) as [tok|e] eqn:Eat; [done|].
    by rewrite _get_token_except_outcome by by eapply json_getitem_raises. }
  apply time_plus_raises in Et as ->. done.
Qed.

(** A token of another type than [bearer]. *)
Lemma _get_token_bad_type now data self v expires token_type :
  json_getitem data (lit "expires_in") = Ok v -> time_plus now v = Returns expires ->
  json_getitem data (lit "token_type") = Ok token_type ->
  token_type <> JStr (lit "bearer") ->
  _get_token repr_json now data self
  = (Raises (ObserverError (lit "Bad token type " ++ format_json repr_json token_type)),
     mkTwitchSession (_oauth self) expires (twitch_logged self)).
Proof.
  intros Hv Ht Htt Hne. unfold _get_token.
  rewrite Hv, Ht. cbn zeta. rewrite Htt.
  destruct token_type as [| | | |s| |]; try done.
  rewrite bool_decide_false; [done|]. intros ->. by apply Hne.
Qed.
End TokenFacts.

(** X17. [_get_token] returns the access token of a reply that holds a
    numeric [expires_in], the token type [bearer] (this very string) and an
    [access_token], and sets the expiry to the clock plus [expires_in]. For
    any other token type it raises [ObserverError] naming the type, after it
    has set the expiry all the same. It ends in no other way than by a
    token, an [ObserverError] or the [OverflowError] of the addition, and it
    leaves the stored token as it is. *)
Theorem _get_token_spec repr_json now data self :
  (forall v expires token,
     json_getitem data (lit "expires_in") = Ok v -> time_plus now v = Returns expires ->
     json_getitem data (lit "token_type") = Ok (JStr (lit "bearer")) ->
     json_getitem data (lit "access_token") = Ok token ->
     _get_token repr_json now data self
     = (Returns token, mkTwitchSession (_oauth self) expires (twitch_logged self))) /\
  (forall v expires token_type,
     json_getitem data (lit "expires_in") = Ok v -> time_plus now v = Returns expires ->
     json_getitem data (lit "token_type") = Ok token_type ->
     token_type <> JStr (lit "bearer") ->
     _get_token repr_json now data self
     = (Raises (ObserverError (lit "Bad token type " ++ format_json repr_json token_type)),
        mkTwitchSession (_oauth self) expires (twitch_logged self))) /\
  match fst (_get_token repr_json now data self) with
  | Returns _ | Raises (ObserverError _) | RaisesOverflowError => True
  | _ => False
  end /\
  _oauth (snd (_get_token repr_json now data self)) = _oauth self.
Proof.
  split; [|split; [|apply _get_token_outcomes]].
  - intros v expires token Hv Ht Htt Hat. unfold _get_token.
    rewrite Hv, Ht. cbn zeta. rewrite Htt, Hat. by rewrite bool_decide_true.
  - intros v expires token_type Hv Ht Htt Hne. by apply (_get_token_bad_type _ _ _ _ v).
Qed.

(** X18. A refresh answered with a token of another type than [bearer]
    fails with [ObserverError], but the expiry it has set stands while no
    token was stored. A lookup made while that expiry is more than a hundred
    seconds away does not refresh: if no token had been stored before, it
    fails the assertion on the token, whatever the directory would answer. *)
Theorem bad_token_type_blocks_later_lookups
    strptime repr_json token_now data v expires token_type self :
  _oauth self = JNull ->
  json_getitem data (lit "expires_in") = Ok v -> time_plus token_now v = Returns expires ->
  json_getitem data (lit "token_type") = Ok token_type ->
  token_type <> JStr (lit "bearer") ->
  let r := update_token repr_json token_now (HttpResponse 200 (BodyJson data)) self in
  r = (Raises (ObserverError (lit "Bad token type " ++ format_json repr_json token_type)),
       mkTwitchSession JNull expires (twitch_logged self)) /\
  forall now token_now' token_reply reply,
    float_le (float_sub expires now) float_100_0 = false ->
    get_stream_description strptime repr_json now token_now' token_reply reply (snd r)
    = (RaisesAssertionError, snd r).
Proof.
  intros Hnull Hv Ht Htt Hne r.
  assert (Hr : r = (Raises (ObserverError (lit "Bad token type "
                                            ++ format_json repr_json token_type)),
                    mkTwitchSession JNull expires (twitch_logged self))).
  { unfold r, update_token. cbn [Z.leb Z.compare Pos.compare Pos.compare_cont Z.eqb Pos.eqb negb].
    rewrite (_get_token_bad_type repr_json token_now data self v expires token_type
               Hv Ht Htt Hne), Hnull.
    reflexivity. }
  split; [exact Hr|].
  intros now token_now' token_reply reply Hfar. rewrite Hr. cbn [snd].
  unfold get_stream_description. cbn [_expires_in _oauth]. by rewrite Hfar.
Qed.

Lemma bad_token_type_blocks_later_lookups_witness :
  let data := JDict [(lit "access_token", JStr (lit "abc")); (lit "expires_in", JInt 5000000);
                     (lit "token_type", JStr (lit "Bearer"))] in
  let expires := S754_finite false 5368709120000000 (-30) in
  (_oauth TwitchSession_init = JNull /\
   json_getitem data (lit "expires_in") = Ok (JInt 5000000) /\
   time_plus float_0_0 (JInt 5000000) = Returns expires /\
   json_getitem data (lit "token_type") = Ok (JStr (lit "Bearer")) /\
   JStr (lit "Bearer") <> JStr (lit "bearer")) /\
  update_token (fun _ => []) float_0_0 (HttpResponse 200 (BodyJson data)) TwitchSession_init
  = (Raises (ObserverError (lit "Bad token type Bearer")),
     mkTwitchSession JNull expires []).
Proof.
  intros data expires.
  assert (H : _oauth TwitchSession_init = JNull /\
              json_getitem data (lit "expires_in") = Ok (JInt 5000000) /\
              time_plus float_0_0 (JInt 5000000) = Returns expires /\
              json_getitem data (lit "token_type") = Ok (JStr (lit "Bearer")) /\
              JStr (lit "Bearer") <> JStr (lit "bearer")).
  { split; [reflexivity|]. split; [reflexivity|]. split; [vm_compute; reflexivity|].
    split; [reflexivity|]. intros [= H]. }
  split; [exact H|].
  destruct H as (H1 & H2 & H3 & H4 & H5).
  exact (proj1 (bad_token_type_blocks_later_lookups (fun _ => inr []) (fun _ => [])
                  float_0_0 data (JInt 5000000) expires (JStr (lit "Bearer"))
                  TwitchSession_init H1 H2 H3 H4 H5)).
Defined.

Section LookupOutcomes.
Variable strptime : str -> datetime + str.
Variable repr_json : json -> str.
Implicit Types (self : TwitchSession) (data : json).

Lemma update_token_outcomes now reply self :
  let r := update_token repr_json now reply self in
  match fst r with
  | Returns _ => twitch_logged (snd r) = twitch_logged self
  | Raises (ObserverError _) | Raises (ValueError _) | RaisesOverflowError => True
  | RaisesUncaught e => raises_uncaught reply e /\ snd r = self
  | _ => False
  end.
Proof.
  unfold update_token. destruct reply as [|e|status body]; [done|by split; [left|]|].
  destruct (400 <=? status)%Z; [done|].
  destruct (Z.eqb_spec status 200) as [->|Hne]; cbn [negb]; [|done].
  destruct body as [data| |msg|e]; [|done|done|by split; [right|]].
  pose proof (_get_token_outcomes repr_json now data self) as [H _].
  pose proof (_get_token_returns_logged repr_json now data self) as Hl.
  destruct (_get_token repr_json now data self) as [[token|e| | |u] self1]; cbn in *;
    try done.
  - by apply (Hl token).
  - by destruct e.
Qed.
End LookupOutcomes.

(** A lookup whose request runs into the timeout of the HTTP session: the
    [asyncio.TimeoutError] leaves [get_stream_description] as it is, and
    nothing is logged. *)
Example lookup_timeout_escapes :
  let self :=
    mkTwitchSession (JStr (lit "abc")) (S754_finite false 5368709120000000 (-30)) [] in
  get_stream_description (fun _ => inr []) (fun _ => []) float_0_0 float_0_0
    HttpFails (HttpRaisesUncaught TimeoutError) self
  = (RaisesUncaught TimeoutError, self).
Proof. vm_compute. reflexivity. Qed.

(** X19. A lookup returns a description, or raises [StreamNotFoundError],
    [ObserverError], a [ValueError] (a body that is no JSON, or a start date
    of another format), [OverflowError], [AssertionError], or the exception
    that one of its two requests, or reading the body of a response with
    status 200, has raised and that is no [aiohttp.ClientError] (such as the
    [asyncio.TimeoutError] of the session's timeout): that one passes
    unchanged, and nothing is logged for it. An [aiohttp.ClientError], and a
    [KeyError] or [TypeError] met in a reply, never escape as such. The
    lookup returns, or raises [StreamNotFoundError], only when the directory
    answered with status 200 and a JSON body, and raises
    [StreamNotFoundError] only when the ["data"] of that body is false: a
    failed request is never taken for a stream that is offline. *)
Theorem get_stream_description_outcomes
    strptime repr_json now token_now token_reply reply self :
  let r := get_stream_description strptime repr_json now token_now token_reply reply self in
  match fst r with
  | Returns _ => exists data, reply = HttpResponse 200 (BodyJson data)
  | Raises StreamNotFoundError =>
      exists data l,
        reply = HttpResponse 200 (BodyJson data) /\
        json_getitem data (lit "data") = Ok l /\ truthy l = false
  | Raises (ObserverError _) | Raises (ValueError _)
  | RaisesOverflowError | RaisesAssertionError => True
  | RaisesUncaught e =>
      twitch_logged (snd r) = twitch_logged self /\
      ((float_le (float_sub (_expires_in self) now) float_100_0 = true /\
        raises_uncaught token_reply e /\ snd r = self) \/
       raises_uncaught reply e)
  | Raises _ => False
  end.
Proof.
  unfold get_stream_description.
  set (refreshed := if float_le _ _ then _ else _).
  assert (Href : match fst refreshed with
                 | Returns _ => twitch_logged (snd refreshed) = twitch_logged self
                 | Raises (ObserverError _) | Raises (ValueError _)
                 | RaisesOverflowError => True
                 | RaisesUncaught e =>
                     float_le (float_sub (_expires_in self) now) float_100_0 = true /\
                     raises_uncaught token_reply e /\ snd refreshed = self
                 | _ => False
                 end).
  { unfold refreshed. destruct (float_le _ _); [|done].
    pose proof (update_token_outcomes repr_json token_now token_reply self) as H.
    cbn zeta in H. by destruct (fst (update_token _ _ _ _)) as [?|e| | |u]. }
  destruct refreshed as [[[]|e| | |u] self1]; cbn [fst snd] in Href |- *; try done.
  2:{ by destruct e. }
  2:{ destruct Href as (Hle & Hu & ->). split; [done|]. by left. }
  destruct (_oauth self1) eqn:Eo; try done;
    (destruct reply as [|u|status body]; [done|by split; [|right; left]|];
     destruct (400 <=? status)%Z eqn:E4; [done|];
     destruct (Z.eqb_spec status 200) as [->|Hne]; cbn [negb]; [|done];
     destruct body as [data| |msg|u]; [|done|done|by split; [|right; right]];
     pose proof (_parse_stream_info_cases strptime data) as Hout;
     cbn zeta in Hout;
     destruct (_parse_stream_info strptime data) as [[desc|e] logged]; cbn [fst snd] in *;
       [by eexists|];
     destruct e; try done;
     destruct Hout as (_ & falsy & Hl & Ht); by exists data, falsy).
Qed.

(** ** Rules for the properties kept by a computation *)

Section HoareRules.
Context {A B : Type}.
Implicit Types (P I E : ActivityObserver -> Prop) (st : ActivityObserver).

Lemma hoare_conseq P P' (m : M A) (Q Q' : A -> ActivityObserver -> Prop) E E' :
  hoare P' m Q' E' ->
  (forall st, P st -> P' st) -> (forall a st, Q' a st -> Q a st) ->
  (forall st, E' st -> E st) ->
  hoare P m Q E.
Proof.
  intros H HP HQ HE st Hst. specialize (H st (HP st Hst)).
  destruct (m st) as [[a|e] st']; eauto.
Qed.

Lemma hoare_ret P (a : A) E : hoare P (ret a) (fun a' st => a' = a /\ P st) E.
Proof. by intros st Hst. Qed.

Lemma hoare_raise P (e : exn) (Q : A -> ActivityObserver -> Prop) :
  hoare P (raise e) Q P.
Proof. by intros st Hst. Qed.

Lemma hoare_lift P (r : result A) :
  hoare P (lift r) (fun a st => r = Ok a /\ P st) P.
Proof. intros st Hst. by destruct r. Qed.

Lemma hoare_gets P (f : ActivityObserver -> A) E :
  hoare P (gets f) (fun a st => a = f st /\ P st) E.
Proof. by intros st Hst. Qed.

Lemma hoare_bind P (m : M A) (k : A -> M B) (Q : A -> ActivityObserver -> Prop)
    (R : B -> ActivityObserver -> Prop) E :
  hoare P m Q E -> (forall a, hoare (Q a) (k a) R E) -> hoare P (bind m k) R E.
Proof.
  intros Hm Hk st Hst. unfold bind. specialize (Hm st Hst).
  destruct (m st) as [[a|e] st']; [|done]. by apply Hk.
Qed.
End HoareRules.

Section HoareRulesUnit.
Implicit Types (P I E : ActivityObserver -> Prop) (st : ActivityObserver).

Lemma hoare_modify P (f : ActivityObserver -> ActivityObserver)
    (Q : unit -> ActivityObserver -> Prop) E :
  (forall st, P st -> Q tt (f st)) -> hoare P (modify f) Q E.
Proof. intros H st Hst. by apply H. Qed.

Lemma hoare_for_each {A} I (l : list A) (body : A -> M unit) :
  (forall x, x ∈ l -> hoare I (body x) (fun _ => I) I) ->
  hoare I (for_each l body) (fun _ => I) I.
Proof.
  induction l as [|x l IH]; intros Hbody; [by intros st Hst|].
  cbn [for_each]. eapply hoare_bind.
  - apply Hbody. apply list_elem_of_here.
  - intros []. apply IH. intros y Hy. apply Hbody. by apply list_elem_of_further.
Qed.

Lemma hoare_deref_user P u E :
  (forall st, P st -> E st) ->
  hoare P (deref_user u) (fun usr st => PyDict.get u (_users st) = Some usr /\ P st) E.
Proof.
  intros HE st Hst. unfold deref_user. destruct (PyDict.get u (_users st)) eqn:Eu; eauto.
Qed.

Lemma hoare_deref_session P s E :
  (forall st, P st -> E st) ->
  hoare P (deref_session s) (fun sess st => sessions st !! s = Some sess /\ P st) E.
Proof.
  intros HE st Hst. unfold deref_session. destruct (sessions st !! s) eqn:Es; eauto.
Qed.

Lemma hoare_Task_cancel P t (Q : unit -> ActivityObserver -> Prop) E :
  (forall st, P st -> E st) ->
  (forall st T, P st -> tasks st !! t = Some T ->
     Q tt (with_tasks (<[t := mkTask (runs T) true]> (tasks st)) st)) ->
  hoare P (Task_cancel t) Q E.
Proof.
  intros HE HQ st Hst. unfold Task_cancel. destruct (tasks st !! t) eqn:Et; eauto.
Qed.
End HoareRulesUnit.

Section KeepsRules.
Implicit Types (I : ActivityObserver -> Prop) (st : ActivityObserver).

Lemma keeps_bind {A B} I (m : M A) (k : A -> M B) :
  keeps I m -> (forall a, keeps I (k a)) -> keeps I (bind m k).
Proof. intros Hm Hk. eapply hoare_bind; [exact Hm|]. intros a. apply Hk. Qed.

Lemma keeps_ret {A} I (a : A) : keeps I (ret a).
Proof. by intros st Hst. Qed.

Lemma keeps_raise {A} I e : keeps I (@raise A e).
Proof. by intros st Hst. Qed.

Lemma keeps_lift {A} I (r : result A) : keeps I (lift r).
Proof. intros st Hst. by destruct r. Qed.

Lemma keeps_gets {A} I (f : ActivityObserver -> A) : keeps I (gets f).
Proof. by intros st Hst. Qed.

Lemma keeps_modify I f : (forall st, I st -> I (f st)) -> keeps I (modify f).
Proof. intros H st Hst. by apply H. Qed.

Lemma keeps_deref_user I u : keeps I (deref_user u).
Proof. intros st Hst. unfold deref_user. by destruct (PyDict.get u (_users st)). Qed.

Lemma keeps_deref_session I s : keeps I (deref_session s).
Proof. intros st Hst. unfold deref_session. by destruct (sessions st !! s). Qed.

Lemma keeps_for_each {A} I (l : list A) (body : A -> M unit) :
  (forall x, keeps I (body x)) -> keeps I (for_each l body).
Proof. intros H. apply hoare_for_each. intros x _. apply H. Qed.

Lemma keeps_if {A} I (b : bool) (m1 m2 : M A) :
  keeps I m1 -> keeps I m2 -> keeps I (if b then m1 else m2).
Proof. by destruct b. Qed.

Lemma keeps_snd {A} I (m : M A) st : keeps I m -> I st -> I (snd (m st)).
Proof. intros H Hst. specialize (H st Hst). by destruct (m st) as [[a|e] st']. Qed.
End KeepsRules.

(** The sessions' teardown logs nothing. *)
Section KeepsLogged.
Variable l : list exn.

Lemma keeps_logged_unsubscribe_all s notify :
  keeps (fun st => logged st = l) (unsubscribe_all s notify).
Proof.
  unfold unsubscribe_all. apply keeps_bind; [apply keeps_deref_session|]. intros sess.
  apply keeps_bind.
  { apply keeps_if; [|apply keeps_ret]. unfold _notify_subs.
    apply keeps_bind; [apply keeps_deref_session|]. intros sess'. by apply keeps_modify. }
  intros _. apply keeps_for_each. intros sub.
  apply keeps_bind; [apply keeps_deref_user|]. intros usr.
  apply keeps_bind; [apply keeps_lift|]. intros d. by apply keeps_modify.
Qed.

Lemma keeps_logged_remove_session s :
  keeps (fun st => logged st = l) (_remove_session s).
Proof.
  unfold _remove_session. apply keeps_bind; [apply keeps_logged_unsubscribe_all|]. intros _.
  apply keeps_bind; [apply keeps_deref_session|]. intros sess.
  apply keeps_bind; [apply keeps_gets|]. intros reg.
  apply keeps_bind; [apply keeps_lift|]. intros reg'. by apply keeps_modify.
Qed.
End KeepsLogged.

(** ** The failure of a stream task *)

(** X20. When the task of a registered session ends by [ObserverError] (the
    reconnect budget is used up), [_run_stream] logs the error and removes
    the session: all its subscribers get one notice that the stream closed,
    nobody tracks the broadcaster any more, what users track of other
    broadcasters is unchanged, and the broadcaster leaves the registry. The
    task is not cancelled and no user is removed; the state stays
    consistent. *)
Theorem stream_failure_removes_session float_of_str str_of_float st n ctx msg :
  reachable float_of_str str_of_float st ->
  PyDict.get n (_streamers st) = Some ctx ->
  exists st' sess,
    _run_stream (Raise (ObserverError msg)) (session ctx) st = (Ok tt, st') /\
    observer_inv st' /\
    sessions st !! session ctx = Some sess /\
    logged st' = logged st ++ [ObserverError msg] /\
    outbox st'
    = outbox st ++ [Notification.mk (map user (PyDict.values (StreamSession._subs sess)))
                      (n ++ lit " stream closed")] /\
    PyDict.get n (_streamers st') = None /\
    (forall n', n' <> n -> PyDict.get n' (_streamers st') = PyDict.get n' (_streamers st)) /\
    (forall u, user_tracks st' u n = None) /\
    (forall u n', n' <> n -> user_tracks st' u n' = user_tracks st u n') /\
    tasks st' = tasks st /\
    (forall u, is_Some (PyDict.get u (_users st')) <-> is_Some (PyDict.get u (_users st))).
Proof.
  intros Hinv%reachable_inv Hctx.
  set (st0 := with_logged (logged st ++ [ObserverError msg]) st).
  assert (Hinv0 : observer_inv st0) by by apply (inv_gen_frame _ _ st).
  destruct (_remove_session_registered st0 n ctx Hinv0 Hctx)
    as (st' & sess & Hrun & Hinv' & Hs & Hname & Hdel & Hsess & Htasks & Hout & Hn & Hother & Hu).
  exists st', sess.
  assert (Hlog : logged st' = logged st0).
  { pose proof (keeps_snd _ _ st0 (keeps_logged_remove_session (logged st0) (session ctx))
                  eq_refl) as H.
    by rewrite Hrun in H. }
  split.
  { unfold _run_stream, bind, log_exception, modify. fold st0. by rewrite Hrun. }
  split; [done|]. split; [done|]. split; [by rewrite Hlog|]. split; [done|].
  split.
  { rewrite (PyDictFacts.get_del n n (_streamers st0) (_streamers st'));
      [by rewrite decide_True|apply Hinv0|done]. }
  split.
  { intros n' Hne.
    rewrite (PyDictFacts.get_del n n' (_streamers st0) (_streamers st'));
      [by rewrite decide_False|apply Hinv0|done]. }
  done.
Qed.

Lemma stream_failure_removes_session_witness :
  (reachable Scenario.float_of_str Scenario.str_of_float Scenario.two_sessions /\
   PyDict.get (lit "foo") (_streamers Scenario.two_sessions) = Some (mkStreamContext 0 0)) /\
  exists st' sess,
    _run_stream (Raise (ObserverError (lit "Websocket connection error"))) 0
      Scenario.two_sessions = (Ok tt, st') /\
    sessions Scenario.two_sessions !! 0 = Some sess.
Proof.
  assert (H : reachable Scenario.float_of_str Scenario.str_of_float Scenario.two_sessions /\
              PyDict.get (lit "foo") (_streamers Scenario.two_sessions)
              = Some (mkStreamContext 0 0)).
  { split; [apply two_sessions_reachable|reflexivity]. }
  split; [exact H|].
  destruct H as (Hr & Hctx).
  destruct (stream_failure_removes_session Scenario.float_of_str Scenario.str_of_float
              Scenario.two_sessions (lit "foo") (mkStreamContext 0 0)
              (lit "Websocket connection error") Hr Hctx)
    as (st' & sess & Hrun & _ & Hs & _).
  exists st', sess. by split.
Defined.

(** ** Hooks are never lost: the subscriptions always name a hook *)

Section HooksDefinedBasics.
Import PyDictFacts.
Variable F : Subscribe -> Prop.
Implicit Types (st : ActivityObserver) (u h : str) (sub : Subscribe).

Lemma values_set_elem {V} k (v : V) d x :
  x ∈ PyDict.values (PyDict.set k v d) -> x = v \/ x ∈ PyDict.values d.
Proof.
  unfold PyDict.values. induction d as [|[k' v'] d IH]; cbn.
  - intros ->%list_elem_of_singleton. by left.
  - case_decide; cbn; rewrite !elem_of_cons; [naive_solver|].
    intros [->|Hx]; [naive_solver|]. destruct (IH Hx); naive_solver.
Qed.

Lemma values_del_elem {V} k (d d' : PyDict.t V) x :
  PyDict.del k d = Some d' -> x ∈ PyDict.values d' -> x ∈ PyDict.values d.
Proof.
  unfold PyDict.values. revert d'. induction d as [|[k' v'] d IH]; intros d'; cbn; [done|].
  case_decide.
  - intros [= <-] Hx. by apply list_elem_of_further.
  - destruct (PyDict.del k d) as [r|]; [|done]. intros [= <-]. cbn.
    rewrite !elem_of_cons. naive_solver.
Qed.

Lemma contains_set_mono {V} k (v : V) d k' :
  PyDict.contains k' d = true -> PyDict.contains k' (PyDict.set k v d) = true.
Proof.
  rewrite !contains_true, get_set. case_decide; [by eexists|done].
Qed.

Lemma hook_defined_contains users sub :
  hook_defined users sub <->
  exists usr, PyDict.get (user sub) users = Some usr /\
              PyDict.contains (hook_name sub) (User.hooks usr) = true.
Proof.
  unfold hook_defined. split.
  - intros (usr & pattern & Hu & Hp). exists usr. split; [done|].
    apply contains_true. by eexists.
  - intros (usr & Hu & [pattern Hp]%contains_true). eauto.
Qed.

(** Writing back a user object whose hooks are at least those it had. *)
Lemma hook_defined_store users u usr usr' sub :
  PyDict.get u users = Some usr ->
  (forall h, PyDict.contains h (User.hooks usr) = true ->
             PyDict.contains h (User.hooks usr') = true) ->
  hook_defined users sub -> hook_defined (PyDict.set u usr' users) sub.
Proof.
  intros Hu Hmono. rewrite !hook_defined_contains. intros (usr0 & Hu0 & Hc).
  rewrite get_set. case_decide as Heq.
  - subst u. exists usr'. split; [done|]. apply Hmono. congruence.
  - by exists usr0.
Qed.

(** Registering a new user. *)
Lemma hook_defined_new users name usr' sub :
  PyDict.get name users = None ->
  hook_defined users sub -> hook_defined (PyDict.set name usr' users) sub.
Proof.
  intros Hnew. rewrite !hook_defined_contains. intros (usr0 & Hu0 & Hc).
  rewrite get_set. case_decide as Heq; [congruence|]. by exists usr0.
Qed.

Lemma hooks_defined_step st st' :
  hooks_defined F st ->
  (forall sub, hook_defined (_users st) sub -> hook_defined (_users st') sub) ->
  (forall s sess' sub,
     sessions st' !! s = Some sess' -> sub ∈ PyDict.values (StreamSession._subs sess') ->
     hook_defined (_users st) sub \/
     exists sess, sessions st !! s = Some sess /\
                  sub ∈ PyDict.values (StreamSession._subs sess)) ->
  hooks_defined F st'.
Proof.
  intros [Hs HF] Hgrow Hsess. split.
  - intros s sess' sub Hs' Hin. apply Hgrow.
    destruct (Hsess s sess' sub Hs' Hin) as [?|(sess & Hsome & Hin')]; [done|].
    by eapply Hs.
  - intros sub Hsub. by apply Hgrow, HF.
Qed.

Lemma hooks_defined_frame st st' :
  _users st' = _users st -> sessions st' = sessions st ->
  hooks_defined F st -> hooks_defined F st'.
Proof.
  intros Hu Hs H. apply (hooks_defined_step st); [done| |].
  - intros sub. by rewrite Hu.
  - intros s sess' sub. rewrite Hs. eauto.
Qed.

Lemma hooks_defined_store_user st u usr usr' :
  hooks_defined F st ->
  PyDict.get u (_users st) = Some usr ->
  (forall h, PyDict.contains h (User.hooks usr) = true ->
             PyDict.contains h (User.hooks usr') = true) ->
  hooks_defined F (with_users (PyDict.set u usr' (_users st)) st).
Proof.
  intros H Hu Hmono. apply (hooks_defined_step st); [done| |].
  - intros sub. by apply hook_defined_store with usr.
  - intros s sess' sub. cbn. eauto.
Qed.

Lemma hooks_defined_store_session st s sess subs' :
  hooks_defined F st ->
  sessions st !! s = Some sess ->
  (forall sub, sub ∈ PyDict.values subs' ->
     hook_defined (_users st) sub \/ sub ∈ PyDict.values (StreamSession._subs sess)) ->
  hooks_defined F
    (with_sessions (<[s := StreamSession.with_subs subs' sess]> (sessions st)) st).
Proof.
  intros H Hs Hsubs. apply (hooks_defined_step st); [done|done|].
  intros s' sess' sub. cbn [with_sessions sessions].
  intros [(-> & <- & Hlen)|(Hne & Hs')]%list_lookup_insert_Some Hin.
  - cbn in Hin. destruct (Hsubs sub Hin); eauto.
  - eauto.
Qed.
End HooksDefinedBasics.

Section HooksDefinedHandlers.
Import PyDictFacts.
Variable F : Subscribe -> Prop.
Implicit Types (st : ActivityObserver) (u n h : str) (sub : Subscribe).

Local Abbreviation K := (hooks_defined F).

Lemma hoare_lift_to {A} (P E : ActivityObserver -> Prop) (r : result A) :
  (forall st, P st -> E st) ->
  hoare P (lift r) (fun a st => r = Ok a /\ P st) E.
Proof. intros HE st Hst. destruct r; cbn; eauto. Qed.

Ltac kb := apply keeps_bind; [|intros ?].
Ltac hb := eapply hoare_bind; [|intros ?].
Tactic Notation "hb" "as" ident(x) := eapply hoare_bind; [|intros x].
Ltac frame := apply keeps_modify; intros ? ?; by apply (hooks_defined_frame F _ _ eq_refl eq_refl).

Lemma keepsK_notify u msg : keeps K (_notify u msg).
Proof. unfold _notify, create_send_notification. frame. Qed.

Lemma keepsK_log e : keeps K (log_exception e).
Proof. unfold log_exception. frame. Qed.

Lemma keepsK_Task_cancel t : keeps K (Task_cancel t).
Proof.
  intros st Hst. unfold Task_cancel. destruct (tasks st !! t); [|done].
  by apply (hooks_defined_frame F st).
Qed.

(** [store_user] of a user object read in this state, with hooks kept. *)
Lemma hoareK_store_user u usr usr' :
  (forall h, PyDict.contains h (User.hooks usr) = true ->
             PyDict.contains h (User.hooks usr') = true) ->
  hoare (fun st => PyDict.get u (_users st) = Some usr /\ K st) (store_user u usr')
    (fun _ => K) K.
Proof.
  intros Hmono. apply hoare_modify. intros st [Hu Hst].
  by apply hooks_defined_store_user with usr.
Qed.

(** Writing back, with its hooks kept, a user object read before. *)
Lemma hoareK_write_back {P : ActivityObserver -> Prop} u usr usr' :
  (forall h, PyDict.contains h (User.hooks usr) = true ->
             PyDict.contains h (User.hooks usr') = true) ->
  (forall st, P st -> PyDict.get u (_users st) = Some usr /\ K st) ->
  hoare P (store_user u usr') (fun _ => K) K.
Proof.
  intros Hmono HP. eapply hoare_conseq; [by apply (hoareK_store_user u usr usr')|done..].
Qed.

Lemma keepsK_unsubscribe s u : keeps K (unsubscribe s u).
Proof.
  unfold unsubscribe, keeps. hb; [by apply hoare_deref_user|].
  hb; [apply hoare_deref_session; tauto|]. hb; [apply hoare_lift_to; tauto|]. cbn beta.
  apply hoare_modify. intros st (Hdel & Hs & _ & Hst).
  apply hooks_defined_store_session; [done|done|].
  intros sub Hin. right. unfold PyDict.delitem in Hdel.
  destruct (PyDict.del _ _) as [d'|] eqn:Ed; [|done]. injection Hdel as <-.
  by eapply values_del_elem.
Qed.

Lemma hoareK_subscribe s u h :
  hoare (fun st => hook_defined (_users st) (mkSubscribe u h) /\ K st) (subscribe s u h)
    (fun _ => K) K.
Proof.
  unfold subscribe. hb; [apply hoare_deref_user; tauto|].
  hb; [apply hoare_deref_session; tauto|]. cbn beta.
  apply hoare_modify. intros st (Hs & _ & Hh & Hst).
  apply hooks_defined_store_session; [done|done|].
  intros sub [->|Hin]%values_set_elem; eauto.
Qed.

Lemma keepsK_has_subscribers s : keeps K (has_subscribers s).
Proof. unfold has_subscribers. kb; [apply keeps_deref_session|]. apply keeps_ret. Qed.

Lemma keepsK_registry_delete k :
  keeps K (bind (gets _streamers) (fun reg =>
           bind (lift (PyDict.delitem k reg)) (fun reg' => modify (with_streamers reg')))).
Proof. kb; [apply keeps_gets|]. kb; [apply keeps_lift|]. frame. Qed.

Lemma keepsK_unsubscribe_and_reap u n : keeps K (unsubscribe_and_reap u n).
Proof.
  unfold unsubscribe_and_reap. kb; [apply keeps_gets|]. kb; [apply keeps_lift|].
  kb; [apply keepsK_unsubscribe|]. kb; [apply keepsK_has_subscribers|].
  apply keeps_if; [|apply keeps_ret]. kb; [apply keepsK_Task_cancel|].
  apply keepsK_registry_delete.
Qed.

Lemma keepsK_stop u n : keeps K (_process_stop_command u n).
Proof.
  unfold _process_stop_command. kb; [apply keeps_deref_user|]. kb; [apply keeps_gets|].
  apply keeps_if; [|apply keepsK_notify].
  kb; [apply keepsK_unsubscribe_and_reap|].
  unfold keeps. hb; [by apply hoare_deref_user|]. hb; [apply hoare_lift_to; tauto|].
  hb; [apply (hoareK_write_back u a2); [done|tauto]|]. apply keepsK_notify.
Qed.

(** A notice changes the outbox only. *)
Lemma keeps_notify_user u usr usr0 msg :
  keeps (fun st => PyDict.get usr0 (_users st) = Some usr /\ K st) (_notify u msg).
Proof.
  unfold _notify, create_send_notification. apply keeps_modify. intros st [Hu Hst].
  split; [done|]. by apply (hooks_defined_frame F st).
Qed.

Lemma keepsK_stopall u : keeps K (_process_stopall_command u).
Proof.
  unfold _process_stopall_command. kb; [apply keeps_deref_user|].
  kb; [apply keeps_for_each; intros name; apply keepsK_unsubscribe_and_reap|].
  unfold keeps. hb as usr; [by apply hoare_deref_user|].
  hb.
  - eapply hoare_conseq; [apply (keeps_notify_user u usr u)|done|done|by intros st [_ ?]].
  - by apply (hoareK_write_back u usr).
Qed.

Lemma keepsK_hook u h text : keeps K (_process_hook_command u h text).
Proof.
  unfold _process_hook_command, keeps. hb as usr; [by apply hoare_deref_user|].
  hb.
  - eapply hoare_conseq;
      [apply (keeps_if _ _ (_notify u _) (_notify u _)); apply (keeps_notify_user u usr u)
      |done|done|by intros st [_ ?]].
  - apply (hoareK_write_back u usr); [|done].
    intros h' Hh'. cbn. by apply contains_set_mono.
Qed.

Lemma keepsK_hooks u : keeps K (_process_hooks_command u).
Proof.
  unfold _process_hooks_command. kb; [apply keeps_deref_user|].
  apply keeps_if; apply keepsK_notify.
Qed.

Lemma keepsK_threshold str_of_float u x :
  keeps K (_process_threshold_command str_of_float u x).
Proof.
  unfold _process_threshold_command. kb; [apply keepsK_notify|].
  unfold keeps. hb as usr; [by apply hoare_deref_user|].
  by apply (hoareK_write_back u usr).
Qed.

Lemma keepsK_unsubscribe_all s notify : keeps K (unsubscribe_all s notify).
Proof.
  unfold unsubscribe_all. kb; [apply keeps_deref_session|].
  kb.
  { apply keeps_if; [|apply keeps_ret]. unfold _notify_subs.
    kb; [apply keeps_deref_session|]. unfold create_send_notification. frame. }
  apply keeps_for_each. intros sub.
  unfold keeps. hb as usr; [by apply hoare_deref_user|]. hb; [apply hoare_lift_to; tauto|].
  apply (hoareK_write_back (user sub) usr); [done|tauto].
Qed.

Lemma keepsK_remove_session s : keeps K (_remove_session s).
Proof.
  unfold _remove_session. kb; [apply keepsK_unsubscribe_all|].
  kb; [apply keeps_deref_session|]. apply keepsK_registry_delete.
Qed.

Lemma keepsK_run_stream ended s : keeps K (_run_stream ended s).
Proof.
  unfold _run_stream. destruct ended as [[]|e]; [apply keeps_lift|].
  destruct e; try apply keeps_lift.
  kb; [apply keepsK_log|]. apply keepsK_remove_session.
Qed.

Lemma keepsK_get_user name chat_id : keeps K (_get_user name chat_id).
Proof.
  unfold _get_user, keeps. hb as us; [apply hoare_gets|]. cbn beta.
  hb; [|apply keeps_ret].
  destruct (PyDict.contains name us) eqn:Hc; cbn [negb].
  - intros st [_ Hst]. done.
  - apply hoare_modify. intros st [-> Hst]. apply contains_false in Hc.
    apply (hooks_defined_step F st); [done| |cbn; eauto].
    intros sub. by apply hook_defined_new.
Qed.

Lemma keepsK_subscribe s u h : F (mkSubscribe u h) -> keeps K (subscribe s u h).
Proof.
  intros HF. eapply hoare_conseq; [apply (hoareK_subscribe s u h)| |done|done].
  intros st Hst. split; [|done]. by apply Hst.
Qed.

Lemma keepsK_new_StreamSession streamer started_at :
  keeps K (new_StreamSession streamer started_at).
Proof.
  intros st Hst. cbn. apply (hooks_defined_step F st); [done|done|].
  intros s sess' sub. cbn [with_sessions sessions].
  intros [Hs|[_ Hx]]%lookup_app_Some Hin; [eauto|].
  apply list_elem_of_lookup_2, list_elem_of_singleton in Hx. subst sess'.
  cbn in Hin. by apply elem_of_nil in Hin.
Qed.

Lemma keepsK_create_task s : keeps K (create_task_run_stream s).
Proof. intros st Hst. cbn. by apply (hooks_defined_frame F st). Qed.

Lemma keepsK_start_resume reply u n h :
  F (mkSubscribe u h) -> keeps K (_process_start_command_resume reply u n h).
Proof.
  intros HF. unfold _process_start_command_resume.
  destruct reply as [desc|e].
  2:{ destruct e; try apply keeps_raise. apply keepsK_notify. }
  kb; [apply keeps_gets|]. kb.
  { apply keeps_if.
    - kb; [apply keepsK_new_StreamSession|]. kb; [apply keepsK_create_task|].
      kb; [frame|]. apply keeps_ret.
    - kb; [apply keeps_lift|]. apply keeps_ret. }
  kb; [by apply keepsK_subscribe|].
  unfold keeps. hb as usr; [by apply hoare_deref_user|].
  hb; [by apply (hoareK_write_back u usr)|]. apply keepsK_notify.
Qed.

Lemma keepsK_sweep_loop results : forall it st,
  K st -> K (snd (_streams_ping_loop results it st)).
Proof.
  induction results as [|desc rest IH]; intros it st Hst; cbn [_streams_ping_loop].
  - by destruct (dictiter_next it (_streamers st)).
  - destruct (dictiter_next it (_streamers st)) as [streamer it'| |e]; [|done|done].
    set (body := match desc with Ok _ => _ | Raise _ => _ end).
    assert (Hbody : keeps K body).
    { unfold body. destruct desc as [d|e]; [apply keeps_ret|].
      destruct e; try apply keepsK_log.
      kb; [apply keeps_gets|]. kb; [apply keeps_lift|]. kb; [apply keepsK_Task_cancel|].
      apply keepsK_remove_session. }
    specialize (Hbody st Hst). destruct (body st) as [[[]|e] st']; [by apply IH|done].
Qed.

Lemma keepsK_sweep results st : K st -> K (snd (_streams_ping_handle results st)).
Proof. apply keepsK_sweep_loop. Qed.
End HooksDefinedHandlers.

Section HooksDefinedRuns.
Import PyDictFacts.
Variable float_of_str : str -> option float.
Variable str_of_float : float -> str.
Implicit Types (st : ActivityObserver) (F : Subscribe -> Prop).

Lemma hooks_defined_weaken F F' st :
  (forall sub, F' sub -> F sub) -> hooks_defined F st -> hooks_defined F' st.
Proof. intros HF [Hs Hf]. split; [done|]. intros sub Hsub. by apply Hf, HF. Qed.

Lemma hooks_defined_add F st sub0 :
  hooks_defined F st -> hook_defined (_users st) sub0 ->
  hooks_defined (fun sub => F sub \/ sub = sub0) st.
Proof. intros [Hs Hf] H0. split; [done|]. intros sub [Hsub| ->]; [by apply Hf|done]. Qed.

Lemma keepsK_start F reply u n h :
  keeps (hooks_defined F) (_process_start_command reply u n h).
Proof.
  intros st Hst. unfold _process_start_command, bind, deref_user.
  destruct (PyDict.get u (_users st)) as [usr|] eqn:Hu; [|done].
  destruct (PyDict.contains n (User.streamers usr)).
  { apply (keepsK_notify F u _ st Hst). }
  destruct (PyDict.contains h (User.hooks usr)) eqn:Hh; cbn [negb].
  2:{ apply (keepsK_notify F u _ st Hst). }
  assert (H0 : hook_defined (_users st) (mkSubscribe u h)).
  { apply hook_defined_contains. by exists usr. }
  pose proof (keepsK_start_resume (fun sub => F sub \/ sub = mkSubscribe u h) reply u n h
                (or_intror eq_refl) st (hooks_defined_add F st _ Hst H0)) as Hk.
  destruct (_process_start_command_resume reply u n h st) as [[[]|e] st'];
    apply (hooks_defined_weaken _ F st' (fun sub H => or_introl H) Hk).
Qed.

Lemma keeps_kwarg_str (I : ActivityObserver -> Prop) p k : keeps I (kwarg_str p k).
Proof.
  unfold kwarg_str. destruct (PyDict.get k p) as [[s|x]|];
    (apply keeps_ret || apply keeps_raise).
Qed.

Lemma keeps_kwarg_float (I : ActivityObserver -> Prop) p k : keeps I (kwarg_float p k).
Proof.
  unfold kwarg_float. destruct (PyDict.get k p) as [[s|x]|];
    (apply keeps_ret || apply keeps_raise).
Qed.

Lemma keeps_finish (I : ActivityObserver -> Prop) (m : M unit) st :
  keeps I m -> I st -> I (snd (finish m st)).
Proof. intros Hm Hst. rewrite finish_snd. by apply keeps_snd. Qed.

Lemma keepsK_command F twitch u command st :
  hooks_defined F st ->
  hooks_defined F (snd (_process_command float_of_str str_of_float twitch u command st)).
Proof.
  intros Hst. unfold _process_command.
  destruct (parse_command float_of_str command) as [desc|e].
  2:{ by destruct e. }
  destruct (command_type desc).
  - destruct (deref_user u st) as [[usr|e] st0]; [|done].
    unfold async_with, Lock_acquire.
    destruct (locks st !! User.start_lock usr) as [[|]|]; try done.
    set (st1 := with_locks _ st).
    assert (H1 : hooks_defined F st1) by by apply (hooks_defined_frame F st).
    set (body := bind _ _).
    assert (Hbody : keeps (hooks_defined F) body).
    { unfold body. apply keeps_bind; [apply keeps_kwarg_str|]. intros streamer.
      apply keeps_bind; [apply keeps_kwarg_str|]. intros hook_name. apply keepsK_start. }
    pose proof (keeps_snd _ _ st1 Hbody H1) as H2.
    destruct (body st1) as [r st2]. cbn [snd] in *.
    by apply (hooks_defined_frame F st2).
  - apply keeps_finish; [|done]. apply keeps_bind; [apply keeps_kwarg_str|]. intros streamer.
    apply keepsK_stop.
  - apply keeps_finish; [|done]. apply keepsK_stopall.
  - apply keeps_finish; [|done]. apply keeps_bind; [apply keeps_kwarg_str|]. intros hook_name.
    apply keeps_bind; [apply keeps_kwarg_str|]. intros hook_str. apply keepsK_hook.
  - apply keeps_finish; [|done]. apply keepsK_hooks.
  - apply keeps_finish; [|done]. apply keeps_bind; [apply keeps_kwarg_float|]. intros x.
    apply keepsK_threshold.
  - apply keeps_finish; [|done]. apply keeps_bind; [apply keeps_kwarg_str|]. intros commands.
    apply keepsK_notify.
Qed.

Lemma stretch_hooks_defined F st st' :
  stretch float_of_str str_of_float st st' -> hooks_defined F st -> hooks_defined F st'.
Proof.
  intros Hstep Hst. destruct Hstep.
  - by apply keeps_snd; [apply keepsK_get_user|].
  - by apply keepsK_command.
  - by apply keeps_snd; [apply keepsK_start|].
  - by apply keeps_snd; [apply keepsK_stop|].
  - by apply keeps_snd; [apply keepsK_stopall|].
  - by apply keeps_snd; [apply keepsK_hook|].
  - by apply keeps_snd; [apply keepsK_threshold|].
  - by apply keepsK_sweep.
  - by apply keeps_snd; [apply keepsK_run_stream|].
Qed.

Lemma stretch_step st st' :
  stretch float_of_str str_of_float st st' -> step float_of_str str_of_float st st'.
Proof. intros H. destruct H; by econstructor. Qed.

Lemma start_checked_hook_defined st u n h :
  start_checked st u n h -> hook_defined (_users st) (mkSubscribe u h).
Proof. intros (usr & Hu & _ & Hh). apply hook_defined_contains. by exists usr. Qed.

(** In a run, whatever hook a user had in a state passed, it has now. *)
Lemma run_states_hooks_defined l :
  run_states float_of_str str_of_float l ->
  match l with
  | [] => True
  | st :: past =>
      hooks_defined
        (fun sub => exists st0, st0 ∈ st :: past /\ hook_defined (_users st0) sub) st
  end.
Proof.
  assert (Hnew : forall F st st1 past,
    hooks_defined F st ->
    (forall sub, (exists st0, st0 ∈ st1 :: past /\ hook_defined (_users st0) sub) -> F sub) ->
    hooks_defined
      (fun sub => exists st0, st0 ∈ st :: st1 :: past /\ hook_defined (_users st0) sub) st).
  { intros F st st1 past [Hs Hf] HF. split; [done|].
    intros sub (st0 & [->|Hin]%elem_of_cons & Hd); [done|]. apply Hf, HF. eauto. }
  induction 1 as [m|st past st' H IH Hs|st past st0 reply u n h H IH Hin Hc].
  - split.
    + intros s sess sub Hs. done.
    + intros sub (st0 & ->%list_elem_of_singleton & (usr & p & Hu & _)). done.
  - eapply Hnew; [eapply stretch_hooks_defined; [exact Hs|exact IH]|].
    intros sub Hsub. exact Hsub.
  - eapply Hnew; [|intros sub Hsub; exact Hsub].
    apply keeps_snd; [|exact IH]. apply keepsK_start_resume.
    exists st0. split; [done|]. by eapply start_checked_hook_defined.
Qed.

Lemma run_states_suffix l st0 :
  run_states float_of_str str_of_float l -> st0 ∈ l ->
  exists past0, run_states float_of_str str_of_float (st0 :: past0).
Proof.
  induction 1 as [m|st past st' H IH Hs|st past st1 reply u n h H IH Hin Hc].
  - intros ->%list_elem_of_singleton. eexists. constructor.
  - intros [->|Hin]%elem_of_cons; [|by apply IH].
    eexists. by econstructor.
  - intros [->|Hin']%elem_of_cons; [|by apply IH].
    eexists. by eapply run_resume.
Qed.

Lemma run_states_reachable st past :
  run_states float_of_str str_of_float (st :: past) ->
  reachable float_of_str str_of_float st.
Proof.
  intros H. remember (st :: past) as l eqn:El. revert st past El.
  induction H as [m|st1 past1 st' H IH Hs|st1 past1 st0 reply u n h H IH Hin Hc];
    intros st past [= <- <-].
  - constructor.
  - eapply reach_step; [by eapply IH|]. by apply stretch_step.
  - eapply reach_step; [by eapply IH|]. apply step_start_resume.
    pose proof (run_states_hooks_defined _ H) as [_ Hf].
    destruct (Hf (mkSubscribe u h)) as (usr & p & Hu & _).
    { exists st0. split; [done|]. by eapply start_checked_hook_defined. }
    apply registered_get. by exists usr.
Qed.
End HooksDefinedRuns.

(** X21. In a run of the observer, whatever interleaving the scheduler
    chooses for the start commands that await their lookup, no hook is ever
    lost and no user unregistered: a user who had a hook in a state the run
    has passed has it in every later state (its text may have been
    replaced). *)
Theorem hooks_are_never_lost float_of_str str_of_float st past st0 sub :
  run_states float_of_str str_of_float (st :: past) -> st0 ∈ st :: past ->
  hook_defined (_users st0) sub -> hook_defined (_users st) sub.
Proof.
  intros Hrun Hin Hd. pose proof (run_states_hooks_defined _ _ _ Hrun) as [_ Hf].
  apply Hf. eauto.
Qed.

(** X22. In a run of the observer, the feedback a session enqueues for a
    chat message is matched without error, now or in any later state of the
    run: each subscriber of the snapshot still names a hook of its user, so
    [_create_tasks] finds every pattern and [match] returns. This is the
    condition under which [match] selects exactly the subscribers that meet
    their threshold. *)
Theorem match_never_fails_in_a_run
    float_of_str str_of_float ratio st past st0 s sess message :
  run_states float_of_str str_of_float (st :: past) -> st0 ∈ st :: past ->
  sessions st0 !! s = Some sess ->
  let data := _enqueue_message sess message in
  Forall (hook_defined (_users st)) (StreamFeedback.subscribers data) /\
  _create_tasks ratio (_users st) data
  = Ok (map (meets_threshold ratio (_users st) (ChatMessage.message message))
          (StreamFeedback.subscribers data)) /\
  exists sent, match_ ratio (_users st) data = Ok sent.
Proof.
  intros Hrun Hin Hs data.
  assert (Hall : Forall (hook_defined (_users st)) (StreamFeedback.subscribers data)).
  { apply Forall_forall. intros sub Hsub.
    pose proof (run_states_hooks_defined _ _ _ Hrun) as [_ Hkept].
    apply Hkept. exists st0. split; [done|].
    destruct (run_states_suffix _ _ _ st0 Hrun Hin) as (past0 & Hrun0).
    pose proof (run_states_hooks_defined _ _ _ Hrun0) as [Hsess _].
    by apply (Hsess s sess). }
  split; [done|].
  assert (Hc : _create_tasks ratio (_users st) data
               = Ok (map (meets_threshold ratio (_users st) (ChatMessage.message message))
                       (StreamFeedback.subscribers data))).
  { unfold _create_tasks. by apply _create_tasks_loop_defined. }
  split; [done|]. unfold match_. rewrite Hc. cbn [rbind].
  destruct (negb _); by eexists.
Qed.

Section ScenarioRun.
Import Scenario.

(** The scenario as a run: the states passed up to [one_session]. *)
Lemma one_session_run :
  run_states float_of_str str_of_float (one_session :: two_users :: scenario_past).
Proof.
  change one_session with
    (snd (_process_start_command (live (lit "foo")) (lit "alice") (lit "foo") (lit "alert")
            two_users)).
  apply run_stretch; [|by apply stretch_start].
  unfold scenario_past. cbv zeta.
  set (s1 := snd (_get_user (lit "alice") 1 (init 3))).
  set (s2 := snd (_get_user (lit "bob") 2 s1)).
  set (s3 := snd (_process_hook_command (lit "alice") (lit "alert") (lit "giveaway") s2)).
  change two_users with
    (snd (_process_hook_command (lit "bob") (lit "alert") (lit "hello") s3)).
  apply run_stretch; [|by apply stretch_hook].
  apply run_stretch; [|by apply stretch_hook].
  apply run_stretch; [|apply stretch_get_user].
  apply run_stretch; [|apply stretch_get_user].
  apply run_init.
Qed.
End ScenarioRun.

Lemma hooks_are_never_lost_witness :
  (run_states Scenario.float_of_str Scenario.str_of_float
     (Scenario.one_session :: Scenario.two_users :: scenario_past) /\
   Scenario.two_users ∈ Scenario.one_session :: Scenario.two_users :: scenario_past /\
   hook_defined (_users Scenario.two_users) (mkSubscribe (lit "bob") (lit "alert"))) /\
  hook_defined (_users Scenario.one_session) (mkSubscribe (lit "bob") (lit "alert")).
Proof.
  assert (Hin : Scenario.two_users
                ∈ Scenario.one_session :: Scenario.two_users :: scenario_past).
  { apply list_elem_of_further, list_elem_of_here. }
  assert (Hd : hook_defined (_users Scenario.two_users) (mkSubscribe (lit "bob") (lit "alert"))).
  { eexists _, _. split; reflexivity. }
  split; [split; [apply one_session_run|by split]|].
  exact (hooks_are_never_lost Scenario.float_of_str Scenario.str_of_float Scenario.one_session
           (Scenario.two_users :: scenario_past) Scenario.two_users _ one_session_run Hin Hd).
Defined.

Lemma match_never_fails_in_a_run_witness :
  let sess := StreamSession.mk (lit "foo") [(lit "alice", mkSubscribe (lit "alice") (lit "alert"))]
                (lit "2021-03-04 05:06:07") 3 in
  let message := ChatMessage.mk (lit "nick") (lit "giveaway") (lit "0:01:02") in
  (run_states Scenario.float_of_str Scenario.str_of_float
     (Scenario.one_session :: Scenario.two_users :: scenario_past) /\
   Scenario.one_session ∈ Scenario.one_session :: Scenario.two_users :: scenario_past /\
   sessions Scenario.one_session !! 0 = Some sess) /\
  exists sent,
    match_ (fun _ _ => float_1_0) (_users Scenario.one_session)
      (_enqueue_message sess message) = Ok sent.
Proof.
  intros sess message.
  assert (Hin : Scenario.one_session
                ∈ Scenario.one_session :: Scenario.two_users :: scenario_past)
    by apply list_elem_of_here.
  assert (Hs : sessions Scenario.one_session !! 0 = Some sess) by reflexivity.
  split; [split; [apply one_session_run|by split]|].
  exact (proj2 (proj2 (match_never_fails_in_a_run Scenario.float_of_str Scenario.str_of_float
                         (fun _ _ => float_1_0) Scenario.one_session
                         (Scenario.two_users :: scenario_past) Scenario.one_session 0 sess
                         message one_session_run Hin Hs))).
Defined.

(** ** The parameters of the requests *)

Section RequestFacts.
Import PyDictFacts.
Variable users : PyDict.t User.t.

Lemma PyDict_set_set {V} k (v v' : V) d :
  PyDict.set k v (PyDict.set k v' d) = PyDict.set k v d.
Proof.
  induction d as [|[k0 v0] d IH]; cbn.
  - by rewrite decide_True.
  - case_decide; cbn; [by rewrite decide_True|]. rewrite decide_False by done. by rewrite IH.
Qed.

Lemma _dispatch_data_loop recipients : forall usrs data chat_id0,
  Forall2 (fun u usr => PyDict.get u users = Some usr) recipients usrs ->
  Requests._dispatch_data users recipients (PyDict.set (lit "chat_id") chat_id0 data)
  = Ok (map (fun usr => PyDict.set (lit "chat_id") (ParamInt (User.chat_id usr)) data) usrs).
Proof.
  induction recipients as [|u rest IH]; intros usrs data chat_id0 Hall.
  - by apply Forall2_nil_inv_l in Hall as ->.
  - apply Forall2_cons_inv_l in Hall as (usr & usrs' & Hu & Hall & ->).
    cbn [Requests._dispatch_data map]. rewrite Hu. rewrite PyDict_set_set.
    by rewrite (IH usrs' data _ Hall).
Qed.

Lemma _dispatch_data_requests recipients usrs data :
  Forall2 (fun u usr => PyDict.get u users = Some usr) recipients usrs ->
  Requests._dispatch_data users recipients data
  = Ok (map (fun usr => PyDict.set (lit "chat_id") (ParamInt (User.chat_id usr)) data) usrs).
Proof.
  destruct 1 as [|u usr rest usrs' Hu Hall]; [done|].
  cbn [Requests._dispatch_data map]. rewrite Hu.
  by rewrite (_dispatch_data_loop rest usrs' data _ Hall).
Qed.

Lemma split_sep_from_no_sep x sep' m a : forall cur,
  x ∉ a -> split_sep_from (x :: sep') m 0 cur a = [cur ++ a].
Proof.
  induction a as [|c a IH]; intros cur Hx; cbn [split_sep_from].
  - by rewrite app_nil_r.
  - apply not_elem_of_cons in Hx as [Hxc Hx]. cbn [startswith].
    destruct (N.eqb_spec x c) as [->|_]; [done|]. rewrite andb_false_r.
    rewrite IH by done. by rewrite <- app_assoc.
Qed.

(** The first field of a split, for a text that is cut at its first
    separator or holds none. *)
Lemma split_sep_head x whole rest :
  x ∉ whole -> rest = [] \/ (exists frac, rest = x :: frac) ->
  exists fields, split_sep [x] None (whole ++ rest) = whole :: fields.
Proof.
  intros Hx [->|(frac & ->)]; unfold split_sep.
  - rewrite app_nil_r, split_sep_from_no_sep by done. by eexists.
  - rewrite (split_sep_from_cut x [] None whole frac) by done. by eexists.
Qed.
End RequestFacts.

(** X23. [_dispatch_data] makes one request per recipient, in order, and
    each carries the parameters it was given plus the chat id of its own
    recipient, although one dictionary is reused for all of them (each task
    gets a copy). For a notification these are exactly the text and the chat
    id. *)
Theorem dispatch_gives_each_recipient_its_chat_id users recipients usrs data message :
  Forall2 (fun u usr => PyDict.get u users = Some usr) recipients usrs ->
  Requests._dispatch_data users recipients data
  = Ok (map (fun usr => PyDict.set (lit "chat_id") (ParamInt (User.chat_id usr)) data) usrs) /\
  Requests.send_notification users (Notification.mk recipients message)
  = Ok (map (fun usr => [(lit "text", ParamStr message);
                         (lit "chat_id", ParamInt (User.chat_id usr))]) usrs).
Proof.
  intros Hall. split; [by apply _dispatch_data_requests|].
  unfold Requests.send_notification. cbn [Notification.users Notification.message].
  by rewrite (_dispatch_data_requests users recipients usrs _ Hall).
Qed.

Lemma dispatch_gives_each_recipient_its_chat_id_witness :
  let alice := User.mk (lit "alice") 1 [] [(lit "alert", lit "giveaway")] float_0_5 0 in
  let bob := User.mk (lit "bob") 2 [] [(lit "alert", lit "hello")] float_0_5 0 in
  let users := _users Scenario.two_users in
  Forall2 (fun u usr => PyDict.get u users = Some usr) [lit "bob"; lit "alice"] [bob; alice] /\
  Requests.send_notification users (Notification.mk [lit "bob"; lit "alice"] (lit "foo stream closed"))
  = Ok [[(lit "text", ParamStr (lit "foo stream closed")); (lit "chat_id", ParamInt 2)];
        [(lit "text", ParamStr (lit "foo stream closed")); (lit "chat_id", ParamInt 1)]].
Proof.
  intros alice bob users.
  assert (H : Forall2 (fun u usr => PyDict.get u users = Some usr)
                [lit "bob"; lit "alice"] [bob; alice]) by (repeat constructor).
  split; [exact H|].
  exact (proj2 (dispatch_gives_each_recipient_its_chat_id users [lit "bob"; lit "alice"]
                  [bob; alice] [] (lit "foo stream closed") H)).
Defined.

(** X24. For a matched message, every subscriber of the feedback gets a
    request with the two switches, the keyboard that opens the stream, its
    own chat id, and the text [streamer +elapsed], an empty line, and
    [nickname: message]; the elapsed time is written without its fraction
    (the part of its text before the first point). *)
Theorem matched_data_requests json_dumps users data usrs whole rest :
  Forall2 (fun u usr => PyDict.get u users = Some usr)
    (MatcherFeedback.subscribers data) usrs ->
  ChatMessage.from_start (MatcherFeedback.chat_message data) = whole ++ rest ->
  46%N ∉ whole -> rest = [] \/ (exists frac, rest = 46%N :: frac) ->
  let streamer := MatcherFeedback.streamer_name data in
  let m := MatcherFeedback.chat_message data in
  Requests.send_matched_data json_dumps users data
  = Ok (map (fun usr =>
          [(lit "disable_notification", ParamStr (lit "true"));
           (lit "disable_web_page_preview", ParamStr (lit "true"));
           (lit "reply_markup",
            ParamStr (json_dumps
              (JDict [(lit "inline_keyboard",
                       JList [JList [JDict
                         [(lit "text", JStr (lit "Open " ++ streamer));
                          (lit "url", JStr (lit "https://www.twitch.tv/" ++ streamer))]]])])));
           (lit "text",
            ParamStr (streamer ++ lit " +" ++ whole ++ [13%N; 10%N; 13%N; 10%N]
                      ++ ChatMessage.nickname m ++ lit ": " ++ ChatMessage.message m));
           (lit "chat_id", ParamInt (User.chat_id usr))]) usrs).
Proof.
  intros Hall Hfs Hpoint Hrest streamer m. unfold Requests.send_matched_data.
  cbv zeta. rewrite Hfs.
  destruct (split_sep_head 46%N whole rest Hpoint Hrest) as (fields & Hsplit).
  change (lit ".") with [46%N]. rewrite Hsplit. rewrite index_0. cbn [rbind].
  by rewrite (_dispatch_data_requests users _ usrs _ Hall).
Qed.

Lemma matched_data_requests_witness :
  let alice := User.mk (lit "alice") 1 [] [(lit "alert", lit "giveaway")] float_0_5 0 in
  let users := _users Scenario.two_users in
  let m := ChatMessage.mk (lit "nick") (lit "free giveaway") (lit "1:02:03.456789") in
  let data := MatcherFeedback.mk (lit "foo") m [lit "alice"] in
  (Forall2 (fun u usr => PyDict.get u users = Some usr) (MatcherFeedback.subscribers data)
     [alice] /\
   ChatMessage.from_start (MatcherFeedback.chat_message data)
   = lit "1:02:03" ++ lit ".456789" /\
   (46%N ∉ lit "1:02:03") /\
   (lit ".456789" = [] \/ exists frac, lit ".456789" = 46%N :: frac)) /\
  exists requests,
    Requests.send_matched_data (fun _ => lit "{}") users data = Ok requests /\
    PyDict.get (lit "text") <$> requests
    = [Some (ParamStr (lit "foo +1:02:03" ++ [13%N; 10%N; 13%N; 10%N]
                       ++ lit "nick: free giveaway"))].
Proof.
  intros alice users m data.
  assert (H : Forall2 (fun u usr => PyDict.get u users = Some usr)
                (MatcherFeedback.subscribers data) [alice] /\
              ChatMessage.from_start (MatcherFeedback.chat_message data)
              = lit "1:02:03" ++ lit ".456789" /\
              (46%N ∉ lit "1:02:03") /\
              (lit ".456789" = [] \/ exists frac, lit ".456789" = 46%N :: frac)).
  { split; [repeat constructor|]. split; [reflexivity|]. split.
    - refine (bool_decide_unpack (46%N ∉ lit "1:02:03") _). reflexivity.
    - right. by eexists. }
  split; [exact H|].
  destruct H as (H1 & H2 & H3 & H4).
  eexists. split.
  - exact (matched_data_requests (fun _ => lit "{}") users data [alice] (lit "1:02:03")
             (lit ".456789") H1 H2 H3 H4).
  - reflexivity.
Defined.

(** ** The message of an update *)

(** X25. What [_process_message] does with a message whose fields, where
    present, have the types the Bot API gives them. A message from a bot is
    ignored before anything else is read: nothing changes. A message whose
    chat has no username is dropped with the [KeyError] logged, and no user
    is registered. Otherwise the sender is registered (if new) first; then a
    message without text is dropped with the [KeyError] logged, a text that
    does not start with [/] is ignored, and a text that starts with [/] is
    given, as it is, to [_process_command] with that user; a [KeyError] or
    [TypeError] that the command raises is logged, not raised. *)
Theorem _process_message_cases float_of_str str_of_float twitch data st :
  let run := _process_message float_of_str str_of_float twitch data st in
  (forall from, TgMessage.from data = Some from -> TgMessage.is_bot from = Some true ->
     run = (Finished (Ok tt), st)) /\
  (forall from chat,
     TgMessage.from data = Some from -> TgMessage.is_bot from = Some false ->
     TgMessage.chat data = Some chat -> TgMessage.username chat = None ->
     run = (Finished (Ok tt), with_logged (logged st ++ [KeyError (lit "username")]) st)) /\
  (forall from chat name chat_id,
     TgMessage.from data = Some from -> TgMessage.is_bot from = Some false ->
     TgMessage.chat data = Some chat -> TgMessage.username chat = Some name ->
     TgMessage.id chat = Some chat_id ->
     let st1 := snd (_get_user name chat_id st) in
     (TgMessage.text data = None ->
      run = (Finished (Ok tt), with_logged (logged st1 ++ [KeyError (lit "text")]) st1)) /\
     (forall text, TgMessage.text data = Some text -> startswith (lit "/") text = false ->
        run = (Finished (Ok tt), st1)) /\
     (forall text, TgMessage.text data = Some text -> startswith (lit "/") text = true ->
        run
        = match _process_command float_of_str str_of_float twitch name text st1 with
          | (Finished (Raise ((KeyError _ | TypeError) as err)), st') =>
              (Finished (Ok tt), with_logged (logged st' ++ [err]) st')
          | r => r
          end)).
Proof.
  intros run.
  assert (Hget : forall name chat_id,
    _get_user name chat_id st = (Ok name, snd (_get_user name chat_id st))).
  { intros name chat_id. unfold _get_user, bind, gets.
    by destruct (negb (PyDict.contains name (_users st))). }
  split; [|split].
  - intros from Hfrom Hbot. unfold run, _process_message, _process_message_head, bind.
    rewrite Hfrom. cbn [getkey ret]. by rewrite Hbot.
  - intros from chat Hfrom Hbot Hchat Hname.
    unfold run, _process_message, _process_message_head, bind.
    rewrite Hfrom. cbn [getkey ret]. rewrite Hbot. cbn [getkey ret].
    rewrite Hchat. cbn [getkey ret]. by rewrite Hname.
  - intros from chat name chat_id Hfrom Hbot Hchat Hname Hid st1.
    assert (Hhead : forall k : str -> M (option (str * str)),
      bind (getkey (lit "from") (TgMessage.from data)) (fun from =>
      bind (getkey (lit "is_bot") (TgMessage.is_bot from)) (fun is_bot =>
      if is_bot then ret None
      else
        bind (getkey (lit "chat") (TgMessage.chat data)) (fun chat =>
        bind (getkey (lit "username") (TgMessage.username chat)) (fun name =>
        bind (getkey (lit "id") (TgMessage.id chat)) (fun chat_id =>
        bind (_get_user name chat_id) k))))) st
      = k name st1).
    { intros k. unfold bind. rewrite Hfrom. cbn [getkey ret]. rewrite Hbot. cbn [getkey ret].
      rewrite Hchat. cbn [getkey ret]. rewrite Hname. cbn [getkey ret].
      rewrite Hid. cbn [getkey ret]. by rewrite Hget. }
    split; [|split].
    + intros Htext. unfold run, _process_message, _process_message_head.
      rewrite Hhead. unfold bind. by rewrite Htext.
    + intros text Htext Hslash. unfold run, _process_message, _process_message_head.
      rewrite Hhead. unfold bind. rewrite Htext. cbn [getkey ret]. by rewrite Hslash.
    + intros text Htext Hslash. unfold run, _process_message, _process_message_head.
      rewrite Hhead. unfold bind. rewrite Htext. cbn [getkey ret]. rewrite Hslash.
      cbn [ret].
      destruct (_process_command float_of_str str_of_float twitch name text st1)
        as [[[[]|e]|lock] st']; try done. by destruct e.
Qed.

(** ** The entries of the registry *)

Section RegistryLive.
Import PyDictFacts.
Implicit Types (st : ActivityObserver) (u n : str) (ctx : StreamContext).

Lemma live_context_frame st st' ctx :
  tasks st' = tasks st -> sessions st' = sessions st ->
  live_context st ctx -> live_context st' ctx.
Proof. intros Ht Hs. unfold live_context. by rewrite Ht, Hs. Qed.

Lemma registry_live_frame st st' :
  _streamers st' = _streamers st -> tasks st' = tasks st -> sessions st' = sessions st ->
  registry_live st -> registry_live st'.
Proof.
  intros Hr Ht Hs H n ctx. rewrite Hr. intros Hn.
  exact (live_context_frame st st' ctx Ht Hs (H n ctx Hn)).
Qed.

(** Two live entries of a consistent registry share neither the session
    nor the task. *)
Lemma live_contexts_apart P Q st n n' ctx ctx' :
  inv_gen P Q st ->
  PyDict.get n (_streamers st) = Some ctx -> PyDict.get n' (_streamers st) = Some ctx' ->
  live_context st ctx -> live_context st ctx' ->
  session ctx = session ctx' \/ task ctx = task ctx' -> n = n'.
Proof.
  intros Hinv Hn Hn' [H1 _] [H2 _] Heq.
  assert (Hs : session ctx = session ctx').
  { destruct Heq as [?|Ht]; [done|]. rewrite Ht in H1. rewrite H1 in H2. by injection H2. }
  destruct (inv_registry _ _ _ Hinv n ctx Hn) as (_ & sess & Hsess & Hname & _).
  destruct (inv_registry _ _ _ Hinv n' ctx' Hn') as (_ & sess' & Hsess' & Hname' & _).
  rewrite Hs in Hsess. congruence.
Qed.

(** What leaving a session does to the registry: the session loses a
    subscriber, and is reaped with its task when it was the last. *)
Lemma reap_effect_live P Q st st' n s sess subs' :
  inv_gen P Q st -> registry_live st ->
  active_session st n = Some (s, sess) ->
  sessions st' = <[s := StreamSession.with_subs subs' sess]> (sessions st) ->
  (if is_empty subs' then
     PyDict.del n (_streamers st) = Some (_streamers st') /\
     exists ctx T,
       PyDict.get n (_streamers st) = Some ctx /\ tasks st !! task ctx = Some T /\
       tasks st' = <[task ctx := mkTask (runs T) true]> (tasks st)
   else _streamers st' = _streamers st /\ tasks st' = tasks st) ->
  registry_live st'.
Proof.
  intros Hinv Hl Hact Hss Hreg.
  apply active_session_registry in Hact as (ctx & Hctx & Hsc & Hsess).
  intros n' ctx' Hn'.
  destruct (is_empty subs') eqn:He.
  - destruct Hreg as (Hd & ctx0 & T & Hctx0 & HT & Htasks).
    rewrite (get_del n n' _ _ (inv_streamers_wf _ _ _ Hinv) Hd) in Hn'.
    case_decide as Hne; [done|].
    assert (ctx0 = ctx) by congruence. subst ctx0.
    pose proof (Hl n' ctx' Hn') as Hlive'.
    assert (Hapart : session ctx = session ctx' \/ task ctx = task ctx' -> False).
    { intros Heq. apply Hne. by eapply (live_contexts_apart P Q st n n' ctx ctx'); eauto. }
    destruct Hlive' as (HT' & sess' & Hs' & Hne').
    split.
    + rewrite Htasks, list_lookup_insert_ne; [done|]. intros Heq. apply Hapart. by right.
    + exists sess'. split; [|done]. rewrite Hss, list_lookup_insert_ne; [done|].
      intros Heq. apply Hapart. left. congruence.
  - destruct Hreg as (Hr & Htasks). rewrite Hr in Hn'.
    destruct (Hl n' ctx' Hn') as (HT' & sess' & Hs' & Hne').
    split; [by rewrite Htasks|].
    rewrite Hss. destruct (decide (s = session ctx')) as [Heq|Hneq].
    + exists (StreamSession.with_subs subs' sess). split; [|done].
      apply list_lookup_insert_Some. left. split; [done|]. split; [done|].
      rewrite <- Heq. by eapply lookup_lt_Some.
    + exists sess'. by rewrite list_lookup_insert_ne.
Qed.

Lemma unsubscribe_and_reap_live P st u n s :
  inv_gen P (fun _ _ => False) st -> ~ P u n ->
  user_tracks st u n = Some s ->
  registry_live st -> registry_live (snd (unsubscribe_and_reap u n st)).
Proof.
  intros Hinv HP Ht Hl.
  destruct (unsubscribe_and_reap_spec P st u n s Hinv HP Ht) as
    (st' & sess & subs' & Hrun & Hact & _ & _ & Hss & _ & _ & _ & _ & Hreg).
  rewrite Hrun. by eapply (reap_effect_live P _ st st').
Qed.

Lemma _process_stop_command_live st u n :
  observer_inv st -> registered st u -> registry_live st ->
  registry_live (snd (_process_stop_command u n st)).
Proof.
  intros Hinv [usr Hu]%registered_get Hl.
  destruct (user_tracks st u n) as [s|] eqn:Ht.
  - destruct (_process_stop_command_subscribed st u n s Hinv Ht) as
      (st' & sess & subs' & Hrun & _ & Hact & _ & _ & _ & Hss & Hreg & _).
    rewrite Hrun. by eapply (reap_effect_live _ _ st st').
  - rewrite (_process_stop_command_not_subscribed st u n usr Hu Ht).
    by apply (registry_live_frame st).
Qed.

Lemma stopall_loop_live u todo : forall D st,
  inv_gen (fun u' n' => u' = u /\ D n') (fun _ _ => False) st ->
  NoDup todo ->
  (forall n, n ∈ todo -> ~ D n /\ is_Some (user_tracks st u n)) ->
  registry_live st ->
  registry_live (snd (for_each todo (fun name => unsubscribe_and_reap u name) st)).
Proof.
  induction todo as [|n rest IH]; intros D st Hinv Hnd Htodo Hl; [done|].
  apply NoDup_cons in Hnd as [Hn Hnd].
  destruct (Htodo n) as [HD [s Hs]]; [apply list_elem_of_here|].
  pose proof (unsubscribe_and_reap_live _ st u n s Hinv ltac:(tauto) Hs Hl) as Hl1.
  destruct (unsubscribe_and_reap_spec _ st u n s Hinv) as
    (st1 & sess & subs' & Hrun & _ & _ & Hus & _ & _ & Hinv1 & _); [tauto|done|].
  cbn [for_each]. unfold bind. rewrite Hrun in *. cbn [snd] in Hl1.
  apply (IH (fun n' => D n' \/ n' = n)); [|done| |done].
  - eapply inv_gen_skipU_mono; [exact Hinv1|]. cbn. intros ?? [[-> ?]|[-> ->]]; tauto.
  - intros m Hm. destruct (Htodo m) as [HDm Htm]; [by apply list_elem_of_further|].
    split; [|unfold user_tracks in *; by rewrite Hus].
    intros [Hx| ->]; tauto.
Qed.

Lemma _process_stopall_command_live st u :
  observer_inv st -> registered st u -> registry_live st ->
  registry_live (snd (_process_stopall_command u st)).
Proof.
  intros Hinv [usr Hu]%registered_get Hl.
  destruct (inv_user _ _ _ Hinv u usr Hu) as (_ & Hwfu & _).
  destruct (_process_stopall_command_run st u usr Hinv Hu) as (st1 & Hrun & _ & -> & _).
  cbn [snd]. apply (registry_live_frame st1); try done.
  pose proof (stopall_loop_live u (PyDict.keys (User.streamers usr)) (fun _ => False) st) as H.
  rewrite Hrun in H. apply H; [|done| |done].
  - eapply inv_gen_skipU_mono; [exact Hinv|]. cbn. tauto.
  - intros n Hn. split; [tauto|]. unfold user_tracks. rewrite Hu.
    destruct (PyDict.get n (User.streamers usr)) eqn:E; [done|].
    by apply get_None_keys in E.
Qed.

Lemma _process_start_command_resume_keeps_live st reply u n hook :
  observer_inv st -> registered st u -> registry_live st ->
  registry_live (snd (_process_start_command_resume reply u n hook st)).
Proof.
  intros Hinv [usr Hu]%registered_get Hl. destruct reply as [desc|e].
  2:{ destruct e; try done. }
  destruct (_process_start_command_resume_live st desc u n hook usr Hinv Hu)
    as (st' & s & sess' & -> & _ & _ & _ & _ & _ & _ & Hcase).
  cbn [snd]. destruct (PyDict.get n (_streamers st)) as [ctx|] eqn:Hctx.
  - destruct Hcase as (-> & Hr & Ht & sess0 & Hs0 & Hss).
    intros n' ctx'. rewrite Hr. intros Hn'.
    destruct (Hl n' ctx' Hn') as (HT & sess1 & Hs1 & Hne).
    split; [by rewrite Ht|]. rewrite Hss.
    destruct (decide (session ctx = session ctx')) as [Heq|Hneq].
    + eexists. split.
      * apply list_lookup_insert_Some. left. split; [done|]. split; [done|].
        rewrite <- Heq. by eapply lookup_lt_Some.
      * apply PyDict_set_not_empty.
    + exists sess1. by rewrite list_lookup_insert_ne.
  - destruct Hcase as (-> & Hss & Ht & Hr).
    intros n' ctx'. rewrite Hr, get_set. case_decide as Heq.
    + intros [= <-]. split; cbn [task session].
      * rewrite Ht. by apply list_lookup_middle.
      * eexists. split; [rewrite Hss; by apply list_lookup_middle|done].
    + intros Hn'. destruct (Hl n' ctx' Hn') as (HT & sess1 & Hs1 & Hne). split.
      * rewrite Ht. by apply lookup_app_l_Some.
      * exists sess1. split; [|done]. rewrite Hss. by apply lookup_app_l_Some.
Qed.

Lemma _process_start_command_keeps_live st reply u n hook :
  observer_inv st -> registered st u -> registry_live st ->
  registry_live (snd (_process_start_command reply u n hook st)).
Proof.
  intros Hinv Hreg Hl. pose proof Hreg as [usr Hu]%registered_get.
  unfold _process_start_command, bind, deref_user. rewrite Hu.
  destruct (PyDict.contains n (User.streamers usr)); [by apply (registry_live_frame st)|].
  destruct (negb _); [by apply (registry_live_frame st)|].
  by apply _process_start_command_resume_keeps_live.
Qed.

(** [_remove_session] of a registered session, when the other entries are
    live. *)
Lemma _remove_session_live st n ctx :
  observer_inv st -> PyDict.get n (_streamers st) = Some ctx ->
  (forall n' ctx', n' <> n -> PyDict.get n' (_streamers st) = Some ctx' ->
     live_context st ctx') ->
  registry_live (snd (_remove_session (session ctx) st)).
Proof.
  intros Hinv Hctx Hl.
  destruct (_remove_session_registered st n ctx Hinv Hctx) as
    (st' & sess & -> & _ & _ & _ & Hd & Hss & Ht & _).
  cbn [snd]. intros n' ctx'.
  rewrite (get_del n n' _ _ (inv_streamers_wf _ _ _ Hinv) Hd).
  case_decide as Hne; [done|]. intros Hn'.
  apply (live_context_frame st); [done|done|]. apply (Hl n'); [congruence|done].
Qed.

Lemma _run_stream_failed_live st n ctx msg :
  observer_inv st -> PyDict.get n (_streamers st) = Some ctx -> registry_live st ->
  registry_live (snd (_run_stream (Raise (ObserverError msg)) (session ctx) st)).
Proof.
  intros Hinv Hctx Hl. unfold _run_stream, bind, log_exception, modify.
  set (st1 := with_logged _ st).
  assert (Hinv1 : observer_inv st1) by by eapply (inv_gen_frame _ _ st).
  pose proof (_remove_session_live st1 n ctx Hinv1 Hctx) as H.
  destruct (_remove_session _ st1) as [[] ?]; apply H; intros n' ctx' _ Hn';
    by apply (live_context_frame st), (Hl n').
Qed.

Lemma sweep_teardown_live st streamer :
  observer_inv st -> registry_live st ->
  registry_live
    (snd (bind (gets _streamers) (fun reg =>
          bind (lift (PyDict.getitem streamer reg)) (fun context =>
          bind (Task_cancel (task context)) (fun _ =>
          _remove_session (session context)))) st)).
Proof.
  intros Hinv Hl. unfold bind at 1, gets. unfold bind at 1, lift, PyDict.getitem.
  destruct (PyDict.get streamer (_streamers st)) as [ctx|] eqn:Hctx; [|done].
  destruct (inv_registry _ _ _ Hinv streamer ctx Hctx) as ([T HT] & _).
  unfold bind. rewrite (Task_cancel_run st _ T HT).
  pose proof (inv_gen_cancel _ _ st _ T Hinv HT) as Hinv1.
  pose proof (_remove_session_live _ streamer ctx Hinv1 Hctx) as H.
  destruct (_remove_session _ _) as [[] ?]; apply H; intros n' ctx' Hne Hn';
    (destruct (Hl n' ctx' Hn') as (HT' & Hsess'); split; [|done]);
    (cbn [tasks with_tasks]; rewrite list_lookup_insert_ne; [done|]);
    intros Heq; apply Hne; symmetry;
    eapply (live_contexts_apart _ _ st streamer n' ctx ctx'); eauto.
Qed.

Lemma sweep_body_live (desc : lookup_reply) streamer st :
  observer_inv st -> registry_live st ->
  registry_live
    (snd (match desc with
          | Raise StreamNotFoundError =>
              bind (gets _streamers) (fun reg =>
              bind (lift (PyDict.getitem streamer reg)) (fun context =>
              bind (Task_cancel (task context)) (fun _ =>
              _remove_session (session context))))
          | Raise e => log_exception e
          | Ok _ => ret tt
          end st)).
Proof.
  intros Hinv Hl. destruct desc as [d|e]; [done|].
  destruct e; try (by apply (registry_live_frame st)).
  by apply sweep_teardown_live.
Qed.

Lemma _streams_ping_loop_live results : forall it st,
  observer_inv st -> registry_live st ->
  registry_live (snd (_streams_ping_loop results it st)).
Proof.
  induction results as [|desc rest IH]; intros it st Hinv Hl.
  - cbn. by destruct (dictiter_next it (_streamers st)).
  - cbn [_streams_ping_loop].
    destruct (dictiter_next it (_streamers st)) as [streamer it'| |]; try done.
    pose proof (sweep_body_inv desc streamer st Hinv) as Hb.
    pose proof (sweep_body_live desc streamer st Hinv Hl) as Hb'.
    match goal with
    | |- context [match ?b st with _ => _ end] =>
        change (observer_inv (snd (b st))) in Hb;
        change (registry_live (snd (b st))) in Hb';
        destruct (b st) as [[[]|e] st']
    end; [by apply IH|done].
Qed.

(** The handlers that touch neither registry, sessions nor tasks. *)
Ltac light :=
  repeat first
    [ apply keeps_ret | apply keeps_raise | apply keeps_gets | apply keeps_lift
    | apply keeps_deref_user | apply keeps_deref_session
    | apply keeps_modify; intros ? ?;
      by apply (registry_live_frame _ _ eq_refl eq_refl eq_refl)
    | apply keeps_if
    | apply keeps_bind; [|intros ?] ].

Lemma keeps_live_notify u msg : keeps registry_live (_notify u msg).
Proof. unfold _notify, create_send_notification. light. Qed.

Lemma keeps_live_get_user name chat_id : keeps registry_live (_get_user name chat_id).
Proof. unfold _get_user. light. Qed.

Lemma keeps_live_hook u h text : keeps registry_live (_process_hook_command u h text).
Proof.
  unfold _process_hook_command, _notify, create_send_notification, store_user. light.
Qed.

Lemma keeps_live_hooks u : keeps registry_live (_process_hooks_command u).
Proof. unfold _process_hooks_command, _notify, create_send_notification. light. Qed.

Lemma keeps_live_threshold str_of_float u x :
  keeps registry_live (_process_threshold_command str_of_float u x).
Proof.
  unfold _process_threshold_command, _notify, create_send_notification, store_user. light.
Qed.
End RegistryLive.

Section RegistryLiveRuns.
Variable float_of_str : str -> option float.
Variable str_of_float : float -> str.
Implicit Types (st : ActivityObserver) (u n : str).

Lemma _process_command_live twitch u command st :
  observer_inv st -> registered st u -> registry_live st ->
  registry_live (snd (_process_command float_of_str str_of_float twitch u command st)).
Proof.
  intros Hinv Hreg Hl. unfold _process_command.
  destruct (parse_command float_of_str command) as [desc|e].
  2:{ destruct e; try done; rewrite finish_snd; by apply (registry_live_frame st). }
  destruct (command_type desc).
  - pose proof Hreg as [usr Hu]%registered_get.
    unfold deref_user at 1. rewrite Hu. unfold async_with, Lock_acquire.
    destruct (locks st !! User.start_lock usr) as [[]|]; try done.
    set (st1 := with_locks _ st).
    assert (Hinv1 : observer_inv st1) by by eapply (inv_gen_frame _ _ st).
    assert (Hreg1 : registered st1 u) by done.
    assert (Hl1 : registry_live st1) by by apply (registry_live_frame st).
    match goal with
    | |- context [let (_, _) := ?m st1 in _] =>
        assert (Hm : registry_live (snd (m st1)))
    end.
    { apply kwarg_str_bind; [done|]. intros streamer.
      apply kwarg_str_bind; [done|]. intros hook.
      by apply _process_start_command_keeps_live. }
    match goal with
    | |- context [let (_, _) := ?m st1 in _] => destruct (m st1) as [r st2]
    end.
    by apply (registry_live_frame st2).
  - rewrite finish_snd. apply kwarg_str_bind; [done|]. intros streamer.
    by apply _process_stop_command_live.
  - rewrite finish_snd. by apply _process_stopall_command_live.
  - rewrite finish_snd. apply kwarg_str_bind; [done|]. intros hook.
    apply kwarg_str_bind; [done|]. intros text.
    by apply keeps_snd; [apply keeps_live_hook|].
  - rewrite finish_snd. by apply keeps_snd; [apply keeps_live_hooks|].
  - rewrite finish_snd. apply kwarg_float_bind; [done|]. intros x.
    by apply keeps_snd; [apply keeps_live_threshold|].
  - rewrite finish_snd. apply kwarg_str_bind; [done|]. intros commands.
    by apply keeps_snd; [apply keeps_live_notify|].
Qed.

Lemma step_live st st' :
  step float_of_str str_of_float st st' ->
  observer_inv st -> registry_live st -> registry_live st'.
Proof.
  intros Hstep Hinv Hl. destruct Hstep.
  - by apply keeps_snd; [apply keeps_live_get_user|].
  - by apply _process_command_live.
  - by apply _process_start_command_keeps_live.
  - by apply _process_start_command_resume_keeps_live.
  - by apply _process_stop_command_live.
  - by apply _process_stopall_command_live.
  - by apply keeps_snd; [apply keeps_live_hook|].
  - by apply keeps_snd; [apply keeps_live_threshold|].
  - by apply _streams_ping_loop_live.
  - by eapply _run_stream_failed_live.
Qed.

Lemma reachable_live st :
  reachable float_of_str str_of_float st -> registry_live st.
Proof.
  induction 1 as [max|st st' Hr IH Hstep]; [done|].
  eapply step_live; [done|by apply reachable_inv in Hr|done].
Qed.
End RegistryLiveRuns.

(** X26. In every state the observer can reach, each entry of the registry
    names a session of that broadcaster with at least one subscriber, and a
    task that was created for that session and on which [cancel] has not
    been called. No two entries share a session or a task. So a session
    whose last subscriber left, or whose task was cancelled, never stays in
    the registry. *)
Theorem registry_entries_subscribed_and_not_cancelled float_of_str str_of_float st :
  reachable float_of_str str_of_float st ->
  (forall n ctx, PyDict.get n (_streamers st) = Some ctx ->
     tasks st !! task ctx = Some (mkTask (session ctx) false) /\
     exists sess, sessions st !! session ctx = Some sess /\
                  StreamSession._name sess = n /\
                  StreamSession._subs sess <> []) /\
  (forall n n' ctx ctx',
     PyDict.get n (_streamers st) = Some ctx -> PyDict.get n' (_streamers st) = Some ctx' ->
     session ctx = session ctx' \/ task ctx = task ctx' -> n = n').
Proof.
  intros Hr. pose proof (reachable_inv _ _ _ Hr) as Hinv.
  pose proof (reachable_live _ _ _ Hr) as Hl. split.
  - intros n ctx Hn. destruct (Hl n ctx Hn) as (HT & sess & Hs & Hne). split; [done|].
    exists sess. split; [done|].
    destruct (inv_registry _ _ _ Hinv n ctx Hn) as (_ & sess' & Hs' & Hname & _).
    split; [congruence|]. by intros He; rewrite He in Hne.
  - intros n n' ctx ctx' Hn Hn'.
    by eapply (live_contexts_apart _ _ st n n' ctx ctx'); eauto.
Qed.

Lemma registry_entries_subscribed_and_not_cancelled_witness :
  reachable Scenario.float_of_str Scenario.str_of_float Scenario.one_session /\
  tasks Scenario.one_session !! 0 = Some (mkTask 0 false) /\
  exists sess, sessions Scenario.one_session !! 0 = Some sess /\
               StreamSession._name sess = lit "foo" /\ StreamSession._subs sess <> [].
Proof.
  split; [apply one_session_reachable|].
  exact (proj1 (registry_entries_subscribed_and_not_cancelled Scenario.float_of_str Scenario.str_of_float
                  Scenario.one_session one_session_reachable)
           (lit "foo") (mkStreamContext 0 0) eq_refl).
Defined.

(** ** Polling *)

Section Polling.
Implicit Types (p : Poller) (net : nat -> json -> poll_reply).

Lemma _handle_updates_returns data p : fst (_handle_updates data p) = Ok tt.
Proof.
  unfold _handle_updates.
  destruct (json_getitem data (lit "ok")) as [ok|e] eqn:Eok.
  - destruct (truthy ok); [|done].
    destruct (rbind _ _) as [results|e] eqn:Eres.
    + destruct (_handle_updates_loop results p) as [[[]|e] p'] eqn:El; [done|].
      by destruct (_handle_updates_loop_raises _ _ _ _ El) as [[key ->]| ->].
    + destruct (json_getitem data (lit "result")) as [v|e'] eqn:Ev; cbn [rbind] in Eres.
      * apply json_iter_raises in Eres as ->. done.
      * injection Eres as <-. by destruct (json_getitem_raises _ _ _ Ev) as [[key ->]| ->].
  - by destruct (json_getitem_raises _ _ _ Eok) as [[key ->]| ->].
Qed.

(** The four ways of [_poll]. *)
Lemma _poll_cases reply p :
  (exists data, reply = Responds 200 (BodyDecodes data) /\
     _poll reply p = (None, snd (_handle_updates data p), [Poll_get (_offset p)])) \/
  (exists status body, reply = Responds status body /\ (status < 400)%Z /\ status <> 200%Z /\
     _poll reply p = (None, p, [Poll_get (_offset p); Poll_warning status])) \/
  (exists e, _poll reply p = (Some (RequestRaised e), p, [Poll_get (_offset p)]) /\
     (reply = GetRaises e \/ (exists body, reply = Responds 200 body /\ body = BodyRaises e) \/
      (e = ClientResponseError /\ exists status body,
         reply = Responds status body /\ (400 <= status)%Z))).
Proof.
  destruct reply as [e|status body]; cbn [_poll].
  { right. right. exists e. eauto. }
  destruct (Z.leb_spec 400 status) as [Hge|Hlt].
  { right. right. exists ClientResponseError. split; [done|]. right. right. eauto. }
  destruct (Z.eqb_spec status 200) as [->|Hne].
  - destruct body as [data|e].
    + left. exists data. split; [done|].
      pose proof (_handle_updates_returns data p) as H.
      destruct (_handle_updates data p) as [[[]|e] p']; [done|done].
    + right. right. exists e. split; [done|]. right. left. eauto.
  - right. left. exists status, body. eauto.
Qed.

Lemma last_after {A} (l1 l2 : list A) x y :
  last l2 = Some y -> last (l1 ++ x :: l2) = Some y.
Proof. intros H. by rewrite last_app, last_cons, H. Qed.

Lemma last_app_Some {A} (l1 l2 : list A) y :
  last l2 = Some y -> last (l1 ++ l2) = Some y.
Proof. intros H. by rewrite last_app, H. Qed.

Lemma offsets_requested_app ev1 ev2 :
  offsets_requested (ev1 ++ ev2) = offsets_requested ev1 ++ offsets_requested ev2.
Proof. apply omap_app. Qed.
End Polling.

(** X27. [_run_command_polling] can end in two ways only: by
    [ObserverError], right after logging a [ClientConnectionError] or an
    [InvalidURL] that the request raised, or by an exception of the request
    (or of reading its body) that is of none of the four classes it names:
    a timeout, a body that is no JSON, or what the request raises for an
    offset that cannot be sent. No exception of [_handle_updates] ever
    reaches it. The last request made is the one that failed, and it
    carried the offset the loop ends with. *)
Theorem polling_ends_only_by_a_failed_request net fuel i p r :
  fst (fst (_run_command_polling net fuel i p)) = Some r ->
  let p' := snd (fst (_run_command_polling net fuel i p)) in
  let events := snd (_run_command_polling net fuel i p) in
  exists e,
    (e = ClientConnectionError \/ e = InvalidURL \/ e = OtherException) /\
    r = polling_end_of e /\
    last (offsets_requested events) = Some (_offset p') /\
    last events = Some (match e with
                        | OtherException => Poll_get (_offset p')
                        | _ => Poll_exception e
                        end).
Proof.
  revert i p. induction fuel as [|fuel IH]; intros i p; [done|].
  cbn [_run_command_polling].
  assert (Hgo : forall p1 ev x,
    fst (fst (let '(r0, p'', ev') := _run_command_polling net fuel (S i) p1 in
              (r0, p'', ev ++ x ++ Poll_sleep :: ev'))) = Some r ->
    let p' := snd (fst (let '(r0, p'', ev') := _run_command_polling net fuel (S i) p1 in
                        (r0, p'', ev ++ x ++ Poll_sleep :: ev'))) in
    let events := snd (let '(r0, p'', ev') := _run_command_polling net fuel (S i) p1 in
                       (r0, p'', ev ++ x ++ Poll_sleep :: ev')) in
    exists e,
      (e = ClientConnectionError \/ e = InvalidURL \/ e = OtherException) /\
      r = polling_end_of e /\
      last (offsets_requested events) = Some (_offset p') /\
      last events = Some (match e with
                          | OtherException => Poll_get (_offset p')
                          | _ => Poll_exception e
                          end)).
  { intros p1 ev x. specialize (IH (S i) p1).
    destruct (_run_command_polling net fuel (S i) p1) as [[r0 p''] ev']. cbn [fst snd] in *.
    intros Hr. destruct (IH Hr) as (e & He & -> & Hoff & Hlast).
    exists e. split; [done|]. split; [done|]. split.
    - rewrite !offsets_requested_app. apply last_app_Some, last_app_Some.
      change (Poll_sleep :: ev') with ([Poll_sleep] ++ ev').
      rewrite offsets_requested_app. by apply last_app_Some.
    - rewrite app_assoc. by apply last_after. }
  destruct (_poll_cases (net i (_offset p)) p) as
    [(data & _ & ->)|[(status & body & _ & _ & _ & ->)|(e & -> & _)]].
  - apply (Hgo _ _ []).
  - apply (Hgo _ _ []).
  - destruct e.
    + apply (Hgo _ _ [Poll_error ClientResponseError]).
    + apply (Hgo _ _ [Poll_error ClientPayloadError]).
    + cbn. intros [= <-]. exists ClientConnectionError. eauto 10.
    + cbn. intros [= <-]. exists InvalidURL. eauto 10.
    + cbn. intros [= <-]. exists OtherException. eauto 10.
Qed.

Lemma polling_ends_only_by_a_failed_request_witness :
  let net := fun (i : nat) (offset : json) =>
    match i with
    | 0 => Responds 302 (BodyRaises OtherException)
    | 1 => Responds 200 (BodyDecodes (JDict [(lit "ok", JBool true);
             (lit "result", JList [JDict [(lit "update_id", JInt 41);
                                          (lit "message", JStr (lit "m"))]])]))
    | 2 => Responds 200 (BodyDecodes JNull)
    | 3 => GetRaises ClientPayloadError
    | _ => GetRaises ClientConnectionError
    end in
  fst (fst (_run_command_polling net 9 0 Poller_init)) = Some RaisesObserverError /\
  exists e,
    RaisesObserverError = polling_end_of e /\
    last (offsets_requested (snd (_run_command_polling net 9 0 Poller_init)))
    = Some (JInt 42) /\
    last (snd (_run_command_polling net 9 0 Poller_init)) = Some (Poll_exception e).
Proof.
  intros net. split; [reflexivity|].
  destruct (polling_ends_only_by_a_failed_request net 9 0 Poller_init RaisesObserverError
              eq_refl) as (e & He & Hr & Hoff & Hlast).
  exists e. split; [exact Hr|]. split; [exact Hoff|].
  rewrite Hlast. by destruct e.
Defined.

(** X28. A poll that is not answered with status 200 and a body that
    decodes, and fails by nothing worse than a response or payload error,
    costs nothing: the offset and the tasks stay as they are and the loop
    sleeps and asks again with the same offset. After [n] such polls the
    loop is still running and has made [n] requests, all with the offset it
    started with; if the next request then fails by a connection error, an
    invalid URL or another exception, the loop ends there, with that same
    state, after [n + 1] requests. *)
Theorem polling_repeats_the_request_after_a_failure net n i p :
  (forall k offset, k < n -> unanswered (net (i + k) offset)) ->
  fst (_run_command_polling net n i p) = (None, p) /\
  offsets_requested (snd (_run_command_polling net n i p)) = replicate n (_offset p) /\
  (forall e fuel,
     stops_polling (net (i + n) (_offset p)) e ->
     fst (_run_command_polling net (n + S fuel) i p) = (Some (polling_end_of e), p) /\
     offsets_requested (snd (_run_command_polling net (n + S fuel) i p))
     = replicate (S n) (_offset p)).
Proof.
  revert i p. induction n as [|n IH]; intros i p Hq.
  - split; [done|]. split; [done|].
    intros e fuel [He Hrep]. rewrite Nat.add_0_r in Hrep. cbn [Nat.add _run_command_polling].
    destruct Hrep as [-> | ->]; cbn [_poll Z.leb Z.eqb Z.compare Pos.compare Pos.compare_cont
                                       Pos.eqb];
      by destruct He as [-> |[-> | ->]].
  - assert (Hnext : forall k offset, k < n -> unanswered (net (S i + k) offset)).
    { intros k offset Hk. replace (S i + k) with (i + S k) by lia. apply Hq. lia. }
    destruct (IH (S i) p Hnext) as (Hrun & Hoffs & Hstop).
    assert (Hhere : exists x,
      forall fuel,
        _run_command_polling net (S fuel) i p
        = (let '(r, p'', ev') := _run_command_polling net fuel (S i) p in
           (r, p'', ([Poll_get (_offset p)] ++ x) ++ Poll_sleep :: ev')) /\
        offsets_requested x = []).
    { pose proof (Hq 0 (_offset p) ltac:(lia)) as Hu. rewrite Nat.add_0_r in Hu.
      destruct (net i (_offset p)) as [e|status body] eqn:Hrep.
      - destruct Hu as [-> | ->].
        + exists [Poll_error ClientResponseError]. intros fuel.
          cbn [_run_command_polling]. rewrite Hrep. cbn [_poll].
          destruct (_run_command_polling net fuel (S i) p) as [[r0 p''] ev'].
          by rewrite <- app_assoc.
        + exists [Poll_error ClientPayloadError]. intros fuel.
          cbn [_run_command_polling]. rewrite Hrep. cbn [_poll].
          destruct (_run_command_polling net fuel (S i) p) as [[r0 p''] ev'].
          by rewrite <- app_assoc.
      - destruct (Z.leb_spec 400 status) as [Hge|Hlt].
        { exists [Poll_error ClientResponseError]. intros fuel.
          cbn [_run_command_polling]. rewrite Hrep. cbn [_poll].
          destruct (Z.leb_spec 400 status); [|lia].
          destruct (_run_command_polling net fuel (S i) p) as [[r0 p''] ev'].
          by rewrite <- app_assoc. }
        destruct (Z.eqb_spec status 200) as [->|Hne].
        + destruct Hu as [?|[?|[-> | ->]]]; [lia|done|..].
          * exists [Poll_error ClientResponseError]. intros fuel.
            cbn [_run_command_polling]. rewrite Hrep. cbn.
            destruct (_run_command_polling net fuel (S i) p) as [[r0 p''] ev'].
            done.
          * exists [Poll_error ClientPayloadError]. intros fuel.
            cbn [_run_command_polling]. rewrite Hrep. cbn.
            destruct (_run_command_polling net fuel (S i) p) as [[r0 p''] ev'].
            done.
        + exists [Poll_warning status]. intros fuel.
          cbn [_run_command_polling]. rewrite Hrep. cbn [_poll].
          destruct (Z.leb_spec 400 status); [lia|].
          destruct (Z.eqb_spec status 200); [done|].
          destruct (_run_command_polling net fuel (S i) p) as [[r0 p''] ev'].
          by rewrite <- app_assoc. }
    destruct Hhere as (x & Hhere).
    assert (Hoffs_here : forall ev',
      offsets_requested (([Poll_get (_offset p)] ++ x) ++ Poll_sleep :: ev')
      = _offset p :: offsets_requested ev').
    { intros ev'. destruct (Hhere 0) as [_ Hx].
      rewrite !offsets_requested_app, Hx. done. }
    split; [|split].
    + destruct (Hhere n) as [-> _].
      destruct (_run_command_polling net n (S i) p) as [[r0 p''] ev']. done.
    + destruct (Hhere n) as [-> _].
      destruct (_run_command_polling net n (S i) p) as [[r0 p''] ev']. cbn [snd] in *.
      by rewrite Hoffs_here, Hoffs.
    + intros e fuel He. replace (i + S n) with (S i + n) in He by lia.
      destruct (Hstop e fuel He) as [Hend Hoffs'].
      cbn [Nat.add]. destruct (Hhere (n + S fuel)) as [-> _].
      destruct (_run_command_polling net (n + S fuel) (S i) p) as [[r0 p''] ev'].
      cbn [fst snd] in *. split; [done|]. by rewrite Hoffs_here, Hoffs'.
Qed.

Lemma polling_repeats_the_request_after_a_failure_witness :
  let net := fun (i : nat) (offset : json) =>
    match i with
    | 0 => Responds 302 (BodyRaises OtherException)
    | 1 => GetRaises ClientPayloadError
    | 2 => Responds 502 (BodyDecodes JNull)
    | _ => Responds 200 (BodyRaises InvalidURL)
    end in
  (forall k offset, k < 3 -> unanswered (net (0 + k) offset)) /\
  stops_polling (net (0 + 3) (JInt 7)) InvalidURL /\
  fst (_run_command_polling net 3 0 (mkPoller (JInt 7) [] [] []))
  = (None, mkPoller (JInt 7) [] [] []) /\
  fst (_run_command_polling net 5 0 (mkPoller (JInt 7) [] [] []))
  = (Some RaisesObserverError, mkPoller (JInt 7) [] [] []) /\
  offsets_requested (snd (_run_command_polling net 5 0 (mkPoller (JInt 7) [] [] [])))
  = [JInt 7; JInt 7; JInt 7; JInt 7].
Proof.
  intros net.
  assert (Hq : forall k offset, k < 3 -> unanswered (net (0 + k) offset)).
  { intros k offset Hk. destruct k as [|[|[|k]]]; cbn; [right; left; lia|by right| left; lia|lia]. }
  assert (Hs : stops_polling (net (0 + 3) (JInt 7)) InvalidURL).
  { split; [by right; left|by right]. }
  destruct (polling_repeats_the_request_after_a_failure net 3 0 (mkPoller (JInt 7) [] [] []) Hq)
    as (Hrun & _ & Hstop).
  destruct (Hstop InvalidURL 1 Hs) as [Hend Hoffs].
  split; [exact Hq|]. split; [exact Hs|]. split; [exact Hrun|]. split; [exact Hend|exact Hoffs].
Defined.

(** ** The tasks of the sessions *)

Section AliveRegistered.
Import PyDictFacts.
Implicit Types (st : ActivityObserver) (u n : str) (finished : list nat).

Lemma alive_registered_frame finished st st' :
  _streamers st' = _streamers st -> tasks st' = tasks st ->
  alive_registered st finished -> alive_registered st' finished.
Proof.
  intros Hr Ht H t T (HT & Hc & Hf). rewrite Ht in HT. rewrite Hr. by apply H.
Qed.

















Ltac light finished :=
  repeat first
    [ apply keeps_ret | apply keeps_raise | apply keeps_gets | apply keeps_lift
    | apply keeps_deref_user | apply keeps_deref_session
    | apply keeps_modify; intros ? ?;
      by apply (alive_registered_frame finished _ _ eq_refl eq_refl)
    | apply keeps_if
    | apply keeps_bind; [|intros ?] ].






End AliveRegistered.

Section LifeRuns.
Variable float_of_str : str -> option float.
Variable str_of_float : float -> str.
Implicit Types (st : ActivityObserver) (u n : str) (finished : list nat).




End LifeRuns.



